(** * LIST-line parsing of the ftp package (parse.go)

    A shallow embedding of [parse.go]: the five directory-line recognizers,
    the date resolver [setTime], the size setter [setSize] and the dispatch
    chain [parseListLine], together with the parts of Go's [strings],
    [strconv] and [time] packages they call.

    Conventions.
    - A Go [string] is a [string] of bytes; a Go [int] is a [Z] (the values
      met here are far from the 64-bit bounds); [uint64] is a [Z] kept below
      [2^64] by [ParseUint].
    - A run-time panic (slice or index out of range) is the outcome [Panic]
      of the [go] monad; every slice expression of the source goes through a
      checked accessor.
    - A Go result pair (pointer to Entry, error) is a pair of options. *)

From Stdlib Require Import ZArith List String Ascii Bool Lia.
Import ListNotations.

Local Open Scope string_scope.
Local Open Scope Z_scope.

(** ** Outcomes of Go code that may panic *)

Inductive go (A : Type) : Type :=
| Val (a : A)
| Panic.
Arguments Val {A} a.
Arguments Panic {A}.

Definition bind {A B : Type} (m : go A) (k : A -> go B) : go B :=
  match m with
  | Val a => k a
  | Panic => Panic
  end.

Notation "x <- m ;; k" := (bind m (fun x => k))
  (at level 61, m at next level, right associativity).

(** ** The [strings] package and Go's string primitives *)

Module Strings.

Definition len (s : string) : Z := Z.of_nat (String.length s).

Fixpoint drop (n : nat) (s : string) : string :=
  match n, s with
  | O, _ => s
  | S n', String _ s' => drop n' s'
  | S _, EmptyString => EmptyString
  end.

Fixpoint take (n : nat) (s : string) : string :=
  match n, s with
  | O, _ => EmptyString
  | S n', String c s' => String c (take n' s')
  | S _, EmptyString => EmptyString
  end.

(** [s[lo:hi]]; Go panics unless [0 <= lo <= hi <= len(s)]. *)
Definition slice (s : string) (lo hi : Z) : go string :=
  if (0 <=? lo) && (lo <=? hi) && (hi <=? len s)
  then Val (take (Z.to_nat (hi - lo)) (drop (Z.to_nat lo) s))
  else Panic.

(** [s[lo:]] *)
Definition sliceFrom (s : string) (lo : Z) : go string := slice s lo (len s).

(** [s[:hi]] *)
Definition sliceTo (s : string) (hi : Z) : go string := slice s 0 hi.

(** [s[i]]; Go panics unless [0 <= i < len(s)]. *)
Definition byteAt (s : string) (i : Z) : go ascii :=
  if (0 <=? i) && (i <? len s)
  then match String.get (Z.to_nat i) s with
       | Some c => Val c
       | None => Panic
       end
  else Panic.

Fixpoint HasPrefix (s p : string) : bool :=
  match p, s with
  | EmptyString, _ => true
  | String a p', String b s' => Ascii.eqb a b && HasPrefix s' p'
  | String _ _, EmptyString => false
  end.

(** Position of the first occurrence of [sep] at or after the head of [s],
    counted from [i]; [-1] when there is none. *)
Fixpoint indexFrom (s sep : string) (i : Z) : Z :=
  if HasPrefix s sep then i
  else match s with
       | EmptyString => -1
       | String _ s' => indexFrom s' sep (i + 1)
       end.

Definition Index (s sep : string) : Z := indexFrom s sep 0.

Definition IndexByte (s : string) (c : ascii) : Z :=
  Index s (String c EmptyString).

Definition Contains (s sub : string) : bool := 0 <=? Index s sub.

Definition HasSuffix (s suf : string) : bool :=
  (String.length suf <=? String.length s)%nat
  && String.eqb (drop (String.length s - String.length suf) s) suf.

Definition TrimPrefix (s p : string) : string :=
  if HasPrefix s p then drop (String.length p) s else s.

Fixpoint inCutset (c : ascii) (cutset : string) : bool :=
  match cutset with
  | EmptyString => false
  | String d cs => Ascii.eqb c d || inCutset c cs
  end.

Fixpoint TrimLeft (s cutset : string) : string :=
  match s with
  | EmptyString => EmptyString
  | String c s' => if inCutset c cutset then TrimLeft s' cutset else s
  end.

(** [strings.Split] for a non-empty separator: cut at each occurrence found
    by [Index], left to right.  The fuel bounds the number of cuts; every cut
    removes at least one byte. *)
Fixpoint splitFuel (fuel : nat) (s sep : string) : list string :=
  match fuel with
  | O => [s]
  | S fuel' =>
      let i := Index s sep in
      if i <? 0 then [s]
      else take (Z.to_nat i) s
             :: splitFuel fuel' (drop (Z.to_nat i + String.length sep) s) sep
  end.

Definition Split (s sep : string) : list string :=
  splitFuel (S (String.length s)) s sep.

(** [unicode.ToLower] on an ASCII byte: the letters [A-Z] are lowered, the
    other bytes are kept. *)
Definition lowerByte (c : ascii) : ascii :=
  let n := nat_of_ascii c in
  if ((65 <=? n) && (n <=? 90))%nat then ascii_of_nat (n + 32) else c.

(** [c < utf8.RuneSelf] *)
Definition isASCII (c : ascii) : bool := (nat_of_ascii c <? 128)%nat.

(** [strings.ToLower], as far as its result is ASCII.  A string of ASCII bytes
    is lowered byte by byte.  Any other string is decoded as UTF-8 and
    [unicode.ToLower] is mapped over its runes: two runes above U+007F have an
    ASCII lower-case form, U+0130 (the bytes C4 B0, capital I with a dot) has
    ['i'] and U+212A (the bytes E2 84 AA, the Kelvin sign) has ['k']; every
    other rune above U+007F has a lower-case form above U+007F, and a byte that
    starts no valid encoding is written as U+FFFD.  [Some t] is the result [t],
    all of whose bytes are ASCII; [None] stands for a result with a byte above
    0x7F, which is equal to no ASCII string. *)
Fixpoint ToLower (s : string) : option string :=
  match s with
  | EmptyString => Some EmptyString
  | String c s1 =>
      if isASCII c then option_map (String (lowerByte c)) (ToLower s1)
      else
        match s1 with
        | EmptyString => None
        | String c1 s2 =>
            if Ascii.eqb c "196" && Ascii.eqb c1 "176"
            then option_map (String "i") (ToLower s2)
            else
              match s2 with
              | EmptyString => None
              | String c2 s3 =>
                  if Ascii.eqb c "226" && Ascii.eqb c1 "132" && Ascii.eqb c2 "170"
                  then option_map (String "k") (ToLower s3)
                  else None
              end
        end
  end.

(** [key == lit] for a lower-cased key and an ASCII literal [lit]. *)
Definition keyIs (key : option string) (lit : string) : bool :=
  match key with
  | Some k => String.eqb k lit
  | None => false
  end.

End Strings.

(** ** The [strconv] package *)

Inductive error : Type :=
| errUnsupportedListLine
| errUnsupportedListDate
| errUnknownListEntryType
| NumErrSyntax          (* strconv.NumError wrapping ErrSyntax *)
| NumErrRange           (* strconv.NumError wrapping ErrRange *)
| TimeParseError.       (* time.ParseError *)

Definition error_eqb (a b : error) : bool :=
  match a, b with
  | errUnsupportedListLine, errUnsupportedListLine
  | errUnsupportedListDate, errUnsupportedListDate
  | errUnknownListEntryType, errUnknownListEntryType
  | NumErrSyntax, NumErrSyntax
  | NumErrRange, NumErrRange
  | TimeParseError, TimeParseError => true
  | _, _ => false
  end.

Module Strconv.
Import Strings.

Definition maxUint64 : Z := 2 ^ 64 - 1.

Definition byteVal (c : ascii) : Z := Z.of_nat (nat_of_ascii c).

(** [lower(c) = c | ('x' - 'X')] *)
Definition lower (c : ascii) : Z := Z.lor (byteVal c) 32.

Definition isDec (c : ascii) : bool := (48 <=? byteVal c) && (byteVal c <=? 57).

(** The digit loop of [ParseUint]: [None] is a syntax error, [Some (n, true)]
    a range error, [Some (n, false)] success.  The second component of the
    result tells whether an underscore was skipped. *)
Fixpoint parseDigits (base : Z) (base0 : bool) (s : string) (n : Z) (us : bool)
  : option (Z * bool) * bool :=
  match s with
  | EmptyString => (Some (n, false), us)
  | String c s' =>
      if Ascii.eqb c "_" && base0 then parseDigits base base0 s' n true
      else
        let d := if isDec c then Some (byteVal c - 48)
                 else if (97 <=? lower c) && (lower c <=? 122)
                      then Some (lower c - 97 + 10)
                      else None in
        match d with
        | None => (None, us)
        | Some d =>
            if base <=? d then (None, us)
            else if maxUint64 / base + 1 <=? n then (Some (maxUint64, true), us)
            else
              let n1 := n * base + d in
              if maxUint64 <? n1 then (Some (maxUint64, true), us)
              else parseDigits base base0 s' n1 us
        end
  end.

(** The scan of [underscoreOK] over the number proper; [prev] is ['0'] after
    a digit, ['_'] after an underscore and ['!'] after anything else. *)
Fixpoint underscoreScan (hex : bool) (prev : ascii) (s : string) : bool :=
  match s with
  | EmptyString => negb (Ascii.eqb prev "_")
  | String c s' =>
      if isDec c || (hex && (97 <=? lower c) && (lower c <=? 102))
      then underscoreScan hex "0" s'
      else if Ascii.eqb c "_"
           then if Ascii.eqb prev "0" then underscoreScan hex "_" s' else false
           else if Ascii.eqb prev "_" then false
                else underscoreScan hex "!" s'
  end.

Definition isBasePrefix (c : ascii) : bool :=
  (lower c =? 98) || (lower c =? 111) || (lower c =? 120).

Definition underscoreOK (s : string) : bool :=
  let s1 := match s with
            | String c s' => if Ascii.eqb c "-" || Ascii.eqb c "+" then s' else s
            | EmptyString => s
            end in
  match s1 with
  | String "0" (String c s2) =>
      if isBasePrefix c then underscoreScan (lower c =? 120) "0" s2
      else underscoreScan false "^" s1
  | _ => underscoreScan false "^" s1
  end.

(** [strconv.ParseUint(s, base, 64)] for [base] 0 or in 2..36: the value
    stored by the caller and the error.  As in Go the value is [0] on a
    syntax error and [maxUint64] on a range error. *)
Definition ParseUint (s : string) (base : Z) : Z * option error :=
  match s with
  | EmptyString => (0, Some NumErrSyntax)
  | String c0 rest =>
      let base0 := base =? 0 in
      let '(b, digits) :=
        if base0 then
          if Ascii.eqb c0 "0" then
            match rest with
            | String c1 rest' =>
                if (3 <=? len s) && (lower c1 =? 98) then (2, rest')
                else if (3 <=? len s) && (lower c1 =? 111) then (8, rest')
                else if (3 <=? len s) && (lower c1 =? 120) then (16, rest')
                else (8, rest)
            | EmptyString => (8, rest)
            end
          else (10, s)
        else (base, s) in
      match parseDigits b base0 digits 0 false with
      | (None, _) => (0, Some NumErrSyntax)
      | (Some (n, true), _) => (n, Some NumErrRange)
      | (Some (n, false), us) =>
          if us && negb (underscoreOK s) then (0, Some NumErrSyntax)
          else (n, None)
      end
  end.

(** The digit loop of [Atoi]'s fast path: [ch -= '0'; if ch > 9 {error}]. *)
Fixpoint atoiDigits (s : string) (n : Z) : option Z :=
  match s with
  | EmptyString => Some n
  | String c s' => if isDec c then atoiDigits s' (n * 10 + (byteVal c - 48)) else None
  end.

(** [strconv.Atoi] on its fast path (strings of fewer than 19 bytes, the only
    ones the package passes: two-byte slices of a date or time token). *)
Definition Atoi (s : string) : Z * option error :=
  match s with
  | EmptyString => (0, Some NumErrSyntax)
  | String c rest =>
      let signed := Ascii.eqb c "-" || Ascii.eqb c "+" in
      let digits := if signed then rest else s in
      if signed && (len digits <? 1) then (0, Some NumErrSyntax)
      else match atoiDigits digits 0 with
           | None => (0, Some NumErrSyntax)
           | Some n => (if Ascii.eqb c "-" then - n else n, None)
           end
  end.

End Strconv.

(** ** The [time] package

    A [Time] is an instant (seconds since 0001-01-01T00:00:00 UTC plus
    nanoseconds, as Go keeps it) with a location.  A location is a fixed
    offset east of UTC, in seconds; locations with daylight-saving rules are
    outside this model. *)

Module Time.
Import Strings.

Definition Location : Type := Z.
Definition UTC : Location := 0.

Record Time : Type := mkTime { sec : Z; nsec : Z; loc : Location }.

(** The zero value [time.Time{}]. *)
Definition zero : Time := mkTime 0 0 UTC.

Definition isLeap (year : Z) : bool :=
  (year mod 4 =? 0) && (negb (year mod 100 =? 0) || (year mod 400 =? 0)).

(** [daysBefore[m]]: days in a non-leap year before month [m+1]. *)
Definition daysBefore (m : Z) : Z :=
  nth (Z.to_nat m) [0; 31; 59; 90; 120; 151; 181; 212; 243; 273; 304; 334; 365] 0.

Definition daysIn (m year : Z) : Z :=
  if (m =? 2) && isLeap year then 29 else daysBefore m - daysBefore (m - 1).

(** Days from 0001-01-01 to January 1st of [year]. *)
Definition daysSinceEpoch (year : Z) : Z :=
  let y := year - 1 in 365 * y + y / 4 - y / 100 + y / 400.

(** [time.Date]: the month is normalised into 1..12 (carrying into the year);
    day, hour, minute and second overflow arithmetically, which is what Go's
    successive normalisations amount to.  [civilDays] counts the days from
    0001-01-01 to the given day. *)
Definition civilDays (year month day : Z) : Z :=
  let m0 := month - 1 in
  let y := year + m0 / 12 in
  let m := m0 mod 12 + 1 in
  daysSinceEpoch y + daysBefore (m - 1)
  + (if isLeap y && (3 <=? m) then 1 else 0) + (day - 1).

Definition Date (year month day hour min s ns : Z) (l : Location) : Time :=
  mkTime (civilDays year month day * 86400 + hour * 3600 + min * 60 + s - l) ns l.

(** Year and day-of-year of a count of days since 0001-01-01 ([absDate]). *)
Definition yearOfDays (d : Z) : Z * Z :=
  let n400 := d / 146097 in
  let d1 := d - 146097 * n400 in
  let n100 := d1 / 36524 in
  let n100 := n100 - n100 / 4 in
  let d2 := d1 - 36524 * n100 in
  let n4 := d2 / 1461 in
  let d3 := d2 - 1461 * n4 in
  let n := d3 / 365 in
  let n := n - n / 4 in
  (1 + 400 * n400 + 100 * n100 + 4 * n4 + n, d3 - 365 * n).

(** Month and day of month of a day-of-year. *)
Definition monthDay (year yday : Z) : Z * Z :=
  if isLeap year && (yday =? 31 + 29 - 1) then (2, 29)
  else
    let day := if isLeap year && (31 + 29 - 1 <? yday) then yday - 1 else yday in
    let month := day / 31 in
    let fin := daysBefore (month + 1) in
    if fin <=? day then (month + 2, day - fin + 1)
    else (month + 1, day - daysBefore month + 1).

(** Seconds since 0001-01-01T00:00:00 in the time's own location. *)
Definition wall (t : Time) : Z := sec t + loc t.

(** [t.Date()] *)
Definition DateOf (t : Time) : Z * Z * Z :=
  let '(y, yday) := yearOfDays (wall t / 86400) in
  let '(m, d) := monthDay y yday in
  (y, m, d).

(** [t.Clock()] *)
Definition ClockOf (t : Time) : Z * Z * Z :=
  let s := wall t mod 86400 in
  (s / 3600, s mod 3600 / 60, s mod 60).

Definition AddDate (t : Time) (years months days : Z) : Time :=
  let '(y, m, d) := DateOf t in
  let '(hh, mm, ss) := ClockOf t in
  Date (y + years) (m + months) (d + days) hh mm ss (nsec t) (loc t).

Definition Before (t u : Time) : bool :=
  (sec t <? sec u) || ((sec t =? sec u) && (nsec t <? nsec u)).

(** *** Layouts *)

Inductive std : Type :=
| stdNone
| stdLongMonth | stdMonth | stdNumMonth | stdZeroMonth
| stdDay | stdUnderDay | stdZeroDay
| stdHour | stdHour12 | stdZeroHour12
| stdMinute | stdZeroMinute
| stdSecond | stdZeroSecond
| stdLongYear | stdYear
| stdPM.

Definition isLowerByte (s : string) : bool :=
  match s with
  | String c _ => let n := nat_of_ascii c in ((97 <=? n) && (n <=? 122))%nat
  | EmptyString => false
  end.

(** What [nextStdChunk] finds at the head of [l]: the verb and the rest of the
    layout, or [None] when the head byte is literal text.  The verbs are those
    of the reference time's month, day, hour, minute, second, year and PM
    marker; weekday, zone and fractional-second verbs do not occur in the
    layouts of this package. *)
Definition stdAt (l : string) : option (std * string) :=
  match l with
  | String "J" _ =>
      if HasPrefix l "January" then Some (stdLongMonth, drop 7 l)
      else if HasPrefix l "Jan" && negb (isLowerByte (drop 3 l))
           then Some (stdMonth, drop 3 l) else None
  | String "0" (String c r) =>
      if Ascii.eqb c "1" then Some (stdZeroMonth, r)
      else if Ascii.eqb c "2" then Some (stdZeroDay, r)
      else if Ascii.eqb c "3" then Some (stdZeroHour12, r)
      else if Ascii.eqb c "4" then Some (stdZeroMinute, r)
      else if Ascii.eqb c "5" then Some (stdZeroSecond, r)
      else if Ascii.eqb c "6" then Some (stdYear, r)
      else None
  | String "1" r =>
      if HasPrefix r "5" then Some (stdHour, drop 1 r) else Some (stdNumMonth, r)
  | String "2" r =>
      if HasPrefix l "2006" then Some (stdLongYear, drop 4 l) else Some (stdDay, r)
  | String "_" (String "2" r) =>
      if HasPrefix r "006" then None else Some (stdUnderDay, r)
  | String "3" r => Some (stdHour12, r)
  | String "4" r => Some (stdMinute, r)
  | String "5" r => Some (stdSecond, r)
  | String "P" (String "M" r) => Some (stdPM, r)
  | _ => None
  end.

(** [nextStdChunk]: literal prefix, verb, suffix. *)
Fixpoint nextStdChunk (l : string) : string * std * string :=
  match stdAt l with
  | Some (v, suffix) => (EmptyString, v, suffix)
  | None =>
      match l with
      | EmptyString => (EmptyString, stdNone, EmptyString)
      | String c l' =>
          let '(p, v, suffix) := nextStdChunk l' in (String c p, v, suffix)
      end
  end.

Definition cutspace (s : string) : string := TrimLeft s " ".

(** [skip(value, prefix)]: a blank of the layout stands for any run of blanks
    of the value, any other byte for itself. *)
Fixpoint skip (fuel : nat) (value prefix : string) : option string :=
  match fuel with
  | O => None
  | S fuel' =>
      match prefix with
      | EmptyString => Some value
      | String " " _ =>
          match value with
          | String c _ =>
              if negb (Ascii.eqb c " ") then None
              else skip fuel' (cutspace value) (cutspace prefix)
          | EmptyString => skip fuel' (cutspace value) (cutspace prefix)
          end
      | String p prefix' =>
          match value with
          | String c value' => if Ascii.eqb c p then skip fuel' value' prefix' else None
          | EmptyString => None
          end
      end
  end.

Definition isDigit (s : string) (i : nat) : bool :=
  match String.get i s with
  | Some c => Strconv.isDec c
  | None => false
  end.

Definition digitAt (s : string) (i : nat) : Z :=
  match String.get i s with
  | Some c => Strconv.byteVal c - 48
  | None => 0
  end.

Definition getnum (s : string) (fixed : bool) : option (Z * string) :=
  if negb (isDigit s 0) then None
  else if negb (isDigit s 1)
       then if fixed then None else Some (digitAt s 0, drop 1 s)
       else Some (digitAt s 0 * 10 + digitAt s 1, drop 2 s).

(** The package-private [atoi]: an optional sign, then digits only. *)
Definition atoi (s : string) : option Z :=
  let '(neg, digits) :=
    match s with
    | String c s' =>
        if Ascii.eqb c "-" then (true, s')
        else if Ascii.eqb c "+" then (false, s') else (false, s)
    | EmptyString => (false, s)
    end in
  match Strconv.atoiDigits digits 0 with
  | Some x => Some (if neg then - x else x)
  | None => None
  end.

Definition shortMonthNames : list string :=
  ["Jan"; "Feb"; "Mar"; "Apr"; "May"; "Jun"; "Jul"; "Aug"; "Sep"; "Oct"; "Nov"; "Dec"].

Definition longMonthNames : list string :=
  ["January"; "February"; "March"; "April"; "May"; "June"; "July"; "August";
   "September"; "October"; "November"; "December"].

(** [match(s1, s2)]: equal up to the case of ASCII letters. *)
Fixpoint matchFold (s1 s2 : string) : bool :=
  match s1, s2 with
  | EmptyString, EmptyString => true
  | String c1 r1, String c2 r2 =>
      (Ascii.eqb c1 c2
       || ((Strconv.lower c1 =? Strconv.lower c2)
           && (97 <=? Strconv.lower c1) && (Strconv.lower c1 <=? 122)))
      && matchFold r1 r2
  | _, _ => false
  end.

Fixpoint lookup (tab : list string) (val : string) (i : Z) : option (Z * string) :=
  match tab with
  | [] => None
  | v :: tab' =>
      if (String.length v <=? String.length val)%nat
         && matchFold (take (String.length v) val) v
      then Some (i, drop (String.length v) val)
      else lookup tab' val (i + 1)
  end.

(** *** Parsing *)

(** The fields [parse] fills in while it walks the layout. *)
Record fields : Type := mkFields {
  fyear : Z; fmonth : Z; fday : Z; fhour : Z; fmin : Z; fsec : Z; fnsec : Z;
  pmSet : bool; amSet : bool }.

Definition fields0 : fields := mkFields 0 (-1) (-1) 0 0 0 0 false false.

Definition commaOrPeriod (s : string) : bool :=
  match s with
  | String c _ => Ascii.eqb c "." || Ascii.eqb c ","
  | EmptyString => false
  end.

Fixpoint digitRun (s : string) : nat :=
  match s with
  | String c s' => if Strconv.isDec c then S (digitRun s') else O
  | EmptyString => O
  end.

Fixpoint scale10 (n : nat) (x : Z) : Z :=
  match n with
  | O => x
  | S n' => scale10 n' (x * 10)
  end.

(** [parseNanoseconds(value, nbytes)] where [value[1:nbytes]] are digits:
    at most nine of them count. *)
Definition parseNanoseconds (value : string) (nbytes : nat) : option Z :=
  let nb := Nat.min nbytes 10 in
  match atoi (take (nb - 1) (drop 1 value)) with
  | Some ns => if ns <? 0 then None else Some (scale10 (10 - nb) ns)
  | None => None
  end.

(** One verb of the layout applied to the head of the value; [None] is a
    [ParseError] (bad syntax or a field out of range). *)
Definition parseStd (v : std) (value : string) (f : fields) : option (fields * string) :=
  match v with
  | stdNone => None
  | stdYear =>
      if len value <? 2 then None
      else match atoi (take 2 value) with
           | Some y =>
               let y := if 69 <=? y then y + 1900 else y + 2000 in
               Some (mkFields y (fmonth f) (fday f) (fhour f) (fmin f) (fsec f) (fnsec f)
                              (pmSet f) (amSet f), drop 2 value)
           | None => None
           end
  | stdLongYear =>
      if (len value <? 4) || negb (isDigit value 0) then None
      else match atoi (take 4 value) with
           | Some y =>
               Some (mkFields y (fmonth f) (fday f) (fhour f) (fmin f) (fsec f) (fnsec f)
                              (pmSet f) (amSet f), drop 4 value)
           | None => None
           end
  | stdMonth | stdLongMonth =>
      match lookup (match v with stdMonth => shortMonthNames | _ => longMonthNames end)
                   value 0 with
      | Some (m, value') =>
          Some (mkFields (fyear f) (m + 1) (fday f) (fhour f) (fmin f) (fsec f) (fnsec f)
                         (pmSet f) (amSet f), value')
      | None => None
      end
  | stdNumMonth | stdZeroMonth =>
      match getnum value (match v with stdZeroMonth => true | _ => false end) with
      | Some (m, value') =>
          if (m <=? 0) || (12 <? m) then None
          else Some (mkFields (fyear f) m (fday f) (fhour f) (fmin f) (fsec f) (fnsec f)
                              (pmSet f) (amSet f), value')
      | None => None
      end
  | stdDay | stdUnderDay | stdZeroDay =>
      let value :=
        match v, value with
        | stdUnderDay, String " " value' => value'
        | _, _ => value
        end in
      match getnum value (match v with stdZeroDay => true | _ => false end) with
      | Some (d, value') =>
          Some (mkFields (fyear f) (fmonth f) d (fhour f) (fmin f) (fsec f) (fnsec f)
                         (pmSet f) (amSet f), value')
      | None => None
      end
  | stdHour =>
      match getnum value false with
      | Some (h, value') =>
          if (h <? 0) || (24 <=? h) then None
          else Some (mkFields (fyear f) (fmonth f) (fday f) h (fmin f) (fsec f) (fnsec f)
                              (pmSet f) (amSet f), value')
      | None => None
      end
  | stdHour12 | stdZeroHour12 =>
      match getnum value (match v with stdZeroHour12 => true | _ => false end) with
      | Some (h, value') =>
          if (h <? 0) || (12 <? h) then None
          else Some (mkFields (fyear f) (fmonth f) (fday f) h (fmin f) (fsec f) (fnsec f)
                              (pmSet f) (amSet f), value')
      | None => None
      end
  | stdMinute | stdZeroMinute =>
      match getnum value (match v with stdZeroMinute => true | _ => false end) with
      | Some (m, value') =>
          if (m <? 0) || (60 <=? m) then None
          else Some (mkFields (fyear f) (fmonth f) (fday f) (fhour f) m (fsec f) (fnsec f)
                              (pmSet f) (amSet f), value')
      | None => None
      end
  | stdSecond | stdZeroSecond =>
      match getnum value (match v with stdZeroSecond => true | _ => false end) with
      | Some (s, value') =>
          if (s <? 0) || (60 <=? s) then None
          else
            (* a fractional second of the value that the layout does not ask for *)
            if (2 <=? len value') && commaOrPeriod value' && isDigit value' 1
            then
              let n := S (digitRun (drop 1 value')) in
              match parseNanoseconds value' n with
              | Some ns =>
                  Some (mkFields (fyear f) (fmonth f) (fday f) (fhour f) (fmin f) s ns
                                 (pmSet f) (amSet f), drop n value')
              | None => None
              end
            else Some (mkFields (fyear f) (fmonth f) (fday f) (fhour f) (fmin f) s (fnsec f)
                                (pmSet f) (amSet f), value')
      | None => None
      end
  | stdPM =>
      if len value <? 2 then None
      else
        let p := take 2 value in
        if String.eqb p "PM"
        then Some (mkFields (fyear f) (fmonth f) (fday f) (fhour f) (fmin f) (fsec f) (fnsec f)
                            true (amSet f), drop 2 value)
        else if String.eqb p "AM"
        then Some (mkFields (fyear f) (fmonth f) (fday f) (fhour f) (fmin f) (fsec f) (fnsec f)
                            (pmSet f) true, drop 2 value)
        else None
  end.

(** The loop of [parse]: one chunk of the layout per round.  The layout
    shrinks by at least one byte per round, so its length plus one is enough
    fuel. *)
Fixpoint parseLoop (fuel : nat) (layout value : string) (f : fields) : option fields :=
  match fuel with
  | O => None
  | S fuel' =>
      let '(prefix, v, suffix) := nextStdChunk layout in
      match skip (S (String.length prefix)) value prefix with
      | None => None
      | Some value =>
          match v with
          | stdNone => if len value =? 0 then Some f else None
          | _ =>
              match parseStd v value f with
              | Some (f', value') => parseLoop fuel' suffix value' f'
              | None => None
              end
          end
      end
  end.

(** [time.ParseInLocation(layout, value, loc)] for layouts without zone
    verbs: the time (the zero time on failure) and the error. *)
Definition ParseInLocation (layout value : string) (l : Location) : Time * option error :=
  match parseLoop (S (String.length layout)) layout value fields0 with
  | None => (zero, Some TimeParseError)
  | Some f =>
      let hour := if pmSet f && (fhour f <? 12) then fhour f + 12
                  else if amSet f && (fhour f =? 12) then 0
                  else fhour f in
      let month := if fmonth f <? 0 then 1 else fmonth f in
      let day := if fday f <? 0 then 1 else fday f in
      if (day <? 1) || (daysIn month (fyear f) <? day)
      then (zero, Some TimeParseError)
      else (Date (fyear f) month day hour (fmin f) (fsec f) (fnsec f) l, None)
  end.

(** The decimal digit [k] as a byte. *)
Definition digitChar (k : Z) : ascii := ascii_of_nat (Z.to_nat (48 + k)).

(** The digits of [n >= 0] in front of [acc], last digit first as [fmt]
    writes them; an [int] has at most 19 digits. *)
Fixpoint utoa (fuel : nat) (n : Z) (acc : string) : string :=
  match fuel with
  | O => acc
  | S fuel' =>
      let acc' := String (digitChar (n mod 10)) acc in
      if n <? 10 then acc' else utoa fuel' (n / 10) acc'
  end.

(** [fmt.Sprintf("%d", n)] *)
Definition itoa (n : Z) : string :=
  if n <? 0 then String "-" (utoa 20 (- n) "") else utoa 20 n "".

End Time.

(** ** The record model and the token scanner *)

(** Modelled from the spec: the declarations of [EntryType] and [Entry] are
    in a file of the package that is not at hand (section 3, "Data model").
    The variants are [File], [Folder] and [SymbolicLink]; the zero value of a
    record is a file of size 0 with empty name and target and the zero time. *)
Inductive EntryType : Type :=
| EntryTypeFile
| EntryTypeFolder
| EntryTypeLink.

Record Entry : Type := mkEntry {
  Name : string;
  Target : string;
  Type_ : EntryType;
  Size : Z;
  Time_ : Time.Time }.

Definition Entry0 : Entry := mkEntry "" "" EntryTypeFile 0 Time.zero.

Definition withName (e : Entry) (n : string) : Entry :=
  mkEntry n (Target e) (Type_ e) (Size e) (Time_ e).
Definition withTarget (e : Entry) (t : string) : Entry :=
  mkEntry (Name e) t (Type_ e) (Size e) (Time_ e).
Definition withType (e : Entry) (t : EntryType) : Entry :=
  mkEntry (Name e) (Target e) t (Size e) (Time_ e).
Definition withSize (e : Entry) (n : Z) : Entry :=
  mkEntry (Name e) (Target e) (Type_ e) n (Time_ e).
Definition withTime (e : Entry) (t : Time.Time) : Entry :=
  mkEntry (Name e) (Target e) (Type_ e) (Size e) t.

Module Scanner.
Import Strings.

(** Modelled from the spec: the token scanner ([newScanner], [Next],
    [NextFields], [Remaining]) is defined in a file of the package that is not
    at hand (section 4.1, "Token Scanner").  The state is the text from the
    cursor on.  [Next] skips the blanks before the token, returns the token
    and moves past the one blank that ends it: the listing table of the
    package's tests expects the name [" foo bar "] for a line that ends in
    ["2009  foo bar "], so a second blank after a token belongs to the
    remaining text. *)
Definition scanner : Type := string.

Definition newScanner (str : string) : scanner := str.

(** The token at the head of [s] and the text after the blank that ends it. *)
Fixpoint token (s : string) : string * string :=
  match s with
  | EmptyString => (EmptyString, EmptyString)
  | String c s' =>
      if Ascii.eqb c " " then (EmptyString, s')
      else let '(t, r) := token s' in (String c t, r)
  end.

Definition Next (s : scanner) : string * scanner := token (TrimLeft s " ").

Fixpoint NextFields (count : nat) (s : scanner) : list string * scanner :=
  match count with
  | O => ([], s)
  | S count' =>
      let '(field, s') := Next s in
      if String.eqb field "" then ([], s')
      else let '(fields, s'') := NextFields count' s' in (field :: fields, s'')
  end.

Definition Remaining (s : scanner) : string := s.

End Scanner.

(** ** parse.go *)

Import Strings Scanner.

(** A Go result [(e, err)], or a panic. *)
Definition result : Type := go (option Entry * option error).

Definition ret (e : Entry) : result := Val (Some e, None).
Definition fail (err : error) : result := Val (None, Some err).

Definition parseFunc : Type := string -> Time.Time -> Time.Location -> result.

Definition dirTimeFormats : list string :=
  ["01-02-06  03:04PM";
   "2006-01-02  15:04";
   "01-02-2006  03:04PM";
   "01-02-2006  15:04"].

(** [fields[i]] and [fields[lo:hi]] on a slice of strings. *)
Definition elem (fields : list string) (i : nat) : go string :=
  match nth_error fields i with
  | Some f => Val f
  | None => Panic
  end.

Definition subslice (fields : list string) (lo hi : nat) : go (list string) :=
  if ((lo <=? hi) && (hi <=? List.length fields))%nat
  then Val (firstn (hi - lo) (skipn lo fields))
  else Panic.

Definition setSize (e : Entry) (str : string) : Entry * option error :=
  let '(n, err) := Strconv.ParseUint str 0 in (withSize e n, err).

Definition setTime (e : Entry) (fields : list string) (now : Time.Time)
    (loc : Time.Location) : go (Entry * option error) :=
  f2 <- elem fields 2 ;;
  if Contains f2 ":" then
    let '(thisYear, _, _) := Time.DateOf now in
    f1 <- elem fields 1 ;;
    f0 <- elem fields 0 ;;
    let timeStr := f1 ++ " " ++ f0 ++ " " ++ Time.itoa thisYear ++ " " ++ f2 in
    let '(t, err) := Time.ParseInLocation "_2 Jan 2006 15:04" timeStr loc in
    let t := if negb (Time.Before t (Time.AddDate now 0 6 0))
             then Time.AddDate t (-1) 0 0 else t in
    Val (withTime e t, err)
  else
    if negb (len f2 =? 4) then Val (e, Some errUnsupportedListDate)
    else
      f1 <- elem fields 1 ;;
      f0 <- elem fields 0 ;;
      let timeStr := f1 ++ " " ++ f0 ++ " " ++ f2 ++ " 00:00" in
      let '(t, err) := Time.ParseInLocation "_2 Jan 2006 15:04" timeStr loc in
      Val (withTime e t, err).

(** The tail shared by the branches of the recognizers:
    [if err := e.setTime(...); err != nil { return nil, err }; return e, nil]. *)
Definition finishWithTime (e : Entry) (dateFields : list string) (now : Time.Time)
    (loc : Time.Location) : result :=
  r <- setTime e dateFields now loc ;;
  match r with
  | (_, Some err) => fail err
  | (e', None) => ret e'
  end.

(** The body of the loop over the facts of an RFC 3659 line. *)
Fixpoint rfcFacts (facts : list string) (loc : Time.Location) (e : Entry) : result :=
  match facts with
  | [] => ret e
  | field :: facts' =>
      let i := Index field "=" in
      if i <? 1 then fail errUnsupportedListLine
      else
        k <- sliceTo field i ;;
        let key := ToLower k in
        value <- sliceFrom field (i + 1) ;;
        if keyIs key "modify" then
          let '(t, err) := Time.ParseInLocation "20060102150405" value loc in
          match err with
          | Some err => fail err
          | None => rfcFacts facts' loc (withTime e t)
          end
        else if keyIs key "type" then
          if String.eqb value "dir" || String.eqb value "cdir" || String.eqb value "pdir"
          then rfcFacts facts' loc (withType e EntryTypeFolder)
          else if String.eqb value "file"
          then rfcFacts facts' loc (withType e EntryTypeFile)
          else rfcFacts facts' loc e
        else if keyIs key "size" then
          match setSize e value with
          | (_, Some err) => fail err
          | (e', None) => rfcFacts facts' loc e'
          end
        else rfcFacts facts' loc e
  end.

Definition parseNextRFC3659ListLine (line : string) (loc : Time.Location) (e : Entry)
  : result :=
  let iSemicolon := Index line ";" in
  let iWhitespace := Index line " " in
  if (iSemicolon <? 0) || (iWhitespace <? iSemicolon) then fail errUnsupportedListLine
  else
    name <- sliceFrom line (iWhitespace + 1) ;;
    if negb (String.eqb (Name e) "") && negb (String.eqb (Name e) name)
    then fail errUnsupportedListLine
    else
      let e := if String.eqb (Name e) "" then withName e name else e in
      facts <- sliceTo line (iWhitespace - 1) ;;
      rfcFacts (Split facts ";") loc e.

Definition parseRFC3659ListLine : parseFunc :=
  fun line _ loc => parseNextRFC3659ListLine line loc Entry0.

(** The first field has a length of exactly 10 bytes, or of 10 bytes with an
    additional ['+'] for ACLs:
    [i == 10 || (i == 11 && line[10] == '+')]. *)
Definition lsShape (line : string) : go bool :=
  let i := IndexByte line " " in
  if i =? 10 then Val true
  else if i =? 11 then c <- byteAt line 10 ;; Val (Ascii.eqb c "+")
  else Val false.

(** [fields[1] == "folder" && fields[2] == "0"] *)
Definition lsFolderBranch (fields : list string) (scanner : scanner)
    (now : Time.Time) (loc : Time.Location) : result :=
  let e := mkEntry (Remaining scanner) "" EntryTypeFolder 0 Time.zero in
  date <- subslice fields 3 6 ;;
  finishWithTime e date now loc.

(** [fields[1] == "0"] *)
Definition lsZeroLinkBranch (fields : list string) (scanner : scanner)
    (now : Time.Time) (loc : Time.Location) : result :=
  let '(f, scanner) := Next scanner in
  let fields := (fields ++ [f])%list in
  let e := mkEntry (Remaining scanner) "" EntryTypeFile 0 Time.zero in
  f2 <- elem fields 2 ;;
  match setSize e f2 with
  | (_, Some _) => fail errUnsupportedListLine
  | (e, None) =>
      date <- subslice fields 4 7 ;;
      finishWithTime e date now loc
  end.

(** Split link name and target:
    [if i := strings.Index(e.Name, " -> "); i > 0 { ... }]. *)
Definition splitLink (e : Entry) : go Entry :=
  let i := Index (Name e) " -> " in
  if 0 <? i then
    target <- sliceFrom (Name e) (i + 4) ;;
    name <- sliceTo (Name e) i ;;
    Val (withName (withTarget e target) name)
  else Val e.

(** The rest of [parseLsListLine], from "Read two more fields" on. *)
Definition lsGenericBranch (fields : list string) (scanner : scanner)
    (now : Time.Time) (loc : Time.Location) : result :=
  let '(more, scanner) := NextFields 2 scanner in
  let fields := (fields ++ more)%list in
  if (List.length fields <? 8)%nat then fail errUnsupportedListLine
  else
    let e := mkEntry (Remaining scanner) "" EntryTypeFile 0 Time.zero in
    let finish := fun e : Entry =>
      date <- subslice fields 5 8 ;; finishWithTime e date now loc in
    f0 <- elem fields 0 ;;
    c <- byteAt f0 0 ;;
    if Ascii.eqb c "-" then
      f4 <- elem fields 4 ;;
      match setSize (withType e EntryTypeFile) f4 with
      | (_, Some err) => fail err
      | (e, None) => finish e
      end
    else if Ascii.eqb c "d" then finish (withType e EntryTypeFolder)
    else if Ascii.eqb c "l" then
      e <- splitLink (withType e EntryTypeLink) ;;
      finish e
    else fail errUnknownListEntryType.

Definition parseLsListLine : parseFunc := fun line now loc =>
  shape <- lsShape line ;;
  if negb shape then fail errUnsupportedListLine
  else
    let '(fields, scanner) := NextFields 6 (newScanner line) in
    if (List.length fields <? 6)%nat then fail errUnsupportedListLine
    else
      f1 <- elem fields 1 ;;
      f2 <- elem fields 2 ;;
      if String.eqb f1 "folder" && String.eqb f2 "0"
      then lsFolderBranch fields scanner now loc
      else if String.eqb f1 "0"
      then lsZeroLinkBranch fields scanner now loc
      else lsGenericBranch fields scanner now loc.

(** The loop of [parseDirListLine] over the time formats: the entry, the
    value of [err] and the rest of the line when the loop is left. *)
Fixpoint dirTimeLoop (formats : list string) (line : string) (loc : Time.Location)
    (e : Entry) (err : option error) : go (Entry * option error * string) :=
  match formats with
  | [] => Val (e, err, line)
  | format :: formats' =>
      if len format <? len line then
        prefix <- sliceTo line (len format) ;;
        let '(t, err) := Time.ParseInLocation format prefix loc in
        let e := withTime e t in
        match err with
        | None => rest <- sliceFrom line (len format) ;; Val (e, err, rest)
        | Some _ => dirTimeLoop formats' line loc e err
        end
      else dirTimeLoop formats' line loc e err
  end.

Definition parseDirListLine : parseFunc := fun line now loc =>
  (* Try various time formats that DIR might use, and stop when one works. *)
  r <- dirTimeLoop dirTimeFormats line loc Entry0 None ;;
  let '(e, err, line) := r in
  match err with
  | Some _ =>
      (* None of the time formats worked. *)
      fail errUnsupportedListLine
  | None =>
      let line := TrimLeft line " " in
      if HasPrefix line "<DIR>" then
        let e := withType e EntryTypeFolder in
        let line := TrimPrefix line "<DIR>" in
        ret (withName e (TrimLeft line " "))
      else
        let space := Index line " " in
        if space =? -1 then fail errUnsupportedListLine
        else
          tok <- sliceTo line space ;;
          let '(n, err) := Strconv.ParseUint tok 10 in
          let e := withSize e n in
          match err with
          | Some _ => fail errUnsupportedListLine
          | None =>
              let e := withType e EntryTypeFile in
              line <- sliceFrom line space ;;
              ret (withName e (TrimLeft line " "))
          end
  end.

Definition parseHostedFTPLine : parseFunc := fun line now loc =>
  (* Has the first field a length of 10 bytes? *)
  if negb (IndexByte line " " =? 10) then fail errUnsupportedListLine
  else
    let '(fields, scanner) := NextFields 2 (newScanner line) in
    if (List.length fields <? 2)%nat then fail errUnsupportedListLine
    else
      f1 <- elem fields 1 ;;
      if negb (String.eqb f1 "0") then fail errUnsupportedListLine
      else
        (* Set link count to 1 and attempt to parse as Unix. *)
        f0 <- elem fields 0 ;;
        parseLsListLine (f0 ++ " 1 " ++ Remaining scanner) now loc.

(** [x, err := strconv.Atoi(s[lo:hi]); if err != nil { return nil, err }]
    followed by [k x]. *)
Definition atoiField (s : string) (lo hi : Z) (k : Z -> result) : result :=
  p <- slice s lo hi ;;
  match Strconv.Atoi p with
  | (_, Some err) => fail err
  | (x, None) => k x
  end.

Definition parseIbmListLine : parseFunc := fun line now loc =>
  (* The format appears to have fixed columns *)
  let scanner := newScanner line in
  let '(owner, scanner) := Next scanner in
  if String.eqb owner "" then fail errUnsupportedListLine else
  let '(sizeStr, scanner) := Next scanner in
  if String.eqb sizeStr "" then fail errUnsupportedListLine else
  let '(dateStr, scanner) := Next scanner in
  if String.eqb dateStr "" || negb (len dateStr =? 8) then fail errUnsupportedListLine else
  let '(timeStr, scanner) := Next scanner in
  if String.eqb timeStr "" || negb (len timeStr =? 8) then fail errUnsupportedListLine else
  let '(fileType, scanner) := Next scanner in
  if String.eqb fileType "" then fail errUnsupportedListLine else
  let path := TrimLeft (Remaining scanner) " " in
  if String.eqb path "" then fail errUnsupportedListLine else
  match Strconv.ParseUint sizeStr 10 with
  | (_, Some err) => fail err
  | (size, None) =>
      atoiField dateStr 0 2 (fun day =>
      atoiField dateStr 3 5 (fun month =>
      atoiField dateStr 6 8 (fun year =>
      let year := 2000 + year in
      atoiField timeStr 0 2 (fun hour =>
      atoiField timeStr 3 5 (fun min =>
      atoiField timeStr 6 8 (fun sec =>
      let timestamp := Time.Date year month day hour min sec 0 loc in
      let entryType := if String.eqb fileType "*DIR" then EntryTypeFolder
                       else EntryTypeFile in
      let name := path in
      match entryType with
      | EntryTypeFolder =>
          if HasSuffix name "/" then
            (* Remove trailing slash for directory names *)
            name <- sliceTo name (len name - 1) ;;
            ret (mkEntry name "" entryType size timestamp)
          else ret (mkEntry name "" entryType size timestamp)
      | _ => ret (mkEntry name "" entryType size timestamp)
      end))))))
  end.

Definition listLineParsers : list parseFunc :=
  [parseRFC3659ListLine;
   parseLsListLine;
   parseDirListLine;
   parseHostedFTPLine;
   parseIbmListLine].

Definition isUnsupported (err : option error) : bool :=
  match err with
  | Some errUnsupportedListLine => true
  | _ => false
  end.

(** The loop of [parseListLine] over a list of recognizers. *)
Fixpoint tryParsers (parsers : list parseFunc) (line : string) (now : Time.Time)
    (loc : Time.Location) : result :=
  match parsers with
  | [] => fail errUnsupportedListLine
  | f :: parsers' =>
      r <- f line now loc ;;
      let '(e, err) := r in
      if negb (isUnsupported err) then Val (e, err)
      else tryParsers parsers' line now loc
  end.

Definition parseListLine : parseFunc := tryParsers listLineParsers.

(** The reference time of the package's tests. *)
Definition testNow : Time.Time := Time.Date 2017 3 10 23 0 0 0 Time.UTC.

(** * Vocabulary of the properties *)

(** The results the listing table of the package's tests expects, in UTC. *)
Definition fileAt (name : string) (size y m d hh mm ss : Z) : result :=
  ret (mkEntry name "" EntryTypeFile size (Time.Date y m d hh mm ss 0 Time.UTC)).
Definition folderAt (name : string) (y m d hh mm ss : Z) : result :=
  ret (mkEntry name "" EntryTypeFolder 0 (Time.Date y m d hh mm ss 0 Time.UTC)).
Definition linkAt (name target : string) (y m d hh mm ss : Z) : result :=
  ret (mkEntry name target EntryTypeLink 0 (Time.Date y m d hh mm ss 0 Time.UTC)).

Definition parseTest (line : string) : result := parseListLine line testNow Time.UTC.

(** The first occurrence as a natural number. *)
Fixpoint indexNat (s sep : string) : option nat :=
  if HasPrefix s sep then Some O
  else match s with
       | EmptyString => None
       | String _ s' => option_map S (indexNat s' sep)
       end.

(** A recognizer declines a line: its error is the shared sentinel. *)
Definition declines (f : parseFunc) (line : string) (now : Time.Time)
    (loc : Time.Location) : Prop :=
  exists e, f line now loc = Val (e, Some errUnsupportedListLine).

(** The vendor fixed-column line of the specification. *)
Definition ibmLine : string := "OWNER 12288 13/05/25 13:26:12 *DIR .deleted/".

(** The day of the year of a valid date. *)
Definition yearDay (y m d : Z) : Z :=
  Time.daysBefore (m - 1) + (if Time.isLeap y && (3 <=? m) then 1 else 0) + (d - 1).

(** The fields [parse] has filled in are in range. *)
Definition fieldsOK (f : Time.fields) : Prop :=
  (Time.fmonth f = -1 \/ 1 <= Time.fmonth f <= 12)
  /\ 0 <= Time.fhour f < 24 /\ 0 <= Time.fmin f < 60 /\ 0 <= Time.fsec f < 60.

(** The text handed to the parser: day, month, the year of [now], clock. *)
Definition composed (mon day clock : string) (now : Time.Time) : string :=
  day ++ " " ++ mon ++ " " ++ Time.itoa (fst (fst (Time.DateOf now))) ++ " " ++ clock.

(** The tokens of a month, a day of the month and a clock time as [ls]
    prints them. *)
Definition monthToken (m : Z) : string := nth (Z.to_nat (m - 1)) Time.shortMonthNames "".
Definition pad2 (n : Z) : string := if n <? 10 then "0" ++ Time.itoa n else Time.itoa n.
Definition clockToken (hh mm : Z) : string := pad2 hh ++ ":" ++ pad2 mm.

(** The numbers [lo, lo+1, ..., lo+n-1]. *)
Definition zrange (lo : Z) (n : nat) : list Z := map (fun k => lo + Z.of_nat k) (seq 0 n).

(** The four decimal digits of a year between 1000 and 9999. *)
Definition fourDigits (y : Z) : string :=
  String (Time.digitChar (y / 1000))
    (String (Time.digitChar (y / 100 mod 10))
       (String (Time.digitChar (y / 10 mod 10))
          (String (Time.digitChar (y mod 10)) ""))).

(** The fields [parse] is filling in, with one of them replaced. *)
Definition setYear (f : Time.fields) (y : Z) : Time.fields :=
  Time.mkFields y (Time.fmonth f) (Time.fday f) (Time.fhour f) (Time.fmin f) (Time.fsec f)
                (Time.fnsec f) (Time.pmSet f) (Time.amSet f).

Definition setMonth (f : Time.fields) (m : Z) : Time.fields :=
  Time.mkFields (Time.fyear f) m (Time.fday f) (Time.fhour f) (Time.fmin f) (Time.fsec f)
                (Time.fnsec f) (Time.pmSet f) (Time.amSet f).
Definition setDay (f : Time.fields) (d : Z) : Time.fields :=
  Time.mkFields (Time.fyear f) (Time.fmonth f) d (Time.fhour f) (Time.fmin f) (Time.fsec f)
                (Time.fnsec f) (Time.pmSet f) (Time.amSet f).
Definition setHour (f : Time.fields) (h : Z) : Time.fields :=
  Time.mkFields (Time.fyear f) (Time.fmonth f) (Time.fday f) h (Time.fmin f) (Time.fsec f)
                (Time.fnsec f) (Time.pmSet f) (Time.amSet f).
Definition setMin (f : Time.fields) (m : Z) : Time.fields :=
  Time.mkFields (Time.fyear f) (Time.fmonth f) (Time.fday f) (Time.fhour f) m (Time.fsec f)
                (Time.fnsec f) (Time.pmSet f) (Time.amSet f).

(** One round of [parseLoop]: skip the literal prefix, then read the verb. *)
Definition chunk (prefix : string) (v : Time.std) (value : string) (f : Time.fields)
  : option (Time.fields * string) :=
  match Time.skip (S (String.length prefix)) value prefix with
  | Some value1 => Time.parseStd v value1 f
  | None => None
  end.

(** The entry the generic branch of the Unix-ls recognizer starts from, and
    its last step. *)
Definition lsEntry (rest : scanner) : Entry :=
  mkEntry (Remaining rest) "" EntryTypeFile 0 Time.zero.
Definition lsFinish (now : Time.Time) (loc : Time.Location) (f5 f6 f7 : string)
    (e : Entry) : result :=
  finishWithTime e [f5; f6; f7] now loc.

(** Lines of the package's tests, and variants of them. *)
Definition lineZ : string :=
  "Zrwxrwxrwx   1 root     other          7 Jan 25 00:17 bin -> usr/bin".

Definition lineBadSize : string := "-rw-r--r-- 1 owner group 12x Dec 02 2009 name".


(** The text left after the eight fields of a Unix-style line. *)
Definition lsRemainder (line : string) : string :=
  Remaining (snd (NextFields 8 (newScanner line))).

Definition lineLink : string :=
  "lrwxrwxrwx   1 root     other          7 Jan 25 00:17 bin -> usr/bin".

(** [err == nil] *)
Definition isNone {A : Type} (o : option A) : bool :=
  match o with
  | None => true
  | Some _ => false
  end.

(** A fact the loop of the recognizer passes over without leaving: it has
    an ['='] after its first byte and, when the lower-case form of its key is
    [modify] or [size], a value that parses. *)
Definition factOK (loc : Time.Location) (field : string) : bool :=
  let i := Index field "=" in
  (1 <=? i)
  && let key := ToLower (take (Z.to_nat i) field) in
     let value := drop (Z.to_nat (i + 1)) field in
     if keyIs key "modify"
     then isNone (snd (Time.ParseInLocation "20060102150405" value loc))
     else if keyIs key "size" then isNone (snd (Strconv.ParseUint value 0))
          else true.

Definition lineInvalidFact : string := "modify=20150806235817;invalid;UNIX.owner=0; movies".

(** The computation returns: it does not panic. *)
Definition returns {A : Type} (m : go A) : Prop := exists a, m = Val a.

(** A result pair holds a record or an error, not both and not neither. *)
Definition wellFormed (r : result) : Prop :=
  exists p, r = Val p /\ (fst p = None <-> snd p <> None).

(** No time format of [dirTimeFormats] parses a prefix of [line]. *)
Definition noDirTime (line : string) : Prop :=
  Forall (fun format =>
            forall n, snd (Time.ParseInLocation format (take n line) Time.UTC) <> None)
         dirTimeFormats.

(** ** Vocabulary of the further properties *)

(** A date or a time of day as the vendor prints it: three two-digit numbers
    with a separator byte after the first and after the second. *)
Definition ibmToken (a : Z) (s1 : ascii) (b : Z) (s2 : ascii) (c : Z) : string :=
  pad2 a ++ String s1 (pad2 b ++ String s2 (pad2 c)).

(** A run of [n] blanks. *)
Fixpoint blanks (n : nat) : string :=
  match n with
  | O => ""
  | S n' => String " " (blanks n')
  end.

(** The fields the facts of a line set. *)
Record rfcUpdate : Type := mkUpdate {
  uTime : option Time.Time;
  uType : option EntryType;
  uSize : option Z }.

Definition applyUpdate (u : rfcUpdate) (e : Entry) : Entry :=
  mkEntry (Name e) (Target e)
          (match uType u with Some t => t | None => Type_ e end)
          (match uSize u with Some n => n | None => Size e end)
          (match uTime u with Some t => t | None => Time_ e end).

(** The values an update can hold: a file or a folder, a 64-bit size, a time
    in the caller's location. *)
Definition updateOK (loc : Time.Location) (u : rfcUpdate) : Prop :=
  uType u <> Some EntryTypeLink
  /\ (forall n, uSize u = Some n -> 0 <= n <= Strconv.maxUint64)
  /\ (forall t, uTime u = Some t -> Time.loc t = loc).

(** Tokens, each after a run of blanks and followed by one blank, in front
    of the remaining text. *)
Fixpoint joinFields (ws : list (nat * string)) (rest : string) : string :=
  match ws with
  | [] => rest
  | (k, w) :: ws' => blanks k ++ w ++ String " " (joinFields ws' rest)
  end.

(** The first field of a Unix-style line: ten bytes, or eleven that end in
    ['+']. *)
Definition lsPerms (f0 : string) : Prop :=
  Contains f0 " " = false
  /\ (len f0 = 10 \/ (len f0 = 11 /\ byteAt f0 10 = Val "+"%char)).

(** The bytes C4 B0: the UTF-8 encoding of U+0130, capital I with a dot. *)
Definition capitalIDot : string := String "196" (String "176" "").

(** The fourteen digits of a [modify] fact. *)
Definition rfcStamp (y m d hh mi ss : Z) : string :=
  fourDigits y ++ pad2 m ++ pad2 d ++ pad2 hh ++ pad2 mi ++ pad2 ss.

(** The date and the time of day as [DIR] prints them with a two-digit year
    and a twelve-hour clock. *)
Definition dosDate (mo d yy : Z) : string := pad2 mo ++ "-" ++ pad2 d ++ "-" ++ pad2 yy.
Definition dosClock (h mi : Z) (pm : bool) : string :=
  pad2 h ++ ":" ++ pad2 mi ++ (if pm then "PM" else "AM").

(** The year of a two-digit year and the hour of a twelve-hour clock, as
    [time.Parse] reads them. *)
Definition dosYear (yy : Z) : Z := if 69 <=? yy then yy + 1900 else yy + 2000.
Definition dosHour (h : Z) (pm : bool) : Z :=
  if pm && (h <? 12) then h + 12 else if negb pm && (h =? 12) then 0 else h.

(** The remaining ways [DIR] prints a date: month first or year first, with
    a four-digit year. *)
Definition dosDate4 (mo d y : Z) : string := pad2 mo ++ "-" ++ pad2 d ++ "-" ++ fourDigits y.
Definition isoDate (y mo d : Z) : string := fourDigits y ++ "-" ++ pad2 mo ++ "-" ++ pad2 d.

(** * Properties *)

(** ** The library functions on examples *)

Example ParseUint_hex : Strconv.ParseUint "0x10" 0 = (16, None).
Proof. reflexivity. Qed.
Example ParseUint_oct : Strconv.ParseUint "017" 0 = (15, None).
Proof. reflexivity. Qed.
Example ParseUint_max : Strconv.ParseUint "18446744073709551615" 0 = (18446744073709551615, None).
Proof. vm_compute. reflexivity. Qed.
Example ParseUint_over : Strconv.ParseUint "18446744073709551616" 10 = (18446744073709551615, Some NumErrRange).
Proof. vm_compute. reflexivity. Qed.
Example ParseUint_dec_hex : Strconv.ParseUint "0x10" 10 = (0, Some NumErrSyntax).
Proof. reflexivity. Qed.
Example Split_ex : Strings.Split "a=1;;b" ";" = ["a=1"; ""; "b"].
Proof. reflexivity. Qed.
Example Date_ex : Time.DateOf (Time.Date 2017 3 10 23 0 0 0 Time.UTC) = (2017, 3, 10).
Proof. vm_compute. reflexivity. Qed.
Example AddDate_ex :
  Time.AddDate (Time.Date 2017 8 31 23 0 0 0 3600) 0 6 0 = Time.Date 2018 3 3 23 0 0 0 3600.
Proof. vm_compute. reflexivity. Qed.
Example Parse_rfc :
  Time.ParseInLocation "20060102150405" "20150806235817" Time.UTC
  = (Time.Date 2015 8 6 23 58 17 0 Time.UTC, None).
Proof. vm_compute. reflexivity. Qed.
Example Parse_dos :
  Time.ParseInLocation "01-02-06  03:04PM" "08-07-15  07:50PM" Time.UTC
  = (Time.Date 2015 8 7 19 50 0 0 Time.UTC, None).
Proof. vm_compute. reflexivity. Qed.
Example Parse_ls :
  Time.ParseInLocation "_2 Jan 2006 15:04" "9 Nov 2016 19:45" Time.UTC
  = (Time.Date 2016 11 9 19 45 0 0 Time.UTC, None).
Proof. vm_compute. reflexivity. Qed.
Example Parse_feb30 :
  Time.ParseInLocation "_2 Jan 2006 15:04" "30 Feb 2016 19:45" Time.UTC
  = (Time.zero, Some TimeParseError).
Proof. vm_compute. reflexivity. Qed.
Example itoa_ex : Time.itoa 2017 = "2017" /\ Time.itoa (-5) = "-5" /\ Time.itoa 0 = "0".
Proof. vm_compute. auto. Qed.
Example ToLower_ex :
  Strings.ToLower "UNIX.Mode" = Some "unix.mode"
  /\ Strings.ToLower ("MOD" ++ capitalIDot ++ "FY") = Some "modify"
  /\ Strings.ToLower (String "226" (String "132" (String "170" "B"))) = Some "kb"
  /\ Strings.ToLower (String "195" (String "137" "te")) = None
  /\ Strings.ToLower (String "176" "a") = None.
Proof. vm_compute. repeat split. Qed.
Example rfcFacts_unicode_key :
  parseRFC3659ListLine ("MOD" ++ capitalIDot ++ "FY=bad;invalid; x") testNow Time.UTC
  = fail TimeParseError
  /\ parseRFC3659ListLine ("S" ++ capitalIDot ++ "ZE=12;type=file; x") testNow Time.UTC
     = ret (mkEntry "x" "" EntryTypeFile 12 Time.zero).
Proof. vm_compute. split; reflexivity. Qed.

(** ** The listing table of the package's tests *)

Example listTests_unix :
  parseTest "drwxr-xr-x    3 110      1002            3 Dec 02  2009 p u b"
    = folderAt "p u b" 2009 12 2 0 0 0
  /\ parseTest "-rwxr-xr-x    3 110      1002            1234567 Dec 02  2009 fileName"
    = fileAt "fileName" 1234567 2009 12 2 0 0 0
  /\ parseTest "lrwxrwxrwx   1 root     other          7 Jan 25 00:17 bin -> usr/bin"
    = linkAt "bin" "usr/bin" 2017 1 25 0 17 0
  /\ parseTest "drwxr-xr-x               folder        0 Aug 15 05:49 !!!-Tipp des Haus!"
    = folderAt "!!!-Tipp des Haus!" 2017 8 15 5 49 0
  /\ parseTest "-rw-r--r--        0   18446744073709551615 18446744073709551615 Nov 16  2006 VIDEO_TS.VOB"
    = fileAt "VIDEO_TS.VOB" 18446744073709551615 2006 11 16 0 0 0
  /\ parseTest "d---------   1 owner    group               0 Nov  9 19:45 Softlib"
    = folderAt "Softlib" 2016 11 9 19 45 0
  /\ parseTest "-rwxr-xr-x    3 110      1002            1234567 Dec 02  2009  foo bar "
    = fileAt " foo bar " 1234567 2009 12 2 0 0 0
  /\ parseTest "-r--------   0 user group     65222236 Feb 24 00:39 RegularFile"
    = fileAt "RegularFile" 65222236 2017 2 24 0 39 0
  /\ parseTest "-rwxrw-r--+  1 521      101         2080 May 21 10:53 data.csv"
    = fileAt "data.csv" 2080 2017 5 21 10 53 0.
Proof. vm_compute. repeat split. Qed.

Example listTests_other :
  parseTest "modify=20150806235817;perm=fle;type=dir;unique=1B20F360U4;UNIX.group=0;UNIX.mode=0755;UNIX.owner=0; movies"
    = folderAt "movies" 2015 8 6 23 58 17
  /\ parseTest "Modify=20150813175250;Perm=adfr;Size=951;Type=file;Unique=119FBB87UE;UNIX.group=0;UNIX.mode=0644;UNIX.owner=0; welcome.msg"
    = fileAt "welcome.msg" 951 2015 8 13 17 52 50
  /\ parseTest "08-07-15  07:50PM                  718 Post_PRR_20150901_1166_265118_13049.dat"
    = fileAt "Post_PRR_20150901_1166_265118_13049.dat" 718 2015 8 7 19 50 0
  /\ parseTest "08-10-2015  02:04PM       <DIR>          Billing"
    = folderAt "Billing" 2015 8 10 14 4 0
  /\ parseTest "TSTITFECOM      21504 13/05/25 13:31:42 *STMF      114/POLL53.DWN"
    = fileAt "114/POLL53.DWN" 21504 2025 5 13 13 31 42.
Proof. vm_compute. repeat split. Qed.

Example listTestsFail :
  parseTest "d [R----F--] supervisor            512       Jan 16 18:53 login"
    = fail errUnsupportedListLine
  /\ parseTest "drwxr-xr-x    3 110      1002            3 Dec 02  209 pub"
    = fail errUnsupportedListDate
  /\ parseTest "modify=20150806235817;invalid;UNIX.owner=0; movies"
    = fail errUnsupportedListLine
  /\ parseTest "Zrwxrwxrwx   1 root     other          7 Jan 25 00:17 bin -> usr/bin"
    = fail errUnknownListEntryType
  /\ parseTest "000000000x " = fail errUnsupportedListLine.
Proof. vm_compute. repeat split. Qed.

(** ** Strings *)

Section StringFacts.

Lemma len_nonneg (s : string) : 0 <= len s.
Proof. unfold len. lia. Qed.

Lemma HasPrefix_length (s p : string) :
  HasPrefix s p = true -> (String.length p <= String.length s)%nat.
Proof.
  revert s. induction p as [|a p IH]; intros [|b s] H; simpl in *; try lia; try discriminate.
  apply andb_true_iff in H. destruct H as [_ H]. apply IH in H. lia.
Qed.

Lemma HasPrefix_take (n : nat) (s p : string) :
  HasPrefix (take n s) p = true -> HasPrefix s p = true.
Proof.
  revert n s. induction p as [|a p IH]; intros n s H; [destruct s; reflexivity|].
  destruct n as [|n]; destruct s as [|b s]; simpl in *; try discriminate.
  apply andb_true_iff in H. destruct H as [Hab H].
  rewrite Hab. simpl. eapply IH. exact H.
Qed.

Lemma indexFrom_eq (s sep : string) (i : Z) :
  indexFrom s sep i
  = if HasPrefix s sep then i
    else match s with
         | EmptyString => -1
         | String _ s' => indexFrom s' sep (i + 1)
         end.
Proof. destruct s; reflexivity. Qed.

Lemma indexNat_eq (s sep : string) :
  indexNat s sep
  = if HasPrefix s sep then Some O
    else match s with
         | EmptyString => None
         | String _ s' => option_map S (indexNat s' sep)
         end.
Proof. destruct s; reflexivity. Qed.

Lemma indexFrom_indexNat (s sep : string) (i : Z) :
  indexFrom s sep i
  = match indexNat s sep with Some n => i + Z.of_nat n | None => -1 end.
Proof.
  revert i. induction s as [|c s IH]; intros i;
    rewrite indexFrom_eq, indexNat_eq.
  - destruct (HasPrefix "" sep); [simpl; lia|reflexivity].
  - destruct (HasPrefix (String c s) sep); [simpl; lia|].
    rewrite IH. destruct (indexNat s sep); simpl; lia.
Qed.

Lemma Index_indexNat (s sep : string) :
  Index s sep = match indexNat s sep with Some n => Z.of_nat n | None => -1 end.
Proof. unfold Index. rewrite indexFrom_indexNat. destruct (indexNat s sep); lia. Qed.

Lemma indexNat_bound (s sep : string) (n : nat) :
  indexNat s sep = Some n -> (n + String.length sep <= String.length s)%nat.
Proof.
  revert n. induction s as [|c s IH]; intros n; rewrite indexNat_eq.
  - destruct (HasPrefix "" sep) eqn:E; [|discriminate].
    intros [= <-]. apply HasPrefix_length in E. simpl in *. lia.
  - destruct (HasPrefix (String c s) sep) eqn:E.
    + intros [= <-]. apply HasPrefix_length in E. simpl in *. lia.
    + destruct (indexNat s sep) as [m|]; [|discriminate].
      intros [= <-]. specialize (IH m eq_refl). simpl. lia.
Qed.

(** An index found by [Index] leaves room for the separator. *)
Lemma Index_bound (s sep : string) :
  Index s sep = -1 \/ (0 <= Index s sep /\ Index s sep + len sep <= len s).
Proof.
  rewrite Index_indexNat. destruct (indexNat s sep) as [n|] eqn:E; [right|left; reflexivity].
  apply indexNat_bound in E. unfold len. lia.
Qed.

Lemma indexNat_take (s sep : string) (n : nat) :
  sep <> EmptyString -> indexNat s sep = Some n -> indexNat (take n s) sep = None.
Proof.
  intros Hsep. revert n. induction s as [|c s IH]; intros n; rewrite indexNat_eq.
  - destruct sep; [congruence|]. simpl. discriminate.
  - destruct (HasPrefix (String c s) sep) eqn:E.
    + intros [= <-]. simpl. destruct sep; [congruence|reflexivity].
    + destruct (indexNat s sep) as [m|] eqn:Em; [|discriminate].
      intros [= <-]. change (take (S m) (String c s)) with (String c (take m s)).
      rewrite indexNat_eq.
      destruct (HasPrefix (String c (take m s)) sep) eqn:E'.
      * apply (HasPrefix_take (S m) (String c s)) in E'. congruence.
      * rewrite (IH m eq_refl). reflexivity.
Qed.

(** The text before the first occurrence of a separator does not hold it. *)
Lemma Contains_before_Index (s sep : string) :
  sep <> EmptyString -> 0 <= Index s sep ->
  Contains (take (Z.to_nat (Index s sep)) s) sep = false.
Proof.
  intros Hsep. unfold Contains. rewrite (Index_indexNat s).
  destruct (indexNat s sep) as [n|] eqn:E; [|lia]. intros _.
  rewrite Nat2Z.id, Index_indexNat, (indexNat_take _ _ _ Hsep E). reflexivity.
Qed.

Lemma length_take (n : nat) (s : string) :
  (n <= String.length s)%nat -> String.length (take n s) = n.
Proof.
  revert s. induction n as [|n IH]; intros [|c s] H; simpl in *; try lia.
  rewrite IH; lia.
Qed.

Lemma take_all (n : nat) (s : string) :
  (String.length s <= n)%nat -> take n s = s.
Proof.
  revert s. induction n as [|n IH]; intros [|c s] H; simpl in *; try reflexivity; try lia.
  rewrite IH; [reflexivity|lia].
Qed.

End StringFacts.

(** ** The dispatch chain *)

Lemma isUnsupported_false (err : option error) :
  err <> Some errUnsupportedListLine -> isUnsupported err = false.
Proof. destruct err as [[]|]; simpl; congruence. Qed.

Lemma tryParsers_declined (pre rest : list parseFunc) line now loc :
  (forall g, In g pre -> declines g line now loc) ->
  tryParsers (pre ++ rest) line now loc = tryParsers rest line now loc.
Proof.
  induction pre as [|g pre IH]; intros H; [reflexivity|].
  simpl. destruct (H g (or_introl eq_refl)) as [e He]. rewrite He. simpl.
  apply IH. intros g' Hg'. apply H. right. exact Hg'.
Qed.

Lemma tryParsers_first (f : parseFunc) (rest : list parseFunc) line now loc e err :
  f line now loc = Val (e, err) -> err <> Some errUnsupportedListLine ->
  tryParsers (f :: rest) line now loc = Val (e, err).
Proof.
  intros Hf Herr. simpl. rewrite Hf. simpl.
  rewrite (isUnsupported_false _ Herr). reflexivity.
Qed.

(** C2. The chain tries the fact-list, Unix-ls, DOS-DIR, hostedftp and IBM
    recognizers in this order.  Once the recognizers before [f] have declined
    the line with the sentinel, the first result of [f] that is not the
    sentinel (a record or any other error) is the final result; and when [f]
    and all the recognizers after it decline as well, the result is the
    unrecognized-dialect error. *)
Theorem parseListLine_dispatch (line : string) (now : Time.Time) (loc : Time.Location)
    (pre post : list parseFunc) (f : parseFunc) :
  listLineParsers = (pre ++ f :: post)%list ->
  (forall g, In g pre -> declines g line now loc) ->
  listLineParsers = [parseRFC3659ListLine; parseLsListLine; parseDirListLine;
                     parseHostedFTPLine; parseIbmListLine]
  /\ (forall e err, f line now loc = Val (e, err) ->
        err <> Some errUnsupportedListLine ->
        parseListLine line now loc = Val (e, err))
  /\ (declines f line now loc ->
      (forall g, In g post -> declines g line now loc) ->
      parseListLine line now loc = fail errUnsupportedListLine).
Proof.
  intros Hsplit Hpre. split; [reflexivity|].
  unfold parseListLine. rewrite Hsplit, (tryParsers_declined _ _ _ _ _ Hpre).
  split.
  - intros e err Hf Herr. exact (tryParsers_first _ _ _ _ _ _ _ Hf Herr).
  - intros Hf Hpost.
    change (f :: post) with ([f] ++ post)%list.
    rewrite tryParsers_declined.
    + rewrite <- (app_nil_r post), tryParsers_declined; [reflexivity|exact Hpost].
    + intros g [<-|[]]. exact Hf.
Qed.

(** ** The vendor fixed-column example *)

Lemma ibmLine_declined (now : Time.Time) (loc : Time.Location) (g : parseFunc) :
  In g [parseRFC3659ListLine; parseLsListLine; parseDirListLine; parseHostedFTPLine] ->
  declines g ibmLine now loc.
Proof.
  intros [<-|[<-|[<-|[<-|[]]]]]; exists None; vm_compute; reflexivity.
Qed.

(** Witness of [parseListLine_dispatch]: on the IBM line the four earlier
    recognizers decline and the result of the fifth is the final one. *)
Lemma parseListLine_dispatch_witness :
  parseListLine ibmLine testNow Time.UTC
  = ret (mkEntry ".deleted" "" EntryTypeFolder 12288
                 (Time.Date 2025 5 13 13 26 12 0 Time.UTC)).
Proof.
  refine (proj1 (proj2 (parseListLine_dispatch ibmLine testNow Time.UTC
            [parseRFC3659ListLine; parseLsListLine; parseDirListLine; parseHostedFTPLine]
            [] parseIbmListLine eq_refl (ibmLine_declined testNow Time.UTC))) _ _ _ _).
  - vm_compute. reflexivity.
  - discriminate.
Defined.

(** The wall clock of a date does not depend on the location it is built in. *)
Lemma wall_Date (y m d hh mm ss ns : Z) (l : Time.Location) :
  Time.wall (Time.Date y m d hh mm ss ns l)
  = Time.wall (Time.Date y m d hh mm ss ns Time.UTC).
Proof.
  unfold Time.wall, Time.Date, Time.UTC. cbv zeta. cbn [Time.sec Time.loc]. lia.
Qed.

Lemma DateOf_Date_2025_05_13 (loc : Time.Location) :
  Time.DateOf (Time.Date 2025 5 13 13 26 12 0 loc) = (2025, 5, 13)
  /\ Time.ClockOf (Time.Date 2025 5 13 13 26 12 0 loc) = (13, 26, 12).
Proof.
  unfold Time.DateOf, Time.ClockOf. rewrite wall_Date.
  vm_compute. split; reflexivity.
Qed.

(** C7. The line ["OWNER 12288 13/05/25 13:26:12 *DIR .deleted/"] is declined
    by the fact-list, Unix-ls, DOS-DIR and hostedftp recognizers and parsed
    by the IBM recognizer; the chain returns the folder [".deleted"]
    (trailing slash removed) of size 12288 dated 2025-05-13 13:26:12 in the
    caller's location, the year being 2000 + 25. *)
Theorem parseListLine_ibm_example (now : Time.Time) (loc : Time.Location) :
  let e := mkEntry ".deleted" "" EntryTypeFolder 12288
                   (Time.Date (2000 + 25) 5 13 13 26 12 0 loc) in
  parseRFC3659ListLine ibmLine now loc = fail errUnsupportedListLine
  /\ parseLsListLine ibmLine now loc = fail errUnsupportedListLine
  /\ parseDirListLine ibmLine now loc = fail errUnsupportedListLine
  /\ parseHostedFTPLine ibmLine now loc = fail errUnsupportedListLine
  /\ parseIbmListLine ibmLine now loc = ret e
  /\ parseListLine ibmLine now loc = ret e
  /\ Time.DateOf (Time_ e) = (2025, 5, 13)
  /\ Time.ClockOf (Time_ e) = (13, 26, 12)
  /\ Time.loc (Time_ e) = loc.
Proof.
  cbv zeta.
  repeat match goal with |- _ /\ _ => split end;
    try apply (DateOf_Date_2025_05_13 loc);
    lazy -[Time.Date]; reflexivity.
Qed.

(** ** The calendar *)

(** The year and the day of the year are recovered from a day count. *)
Lemma yearOfDays_epoch (y yday : Z) :
  0 <= yday < (if Time.isLeap y then 366 else 365) ->
  Time.yearOfDays (Time.daysSinceEpoch y + yday) = (y, yday).
Proof.
  unfold Time.yearOfDays, Time.daysSinceEpoch, Time.isLeap. cbv zeta.
  intros H.
  assert (exists a b c e, y - 1 = 400 * a + 100 * b + 4 * c + e /\ 0 <= b < 4 /\ 0 <= c < 25 /\ 0 <= e < 4) as (a & b & c & e & Hy & Hb & Hc & He).
  { exists ((y-1)/400), ((y-1) mod 400 / 100), ((y-1) mod 100 / 4), ((y-1) mod 4).
    Z.div_mod_to_equations; lia. }
  assert ((y - 1) / 4 = 100 * a + 25 * b + c) as -> by (Z.div_mod_to_equations; lia).
  assert ((y - 1) / 100 = 4 * a + b) as -> by (Z.div_mod_to_equations; lia).
  assert ((y - 1) / 400 = a) as -> by (Z.div_mod_to_equations; lia).
  assert (y mod 4 = (e + 1) mod 4) as Hm4 by (Z.div_mod_to_equations; lia).
  assert (y mod 100 = (4 * c + e + 1) mod 100) as Hm100 by (Z.div_mod_to_equations; lia).
  assert (y mod 400 = (100 * b + 4 * c + e + 1) mod 400) as Hm400 by (Z.div_mod_to_equations; lia).
  rewrite Hm4, Hm100, Hm400 in H.
  assert (Hleap : yday < 365 \/ (yday = 365 /\ e = 3 /\ (c < 24 \/ b = 3))).
  { destruct (Z.eqb_spec ((e + 1) mod 4) 0); cbn [andb orb negb] in H; [|lia].
    assert (e = 3) by (Z.div_mod_to_equations; lia).
    destruct (Z.eqb_spec ((4 * c + e + 1) mod 100) 0); cbn [andb orb negb] in H.
    - destruct (Z.eqb_spec ((100 * b + 4 * c + e + 1) mod 400) 0);
        cbn [andb orb negb] in H; [|lia].
      assert (b = 3) by (Z.div_mod_to_equations; lia). lia.
    - assert (c < 24) by (Z.div_mod_to_equations; lia). lia. }
  assert (Hy0 : 0 <= yday) by lia. clear H Hm4 Hm100 Hm400.
  replace (365 * (y - 1) + (100 * a + 25 * b + c) - (4 * a + b) + a + yday)
    with (146097 * a + (36524 * b + 1461 * c + 365 * e + yday)) by lia.
  set (D := 36524 * b + 1461 * c + 365 * e + yday).
  replace ((146097 * a + D) / 146097) with a by (unfold D; Z.div_mod_to_equations; lia).
  replace (146097 * a + D - 146097 * a) with D by lia.
  assert (E1 : D / 36524 - D / 36524 / 4 = b) by (unfold D; Z.div_mod_to_equations; lia).
  rewrite E1.
  set (D2 := D - 36524 * b).
  assert (E2 : D2 / 1461 = c) by (unfold D2, D; Z.div_mod_to_equations; lia).
  rewrite E2.
  set (D3 := D2 - 1461 * c).
  assert (E3 : D3 / 365 - D3 / 365 / 4 = e) by (unfold D3, D2, D; Z.div_mod_to_equations; lia).
  rewrite E3. unfold D3, D2, D. f_equal; lia.
Qed.

Lemma month_cases (m : Z) :
  1 <= m <= 12 ->
  m = 1 \/ m = 2 \/ m = 3 \/ m = 4 \/ m = 5 \/ m = 6 \/ m = 7 \/ m = 8
  \/ m = 9 \/ m = 10 \/ m = 11 \/ m = 12.
Proof. lia. Qed.

Lemma civilDays_yearDay (y m d : Z) :
  1 <= m <= 12 -> Time.civilDays y m d = Time.daysSinceEpoch y + yearDay y m d.
Proof.
  intros Hm. unfold Time.civilDays, yearDay. cbv zeta.
  replace ((m - 1) / 12) with 0 by (Z.div_mod_to_equations; lia).
  replace ((m - 1) mod 12 + 1) with m by (Z.div_mod_to_equations; lia).
  rewrite Z.add_0_r. lia.
Qed.

Ltac calc_days :=
  repeat match goal with
         | |- context [Time.daysBefore ?a] =>
             let v := eval vm_compute in (Time.daysBefore a) in
             lazymatch v with
             | Z0 => idtac | Zpos _ => idtac | Zneg _ => idtac
             end;
             change (Time.daysBefore a) with v
         | H : context [Time.daysBefore ?a] |- _ =>
             let v := eval vm_compute in (Time.daysBefore a) in
             lazymatch v with
             | Z0 => idtac | Zpos _ => idtac | Zneg _ => idtac
             end;
             change (Time.daysBefore a) with v in H
         end;
  cbn [andb Z.leb Z.eqb Z.ltb Z.compare Pos.compare Pos.compare_cont Pos.eqb] in *.

Lemma yearDay_range (y m d : Z) :
  1 <= m <= 12 -> 1 <= d <= Time.daysIn m y ->
  0 <= yearDay y m d < (if Time.isLeap y then 366 else 365).
Proof.
  intros Hm Hd. unfold yearDay, Time.daysIn in *.
  destruct (Time.isLeap y);
    destruct (month_cases m Hm) as [->|[->|[->|[->|[->|[->|[->|[->|[->|[->|[->| ->]]]]]]]]]]];
    calc_days; lia.
Qed.

Lemma monthDay_yearDay (y m d : Z) :
  1 <= m <= 12 -> 1 <= d <= Time.daysIn m y ->
  Time.monthDay y (yearDay y m d) = (m, d).
Proof.
  intros Hm Hd. unfold Time.monthDay, yearDay, Time.daysIn in *. cbv zeta.
  destruct (Time.isLeap y);
    destruct (month_cases m Hm) as [->|[->|[->|[->|[->|[->|[->|[->|[->|[->|[->| ->]]]]]]]]]]];
    calc_days;
    repeat match goal with
           | |- context [?a =? ?b] => destruct (Z.eqb_spec a b); try lia
           | |- context [?a <? ?b] => destruct (Z.ltb_spec a b); try lia
           end;
    try (f_equal; lia);
    match goal with
    | |- context [?day / 31] =>
        let q := fresh "q" in
        set (q := day / 31);
        assert (31 * q <= day < 31 * q + 31) by (unfold q; Z.div_mod_to_equations; lia);
        assert (q = 0 \/ q = 1 \/ q = 2 \/ q = 3 \/ q = 4 \/ q = 5 \/ q = 6 \/ q = 7
                \/ q = 8 \/ q = 9 \/ q = 10 \/ q = 11) as Hq by lia;
        clearbody q;
        destruct Hq as [->|[->|[->|[->|[->|[->|[->|[->|[->|[->|[->| ->]]]]]]]]]]];
        try lia; calc_days;
        match goal with
        | |- context [?a <=? ?b] => destruct (Z.leb_spec a b); try lia
        end; f_equal; lia
    end.
Qed.

Lemma DateOf_Date (y m d hh mm ss ns : Z) (l : Time.Location) :
  1 <= m <= 12 -> 1 <= d <= Time.daysIn m y ->
  0 <= hh < 24 -> 0 <= mm < 60 -> 0 <= ss < 60 ->
  Time.DateOf (Time.Date y m d hh mm ss ns l) = (y, m, d)
  /\ Time.ClockOf (Time.Date y m d hh mm ss ns l) = (hh, mm, ss).
Proof.
  intros Hm Hd Hhh Hmm Hss. unfold Time.DateOf, Time.ClockOf.
  rewrite wall_Date. unfold Time.wall, Time.Date, Time.UTC. cbn [Time.sec Time.loc].
  rewrite (civilDays_yearDay y m d Hm).
  set (D := Time.daysSinceEpoch y + yearDay y m d).
  replace (D * 86400 + hh * 3600 + mm * 60 + ss - 0 + 0)
    with (D * 86400 + (hh * 3600 + mm * 60 + ss)) by lia.
  set (c := hh * 3600 + mm * 60 + ss).
  assert (Hc : 0 <= c < 86400) by (unfold c; lia).
  replace ((D * 86400 + c) / 86400) with D by (Z.div_mod_to_equations; lia).
  replace ((D * 86400 + c) mod 86400) with c by (Z.div_mod_to_equations; lia).
  unfold D. rewrite (yearOfDays_epoch _ _ (yearDay_range y m d Hm Hd)).
  rewrite (monthDay_yearDay y m d Hm Hd). split; [reflexivity|].
  unfold c. repeat f_equal; Z.div_mod_to_equations; lia.
Qed.

(** Moving a valid date by whole years changes the year only (February 29th
    is then normalised by [Date], as in Go). *)
Lemma AddDate_years (y m d hh mm ss ns k : Z) (l : Time.Location) :
  1 <= m <= 12 -> 1 <= d <= Time.daysIn m y ->
  0 <= hh < 24 -> 0 <= mm < 60 -> 0 <= ss < 60 ->
  Time.AddDate (Time.Date y m d hh mm ss ns l) k 0 0 = Time.Date (y + k) m d hh mm ss ns l.
Proof.
  intros Hm Hd Hhh Hmm Hss. unfold Time.AddDate.
  destruct (DateOf_Date y m d hh mm ss ns l Hm Hd Hhh Hmm Hss) as [-> ->].
  rewrite !Z.add_0_r. reflexivity.
Qed.

Lemma lookup_bound (tab : list string) (val : string) (i m : Z) (rest : string) :
  Time.lookup tab val i = Some (m, rest) -> i <= m < i + Z.of_nat (List.length tab).
Proof.
  revert i. induction tab as [|v tab IH]; intros i; simpl; [discriminate|].
  destruct (_ && _).
  - intros [= <- _]. lia.
  - intros H. apply IH in H. lia.
Qed.

Lemma parseStd_ok (v : Time.std) (value value' : string) (f f' : Time.fields) :
  fieldsOK f -> Time.parseStd v value f = Some (f', value') -> fieldsOK f'.
Proof.
  unfold fieldsOK. intros Hf H.
  destruct v; cbn [Time.parseStd] in H; try discriminate H;
    repeat match type of H with
           | context [match ?x with _ => _ end] =>
               let E := fresh "E" in destruct x eqn:E; try discriminate H
           | context [if ?x then _ else _] =>
               let E := fresh "E" in destruct x eqn:E; try discriminate H
           end;
    try (injection H as <- _; cbn [Time.fmonth Time.fhour Time.fmin Time.fsec];
         repeat match goal with
                | E : (_ || _) = false |- _ => apply orb_false_iff in E; destruct E
                | E : (_ <? _) = false |- _ => apply Z.ltb_ge in E
                | E : (_ <=? _) = false |- _ => apply Z.leb_gt in E
                | E : Time.lookup _ _ _ = Some _ |- _ => apply lookup_bound in E; simpl in E
                end; lia).
Qed.

Lemma parseLoop_ok (fuel : nat) (layout value : string) (f f' : Time.fields) :
  fieldsOK f -> Time.parseLoop fuel layout value f = Some f' -> fieldsOK f'.
Proof.
  revert layout value f. induction fuel as [|fuel IH]; intros layout value f Hf;
    [discriminate|].
  cbn [Time.parseLoop]. destruct (Time.nextStdChunk layout) as [[prefix v] suffix].
  destruct (Time.skip _ value prefix) as [value1|]; [|discriminate].
  destruct (Time.parseStd v value1 f) as [[f1 value2]|] eqn:E.
  - destruct v; try (apply IH; exact (parseStd_ok _ _ _ _ _ Hf E)).
    discriminate E.
  - destruct v; try discriminate.
    destruct (len value1 =? 0); [|discriminate]. intros [= <-]. exact Hf.
Qed.

(** A successful parse returns a valid civil date and time of day in the
    location asked for. *)
Lemma ParseInLocation_civil (layout value : string) (l : Time.Location) (t : Time.Time) :
  Time.ParseInLocation layout value l = (t, None) ->
  exists y m d hh mm ss ns,
    t = Time.Date y m d hh mm ss ns l
    /\ 1 <= m <= 12 /\ 1 <= d <= Time.daysIn m y
    /\ 0 <= hh < 24 /\ 0 <= mm < 60 /\ 0 <= ss < 60.
Proof.
  unfold Time.ParseInLocation.
  destruct (Time.parseLoop _ layout value Time.fields0) as [f|] eqn:E; [|discriminate].
  assert (H0 : fieldsOK Time.fields0) by (unfold fieldsOK; simpl; lia).
  destruct (parseLoop_ok _ _ _ _ _ H0 E) as [Hm [Hh [Hmi Hs]]].
  destruct (_ || _) eqn:Hday; [discriminate|]. intros [= <-].
  apply orb_false_iff in Hday. destruct Hday as [Hd1 Hd2].
  apply Z.ltb_ge in Hd1, Hd2.
  do 7 eexists. split; [reflexivity|].
  repeat split; try lia;
    repeat match goal with
           | |- context [if ?b then _ else _] => destruct b eqn:?
           end;
    repeat match goal with
           | E : (_ <? _) = true |- _ => apply Z.ltb_lt in E
           | E : (_ <? _) = false |- _ => apply Z.ltb_ge in E
           | E : (_ =? _) = true |- _ => apply Z.eqb_eq in E
           | E : (_ && _) = true |- _ => apply andb_true_iff in E; destruct E
           end; lia.
Qed.

(** ** The date resolver *)

Section SetTimeClock.

Variables (e : Entry) (mon day clock : string).
Variables (now : Time.Time) (loc : Time.Location).

(** With a colon in the third token, [setTime] parses the composed text and
    moves the result back by one year unless it is before [now] plus six
    months. *)
Lemma setTime_clock :
  Contains clock ":" = true ->
  setTime e [mon; day; clock] now loc
  = let '(t, err) :=
      Time.ParseInLocation "_2 Jan 2006 15:04" (composed mon day clock now) loc in
    Val (withTime e (if Time.Before t (Time.AddDate now 0 6 0) then t
                     else Time.AddDate t (-1) 0 0), err).
Proof.
  intros Hc. unfold setTime, composed. cbn [elem nth_error bind]. rewrite Hc.
  destruct (Time.DateOf now) as [[y m] d]. cbn [fst bind].
  destruct (Time.ParseInLocation _ _ loc) as [t err].
  destruct (Time.Before t _); reflexivity.
Qed.

End SetTimeClock.

Lemma zrange_In (lo : Z) (n : nat) (x : Z) :
  lo <= x < lo + Z.of_nat n -> In x (zrange lo n).
Proof.
  intros H. unfold zrange. apply in_map_iff. exists (Z.to_nat (x - lo)).
  split; [lia|]. apply in_seq. lia.
Qed.

(** [setTime] touches nothing but the time of the entry. *)
Lemma setTime_frame (e e' : Entry) (fields : list string) now loc err :
  setTime e fields now loc = Val (e', err) -> e' = withTime e (Time_ e').
Proof.
  unfold setTime. destruct (elem fields 2) as [f2|]; [|discriminate]. cbn [bind].
  destruct (Contains f2 ":").
  - destruct (Time.DateOf now) as [[y m] d].
    destruct (elem fields 1) as [f1|]; [|discriminate].
    destruct (elem fields 0) as [f0|]; [|discriminate]. cbn [bind].
    destruct (Time.ParseInLocation _ _ loc) as [t err'].
    intros [= <- _]. reflexivity.
  - destruct (negb (len f2 =? 4)).
    + intros [= <- _]. destruct e; reflexivity.
    + destruct (elem fields 1) as [f1|]; [|discriminate].
      destruct (elem fields 0) as [f0|]; [|discriminate]. cbn [bind].
      destruct (Time.ParseInLocation _ _ loc) as [t err'].
      intros [= <- _]. reflexivity.
Qed.

(** *** Parsing well-formed tokens *)

Lemma itoa_fourDigits (y : Z) : 1000 <= y <= 9999 -> Time.itoa y = fourDigits y.
Proof.
  intros H. unfold Time.itoa, fourDigits.
  destruct (Z.ltb_spec y 0); [lia|]. cbn [Time.utoa].
  destruct (Z.ltb_spec y 10); [lia|].
  destruct (Z.ltb_spec (y / 10) 10); [Z.div_mod_to_equations; lia|].
  destruct (Z.ltb_spec (y / 10 / 10) 10); [Z.div_mod_to_equations; lia|].
  destruct (Z.ltb_spec (y / 10 / 10 / 10) 10); [|Z.div_mod_to_equations; lia].
  replace (y / 10 / 10 / 10 mod 10) with (y / 1000) by (Z.div_mod_to_equations; lia).
  replace (y / 10 / 10 mod 10) with (y / 100 mod 10) by (Z.div_mod_to_equations; lia).
  reflexivity.
Qed.

Lemma digit_cases (k : Z) :
  0 <= k <= 9 ->
  k = 0 \/ k = 1 \/ k = 2 \/ k = 3 \/ k = 4 \/ k = 5 \/ k = 6 \/ k = 7 \/ k = 8 \/ k = 9.
Proof. lia. Qed.

Lemma digitChar_spec (k : Z) :
  0 <= k <= 9 ->
  Strconv.isDec (Time.digitChar k) = true
  /\ Strconv.byteVal (Time.digitChar k) - 48 = k
  /\ Ascii.eqb (Time.digitChar k) " " = false
  /\ Ascii.eqb (Time.digitChar k) "-" = false
  /\ Ascii.eqb (Time.digitChar k) "+" = false.
Proof.
  intros H.
  destruct (digit_cases k H) as [->|[->|[->|[->|[->|[->|[->|[->|[->| ->]]]]]]]]];
    vm_compute; repeat split.
Qed.

Lemma parseStd_year (y : Z) (rest : string) (f : Time.fields) :
  1000 <= y <= 9999 ->
  Time.parseStd Time.stdLongYear (fourDigits y ++ String " " rest) f
  = Some (setYear f y, String " " rest).
Proof.
  intros H.
  assert (H3 : 0 <= y / 1000 <= 9) by (Z.div_mod_to_equations; lia).
  assert (H2 : 0 <= y / 100 mod 10 <= 9) by (Z.div_mod_to_equations; lia).
  assert (H1 : 0 <= y / 10 mod 10 <= 9) by (Z.div_mod_to_equations; lia).
  assert (H0 : 0 <= y mod 10 <= 9) by (Z.div_mod_to_equations; lia).
  destruct (digitChar_spec _ H3) as (D3 & V3 & _ & M3 & P3).
  destruct (digitChar_spec _ H2) as (D2 & V2 & _).
  destruct (digitChar_spec _ H1) as (D1 & V1 & _).
  destruct (digitChar_spec _ H0) as (D0 & V0 & _).
  unfold fourDigits. cbn [append Time.parseStd].
  replace (len _ <? 4) with false.
  2:{ symmetry. apply Z.ltb_ge. unfold len. cbn [String.length]. lia. }
  unfold Time.isDigit. cbn [String.get orb negb]. rewrite D3. cbn [negb].
  cbn [take drop]. unfold Time.atoi. rewrite M3, P3. cbn [Strconv.atoiDigits].
  rewrite D3, D2, D1, D0, V3, V2, V1, V0. unfold setYear. do 3 f_equal.
  Z.div_mod_to_equations; lia.
Qed.

Lemma parseLoop_step (fuel : nat) (layout value : string) (f : Time.fields)
    (prefix suffix : string) (v : Time.std) (f1 : Time.fields) (value1 : string) :
  Time.nextStdChunk layout = (prefix, v, suffix) ->
  chunk prefix v value f = Some (f1, value1) ->
  Time.parseLoop (S fuel) layout value f = Time.parseLoop fuel suffix value1 f1.
Proof.
  intros Hn Hc. cbn [Time.parseLoop]. rewrite Hn. unfold chunk in Hc.
  destruct (Time.skip _ value prefix) as [value0|]; [|discriminate Hc].
  rewrite Hc. destruct v; try reflexivity. discriminate Hc.
Qed.

(** Enumerate the values of an integer known to lie in a short range. *)
Ltac enum x lo n :=
  let Hin := fresh "Hin" in
  assert (Hin : In x (zrange lo n)) by (apply zrange_In; simpl; lia);
  cbv [zrange seq map] in Hin; cbn [Z.of_nat Pos.of_succ_nat Pos.succ Z.add Pos.add] in Hin;
  repeat (destruct Hin as [<-|Hin]); [..|destruct Hin].

Lemma chunk_day (d : Z) (tok rest : string) (f : Time.fields) :
  1 <= d <= 31 -> tok = Time.itoa d \/ tok = pad2 d ->
  chunk "" Time.stdUnderDay (tok ++ String " " rest) f = Some (setDay f d, String " " rest).
Proof.
  intros H Htok. enum d 1 31%nat; destruct Htok as [-> | ->]; reflexivity.
Qed.

Lemma chunk_month (m : Z) (rest : string) (f : Time.fields) :
  1 <= m <= 12 ->
  chunk " " Time.stdMonth (String " " (monthToken m ++ String " " rest)) f
  = Some (setMonth f m, String " " rest).
Proof. intros H. enum m 1 12%nat; reflexivity. Qed.

Lemma chunk_year (y : Z) (rest : string) (f : Time.fields) :
  1000 <= y <= 9999 ->
  chunk " " Time.stdLongYear (String " " (Time.itoa y ++ String " " rest)) f
  = Some (setYear f y, String " " rest).
Proof.
  intros H. rewrite (itoa_fourDigits y H). unfold chunk.
  assert (H3 : 0 <= y / 1000 <= 9) by (Z.div_mod_to_equations; lia).
  destruct (digitChar_spec _ H3) as (_ & _ & B & _).
  replace (Time.skip _ _ " ") with (Some (fourDigits y ++ String " " rest)).
  - apply parseStd_year. exact H.
  - unfold fourDigits. cbn [append String.length Time.skip Ascii.eqb Bool.eqb negb
                             Time.cutspace TrimLeft inCutset].
    rewrite B. reflexivity.
Qed.

Lemma chunk_hour (hh : Z) (rest : string) (f : Time.fields) :
  0 <= hh < 24 ->
  chunk " " Time.stdHour (String " " (pad2 hh ++ String ":" rest)) f
  = Some (setHour f hh, String ":" rest).
Proof. intros H. enum hh 0 24%nat; reflexivity. Qed.

Lemma chunk_minute (mm : Z) (f : Time.fields) :
  0 <= mm < 60 ->
  chunk ":" Time.stdZeroMinute (String ":" (pad2 mm)) f = Some (setMin f mm, "").
Proof. intros H. enum mm 0 60%nat; reflexivity. Qed.

Lemma clockToken_colon (hh mm : Z) :
  0 <= hh < 24 -> Contains (clockToken hh mm) ":" = true.
Proof.
  intros H. unfold clockToken.
  enum hh 0 24%nat; cbv [Contains Index]; destruct (pad2 mm); reflexivity.
Qed.

(** The tokens of a valid date and time parse to that date and time. *)
Lemma ParseInLocation_tokens (y m d hh mm : Z) (day : string) (l : Time.Location) :
  1000 <= y <= 9999 -> 1 <= m <= 12 -> 1 <= d <= Time.daysIn m y ->
  0 <= hh < 24 -> 0 <= mm < 60 ->
  day = Time.itoa d \/ day = pad2 d ->
  Time.ParseInLocation "_2 Jan 2006 15:04"
    (day ++ " " ++ monthToken m ++ " " ++ Time.itoa y ++ " " ++ clockToken hh mm) l
  = (Time.Date y m d hh mm 0 0 l, None).
Proof.
  intros Hy Hm Hd Hhh Hmm Hday.
  assert (Hd31 : 1 <= d <= 31).
  { unfold Time.daysIn in Hd. destruct (_ && _); [lia|].
    destruct (month_cases m Hm) as [->|[->|[->|[->|[->|[->|[->|[->|[->|[->|[->| ->]]]]]]]]]]];
      calc_days; lia. }
  unfold Time.ParseInLocation, clockToken.
  cbn [String.length append].
  erewrite parseLoop_step; [|vm_compute; reflexivity|apply (chunk_day d); assumption].
  erewrite parseLoop_step; [|vm_compute; reflexivity|apply chunk_month; assumption].
  erewrite parseLoop_step; [|vm_compute; reflexivity|apply chunk_year; assumption].
  erewrite parseLoop_step; [|vm_compute; reflexivity|apply chunk_hour; assumption].
  erewrite parseLoop_step; [|vm_compute; reflexivity|apply chunk_minute; assumption].
  cbn [Time.parseLoop Time.nextStdChunk Time.stdAt Time.skip String.length len Z.of_nat Z.eqb
       setMin setHour setYear setMonth setDay Time.fields0
       Time.fyear Time.fmonth Time.fday Time.fhour Time.fmin Time.fsec Time.fnsec
       Time.pmSet Time.amSet andb].
  destruct (Z.ltb_spec m 0); [lia|]. destruct (Z.ltb_spec d 0); [lia|].
  destruct (Z.ltb_spec d 1); [lia|]. destruct (Z.ltb_spec (Time.daysIn m y) d); [lia|].
  reflexivity.
Qed.

(** Case analysis on the integer comparisons of the goal. *)
Ltac zbool :=
  repeat match goal with
         | |- context [?a <? ?b] => destruct (Z.ltb_spec a b)
         | |- context [?a <=? ?b] => destruct (Z.leb_spec a b)
         | |- context [?a =? ?b] => destruct (Z.eqb_spec a b)
         end;
  simpl; try reflexivity; try lia.

Lemma civilDays_day (y m d : Z) :
  Time.civilDays y m d = Time.civilDays y m 1 + (d - 1).
Proof. unfold Time.civilDays. cbv zeta. lia. Qed.

(** Two dates of one location are compared by their wall clocks. *)
Lemma Before_Date (y m d hh mm ss y' m' d' hh' mm' ss' ns : Z) (l : Time.Location) :
  Time.Before (Time.Date y m d hh mm ss ns l) (Time.Date y' m' d' hh' mm' ss' ns l)
  = (Time.civilDays y m d * 86400 + hh * 3600 + mm * 60 + ss
     <? Time.civilDays y' m' d' * 86400 + hh' * 3600 + mm' * 60 + ss').
Proof.
  unfold Time.Before, Time.Date. cbn [Time.sec Time.nsec].
  rewrite Z.ltb_irrefl, andb_false_r, orb_false_r.
  generalize (Time.civilDays y m d) (Time.civilDays y' m' d'). intros a b. zbool.
Qed.

(** The tokens of a valid date and time, with any reference time of a
    four-digit year: the date is taken in the year of the reference time
    when that is before the reference time plus six months, and in the year
    before otherwise. *)
Lemma setTime_tokens (e : Entry) (now : Time.Time) (loc : Time.Location)
    (m d hh mm : Z) (day : string) :
  let y := fst (fst (Time.DateOf now)) in
  1000 <= y <= 9999 -> 1 <= m <= 12 -> 1 <= d <= Time.daysIn m y ->
  0 <= hh < 24 -> 0 <= mm < 60 ->
  day = Time.itoa d \/ day = pad2 d ->
  setTime e [monthToken m; day; clockToken hh mm] now loc
  = Val (withTime e
           (if Time.Before (Time.Date y m d hh mm 0 0 loc) (Time.AddDate now 0 6 0)
            then Time.Date y m d hh mm 0 0 loc
            else Time.Date (y - 1) m d hh mm 0 0 loc),
         None).
Proof.
  intros y Hy Hm Hd Hhh Hmm Hday.
  rewrite (setTime_clock e _ _ _ now loc (clockToken_colon hh mm Hhh)).
  unfold composed. fold y.
  rewrite (ParseInLocation_tokens y m d hh mm day loc Hy Hm Hd Hhh Hmm Hday).
  rewrite (AddDate_years y m d hh mm 0 0 (-1) loc Hm Hd Hhh Hmm ltac:(lia)).
  reflexivity.
Qed.

Lemma testNow_year : fst (fst (Time.DateOf testNow)) = 2017.
Proof. vm_compute. reflexivity. Qed.

Lemma testNow_six_months :
  Time.AddDate testNow 0 6 0 = Time.Date 2017 9 10 23 0 0 0 Time.UTC.
Proof. vm_compute. reflexivity. Qed.

(** C1. When the third date token holds a colon, [setTime] composes day,
    month, the year of the reference time and the clock, parses that, and
    moves the result back by one year exactly when it is not before the
    reference time plus six months; a parsed time is a valid civil date and
    time of day, and moving it back changes its year only.  For the tokens
    of a valid date and time and any reference time of a four-digit year,
    the result is that date in the year of the reference time when this is
    before the reference time plus six months, and in the year before
    otherwise.  With the reference time 2017-03-10 23:00 UTC,
    ["Sep 10 23:00"] is dated 2016-09-10 23:00 and ["Sep 10 22:59"] is dated
    2017-09-10 22:59; every minute of September 10th before 23:00 stays in
    2017 and every later one goes to 2016, and every day of the year at noon
    is dated 2017 up to September 10th and 2016 after it.  In each case
    the time is stored in the record, whose other fields are left as they
    are. *)
Theorem setTime_recency :
  (forall e mon day clock now loc,
      Contains clock ":" = true ->
      let thisYear := fst (fst (Time.DateOf now)) in
      let timeStr := day ++ " " ++ mon ++ " " ++ Time.itoa thisYear ++ " " ++ clock in
      let '(t, err) := Time.ParseInLocation "_2 Jan 2006 15:04" timeStr loc in
      setTime e [mon; day; clock] now loc
      = Val (mkEntry (Name e) (Target e) (Type_ e) (Size e)
               (if Time.Before t (Time.AddDate now 0 6 0) then t
                else Time.AddDate t (-1) 0 0), err)
      /\ (err = None ->
          exists y m d hh mm ss ns,
            t = Time.Date y m d hh mm ss ns loc
            /\ Time.AddDate t (-1) 0 0 = Time.Date (y - 1) m d hh mm ss ns loc))
  /\ (forall e now loc m d hh mm day,
      let thisYear := fst (fst (Time.DateOf now)) in
      1000 <= thisYear <= 9999 ->
      1 <= m <= 12 -> 1 <= d <= Time.daysIn m thisYear ->
      0 <= hh < 24 -> 0 <= mm < 60 ->
      day = Time.itoa d \/ day = pad2 d ->
      setTime e [monthToken m; day; clockToken hh mm] now loc
      = Val (mkEntry (Name e) (Target e) (Type_ e) (Size e)
               (if Time.Before (Time.Date thisYear m d hh mm 0 0 loc)
                               (Time.AddDate now 0 6 0)
                then Time.Date thisYear m d hh mm 0 0 loc
                else Time.Date (thisYear - 1) m d hh mm 0 0 loc),
             None))
  /\ setTime Entry0 ["Sep"; "10"; "23:00"] testNow Time.UTC
     = Val (mkEntry "" "" EntryTypeFile 0 (Time.Date 2016 9 10 23 0 0 0 Time.UTC), None)
  /\ setTime Entry0 ["Sep"; "10"; "22:59"] testNow Time.UTC
     = Val (mkEntry "" "" EntryTypeFile 0 (Time.Date 2017 9 10 22 59 0 0 Time.UTC), None)
  /\ (forall hh mm, 0 <= hh < 24 -> 0 <= mm < 60 ->
      setTime Entry0 ["Sep"; "10"; clockToken hh mm] testNow Time.UTC
      = Val (mkEntry "" "" EntryTypeFile 0
               (Time.Date (if hh <? 23 then 2017 else 2016) 9 10 hh mm 0 0 Time.UTC),
             None))
  /\ (forall m d, 1 <= m <= 12 -> 1 <= d <= Time.daysIn m 2017 ->
      setTime Entry0 [monthToken m; Time.itoa d; "12:00"] testNow Time.UTC
      = Val (mkEntry "" "" EntryTypeFile 0
               (Time.Date (if (m <? 9) || ((m =? 9) && (d <=? 10)) then 2017 else 2016)
                          m d 12 0 0 0 Time.UTC),
             None)).
Proof.
  split; [|split; [|split; [|split; [|split]]]].
  - intros e mon day clock now loc Hc. cbv zeta.
    pose proof (setTime_clock e mon day clock now loc Hc) as H.
    unfold composed in H.
    destruct (Time.ParseInLocation _ _ loc) as [t err] eqn:E.
    split; [exact H|]. intros ->.
    destruct (ParseInLocation_civil _ _ _ _ E)
      as (y & m & d & hh & mm & ss & ns & -> & Hm & Hd & Hhh & Hmm & Hss).
    exists y, m, d, hh, mm, ss, ns. split; [reflexivity|].
    exact (AddDate_years y m d hh mm ss ns (-1) loc Hm Hd Hhh Hmm Hss).
  - exact setTime_tokens.
  - vm_compute. reflexivity.
  - vm_compute. reflexivity.
  - intros hh mm Hhh Hmm.
    pose proof (setTime_tokens Entry0 testNow Time.UTC 9 10 hh mm "10") as H.
    cbv zeta in H. rewrite testNow_year, testNow_six_months, Before_Date in H.
    change (monthToken 9) with "Sep" in H.
    rewrite H; try lia; [|vm_compute; split; discriminate|left; reflexivity].
    generalize (Time.civilDays 2017 9 10). intros k.
    destruct (Z.ltb_spec hh 23); zbool.
  - intros m d Hm Hd.
    pose proof (setTime_tokens Entry0 testNow Time.UTC m d 12 0 (Time.itoa d)) as H.
    cbv zeta in H. rewrite testNow_year, testNow_six_months, Before_Date in H.
    change (clockToken 12 0) with "12:00" in H.
    rewrite H; try lia; [|left; reflexivity].
    rewrite (civilDays_day 2017 m d).
    change (Time.civilDays 2017 9 10) with 736581.
    destruct (month_cases m Hm) as [->|[->|[->|[->|[->|[->|[->|[->|[->|[->|[->| ->]]]]]]]]]]];
      unfold Time.daysIn in Hd; change (Time.isLeap 2017) with false in Hd; calc_days;
      match goal with
      | |- context [Time.civilDays 2017 ?m 1] =>
          let v := eval vm_compute in (Time.civilDays 2017 m 1) in
          change (Time.civilDays 2017 m 1) with v
      end;
      zbool.
Qed.

(** Witness of [setTime_recency]: 22:59 on September 10th stays in 2017 with
    the reference time of the tests; November 9th 19:45 goes back to 2016. *)
Lemma setTime_recency_witness :
  (0 <= 22 < 24 /\ 0 <= 59 < 60
   /\ setTime Entry0 ["Sep"; "10"; clockToken 22 59] testNow Time.UTC
      = Val (mkEntry "" "" EntryTypeFile 0 (Time.Date 2017 9 10 22 59 0 0 Time.UTC), None))
  /\ (1000 <= fst (fst (Time.DateOf testNow)) <= 9999
      /\ 1 <= 9 <= Time.daysIn 11 (fst (fst (Time.DateOf testNow)))
      /\ setTime Entry0 [monthToken 11; pad2 9; clockToken 19 45] testNow Time.UTC
         = Val (mkEntry "" "" EntryTypeFile 0 (Time.Date 2016 11 9 19 45 0 0 Time.UTC), None))
  /\ (Contains "23:00" ":" = true
      /\ let '(t, err) :=
           Time.ParseInLocation "_2 Jan 2006 15:04"
             ("10" ++ " " ++ "Sep" ++ " " ++ Time.itoa (fst (fst (Time.DateOf testNow)))
                   ++ " " ++ "23:00") Time.UTC in
         setTime Entry0 ["Sep"; "10"; "23:00"] testNow Time.UTC
         = Val (mkEntry "" "" EntryTypeFile 0
                  (if Time.Before t (Time.AddDate testNow 0 6 0) then t
                   else Time.AddDate t (-1) 0 0), err)
         /\ (err = None ->
             exists y m d hh mm ss ns,
               t = Time.Date y m d hh mm ss ns Time.UTC
               /\ Time.AddDate t (-1) 0 0 = Time.Date (y - 1) m d hh mm ss ns Time.UTC)).
Proof.
  split; [|split];
    [| |split; [reflexivity|];
        exact (proj1 setTime_recency Entry0 "Sep" "10" "23:00" testNow Time.UTC eq_refl)].
  - split; [lia|]. split; [lia|].
    exact (proj1 (proj2 (proj2 (proj2 (proj2 setTime_recency)))) 22 59
             ltac:(lia) ltac:(lia)).
  - split; [vm_compute; split; discriminate|].
    split; [vm_compute; split; discriminate|].
    exact (proj1 (proj2 setTime_recency) Entry0 testNow Time.UTC 11 9 19 45 (pad2 9)
             ltac:(vm_compute; split; discriminate) ltac:(lia)
             ltac:(vm_compute; split; discriminate) ltac:(lia) ltac:(lia)
             (or_intror eq_refl)).
Defined.

(** ** The Unix-ls recognizer *)

Lemma ParseUint_error (s : string) (base n : Z) (err : error) :
  Strconv.ParseUint s base = (n, Some err) -> err = NumErrSyntax \/ err = NumErrRange.
Proof.
  unfold Strconv.ParseUint. destruct s as [|c0 rest]; [intros [= _ <-]; auto|].
  match goal with
  | |- (let '(b, digits) := ?x in _) = _ -> _ => destruct x as [b digits]
  end.
  destruct (Strconv.parseDigits b (base =? 0) digits 0 false) as [[[m [|]]|] us].
  - intros [= _ <-]; auto.
  - destruct (us && negb (Strconv.underscoreOK (String c0 rest)));
      [intros [= _ <-]; auto|discriminate].
  - intros [= _ <-]; auto.
Qed.

Lemma setSize_eq (e : Entry) (str : string) :
  setSize e str
  = (withSize e (fst (Strconv.ParseUint str 0)), snd (Strconv.ParseUint str 0)).
Proof. unfold setSize. destruct (Strconv.ParseUint str 0). reflexivity. Qed.

Lemma finishWithTime_ret (e e' : Entry) (date : list string) now loc :
  finishWithTime e date now loc = ret e' -> e' = withTime e (Time_ e').
Proof.
  unfold finishWithTime.
  destruct (setTime e date now loc) as [[e1 [err|]]|] eqn:E; cbn [bind]; try discriminate.
  intros [= <-]. exact (setTime_frame _ _ _ _ _ _ E).
Qed.

(** The tokens returned by [NextFields] are not empty, and there are at most
    as many as were asked for. *)
Lemma NextFields_spec (n : nat) (s s' : scanner) (fields : list string) :
  NextFields n s = (fields, s') ->
  (List.length fields <= n)%nat /\ Forall (fun f => f <> "") fields.
Proof.
  revert s s' fields. induction n as [|n IH]; intros s s' fields; simpl.
  - intros [= <- _]. split; [simpl; lia|constructor].
  - destruct (Next s) as [f s1]. destruct (String.eqb_spec f "") as [->|Hf].
    + intros [= <- _]. split; [simpl; lia|constructor].
    + destruct (NextFields n s1) as [fs s2] eqn:E. intros [= <- _].
      destruct (IH _ _ _ E) as [Hlen Hall].
      split; [simpl; lia|constructor; assumption].
Qed.

(** Eight fields read at once are six fields followed by two. *)
Lemma NextFields_6_2 (s rest : scanner) (f0 f1 f2 f3 f4 f5 f6 f7 : string) :
  NextFields 8 s = ([f0; f1; f2; f3; f4; f5; f6; f7], rest) ->
  exists s1, NextFields 6 s = ([f0; f1; f2; f3; f4; f5], s1)
             /\ NextFields 2 s1 = ([f6; f7], rest).
Proof.
  intros H. cbn [NextFields] in H.
  repeat match type of H with
         | context [Next ?x] =>
             let f := fresh "f" in let t := fresh "t" in
             let E := fresh "E" in let N := fresh "N" in
             destruct (Next x) as [f t] eqn:E;
             destruct (String.eqb f "") eqn:N; [discriminate H|]
         end.
  injection H as -> -> -> -> -> -> -> -> ->.
  assert (Hsix : exists s1, NextFields 6 s = ([f0; f1; f2; f3; f4; f5], s1)
                            /\ Next s1 = (f6, t5)).
  { eexists. split; [|eassumption]. cbn [NextFields].
    repeat match goal with
           | E : Next ?x = _ |- context [Next ?x] => rewrite E
           | N : String.eqb ?f "" = false |- context [String.eqb ?f ""] => rewrite N
           end; reflexivity. }
  destruct Hsix as [s1 [Hsix Hnext]]. exists s1. split; [exact Hsix|].
  cbn [NextFields]. rewrite Hnext, N5, E6, N6. reflexivity.
Qed.

Lemma byteAt_0 (s : string) : s <> "" -> exists c r, s = String c r /\ byteAt s 0 = Val c.
Proof.
  destruct s as [|c r]; [congruence|]. intros _. exists c, r. split; [reflexivity|].
  unfold byteAt, len. simpl String.length. rewrite Nat2Z.inj_succ.
  replace ((0 <=? 0) && (0 <? Z.succ (Z.of_nat (String.length r)))) with true; [reflexivity|].
  symmetry. apply andb_true_iff. split; [reflexivity|apply Z.ltb_lt; lia].
Qed.

(** The fact-list recognizer declines a line that has no semicolon before
    its first blank. *)
Lemma rfc_declines (line : string) now loc :
  Index line ";" < 0 \/ Index line " " < Index line ";" ->
  parseRFC3659ListLine line now loc = fail errUnsupportedListLine.
Proof.
  intros H. unfold parseRFC3659ListLine, parseNextRFC3659ListLine.
  replace ((Index line ";" <? 0) || (Index line " " <? Index line ";")) with true;
    [reflexivity|].
  symmetry. apply orb_true_iff. destruct H; [left|right]; apply Z.ltb_lt; assumption.
Qed.

(** A result of the Unix-ls recognizer that is not the sentinel is the result
    of the chain once the fact-list recognizer has declined. *)
Lemma chain_after_rfc (line : string) now loc e err :
  Index line ";" < 0 \/ Index line " " < Index line ";" ->
  parseLsListLine line now loc = Val (e, err) ->
  err <> Some errUnsupportedListLine ->
  parseListLine line now loc = Val (e, err).
Proof.
  intros Hrfc Hls Herr.
  change parseListLine with (tryParsers ([parseRFC3659ListLine]
            ++ parseLsListLine :: [parseDirListLine; parseHostedFTPLine; parseIbmListLine])).
  rewrite tryParsers_declined.
  - exact (tryParsers_first _ _ _ _ _ _ _ Hls Herr).
  - intros g [<-|[]]. exists None. apply rfc_declines. exact Hrfc.
Qed.

Section UnixLs.

Variables (line : string) (now : Time.Time) (loc : Time.Location).
Variables (f0 f1 f2 f3 f4 f5 : string) (s1 : scanner).

Hypothesis Hshape : lsShape line = Val true.
Hypothesis Hsix : NextFields 6 (newScanner line) = ([f0; f1; f2; f3; f4; f5], s1).

(** After the shape and the field count are checked, the second and third
    fields select the branch. *)
Lemma parseLs_branches :
  parseLsListLine line now loc
  = if String.eqb f1 "folder" && String.eqb f2 "0"
    then lsFolderBranch [f0; f1; f2; f3; f4; f5] s1 now loc
    else if String.eqb f1 "0"
         then lsZeroLinkBranch [f0; f1; f2; f3; f4; f5] s1 now loc
         else lsGenericBranch [f0; f1; f2; f3; f4; f5] s1 now loc.
Proof. unfold parseLsListLine. rewrite Hshape. cbn [bind negb]. rewrite Hsix. reflexivity. Qed.

(** In the zero-link-count branch a size that does not parse is answered by
    the sentinel. *)
Lemma lsZeroLink_size_error (n : Z) (err : error) :
  f1 = "0" ->
  Strconv.ParseUint f2 0 = (n, Some err) ->
  parseLsListLine line now loc = fail errUnsupportedListLine.
Proof.
  intros Hf1 Hsize. rewrite parseLs_branches, Hf1.
  cbn [String.eqb Ascii.eqb Bool.eqb andb].
  unfold lsZeroLinkBranch. destruct (Next s1) as [f s2].
  cbn [app elem nth_error bind]. rewrite setSize_eq, Hsize. reflexivity.
Qed.

Variables (f6 f7 : string) (rest : scanner) (c : ascii).

Hypothesis Hlinks : f1 <> "0".
Hypothesis Hfolder : ~ (f1 = "folder" /\ f2 = "0").
Hypothesis Htwo : NextFields 2 s1 = ([f6; f7], rest).
Hypothesis Hc : byteAt f0 0 = Val c.

(** In the generic branch the first byte of the mode field selects the type. *)
Lemma parseLs_generic :
  parseLsListLine line now loc
  = if Ascii.eqb c "-" then
      match setSize (withType (lsEntry rest) EntryTypeFile) f4 with
      | (_, Some err) => fail err
      | (e, None) => lsFinish now loc f5 f6 f7 e
      end
    else if Ascii.eqb c "d"
    then lsFinish now loc f5 f6 f7 (withType (lsEntry rest) EntryTypeFolder)
    else if Ascii.eqb c "l" then
      e <- splitLink (withType (lsEntry rest) EntryTypeLink) ;; lsFinish now loc f5 f6 f7 e
    else fail errUnknownListEntryType.
Proof.
  rewrite parseLs_branches.
  destruct (String.eqb_spec f1 "folder") as [E1|E1];
    [destruct (String.eqb_spec f2 "0") as [E2|E2]; [tauto|]|];
    (destruct (String.eqb_spec f1 "0") as [E3|E3]; [tauto|]);
    cbn [andb];
    unfold lsGenericBranch; rewrite Htwo;
    cbn [app List.length Nat.ltb Nat.leb elem nth_error bind];
    rewrite Hc; cbn [bind]; reflexivity.
Qed.

End UnixLs.

(** *** Unknown entry types *)

(** C6, as stated, fails: a line whose 10-byte mode field starts with ['Z']
    is parsed as a folder by the folder-literal branch, which never looks at
    the mode field, and is declined with the sentinel by every recognizer
    when it has too few fields. *)
Lemma unknown_entry_type_counterexample :
  lsShape "Zrwxrwxrwx folder 0 Aug 15 05:49 x" = Val true
  /\ byteAt "Zrwxrwxrwx folder 0 Aug 15 05:49 x" 0 = Val "Z"%char
  /\ parseListLine "Zrwxrwxrwx folder 0 Aug 15 05:49 x" testNow Time.UTC
     = ret (mkEntry "x" "" EntryTypeFolder 0 (Time.Date 2017 8 15 5 49 0 0 Time.UTC))
  /\ lsShape "Zrwxrwxrwx 1 root" = Val true
  /\ parseListLine "Zrwxrwxrwx 1 root" testNow Time.UTC = fail errUnsupportedListLine.
Proof. vm_compute. repeat split. Qed.

(** C6, amended.  When the Unix-ls recognizer reaches its generic branch (a
    mode field of 10 bytes, or 11 with the ACL mark, eight fields, a second
    field that is not ["0"] and not ["folder"] followed by ["0"]) and the
    first byte of the mode field is none of ['-'], ['d'], ['l'], it answers
    with the unknown-entry-type error; the chain returns that error whenever
    the line has no semicolon before its first blank, so that the fact-list
    recognizer, tried first, declines it. *)
Theorem unknown_entry_type (line : string) (now : Time.Time) (loc : Time.Location)
    (f0 f1 f2 f3 f4 f5 f6 f7 : string) (rest : scanner) (c : ascii) :
  lsShape line = Val true ->
  NextFields 8 (newScanner line) = ([f0; f1; f2; f3; f4; f5; f6; f7], rest) ->
  f1 <> "0" ->
  ~ (f1 = "folder" /\ f2 = "0") ->
  byteAt f0 0 = Val c ->
  c <> "-"%char -> c <> "d"%char -> c <> "l"%char ->
  parseLsListLine line now loc = fail errUnknownListEntryType
  /\ (Index line ";" < 0 \/ Index line " " < Index line ";" ->
      parseListLine line now loc = fail errUnknownListEntryType).
Proof.
  intros Hshape Height Hlinks Hfolder Hc H1 H2 H3.
  destruct (NextFields_6_2 _ _ _ _ _ _ _ _ _ _ Height) as [s1 [Hsix Htwo]].
  assert (Hls : parseLsListLine line now loc = fail errUnknownListEntryType).
  { rewrite (parseLs_generic line now loc f0 f1 f2 f3 f4 f5 s1 Hshape Hsix
               f6 f7 rest c Hlinks Hfolder Htwo Hc).
    apply Ascii.eqb_neq in H1, H2, H3. rewrite H1, H2, H3. reflexivity. }
  split; [exact Hls|].
  intros Hrfc. apply (chain_after_rfc _ _ _ _ _ Hrfc Hls). discriminate.
Qed.

(** Witness of [unknown_entry_type]: the ['Z'] line of the package's tests. *)
Lemma unknown_entry_type_witness :
  parseLsListLine lineZ testNow Time.UTC = fail errUnknownListEntryType
  /\ parseListLine lineZ testNow Time.UTC = fail errUnknownListEntryType.
Proof.
  destruct (unknown_entry_type lineZ testNow Time.UTC
              "Zrwxrwxrwx" "1" "root" "other" "7" "Jan" "25" "00:17" "bin -> usr/bin" "Z"%char)
    as [Hls Hchain];
    try (vm_compute; reflexivity); try discriminate.
  - intros [H _]. discriminate H.
  - split; [exact Hls|]. apply Hchain. left. vm_compute. reflexivity.
Defined.

(** *** Sizes that do not parse *)

(** The amended statement of C3 is proved under "Sizes across the
    recognizers", with the lemmas on the scanner it needs. *)

(** C3, as stated, fails: in the zero-link-count branch (second field ["0"])
    a size that does not parse is answered by the sentinel, and the chain
    goes on to the other recognizers; here all of them decline. *)
Lemma size_failure_counterexample :
  lsShape "-rw-r--r-- 0 abc 5 Nov 16 2006" = Val true
  /\ fst (NextFields 6 (newScanner "-rw-r--r-- 0 abc 5 Nov 16 2006"))
     = ["-rw-r--r--"; "0"; "abc"; "5"; "Nov"; "16"]
  /\ snd (setSize Entry0 "abc") = Some NumErrSyntax
  /\ parseLsListLine "-rw-r--r-- 0 abc 5 Nov 16 2006" testNow Time.UTC
     = fail errUnsupportedListLine
  /\ parseListLine "-rw-r--r-- 0 abc 5 Nov 16 2006" testNow Time.UTC
     = fail errUnsupportedListLine.
Proof. vm_compute. repeat split. Qed.

Lemma parseDir_size_error (line : string) now loc (e : Entry) (rest tok : string)
    (n : Z) (err : error) :
  dirTimeLoop dirTimeFormats line loc Entry0 None = Val (e, None, rest) ->
  HasPrefix (TrimLeft rest " ") "<DIR>" = false ->
  Index (TrimLeft rest " ") " " <> -1 ->
  sliceTo (TrimLeft rest " ") (Index (TrimLeft rest " ") " ") = Val tok ->
  Strconv.ParseUint tok 10 = (n, Some err) ->
  parseDirListLine line now loc = fail errUnsupportedListLine.
Proof.
  intros Hloop Hdir Hsp Htok Hsize. unfold parseDirListLine.
  rewrite Hloop. cbn [bind]. rewrite Hdir.
  apply Z.eqb_neq in Hsp. rewrite Hsp, Htok. cbn [bind]. rewrite Hsize. reflexivity.
Qed.

(** *** The syntax of sizes *)

(** The amended statement of C9 is proved under "Sizes across the
    recognizers". *)





(** *** Symbolic links *)

Lemma length_drop (n : nat) (s : string) :
  String.length (drop n s) = (String.length s - n)%nat.
Proof.
  revert s. induction n as [|n IH]; intros [|c s]; simpl; try lia. apply IH.
Qed.

Lemma sliceTo_val (s : string) (i : Z) :
  0 <= i <= len s -> sliceTo s i = Val (take (Z.to_nat i) s).
Proof.
  intros H. unfold sliceTo, slice.
  replace ((0 <=? 0) && (0 <=? i) && (i <=? len s)) with true.
  - rewrite Z.sub_0_r. reflexivity.
  - symmetry. rewrite !andb_true_iff. repeat split; apply Z.leb_le; lia.
Qed.

Lemma sliceFrom_val (s : string) (i : Z) :
  0 <= i <= len s -> sliceFrom s i = Val (drop (Z.to_nat i) s).
Proof.
  intros H. unfold sliceFrom, slice.
  replace ((0 <=? i) && (i <=? len s) && (len s <=? len s)) with true.
  - rewrite take_all; [reflexivity|]. rewrite length_drop. unfold len in *. lia.
  - symmetry. rewrite !andb_true_iff. repeat split; apply Z.leb_le; lia.
Qed.

Lemma HasPrefix_app (s p : string) : HasPrefix s p = true -> s = p ++ drop (String.length p) s.
Proof.
  revert s. induction p as [|a p IH]; intros s H; [destruct s; reflexivity|].
  destruct s as [|b s]; [discriminate H|]. cbn [HasPrefix] in H.
  apply andb_true_iff in H. destruct H as [Hab H].
  apply Ascii.eqb_eq in Hab. subst b. simpl. f_equal. apply IH. exact H.
Qed.

Lemma indexNat_app (s sep : string) (n : nat) :
  indexNat s sep = Some n -> s = take n s ++ sep ++ drop (n + String.length sep) s.
Proof.
  revert n. induction s as [|c s IH]; intros n; rewrite indexNat_eq.
  - destruct (HasPrefix "" sep) eqn:E; [|discriminate].
    intros [= <-]. exact (HasPrefix_app _ _ E).
  - destruct (HasPrefix (String c s) sep) eqn:E.
    + intros [= <-]. exact (HasPrefix_app _ _ E).
    + destruct (indexNat s sep) as [m|] eqn:Em; [|discriminate].
      intros [= <-]. simpl. f_equal. apply IH. reflexivity.
Qed.

(** What [splitLink] returns: with the separator found after the first byte
    of the name, the name is cut there and the target is what follows the
    separator; otherwise the entry is left as it is. *)
Lemma splitLink_spec (e : Entry) :
  splitLink e
  = Val (if 0 <? Index (Name e) " -> "
         then withName (withTarget e (drop (Z.to_nat (Index (Name e) " -> " + 4)) (Name e)))
                       (take (Z.to_nat (Index (Name e) " -> ")) (Name e))
         else e).
Proof.
  unfold splitLink. destruct (Z.ltb_spec 0 (Index (Name e) " -> ")) as [H|H]; [|reflexivity].
  destruct (Index_bound (Name e) " -> ") as [Hb|Hb]; [lia|].
  change (len " -> ") with 4 in Hb.
  rewrite sliceFrom_val by lia. cbn [bind].
  rewrite sliceTo_val by lia. reflexivity.
Qed.

Lemma NextFields_app (n m : nat) (s s1 s2 : scanner) (a b : list string) :
  NextFields n s = (a, s1) -> List.length a = n -> NextFields m s1 = (b, s2) ->
  NextFields (n + m) s = ((a ++ b)%list, s2).
Proof.
  revert s s1 a. induction n as [|n IH]; intros s s1 a; simpl.
  - intros [= <- <-] _ H. exact H.
  - destruct (Next s) as [f t]. destruct (String.eqb f "").
    + intros [= <- _]. discriminate.
    + destruct (NextFields n t) as [fs t'] eqn:E. intros [= <- <-] Hlen Hm.
      simpl in Hlen. rewrite (IH t t' fs E ltac:(lia) Hm). reflexivity.
Qed.

(** An entry returned by a branch carries the type the branch gave it. *)
Lemma finishWithTime_fields (e e' : Entry) (date : list string) now loc :
  finishWithTime e date now loc = ret e' ->
  Name e' = Name e /\ Target e' = Target e /\ Type_ e' = Type_ e /\ Size e' = Size e.
Proof.
  intros H. apply finishWithTime_ret in H. rewrite H. repeat split.
Qed.

(** A symbolic link comes out of the generic branch only, with the name and
    target that [splitLink] makes of the remainder. *)
Lemma parseLs_link (line : string) now loc (e : Entry) :
  parseLsListLine line now loc = ret e ->
  Type_ e = EntryTypeLink ->
  exists e1, splitLink (mkEntry (lsRemainder line) "" EntryTypeLink 0 Time.zero) = Val e1
             /\ Name e = Name e1 /\ Target e = Target e1.
Proof.
  intros H Hty. unfold parseLsListLine in H.
  destruct (lsShape line) as [[|]|]; cbn [bind negb] in H; try discriminate H.
  destruct (NextFields 6 (newScanner line)) as [six s1] eqn:Hsix.
  pose proof (NextFields_spec _ _ _ _ Hsix) as [Hlen Hne].
  destruct six as [|f0 [|f1 [|f2 [|f3 [|f4 [|f5 [|f6 more]]]]]]];
    cbn [List.length Nat.ltb Nat.leb] in H; try discriminate H;
    [|simpl in Hlen; lia].
  cbn [elem nth_error bind] in H.
  destruct (String.eqb f1 "folder" && String.eqb f2 "0").
  { unfold lsFolderBranch in H. cbn [subslice List.length Nat.leb andb bind] in H.
    apply finishWithTime_fields in H. cbn [Type_] in H.
    destruct H as [_ [_ [H _]]]. congruence. }
  destruct (String.eqb f1 "0").
  { unfold lsZeroLinkBranch in H. destruct (Next s1) as [f s2].
    cbn [app elem nth_error bind] in H. rewrite setSize_eq in H.
    destruct (snd (Strconv.ParseUint f2 0)); [discriminate H|].
    cbn [subslice app List.length Nat.leb andb bind] in H.
    apply finishWithTime_fields in H. cbn [Type_ withSize] in H.
    destruct H as [_ [_ [H _]]]. congruence. }
  unfold lsGenericBranch in H.
  destruct (NextFields 2 s1) as [two rest] eqn:Htwo.
  pose proof (NextFields_spec _ _ _ _ Htwo) as [Hlen2 _].
  destruct two as [|f6 [|f7 [|f8 more]]];
    cbn [app List.length Nat.ltb Nat.leb] in H; try discriminate H;
    [|simpl in Hlen2; lia].
  assert (Hrem : lsRemainder line = Remaining rest).
  { unfold lsRemainder. change 8%nat with (6 + 2)%nat.
    rewrite (NextFields_app 6 2 _ _ _ _ _ Hsix eq_refl Htwo). reflexivity. }
  cbn [elem nth_error bind] in H.
  destruct (byteAt f0 0) as [c|]; cbn [bind] in H; [|discriminate H].
  destruct (Ascii.eqb c "-").
  { cbn [elem nth_error bind] in H. rewrite setSize_eq in H.
    destruct (snd (Strconv.ParseUint f4 0)); [discriminate H|].
    cbn [subslice firstn skipn app List.length Nat.leb andb bind Nat.sub] in H.
    apply finishWithTime_fields in H. cbn [Type_ withSize withType] in H.
    destruct H as [_ [_ [H _]]]. congruence. }
  destruct (Ascii.eqb c "d").
  { cbn [subslice firstn skipn app List.length Nat.leb andb bind Nat.sub] in H.
    apply finishWithTime_fields in H. cbn [Type_ withType] in H.
    destruct H as [_ [_ [H _]]]. congruence. }
  destruct (Ascii.eqb c "l"); [|discriminate H].
  rewrite Hrem.
  change (withType (mkEntry (Remaining rest) "" EntryTypeFile 0 Time.zero) EntryTypeLink)
    with (mkEntry (Remaining rest) "" EntryTypeLink 0 Time.zero) in H.
  destruct (splitLink (mkEntry (Remaining rest) "" EntryTypeLink 0 Time.zero)) as [e1|];
    cbn [bind] in H; [|discriminate H].
  cbn [subslice firstn skipn app List.length Nat.leb andb bind Nat.sub] in H.
  apply finishWithTime_fields in H. destruct H as [Hn [Ht _]].
  exists e1. repeat split; assumption.
Qed.

(** C4, as stated, fails: when the remainder starts with the separator it is
    not cut, and the name of the link holds [" -> "]. *)
Lemma symlink_split_counterexample :
  lsRemainder "lrwxrwxrwx 1 root other 7 Jan 25 00:17  -> usr/bin" = " -> usr/bin"
  /\ parseListLine "lrwxrwxrwx 1 root other 7 Jan 25 00:17  -> usr/bin" testNow Time.UTC
     = ret (mkEntry " -> usr/bin" "" EntryTypeLink 0 (Time.Date 2017 1 25 0 17 0 0 Time.UTC))
  /\ Contains " -> usr/bin" " -> " = true.
Proof. vm_compute. repeat split. Qed.

(** C4, amended.  For every line that the Unix-ls recognizer returns as a
    symbolic link, with [rem] the text after its eight fields: if [" -> "]
    occurs in [rem] and its first occurrence is not at the very start, the
    name is the text before that occurrence and the target the text after
    it, and the name does not hold [" -> "]; if [" -> "] is absent, or [rem]
    starts with it, the whole of [rem] is the name and there is no target.
    So the name of a link holds [" -> "] only when [rem] starts with it. *)
Theorem symlink_split (line : string) (now : Time.Time) (loc : Time.Location) (e : Entry) :
  parseLsListLine line now loc = ret e ->
  Type_ e = EntryTypeLink ->
  let rem := lsRemainder line in
  let i := Index rem " -> " in
  (0 < i ->
   Name e = take (Z.to_nat i) rem
   /\ Target e = drop (Z.to_nat i + 4) rem
   /\ rem = Name e ++ " -> " ++ Target e
   /\ Contains (Name e) " -> " = false)
  /\ (i <= 0 -> Name e = rem /\ Target e = "")
  /\ (Contains (Name e) " -> " = true -> i = 0).
Proof.
  intros H Hty rem i.
  destruct (parseLs_link line now loc e H Hty) as [e1 [Hsplit [Hn Ht]]].
  rewrite splitLink_spec in Hsplit. cbn [Name] in Hsplit. fold rem in Hsplit. fold i in Hsplit.
  injection Hsplit as Hsplit.
  assert (Hpos : 0 < i ->
                 Name e = take (Z.to_nat i) rem
                 /\ Target e = drop (Z.to_nat i + 4) rem
                 /\ rem = Name e ++ " -> " ++ Target e
                 /\ Contains (Name e) " -> " = false).
  { intros Hi. destruct (Z.ltb_spec 0 i) as [_|]; [|lia]. subst e1.
    cbn [Name Target withName withTarget] in Hn, Ht.
    replace (Z.to_nat (i + 4)) with (Z.to_nat i + 4)%nat in Ht by lia.
    rewrite Hn, Ht. repeat split.
    - unfold i in *. rewrite Index_indexNat in *.
      destruct (indexNat rem " -> ") as [k|] eqn:Ek; [|lia].
      rewrite Nat2Z.id. exact (indexNat_app _ _ _ Ek).
    - apply Contains_before_Index; [discriminate|]. fold i. lia. }
  assert (Hneg : i <= 0 -> Name e = rem /\ Target e = "").
  { intros Hi. destruct (Z.ltb_spec 0 i) as [|_]; [lia|]. subst e1.
    split; assumption. }
  split; [exact Hpos|]. split; [exact Hneg|].
  intros Hcontains.
  destruct (Z.lt_trichotomy i 0) as [Hi|[Hi|Hi]]; [|exact Hi|].
  - destruct (Hneg ltac:(lia)) as [Hname _]. rewrite Hname in Hcontains.
    unfold Contains in Hcontains. fold i in Hcontains.
    apply Z.leb_le in Hcontains. lia.
  - destruct (Hpos Hi) as [_ [_ [_ Hfalse]]]. congruence.
Qed.

(** Witness of [symlink_split]: the link line of the package's tests. *)
Lemma symlink_split_witness :
  let e := mkEntry "bin" "usr/bin" EntryTypeLink 0 (Time.Date 2017 1 25 0 17 0 0 Time.UTC) in
  parseLsListLine lineLink testNow Time.UTC = ret e
  /\ Type_ e = EntryTypeLink
  /\ 0 < Index (lsRemainder lineLink) " -> "
  /\ lsRemainder lineLink = Name e ++ " -> " ++ Target e
  /\ Contains (Name e) " -> " = false.
Proof.
  intros e.
  assert (H : parseLsListLine lineLink testNow Time.UTC = ret e) by (vm_compute; reflexivity).
  assert (Hi : 0 < Index (lsRemainder lineLink) " -> ") by (vm_compute; reflexivity).
  destruct (symlink_split lineLink testNow Time.UTC e H eq_refl) as [Hpos _].
  destruct (Hpos Hi) as [_ [_ [Hrem Hc]]].
  repeat split; assumption.
Defined.

(** ** The fact-list recognizer *)

Lemma rfcFacts_ok (loc : Time.Location) (field : string) (facts : list string) (e : Entry) :
  factOK loc field = true ->
  exists e', rfcFacts (field :: facts) loc e = rfcFacts facts loc e'.
Proof.
  unfold factOK. intros H. apply andb_true_iff in H. destruct H as [Hi H].
  apply Z.leb_le in Hi. cbn [rfcFacts].
  destruct (Z.ltb_spec (Index field "=") 1) as [|_]; [lia|].
  destruct (Index_bound field "=") as [Hb|Hb]; [lia|]. change (len "=") with 1 in Hb.
  rewrite sliceTo_val by lia. cbn [bind].
  rewrite sliceFrom_val by lia. cbn [bind]. cbv zeta in H.
  destruct (keyIs (ToLower (take (Z.to_nat (Index field "=")) field)) "modify").
  { destruct (Time.ParseInLocation "20060102150405" _ loc) as [t [err|]];
      [discriminate H|]. eexists. reflexivity. }
  destruct (keyIs (ToLower (take (Z.to_nat (Index field "=")) field)) "type").
  { repeat match goal with
           | |- context [if ?b then _ else _] => destruct b
           end; eexists; reflexivity. }
  destruct (keyIs (ToLower (take (Z.to_nat (Index field "=")) field)) "size").
  { rewrite setSize_eq.
    destruct (snd (Strconv.ParseUint _ 0)); [discriminate H|]. eexists. reflexivity. }
  eexists. reflexivity.
Qed.

Lemma rfcFacts_prefix (loc : Time.Location) (pre facts : list string) (e : Entry) :
  forallb (factOK loc) pre = true ->
  exists e', rfcFacts (pre ++ facts) loc e = rfcFacts facts loc e'.
Proof.
  revert e. induction pre as [|f pre IH]; intros e H.
  - exists e. reflexivity.
  - cbn [forallb] in H. apply andb_true_iff in H. destruct H as [Hf Hpre].
    destruct (rfcFacts_ok loc f (pre ++ facts) e Hf) as [e1 He1].
    destruct (IH e1 Hpre) as [e2 He2]. exists e2.
    change ((f :: pre) ++ facts)%list with (f :: (pre ++ facts))%list.
    rewrite He1. exact He2.
Qed.

(** C10, as stated, fails: the facts are read from left to right, and a
    [modify] fact whose value does not parse ends the recognizer with a
    time-parse error before the fact without ['='] is reached. *)
Lemma fact_without_equals_counterexample :
  Index "modify=2015;invalid; movies" ";" = 11
  /\ Index "modify=2015;invalid; movies" " " = 20
  /\ Split "modify=2015;invalid" ";" = ["modify=2015"; "invalid"]
  /\ Index "invalid" "=" = -1
  /\ parseRFC3659ListLine "modify=2015;invalid; movies" testNow Time.UTC
     = fail TimeParseError
  /\ parseListLine "modify=2015;invalid; movies" testNow Time.UTC
     = fail TimeParseError.
Proof. vm_compute. repeat split. Qed.

(** C10, amended.  On a line with a semicolon before its first blank, the
    facts are the semicolon-separated pieces of the text before the first
    blank, less its last byte (the semicolon that closes the facts).  A fact
    without ['='], or with ['='] as its first byte, makes the recognizer
    return the sentinel, and the chain go on with the Unix-ls recognizer,
    provided every fact before it is passed over: has an ['='] after its
    first byte and, when it is a [modify] or [size] fact (a fact whose key
    [strings.ToLower] turns into [modify] or [size]), a value that parses. *)
Theorem fact_without_equals (line : string) (now : Time.Time) (loc : Time.Location)
    (facts : string) (pre post : list string) (field : string) :
  0 <= Index line ";" <= Index line " " ->
  sliceTo line (Index line " " - 1) = Val facts ->
  Split facts ";" = (pre ++ field :: post)%list ->
  forallb (factOK loc) pre = true ->
  Index field "=" < 1 ->
  parseRFC3659ListLine line now loc = fail errUnsupportedListLine
  /\ parseListLine line now loc
     = tryParsers [parseLsListLine; parseDirListLine; parseHostedFTPLine; parseIbmListLine]
                  line now loc.
Proof.
  intros Hpre Hfacts Hsplit Hok Hbad.
  assert (Hrfc : parseRFC3659ListLine line now loc = fail errUnsupportedListLine).
  { unfold parseRFC3659ListLine, parseNextRFC3659ListLine.
    destruct (Z.ltb_spec (Index line ";") 0) as [|_]; [lia|].
    destruct (Z.ltb_spec (Index line " ") (Index line ";")) as [|_]; [lia|].
    cbn [orb].
    destruct (Index_bound line " ") as [Hb|Hb]; [lia|]. change (len " ") with 1 in Hb.
    rewrite sliceFrom_val by lia. cbn [bind Name Entry0 String.eqb negb andb].
    rewrite Hfacts. cbn [bind]. rewrite Hsplit.
    match goal with
    | |- rfcFacts _ loc ?e = _ =>
        destruct (rfcFacts_prefix loc pre (field :: post) e Hok) as [e' He']
    end.
    rewrite He'. cbn [rfcFacts].
    destruct (Z.ltb_spec (Index field "=") 1) as [_|]; [reflexivity|lia]. }
  split; [exact Hrfc|].
  change parseListLine with (tryParsers ([parseRFC3659ListLine]
            ++ [parseLsListLine; parseDirListLine; parseHostedFTPLine; parseIbmListLine])).
  apply tryParsers_declined. intros g [<-|[]]. exists None. exact Hrfc.
Qed.

(** Witness of [fact_without_equals]: the line of the package's tests with
    the fact ["invalid"]. *)
Lemma fact_without_equals_witness :
  parseRFC3659ListLine lineInvalidFact testNow Time.UTC = fail errUnsupportedListLine
  /\ parseListLine lineInvalidFact testNow Time.UTC
     = tryParsers [parseLsListLine; parseDirListLine; parseHostedFTPLine; parseIbmListLine]
                  lineInvalidFact testNow Time.UTC.
Proof.
  apply (fact_without_equals lineInvalidFact testNow Time.UTC
           "modify=20150806235817;invalid;UNIX.owner=0"
           ["modify=20150806235817"] ["UNIX.owner=0"] "invalid").
  - vm_compute. split; discriminate.
  - vm_compute. reflexivity.
  - vm_compute. reflexivity.
  - vm_compute. reflexivity.
  - vm_compute. reflexivity.
Defined.

(** ** No recognizer panics *)

Lemma wellFormed_ret (e : Entry) : wellFormed (ret e).
Proof. exists (Some e, None). split; [reflexivity|]. simpl. split; congruence. Qed.

Lemma wellFormed_fail (err : error) : wellFormed (fail err).
Proof. exists (None, Some err). split; [reflexivity|]. simpl. split; congruence. Qed.

Create HintDb wf.
#[local] Hint Resolve wellFormed_ret wellFormed_fail : wf.

Lemma get_Some (s : string) (n : nat) :
  (n < String.length s)%nat -> exists c, String.get n s = Some c.
Proof.
  revert n. induction s as [|c s IH]; intros n H; simpl in H; [lia|].
  destruct n as [|n]; simpl; [eexists; reflexivity|]. apply IH. lia.
Qed.

Lemma byteAt_returns (s : string) (i : Z) :
  0 <= i < len s -> returns (byteAt s i).
Proof.
  intros H. unfold byteAt.
  destruct (Z.leb_spec 0 i); [|lia]. destruct (Z.ltb_spec i (len s)); [|lia]. cbn [andb].
  destruct (get_Some s (Z.to_nat i)) as [c Hc]; [unfold len in H; lia|].
  rewrite Hc. eexists. reflexivity.
Qed.

Lemma slice_val (s : string) (lo hi : Z) :
  0 <= lo <= hi -> hi <= len s ->
  slice s lo hi = Val (take (Z.to_nat (hi - lo)) (drop (Z.to_nat lo) s)).
Proof.
  intros H1 H2. unfold slice.
  destruct (Z.leb_spec 0 lo); [|lia]. destruct (Z.leb_spec lo hi); [|lia].
  destruct (Z.leb_spec hi (len s)); [|lia]. reflexivity.
Qed.

Lemma setTime_returns (e : Entry) (a b c : string) now loc :
  returns (setTime e [a; b; c] now loc).
Proof.
  unfold setTime. cbn [elem nth_error bind].
  destruct (Contains c ":").
  - destruct (Time.DateOf now) as [[y m] d]. cbn [bind].
    destruct (Time.ParseInLocation _ _ loc). eexists. reflexivity.
  - destruct (negb (len c =? 4)); [eexists; reflexivity|]. cbn [bind].
    destruct (Time.ParseInLocation _ _ loc). eexists. reflexivity.
Qed.

Lemma finishWithTime_wellFormed (e : Entry) (a b c : string) now loc :
  wellFormed (finishWithTime e [a; b; c] now loc).
Proof.
  unfold finishWithTime. destruct (setTime_returns e a b c now loc) as [[e' [err|]] ->];
    cbn [bind]; auto with wf.
Qed.

#[local] Hint Resolve finishWithTime_wellFormed : wf.

Lemma rfcFacts_wellFormed (facts : list string) (loc : Time.Location) (e : Entry) :
  wellFormed (rfcFacts facts loc e).
Proof.
  revert e. induction facts as [|field facts IH]; intros e; cbn [rfcFacts]; auto with wf.
  destruct (Z.ltb_spec (Index field "=") 1); auto with wf.
  destruct (Index_bound field "=") as [Hb|Hb]; [lia|]. change (len "=") with 1 in Hb.
  rewrite sliceTo_val by lia. cbn [bind].
  rewrite sliceFrom_val by lia. cbn [bind].
  repeat match goal with
         | |- context [if ?b then _ else _] => destruct b
         | |- context [let '(_, _) := ?x in _] => destruct x
         | |- context [match ?x with Some _ => _ | None => _ end] => destruct x
         | |- context [match setSize ?a ?b with _ => _ end] => destruct (setSize a b)
         end; auto with wf.
Qed.

Lemma Index_0_HasPrefix (s sep : string) : Index s sep = 0 -> HasPrefix s sep = true.
Proof.
  rewrite Index_indexNat, indexNat_eq. destruct (HasPrefix s sep); [reflexivity|].
  destruct s; [discriminate|]. destruct (indexNat s sep); simpl; lia.
Qed.

Lemma parseRFC_wellFormed (line : string) now loc :
  wellFormed (parseRFC3659ListLine line now loc).
Proof.
  unfold parseRFC3659ListLine, parseNextRFC3659ListLine.
  destruct (Z.ltb_spec (Index line ";") 0); cbn [orb]; auto with wf.
  destruct (Z.ltb_spec (Index line " ") (Index line ";")); auto with wf.
  destruct (Index_bound line " ") as [Hb|Hb]; [lia|]. change (len " ") with 1 in Hb.
  assert (Hpos : Index line " " <> 0).
  { intros Hw. assert (Hs : Index line ";" = 0) by lia.
    apply Index_0_HasPrefix in Hw, Hs. destruct line as [|c r]; [discriminate|].
    cbn [HasPrefix] in Hw, Hs. apply andb_true_iff in Hw, Hs.
    destruct Hw as [Hw _], Hs as [Hs _]. apply Ascii.eqb_eq in Hw, Hs. congruence. }
  rewrite sliceFrom_val by lia. cbn [bind].
  destruct (_ && _); auto with wf.
  rewrite sliceTo_val by lia. cbn [bind]. apply rfcFacts_wellFormed.
Qed.

Lemma lsShape_returns (line : string) : returns (lsShape line).
Proof.
  unfold lsShape. destruct (IndexByte line " " =? 10); [eexists; reflexivity|].
  destruct (Z.eqb_spec (IndexByte line " ") 11) as [E|]; [|eexists; reflexivity].
  destruct (Index_bound line " ") as [Hb|Hb]; unfold IndexByte in E; [lia|].
  change (len " ") with 1 in Hb.
  destruct (byteAt_returns line 10 ltac:(lia)) as [c ->]. eexists. reflexivity.
Qed.

Lemma splitLink_returns (e : Entry) : returns (splitLink e).
Proof. rewrite splitLink_spec. eexists. reflexivity. Qed.

Lemma lsGeneric_wellFormed (f0 f1 f2 f3 f4 f5 : string) (s1 : scanner) now loc :
  f0 <> "" ->
  wellFormed (lsGenericBranch [f0; f1; f2; f3; f4; f5] s1 now loc).
Proof.
  intros Hf0. unfold lsGenericBranch.
  destruct (NextFields 2 s1) as [two rest] eqn:Htwo.
  pose proof (NextFields_spec _ _ _ _ Htwo) as [Hlen _].
  destruct two as [|f6 [|f7 [|f8 more]]];
    cbn [app List.length Nat.ltb Nat.leb]; auto with wf; [|simpl in Hlen; lia].
  cbn [elem nth_error bind].
  destruct (byteAt_0 f0 Hf0) as (c & r & _ & ->). cbn [bind].
  cbn [subslice firstn skipn app List.length Nat.leb andb bind Nat.sub].
  destruct (Ascii.eqb c "-").
  { destruct (setSize _ f4) as [e [err|]]; auto with wf. }
  destruct (Ascii.eqb c "d"); auto with wf.
  destruct (Ascii.eqb c "l"); auto with wf.
  destruct (splitLink_returns (withType (mkEntry (Remaining rest) "" EntryTypeFile 0 Time.zero)
                                        EntryTypeLink)) as [e ->].
  cbn [bind]. auto with wf.
Qed.

Lemma parseLs_wellFormed (line : string) now loc :
  wellFormed (parseLsListLine line now loc).
Proof.
  unfold parseLsListLine. destruct (lsShape_returns line) as [[|] ->];
    cbn [bind negb]; auto with wf.
  destruct (NextFields 6 (newScanner line)) as [six s1] eqn:Hsix.
  pose proof (NextFields_spec _ _ _ _ Hsix) as [Hlen Hne].
  destruct six as [|f0 [|f1 [|f2 [|f3 [|f4 [|f5 [|f6 more]]]]]]];
    cbn [List.length Nat.ltb Nat.leb]; auto with wf; [|simpl in Hlen; lia].
  cbn [elem nth_error bind].
  destruct (String.eqb f1 "folder" && String.eqb f2 "0").
  { unfold lsFolderBranch. cbn [subslice firstn skipn List.length Nat.leb andb bind Nat.sub].
    auto with wf. }
  destruct (String.eqb f1 "0").
  { unfold lsZeroLinkBranch. destruct (Next s1) as [f s2].
    cbn [app elem nth_error bind].
    destruct (setSize _ f2) as [e [err|]]; auto with wf.
    cbn [subslice firstn skipn app List.length Nat.leb andb bind Nat.sub]. auto with wf. }
  apply lsGeneric_wellFormed. inversion Hne. assumption.
Qed.

Lemma dirTimeLoop_returns (formats : list string) (line : string) loc e err :
  returns (dirTimeLoop formats line loc e err).
Proof.
  revert e err. induction formats as [|format formats IH]; intros e err;
    cbn [dirTimeLoop]; [eexists; reflexivity|].
  destruct (Z.ltb_spec (len format) (len line)); [|apply IH].
  pose proof (len_nonneg format).
  rewrite sliceTo_val by lia. cbn [bind].
  destruct (Time.ParseInLocation format _ loc) as [t [err'|]]; [apply IH|].
  rewrite sliceFrom_val by lia. eexists. reflexivity.
Qed.

Lemma parseDir_wellFormed (line : string) now loc :
  wellFormed (parseDirListLine line now loc).
Proof.
  unfold parseDirListLine.
  destruct (dirTimeLoop_returns dirTimeFormats line loc Entry0 None) as [[[e err] rest] ->].
  cbn [bind]. destruct err; auto with wf.
  destruct (HasPrefix (TrimLeft rest " ") "<DIR>"); auto with wf.
  destruct (Z.eqb_spec (Index (TrimLeft rest " ") " ") (-1)); auto with wf.
  destruct (Index_bound (TrimLeft rest " ") " ") as [Hb|Hb]; [lia|].
  change (len " ") with 1 in Hb.
  rewrite sliceTo_val by lia. cbn [bind].
  destruct (Strconv.ParseUint _ 10) as [size [err|]]; auto with wf.
  rewrite sliceFrom_val by lia. cbn [bind]. auto with wf.
Qed.

Lemma parseHosted_wellFormed (line : string) now loc :
  wellFormed (parseHostedFTPLine line now loc).
Proof.
  unfold parseHostedFTPLine. destruct (negb _); auto with wf.
  destruct (NextFields 2 (newScanner line)) as [[|f0 [|f1 more]] s1];
    cbn [List.length Nat.ltb Nat.leb]; auto with wf.
  cbn [elem nth_error bind]. destruct (negb _); auto with wf.
  apply parseLs_wellFormed.
Qed.

Lemma atoiField_wellFormed (s : string) (lo hi : Z) (k : Z -> result) :
  0 <= lo <= hi -> hi <= len s ->
  (forall x, wellFormed (k x)) -> wellFormed (atoiField s lo hi k).
Proof.
  intros H1 H2 Hk. unfold atoiField. rewrite slice_val by assumption. cbn [bind].
  destruct (Strconv.Atoi _) as [x [err|]]; auto with wf.
Qed.

Lemma HasSuffix_length (s suf : string) :
  HasSuffix s suf = true -> (String.length suf <= String.length s)%nat.
Proof.
  unfold HasSuffix. intros H. apply andb_true_iff in H. destruct H as [H _].
  apply Nat.leb_le in H. exact H.
Qed.

Lemma parseIbm_wellFormed (line : string) now loc :
  wellFormed (parseIbmListLine line now loc).
Proof.
  unfold parseIbmListLine.
  destruct (Next (newScanner line)) as [owner s1].
  destruct (String.eqb owner ""); auto with wf.
  destruct (Next s1) as [sizeStr s2]. destruct (String.eqb sizeStr ""); auto with wf.
  destruct (Next s2) as [dateStr s3].
  destruct (String.eqb dateStr ""); cbn [orb]; auto with wf.
  destruct (Z.eqb_spec (len dateStr) 8) as [Hd|]; cbn [negb]; auto with wf.
  destruct (Next s3) as [timeStr s4].
  destruct (String.eqb timeStr ""); cbn [orb]; auto with wf.
  destruct (Z.eqb_spec (len timeStr) 8) as [Ht|]; cbn [negb]; auto with wf.
  destruct (Next s4) as [fileType s5]. destruct (String.eqb fileType ""); auto with wf.
  destruct (String.eqb (TrimLeft (Remaining s5) " ") ""); auto with wf.
  destruct (Strconv.ParseUint sizeStr 10) as [size [err|]]; auto with wf.
  repeat (apply atoiField_wellFormed; [lia|lia|intros ?]).
  destruct (String.eqb fileType "*DIR"); auto with wf.
  destruct (HasSuffix _ "/") eqn:Hs; auto with wf.
  apply HasSuffix_length in Hs. simpl in Hs.
  rewrite sliceTo_val by (unfold len; lia). cbn [bind]. auto with wf.
Qed.

Lemma tryParsers_wellFormed (parsers : list parseFunc) (line : string) now loc :
  Forall (fun f => forall line now loc, wellFormed (f line now loc)) parsers ->
  wellFormed (tryParsers parsers line now loc).
Proof.
  induction 1 as [|f parsers Hf _ IH]; cbn [tryParsers]; auto with wf.
  destruct (Hf line now loc) as [[e err] [-> Hwf]]. cbn [bind].
  destruct (isUnsupported err); cbn [negb]; [exact IH|].
  exists (e, err). split; [reflexivity|exact Hwf].
Qed.

(** The chain never panics, and it returns a record or an error, never
    both and never neither. *)
Lemma parseListLine_wellFormed (line : string) now loc :
  wellFormed (parseListLine line now loc).
Proof.
  apply tryParsers_wellFormed. repeat constructor.
  - apply parseRFC_wellFormed.
  - apply parseLs_wellFormed.
  - apply parseDir_wellFormed.
  - apply parseHosted_wellFormed.
  - apply parseIbm_wellFormed.
Qed.

(** ** Lines shorter than every DIR time format *)

Tactic Notation "prefixes_fail" integer(k) :=
  repeat constructor; intros n;
  do k (destruct n as [|n]; [vm_compute; discriminate|]);
  rewrite take_all by (simpl; lia); vm_compute; discriminate.

(** C5 (the code departs from the claim).  No time format parses any prefix
    of ["<DIR> foo"], a line shorter than every format, and still the DOS-DIR
    recognizer returns a record, whose time is the zero time: no format was
    tried, so [err] was never set.  The same happens on every line of at
    most 17 bytes: the loop over the formats ends with no error and the
    zero time. *)
Theorem parseDirListLine_short_line (now : Time.Time) (loc : Time.Location) :
  noDirTime "<DIR> foo"
  /\ parseDirListLine "<DIR> foo" now loc
     = ret (mkEntry "foo" "" EntryTypeFolder 0 Time.zero)
  /\ (forall line, len line <= 17 ->
      dirTimeLoop dirTimeFormats line loc Entry0 None = Val (Entry0, None, line)).
Proof.
  split; [prefixes_fail 9|]. split; [vm_compute; reflexivity|].
  intros line Hlen. cbn [dirTimeLoop dirTimeFormats].
  repeat match goal with
         | |- context [len ?f <? len line] =>
             let v := eval vm_compute in (len f) in
             change (len f) with v; destruct (Z.ltb_spec v (len line)); [lia|]
         end.
  reflexivity.
Qed.

(** C8 (the code departs from the claim).  No recognizer panics and the
    chain returns a record or an error, never both and never neither; the
    empty line and ["total 1"] are reported as unrecognized.  The line ["1 total"] meets no recognizer's
    structural precondition either (no semicolon, no field of 10 or 11 bytes,
    no DIR time, no third token), yet the chain returns a record for it, with
    the zero time: the DOS-DIR recognizer tried no format on so short a line
    and went on as if one had parsed. *)
Theorem parseListLine_exhaustion_short_line (now : Time.Time) (loc : Time.Location) :
  (forall line, wellFormed (parseListLine line now loc))
  /\ parseListLine "" now loc = fail errUnsupportedListLine
  /\ parseListLine "total 1" now loc = fail errUnsupportedListLine
  /\ parseRFC3659ListLine "1 total" now loc = fail errUnsupportedListLine
  /\ parseLsListLine "1 total" now loc = fail errUnsupportedListLine
  /\ parseHostedFTPLine "1 total" now loc = fail errUnsupportedListLine
  /\ parseIbmListLine "1 total" now loc = fail errUnsupportedListLine
  /\ noDirTime "1 total"
  /\ parseListLine "1 total" now loc
     = ret (mkEntry "total" "" EntryTypeFile 1 Time.zero).
Proof.
  split; [intros line; apply parseListLine_wellFormed|].
  repeat match goal with |- _ /\ _ => split end;
    lazymatch goal with
    | |- noDirTime _ => prefixes_fail 7
    | |- _ => vm_compute; reflexivity
    end.
Qed.

(** Witness of [parseDirListLine_short_line]: the loop over the formats on
    the 9-byte line ["<DIR> foo"]. *)
Lemma parseDirListLine_short_line_witness :
  len "<DIR> foo" <= 17
  /\ dirTimeLoop dirTimeFormats "<DIR> foo" Time.UTC Entry0 None
     = Val (Entry0, None, "<DIR> foo").
Proof.
  assert (H : len "<DIR> foo" <= 17) by (vm_compute; discriminate).
  split; [exact H|].
  exact (proj2 (proj2 (parseDirListLine_short_line testNow Time.UTC)) "<DIR> foo" H).
Defined.

(** * Further properties *)

(** ** Sizes are unsigned 64-bit numbers *)

Lemma parseDigits_bound (base : Z) (base0 : bool) (s : string) (n m : Z) (us us' : bool) :
  0 <= n <= Strconv.maxUint64 ->
  Strconv.parseDigits base base0 s n us = (Some (m, false), us') ->
  0 <= m <= Strconv.maxUint64.
Proof.
  revert n us. induction s as [|c s IH]; intros n us Hn; cbn [Strconv.parseDigits].
  - intros [= <- _]. exact Hn.
  - destruct (Ascii.eqb c "_" && base0); [apply IH; exact Hn|].
    set (d := if Strconv.isDec c then Some (Strconv.byteVal c - 48)
              else if (97 <=? Strconv.lower c) && (Strconv.lower c <=? 122)
                   then Some (Strconv.lower c - 97 + 10) else None).
    assert (Hd : forall x, d = Some x -> 0 <= x).
    { unfold d, Strconv.isDec. intros x.
      destruct (Z.leb_spec 48 (Strconv.byteVal c)); cbn [andb].
      - destruct (Strconv.byteVal c <=? 57); [intros [= <-]; lia|].
        destruct (Z.leb_spec 97 (Strconv.lower c)); cbn [andb]; [|discriminate].
        destruct (Strconv.lower c <=? 122); [intros [= <-]; lia|discriminate].
      - destruct (Z.leb_spec 97 (Strconv.lower c)); cbn [andb]; [|discriminate].
        destruct (Strconv.lower c <=? 122); [intros [= <-]; lia|discriminate]. }
    destruct d as [x|]; [|discriminate]. specialize (Hd x eq_refl).
    destruct (Z.leb_spec base x); [discriminate|].
    destruct (Strconv.maxUint64 / base + 1 <=? n); [discriminate|].
    destruct (Z.ltb_spec Strconv.maxUint64 (n * base + x)); [discriminate|].
    apply IH. nia.
Qed.

(** A size accepted by [ParseUint] fits 64 bits. *)
Lemma ParseUint_bound (s : string) (base n : Z) :
  Strconv.ParseUint s base = (n, None) -> 0 <= n <= Strconv.maxUint64.
Proof.
  unfold Strconv.ParseUint. destruct s as [|c0 rest]; [discriminate|].
  match goal with
  | |- (let '(b, digits) := ?x in _) = _ -> _ => destruct x as [b digits]
  end.
  destruct (Strconv.parseDigits b (base =? 0) digits 0 false) as [[[m [|]]|] us] eqn:E;
    try discriminate.
  destruct (us && negb (Strconv.underscoreOK (String c0 rest))); [discriminate|].
  intros [= <-].
  eapply parseDigits_bound; [|exact E].
  unfold Strconv.maxUint64. lia.
Qed.

(** ** Times are in the caller's location *)

Lemma ParseInLocation_loc (layout value : string) (l : Time.Location) (t : Time.Time) :
  Time.ParseInLocation layout value l = (t, None) -> Time.loc t = l.
Proof.
  intros H. destruct (ParseInLocation_civil _ _ _ _ H) as (y & m & d & hh & mm & ss & ns & -> & _).
  reflexivity.
Qed.

Lemma AddDate_loc (t : Time.Time) (y m d : Z) : Time.loc (Time.AddDate t y m d) = Time.loc t.
Proof.
  unfold Time.AddDate. destruct (Time.DateOf t) as [[? ?] ?].
  destruct (Time.ClockOf t) as [[? ?] ?]. reflexivity.
Qed.

Lemma setTime_loc (e e' : Entry) (fields : list string) now loc :
  setTime e fields now loc = Val (e', None) -> Time.loc (Time_ e') = loc.
Proof.
  unfold setTime. destruct (elem fields 2) as [f2|]; [|discriminate]. cbn [bind].
  destruct (Contains f2 ":").
  - destruct (Time.DateOf now) as [[y m] d].
    destruct (elem fields 1) as [f1|]; [|discriminate].
    destruct (elem fields 0) as [f0|]; [|discriminate]. cbn [bind].
    destruct (Time.ParseInLocation _ _ loc) as [t err] eqn:E.
    intros [= <- ->]. cbn [Time_ withTime]. apply ParseInLocation_loc in E.
    destruct (Time.Before t _); cbn [negb]; [exact E|]. rewrite AddDate_loc. exact E.
  - destruct (negb (len f2 =? 4)); [discriminate|].
    destruct (elem fields 1) as [f1|]; [|discriminate].
    destruct (elem fields 0) as [f0|]; [|discriminate]. cbn [bind].
    destruct (Time.ParseInLocation _ _ loc) as [t err] eqn:E.
    intros [= <- ->]. cbn [Time_ withTime]. exact (ParseInLocation_loc _ _ _ _ E).
Qed.

Lemma finishWithTime_inv (e e' : Entry) (date : list string) now loc :
  finishWithTime e date now loc = ret e' ->
  Name e' = Name e /\ Target e' = Target e /\ Type_ e' = Type_ e /\ Size e' = Size e
  /\ Time.loc (Time_ e') = loc.
Proof.
  intros H. destruct (finishWithTime_fields _ _ _ _ _ H) as (Hn & Ht & Hty & Hs).
  repeat split; try assumption.
  unfold finishWithTime in H.
  destruct (setTime e date now loc) as [[e1 [err|]]|] eqn:E; cbn [bind] in H;
    try discriminate H.
  injection H as <-. exact (setTime_loc _ _ _ _ _ E).
Qed.

(** ** What a record of the Unix-ls recognizer looks like *)

Lemma parseLs_shape (line : string) (now : Time.Time) (loc : Time.Location) (e : Entry) :
  parseLsListLine line now loc = ret e ->
  Time.loc (Time_ e) = loc
  /\ 0 <= Size e <= Strconv.maxUint64
  /\ (Type_ e <> EntryTypeFile -> Size e = 0)
  /\ (Type_ e <> EntryTypeLink -> Target e = "").
Proof.
  intros H. unfold parseLsListLine in H.
  destruct (lsShape line) as [[|]|]; cbn [bind negb] in H; try discriminate H.
  destruct (NextFields 6 (newScanner line)) as [six s1] eqn:Hsix.
  pose proof (NextFields_spec _ _ _ _ Hsix) as [Hlen Hne].
  destruct six as [|f0 [|f1 [|f2 [|f3 [|f4 [|f5 [|f6 more]]]]]]];
    cbn [List.length Nat.ltb Nat.leb] in H; try discriminate H;
    [|simpl in Hlen; lia].
  cbn [elem nth_error bind] in H.
  assert (Hmax : 0 <= 0 <= Strconv.maxUint64) by (unfold Strconv.maxUint64; lia).
  destruct (String.eqb f1 "folder" && String.eqb f2 "0").
  { unfold lsFolderBranch in H. cbn [subslice List.length Nat.leb andb bind] in H.
    apply finishWithTime_inv in H. cbn [Name Target Type_ Size] in H.
    destruct H as (_ & Ht & Hty & Hs & Hl). rewrite Hs, Ht. auto. }
  destruct (String.eqb f1 "0").
  { unfold lsZeroLinkBranch in H. destruct (Next s1) as [f s2].
    cbn [app elem nth_error bind] in H. rewrite setSize_eq in H.
    destruct (Strconv.ParseUint f2 0) as [n [err|]] eqn:En; cbn [fst snd] in H;
      [discriminate H|].
    cbn [subslice app List.length Nat.leb andb bind] in H.
    apply finishWithTime_inv in H. cbn [Name Target Type_ Size withSize] in H.
    destruct H as (_ & Ht & Hty & Hs & Hl). rewrite Hs, Ht, Hty.
    apply ParseUint_bound in En. repeat split; try assumption; try lia; congruence. }
  unfold lsGenericBranch in H.
  destruct (NextFields 2 s1) as [two rest] eqn:Htwo.
  pose proof (NextFields_spec _ _ _ _ Htwo) as [Hlen2 _].
  destruct two as [|f6 [|f7 [|f8 more]]];
    cbn [app List.length Nat.ltb Nat.leb] in H; try discriminate H;
    [|simpl in Hlen2; lia].
  cbn [elem nth_error bind] in H.
  destruct (byteAt f0 0) as [c|]; cbn [bind] in H; [|discriminate H].
  destruct (Ascii.eqb c "-").
  { cbn [elem nth_error bind] in H. rewrite setSize_eq in H.
    destruct (Strconv.ParseUint f4 0) as [n [err|]] eqn:En; cbn [fst snd] in H;
      [discriminate H|].
    cbn [subslice firstn skipn app List.length Nat.leb andb bind Nat.sub] in H.
    apply finishWithTime_inv in H. cbn [Name Target Type_ Size withSize withType] in H.
    destruct H as (_ & Ht & Hty & Hs & Hl). rewrite Hs, Ht, Hty.
    apply ParseUint_bound in En. repeat split; try assumption; try lia; congruence. }
  destruct (Ascii.eqb c "d").
  { cbn [subslice firstn skipn app List.length Nat.leb andb bind Nat.sub] in H.
    apply finishWithTime_inv in H. cbn [Name Target Type_ Size withType] in H.
    destruct H as (_ & Ht & Hty & Hs & Hl). rewrite Hs, Ht. auto. }
  destruct (Ascii.eqb c "l"); [|discriminate H].
  rewrite splitLink_spec in H. cbn [bind] in H.
  cbn [subslice firstn skipn app List.length Nat.leb andb bind Nat.sub] in H.
  apply finishWithTime_inv in H.
  destruct H as (_ & Ht & Hty & Hs & Hl).
  assert (Hs0 : Size e = 0).
  { rewrite Hs. destruct (0 <? _); reflexivity. }
  assert (Hty0 : Type_ e = EntryTypeLink).
  { rewrite Hty. destruct (0 <? _); reflexivity. }
  rewrite Hs0. repeat split; try assumption; try lia; congruence.
Qed.

(** X1: a record returned by the Unix-ls recognizer has its time in the
    caller's location and a size that fits 64 bits; only a file has a size
    and only a symbolic link has a target. *)
Theorem parseLsListLine_result (line : string) (now : Time.Time) (loc : Time.Location)
    (e : Entry) :
  parseLsListLine line now loc = ret e ->
  Time.loc (Time_ e) = loc
  /\ 0 <= Size e <= Strconv.maxUint64
  /\ (Type_ e <> EntryTypeFile -> Size e = 0)
  /\ (Type_ e <> EntryTypeLink -> Target e = "").
Proof. apply parseLs_shape. Qed.

Lemma parseLsListLine_result_witness :
  let e := mkEntry "bin" "usr/bin" EntryTypeLink 0 (Time.Date 2017 1 25 0 17 0 0 Time.UTC) in
  parseLsListLine lineLink testNow Time.UTC = ret e
  /\ Time.loc (Time_ e) = Time.UTC
  /\ 0 <= Size e <= Strconv.maxUint64
  /\ (Type_ e <> EntryTypeFile -> Size e = 0)
  /\ (Type_ e <> EntryTypeLink -> Target e = "").
Proof.
  intros e. assert (H : parseLsListLine lineLink testNow Time.UTC = ret e)
    by (vm_compute; reflexivity).
  split; [exact H|]. exact (parseLsListLine_result _ _ _ _ H).
Defined.

(** ** What the DOS-DIR recognizer returns *)

Lemma TrimLeft_blank (s : string) : HasPrefix (TrimLeft s " ") " " = false.
Proof.
  induction s as [|c s IH]; [reflexivity|]. cbn [TrimLeft inCutset].
  rewrite orb_false_r. destruct (Ascii.eqb c " ") eqn:E; [exact IH|].
  cbn [HasPrefix]. rewrite Ascii.eqb_sym, E. reflexivity.
Qed.

(** The loop over the time formats touches the time only; when it ends
    without an error either a format has parsed, or no format was short
    enough to be tried and nothing has changed. *)
Lemma dirTimeLoop_inv (formats : list string) (line : string) (loc : Time.Location)
    (e e' : Entry) (err err' : option error) (rest : string) :
  dirTimeLoop formats line loc e err = Val (e', err', rest) ->
  Name e' = Name e /\ Target e' = Target e /\ Type_ e' = Type_ e /\ Size e' = Size e
  /\ (err' = None ->
      Time.loc (Time_ e') = loc
      \/ (err = None /\ Forall (fun f => len line <= len f) formats
          /\ e' = e /\ rest = line)).
Proof.
  revert e err. induction formats as [|format formats IH]; intros e err;
    cbn [dirTimeLoop].
  - intros [= <- <- <-]. repeat split. intros E. right. repeat split; auto.
  - destruct (Z.ltb_spec (len format) (len line)) as [Hlt|Hge].
    + pose proof (len_nonneg format).
      rewrite sliceTo_val by lia. cbn [bind].
      destruct (Time.ParseInLocation format _ loc) as [t [perr|]] eqn:Ep.
      * intros H1. destruct (IH _ _ H1) as (Hn & Ht & Hty & Hs & Hl).
        cbn [Name Target Type_ Size withTime] in *. repeat split; try assumption.
        intros E. destruct (Hl E) as [Hloc|(Hc & _)]; [left; exact Hloc|discriminate Hc].
      * rewrite sliceFrom_val by lia. cbn [bind]. intros [= <- <- <-].
        cbn [Name Target Type_ Size Time_ withTime]. repeat split.
        intros _. left. exact (ParseInLocation_loc _ _ _ _ Ep).
    + intros H1. destruct (IH _ _ H1) as (Hn & Ht & Hty & Hs & Hl).
      repeat split; try assumption.
      intros E. destruct (Hl E) as [Hloc|(Hc & Hall & He & Hr)]; [left; exact Hloc|].
      right. repeat split; try assumption. constructor; assumption.
Qed.

(** X2: the DOS-DIR recognizer has one error only, the sentinel that sends
    the chain on to the next recognizer: a size that does not parse, or a
    line that ends after its size, is never reported as such. *)
Theorem parseDirListLine_error (line : string) (now : Time.Time) (loc : Time.Location)
    (e : option Entry) (err : error) :
  parseDirListLine line now loc = Val (e, Some err) ->
  err = errUnsupportedListLine /\ e = None.
Proof.
  unfold parseDirListLine.
  destruct (dirTimeLoop dirTimeFormats line loc Entry0 None) as [[[e1 err1] rest]|];
    cbn [bind]; [|discriminate].
  destruct err1; [intros [= <- <-]; auto|].
  destruct (HasPrefix (TrimLeft rest " ") "<DIR>"); [discriminate|].
  destruct (Index (TrimLeft rest " ") " " =? -1); [intros [= <- <-]; auto|].
  destruct (sliceTo _ _) as [tok|]; cbn [bind]; [|discriminate].
  destruct (Strconv.ParseUint tok 10) as [n [perr|]]; [intros [= <- <-]; auto|].
  destruct (sliceFrom _ _); cbn [bind]; discriminate.
Qed.

Lemma parseDirListLine_error_witness :
  parseDirListLine "08-07-15  07:50PM   7x name" testNow Time.UTC
  = Val (None, Some errUnsupportedListLine)
  /\ errUnsupportedListLine = errUnsupportedListLine /\ @None Entry = None.
Proof.
  assert (H : parseDirListLine "08-07-15  07:50PM   7x name" testNow Time.UTC
              = Val (None, Some errUnsupportedListLine)) by (vm_compute; reflexivity).
  split; [exact H|]. exact (parseDirListLine_error _ _ _ _ _ H).
Defined.

Lemma parseDir_shape (line : string) (now : Time.Time) (loc : Time.Location) (e : Entry) :
  parseDirListLine line now loc = ret e ->
  Target e = ""
  /\ Type_ e <> EntryTypeLink
  /\ (Type_ e = EntryTypeFolder -> Size e = 0)
  /\ 0 <= Size e <= Strconv.maxUint64
  /\ HasPrefix (Name e) " " = false
  /\ (Time.loc (Time_ e) = loc \/ (len line <= 17 /\ Time_ e = Time.zero)).
Proof.
  unfold parseDirListLine.
  destruct (dirTimeLoop dirTimeFormats line loc Entry0 None) as [[[e1 err1] rest]|] eqn:El;
    cbn [bind]; [|discriminate].
  destruct (dirTimeLoop_inv _ _ _ _ _ _ _ _ El) as (Hn & Ht & Hty & Hs & Hl).
  cbn [Name Target Type_ Size Entry0] in Hn, Ht, Hty, Hs.
  destruct err1; [discriminate|]. specialize (Hl eq_refl).
  assert (Hloc : Time.loc (Time_ e1) = loc \/ (len line <= 17 /\ Time_ e1 = Time.zero)).
  { destruct Hl as [Hl|(_ & Hall & -> & _)]; [left; exact Hl|right].
    inversion Hall as [|f fs Hf _]; subst. change (len "01-02-06  03:04PM") with 17 in Hf.
    split; [exact Hf|reflexivity]. }
  assert (Hmax : 0 <= 0 <= Strconv.maxUint64) by (unfold Strconv.maxUint64; lia).
  destruct (HasPrefix (TrimLeft rest " ") "<DIR>").
  { intros [= <-]. cbn [Name Target Type_ Size Time_ withName withType].
    rewrite Ht, Hs. repeat split; try assumption; try discriminate.
    apply TrimLeft_blank. }
  destruct (Index (TrimLeft rest " ") " " =? -1); [discriminate|].
  destruct (sliceTo _ _) as [tok|]; cbn [bind]; [|discriminate].
  destruct (Strconv.ParseUint tok 10) as [n [perr|]] eqn:En; [discriminate|].
  destruct (sliceFrom _ _) as [rest'|]; cbn [bind]; [|discriminate].
  intros [= <-]. cbn [Name Target Type_ Size Time_ withName withType withSize].
  apply ParseUint_bound in En. rewrite Ht.
  repeat split; try assumption; try discriminate; try lia.
  apply TrimLeft_blank.
Qed.

(** X3: a record of the DOS-DIR recognizer is a folder of size 0 or a file
    with a 64-bit size, never a symbolic link; it has no target and its name
    does not start with a blank.  Its time is in the caller's location, unless
    the line has at most 17 bytes: then it is the zero time. *)
Theorem parseDirListLine_result (line : string) (now : Time.Time) (loc : Time.Location)
    (e : Entry) :
  parseDirListLine line now loc = ret e ->
  Target e = ""
  /\ Type_ e <> EntryTypeLink
  /\ (Type_ e = EntryTypeFolder -> Size e = 0)
  /\ 0 <= Size e <= Strconv.maxUint64
  /\ HasPrefix (Name e) " " = false
  /\ (Time.loc (Time_ e) = loc \/ (len line <= 17 /\ Time_ e = Time.zero)).
Proof. apply parseDir_shape. Qed.

Lemma parseDirListLine_result_witness :
  let e := mkEntry "name" "" EntryTypeFile 1234 (Time.Date 2015 8 7 19 50 0 0 Time.UTC) in
  parseDirListLine "08-07-15  07:50PM   1234 name" testNow Time.UTC = ret e
  /\ Target e = ""
  /\ Type_ e <> EntryTypeLink
  /\ (Type_ e = EntryTypeFolder -> Size e = 0)
  /\ 0 <= Size e <= Strconv.maxUint64
  /\ HasPrefix (Name e) " " = false
  /\ (Time.loc (Time_ e) = Time.UTC
      \/ (len "08-07-15  07:50PM   1234 name" <= 17 /\ Time_ e = Time.zero)).
Proof.
  intros e.
  assert (H : parseDirListLine "08-07-15  07:50PM   1234 name" testNow Time.UTC = ret e)
    by (vm_compute; reflexivity).
  split; [exact H|]. exact (parseDirListLine_result _ _ _ _ H).
Defined.

(** ** What the vendor fixed-column recognizer returns *)

Lemma take_blank (n : nat) (s : string) :
  HasPrefix s " " = false -> HasPrefix (take n s) " " = false.
Proof.
  destruct s as [|c s]; destruct n as [|n]; try reflexivity.
  cbn [take HasPrefix]. destruct (Ascii.eqb " " c); cbn [andb]; [|reflexivity].
  destruct s; destruct (take n _); auto.
Qed.

Lemma atoiField_inv (s : string) (lo hi : Z) (k : Z -> result) (r : option Entry * option error) :
  atoiField s lo hi k = Val r ->
  (exists err, r = (None, Some err) /\ (err = NumErrSyntax \/ err = NumErrRange))
  \/ (exists x, k x = Val r).
Proof.
  unfold atoiField. destruct (slice s lo hi) as [p|]; cbn [bind]; [|discriminate].
  destruct (Strconv.Atoi p) as [x [err|]] eqn:E.
  - intros [= <-]. left. exists err. split; [reflexivity|].
    unfold Strconv.Atoi in E. destruct p as [|c rest]; [injection E as _ <-; auto|].
    destruct (_ && _); [injection E as _ <-; auto|].
    destruct (Strconv.atoiDigits _ 0); [discriminate E|injection E as _ <-; auto].
  - intros H. right. exists x. exact H.
Qed.

(** The outcomes of the vendor recognizer: the sentinel, a number that does
    not parse, or a record built from the six numbers of the date and time. *)
Lemma parseIbm_inv (line : string) now loc (r : option Entry * option error) :
  parseIbmListLine line now loc = Val r ->
  r = (None, Some errUnsupportedListLine)
  \/ r = (None, Some NumErrSyntax)
  \/ r = (None, Some NumErrRange)
  \/ exists name ty size year month day hour min sec,
       r = (Some (mkEntry name "" ty size (Time.Date year month day hour min sec 0 loc)), None)
       /\ HasPrefix name " " = false
       /\ ty <> EntryTypeLink
       /\ 0 <= size <= Strconv.maxUint64.
Proof.
  unfold parseIbmListLine.
  destruct (Next (newScanner line)) as [owner s1].
  destruct (String.eqb owner ""); [intros [= <-]; auto|].
  destruct (Next s1) as [sizeStr s2].
  destruct (String.eqb sizeStr ""); [intros [= <-]; auto|].
  destruct (Next s2) as [dateStr s3].
  destruct (String.eqb dateStr "" || negb (len dateStr =? 8)); [intros [= <-]; auto|].
  destruct (Next s3) as [timeStr s4].
  destruct (String.eqb timeStr "" || negb (len timeStr =? 8)); [intros [= <-]; auto|].
  destruct (Next s4) as [fileType s5].
  destruct (String.eqb fileType ""); [intros [= <-]; auto|].
  destruct (String.eqb (TrimLeft (Remaining s5) " ") ""); [intros [= <-]; auto|].
  destruct (Strconv.ParseUint sizeStr 10) as [size [err|]] eqn:En.
  { intros [= <-]. destruct (ParseUint_error _ _ _ _ En) as [-> | ->]; auto. }
  apply ParseUint_bound in En.
  intros H.
  repeat (apply atoiField_inv in H;
          destruct H as [(err & -> & [-> | ->])|[? H]]; [auto|auto|]).
  pose proof (TrimLeft_blank (Remaining s5)) as Hb.
  destruct (String.eqb fileType "*DIR").
  - destruct (HasSuffix _ "/").
    + destruct (sliceTo _ _) as [name|] eqn:Es; cbn [bind] in H; [|discriminate H].
      injection H as <-. do 3 right. do 9 eexists. split; [reflexivity|].
      repeat split; try assumption; try discriminate; try lia.
      unfold sliceTo, slice in Es. destruct (_ && _); [|discriminate Es].
      injection Es as <-. apply take_blank. exact Hb.
    + injection H as <-. do 3 right. do 9 eexists. split; [reflexivity|].
      repeat split; try assumption; try discriminate; lia.
  - injection H as <-. do 3 right. do 9 eexists. split; [reflexivity|].
    repeat split; try assumption; try discriminate; lia.
Qed.

(** X4: the vendor recognizer reports the sentinel or the error of a number
    that does not parse, and nothing else: it has no error for a date or a
    time of day that does not exist. *)
Theorem parseIbmListLine_error (line : string) (now : Time.Time) (loc : Time.Location)
    (e : option Entry) (err : error) :
  parseIbmListLine line now loc = Val (e, Some err) ->
  e = None /\ (err = errUnsupportedListLine \/ err = NumErrSyntax \/ err = NumErrRange).
Proof.
  intros H. apply parseIbm_inv in H.
  destruct H as [H|[H|[H|H]]]; try (injection H as -> ->; auto).
  destruct H as (? & ? & ? & ? & ? & ? & ? & ? & ? & H & _). discriminate H.
Qed.

Lemma parseIbmListLine_error_witness :
  parseIbmListLine "OWNER 12288 13/0x/25 13:26:12 *DIR .deleted/" testNow Time.UTC
  = Val (None, Some NumErrSyntax)
  /\ @None Entry = None
  /\ (NumErrSyntax = errUnsupportedListLine \/ NumErrSyntax = NumErrSyntax
      \/ NumErrSyntax = NumErrRange).
Proof.
  assert (H : parseIbmListLine "OWNER 12288 13/0x/25 13:26:12 *DIR .deleted/" testNow Time.UTC
              = Val (None, Some NumErrSyntax)) by (vm_compute; reflexivity).
  split; [exact H|]. exact (parseIbmListLine_error _ _ _ _ _ H).
Defined.

(** X5: a record of the vendor recognizer is a file or a folder without
    target, with a 64-bit size, a name that does not start with a blank and a
    time of whole seconds in the caller's location. *)
Theorem parseIbmListLine_result (line : string) (now : Time.Time) (loc : Time.Location)
    (e : Entry) :
  parseIbmListLine line now loc = ret e ->
  Target e = ""
  /\ Type_ e <> EntryTypeLink
  /\ 0 <= Size e <= Strconv.maxUint64
  /\ HasPrefix (Name e) " " = false
  /\ Time.loc (Time_ e) = loc
  /\ Time.nsec (Time_ e) = 0.
Proof.
  intros H. apply parseIbm_inv in H.
  destruct H as [H|[H|[H|H]]]; try discriminate H.
  destruct H as (name & ty & size & y & m & d & hh & mi & ss & H & Hb & Hty & Hs).
  injection H as ->. cbn [Name Target Type_ Size Time_ Time.Date Time.loc Time.nsec].
  repeat split; try assumption; lia.
Qed.

Lemma parseIbmListLine_result_witness :
  let e := mkEntry ".deleted" "" EntryTypeFolder 12288
                   (Time.Date 2025 5 13 13 26 12 0 Time.UTC) in
  parseIbmListLine ibmLine testNow Time.UTC = ret e
  /\ Target e = ""
  /\ Type_ e <> EntryTypeLink
  /\ 0 <= Size e <= Strconv.maxUint64
  /\ HasPrefix (Name e) " " = false
  /\ Time.loc (Time_ e) = Time.UTC
  /\ Time.nsec (Time_ e) = 0.
Proof.
  intros e. assert (H : parseIbmListLine ibmLine testNow Time.UTC = ret e)
    by (vm_compute; reflexivity).
  split; [exact H|]. exact (parseIbmListLine_result _ _ _ _ H).
Defined.

(** *** Lines made of well-formed tokens *)

Lemma Contains_blank_cons (c : ascii) (w : string) :
  Contains (String c w) " " = Ascii.eqb c " " || Contains w " ".
Proof.
  unfold Contains. rewrite !Index_indexNat, indexNat_eq. cbn [HasPrefix].
  rewrite (Ascii.eqb_sym " " c). destruct (Ascii.eqb c " ").
  - destruct w; reflexivity.
  - replace (HasPrefix w "") with true by (destruct w; reflexivity).
    cbn [andb orb]. destruct (indexNat w " "); cbn [option_map]; zbool.
Qed.

Lemma token_word (w rest : string) :
  Contains w " " = false -> token (w ++ String " " rest) = (w, rest).
Proof.
  induction w as [|c w IH]; intros H; [reflexivity|].
  rewrite Contains_blank_cons in H. apply orb_false_iff in H. destruct H as [Hc Hw].
  cbn [append token]. rewrite Hc, (IH Hw). reflexivity.
Qed.

(** A word followed by a blank is the next token, and the scanner moves
    past that blank. *)
Lemma Next_word (w rest : string) :
  w <> "" -> Contains w " " = false -> Next (w ++ String " " rest) = (w, rest).
Proof.
  intros Hne H. unfold Next. destruct w as [|c w]; [congruence|].
  pose proof H as H'. rewrite Contains_blank_cons in H'. apply orb_false_iff in H'.
  destruct H' as [Hc _].
  replace (TrimLeft (String c w ++ String " " rest) " ") with (String c w ++ String " " rest).
  - apply token_word. exact H.
  - cbn [append TrimLeft inCutset]. rewrite Hc. reflexivity.
Qed.

Lemma pad2_digits (n : Z) :
  0 <= n <= 99 ->
  pad2 n = String (Time.digitChar (n / 10)) (String (Time.digitChar (n mod 10)) "").
Proof.
  intros H. unfold pad2, Time.itoa.
  destruct (Z.ltb_spec n 0); [lia|]. cbn [Time.utoa].
  destruct (Z.ltb_spec n 10).
  - replace (n / 10) with 0 by (Z.div_mod_to_equations; lia). reflexivity.
  - destruct (Z.ltb_spec (n / 10) 10); [|Z.div_mod_to_equations; lia].
    replace (n / 10 mod 10) with (n / 10) by (Z.div_mod_to_equations; lia). reflexivity.
Qed.

Lemma Atoi_digits (a b : Z) :
  0 <= a <= 9 -> 0 <= b <= 9 ->
  Strconv.Atoi (String (Time.digitChar a) (String (Time.digitChar b) "")) = (10 * a + b, None).
Proof.
  intros Ha Hb.
  destruct (digitChar_spec _ Ha) as (Da & Va & _ & Ma & Pa).
  destruct (digitChar_spec _ Hb) as (Db & Vb & _).
  unfold Strconv.Atoi. rewrite Ma, Pa. cbn [orb andb Strconv.atoiDigits].
  rewrite Da, Db, Va, Vb. f_equal. lia.
Qed.

Lemma ibmToken_word (a b c : Z) (s1 s2 : ascii) :
  0 <= a <= 99 -> 0 <= b <= 99 -> 0 <= c <= 99 -> s1 <> " "%char -> s2 <> " "%char ->
  ibmToken a s1 b s2 c <> "" /\ Contains (ibmToken a s1 b s2 c) " " = false
  /\ len (ibmToken a s1 b s2 c) = 8.
Proof.
  intros Ha Hb Hc H1 H2. unfold ibmToken. rewrite !pad2_digits by assumption.
  cbn [append]. split; [discriminate|]. split; [|reflexivity].
  apply Ascii.eqb_neq in H1, H2.
  assert (D : forall k, 0 <= k <= 99 ->
                        Ascii.eqb (Time.digitChar (k / 10)) " " = false
                        /\ Ascii.eqb (Time.digitChar (k mod 10)) " " = false).
  { intros k Hk. split; apply digitChar_spec; Z.div_mod_to_equations; lia. }
  destruct (D a Ha) as [A1 A0], (D b Hb) as [B1 B0], (D c Hc) as [C1 C0].
  rewrite !Contains_blank_cons, A1, A0, B1, B0, C1, C0, H1, H2. reflexivity.
Qed.

Lemma ibmToken_fields (a b c : Z) (s1 s2 : ascii) (k : Z -> Z -> Z -> result) :
  0 <= a <= 99 -> 0 <= b <= 99 -> 0 <= c <= 99 ->
  atoiField (ibmToken a s1 b s2 c) 0 2 (fun x =>
  atoiField (ibmToken a s1 b s2 c) 3 5 (fun y =>
  atoiField (ibmToken a s1 b s2 c) 6 8 (fun z => k x y z)))
  = k a b c.
Proof.
  intros Ha Hb Hc. unfold ibmToken. rewrite !pad2_digits by assumption. cbn [append].
  assert (E : forall n, 0 <= n <= 99 ->
                Strconv.Atoi (String (Time.digitChar (n / 10))
                                (String (Time.digitChar (n mod 10)) "")) = (n, None)).
  { intros n Hn. rewrite Atoi_digits by (Z.div_mod_to_equations; lia).
    f_equal. Z.div_mod_to_equations; lia. }
  unfold atoiField, slice.
  change (len (String ?c1 (String ?c2 (String ?c3 (String ?c4 (String ?c5
            (String ?c6 (String ?c7 (String ?c8 "")))))))))
    with 8.
  cbn [Z.leb Z.compare Pos.compare Pos.compare_cont andb Z.sub Z.opp Z.add Z.pos_sub
       Pos.pred_double Z.to_nat Pos.to_nat Pos.iter_op Nat.add take drop bind
       Z.succ_double Z.pred_double Z.double].
  change (Pos.to_nat 2) with 2%nat. change (Pos.to_nat 3) with 3%nat.
  change (Pos.to_nat 6) with 6%nat. cbn [take drop].
  rewrite (E a Ha), (E b Hb), (E c Hc). reflexivity.
Qed.

Lemma Next_blanks (n : nat) (s : string) : Next (blanks n ++ s) = Next s.
Proof.
  unfold Next. induction n as [|n IH]; [reflexivity|]. cbn [blanks append TrimLeft inCutset].
  exact IH.
Qed.

Lemma parseIbm_fields (owner sizeTok typeTok path : string)
    (size dd mm yy hh mi ss : Z) (s1 s2 s3 s4 : ascii) (k1 k2 k3 k4 : nat)
    (now : Time.Time) (loc : Time.Location) :
  owner <> "" -> Contains owner " " = false ->
  Contains sizeTok " " = false -> Strconv.ParseUint sizeTok 10 = (size, None) ->
  typeTok <> "" -> Contains typeTok " " = false ->
  TrimLeft path " " <> "" ->
  0 <= dd <= 99 -> 0 <= mm <= 99 -> 0 <= yy <= 99 ->
  0 <= hh <= 99 -> 0 <= mi <= 99 -> 0 <= ss <= 99 ->
  s1 <> " "%char -> s2 <> " "%char -> s3 <> " "%char -> s4 <> " "%char ->
  let name := TrimLeft path " " in
  let folder := String.eqb typeTok "*DIR" in
  parseIbmListLine
    (owner ++ " " ++ blanks k1 ++ sizeTok ++ " " ++ blanks k2
           ++ ibmToken dd s1 mm s2 yy ++ " " ++ blanks k3
           ++ ibmToken hh s3 mi s4 ss ++ " " ++ blanks k4 ++ typeTok ++ " " ++ path) now loc
  = ret (mkEntry (if folder && HasSuffix name "/"
                  then take (String.length name - 1) name else name)
                 ""
                 (if folder then EntryTypeFolder else EntryTypeFile)
                 size
                 (Time.Date (2000 + yy) mm dd hh mi ss 0 loc)).
Proof.
  intros Ho1 Ho2 Hs2 Hsize Ht1 Ht2 Hp Hdd Hmm Hyy Hhh Hmi Hss H1 H2 H3 H4 name folder.
  assert (Hs1 : sizeTok <> "") by (intros ->; discriminate Hsize).
  destruct (ibmToken_word dd mm yy s1 s2 Hdd Hmm Hyy H1 H2) as (Hd1 & Hd2 & Hd3).
  destruct (ibmToken_word hh mi ss s3 s4 Hhh Hmi Hss H3 H4) as (Hc1 & Hc2 & Hc3).
  apply String.eqb_neq in Ho1, Hs1, Hd1, Hc1, Ht1, Hp.
  unfold parseIbmListLine, newScanner, Remaining. cbn [append].
  rewrite Next_word, Ho1 by (try apply String.eqb_neq; assumption).
  rewrite Next_blanks, Next_word, Hs1 by (try apply String.eqb_neq; assumption).
  rewrite Next_blanks, Next_word, Hd1, Hd3 by (try apply String.eqb_neq; assumption).
  rewrite Next_blanks, Next_word, Hc1, Hc3 by (try apply String.eqb_neq; assumption).
  rewrite Next_blanks, Next_word, Ht1 by (try apply String.eqb_neq; assumption).
  cbn [orb negb Z.eqb Pos.eqb]. rewrite Hp, Hsize. fold name.
  rewrite (ibmToken_fields dd mm yy s1 s2) by assumption.
  rewrite (ibmToken_fields hh mi ss s3 s4) by assumption.
  fold folder. destruct folder; cbn [andb]; [|reflexivity].
  destruct (HasSuffix name "/") eqn:Hsuf; [|reflexivity].
  apply HasSuffix_length in Hsuf. cbn [String.length] in Hsuf.
  rewrite sliceTo_val by (unfold len; lia). cbn [bind].
  replace (Z.to_nat (len name - 1)) with (String.length name - 1)%nat
    by (unfold len; lia).
  reflexivity.
Qed.

(** X6: on a line of six well-formed tokens, with any number of blanks
    between them, the vendor recognizer reads the date as day, month and
    two-digit year and returns the time [time.Date(2000+yy, mm, dd, hh, mi, ss)]
    in the caller's location.  The separator bytes are not looked at and the
    numbers are not checked against the calendar or the clock; a folder loses
    one trailing slash. *)
Theorem parseIbmListLine_fields (owner sizeTok typeTok path : string)
    (size dd mm yy hh mi ss : Z) (s1 s2 s3 s4 : ascii) (k1 k2 k3 k4 : nat)
    (now : Time.Time) (loc : Time.Location) :
  owner <> "" -> Contains owner " " = false ->
  Contains sizeTok " " = false -> Strconv.ParseUint sizeTok 10 = (size, None) ->
  typeTok <> "" -> Contains typeTok " " = false ->
  TrimLeft path " " <> "" ->
  0 <= dd <= 99 -> 0 <= mm <= 99 -> 0 <= yy <= 99 ->
  0 <= hh <= 99 -> 0 <= mi <= 99 -> 0 <= ss <= 99 ->
  s1 <> " "%char -> s2 <> " "%char -> s3 <> " "%char -> s4 <> " "%char ->
  let name := TrimLeft path " " in
  let folder := String.eqb typeTok "*DIR" in
  parseIbmListLine
    (owner ++ " " ++ blanks k1 ++ sizeTok ++ " " ++ blanks k2
           ++ ibmToken dd s1 mm s2 yy ++ " " ++ blanks k3
           ++ ibmToken hh s3 mi s4 ss ++ " " ++ blanks k4 ++ typeTok ++ " " ++ path) now loc
  = ret (mkEntry (if folder && HasSuffix name "/"
                  then take (String.length name - 1) name else name)
                 ""
                 (if folder then EntryTypeFolder else EntryTypeFile)
                 size
                 (Time.Date (2000 + yy) mm dd hh mi ss 0 loc)).
Proof. apply parseIbm_fields. Qed.

Lemma parseIbmListLine_fields_witness :
  "TSTITFECOM" <> "" /\ Contains "TSTITFECOM" " " = false
  /\ Strconv.ParseUint "8192" 10 = (8192, None)
  /\ "TSTITFECOM" ++ " " ++ blanks 6 ++ "8192" ++ " " ++ blanks 0
         ++ ibmToken 13 "/" 5 "/" 25 ++ " " ++ blanks 0
         ++ ibmToken 13 ":" 31 ":" 43 ++ " " ++ blanks 0 ++ "*DIR" ++ " " ++ "      561/"
     = "TSTITFECOM       8192 13/05/25 13:31:43 *DIR       561/"
  /\ parseIbmListLine "TSTITFECOM       8192 13/05/25 13:31:43 *DIR       561/"
                      testNow Time.UTC
     = ret (mkEntry "561" "" EntryTypeFolder 8192
                    (Time.Date (2000 + 25) 5 13 13 31 43 0 Time.UTC)).
Proof.
  split; [discriminate|]. split; [reflexivity|]. split; [reflexivity|].
  split; [reflexivity|].
  apply (parseIbmListLine_fields "TSTITFECOM" "8192" "*DIR" "      561/" 8192 13 5 25 13 31 43
           "/" "/" ":" ":" 6 0 0 0);
    try reflexivity; try discriminate; try lia.
Defined.

(** ** The fact-list recognizer as an update of the record *)

(** Whether the facts fail, and with which error, does not depend on the
    record; when they succeed they overwrite the fields they name. *)
Lemma rfcFacts_update (facts : list string) (loc : Time.Location) :
  (exists err, forall e, rfcFacts facts loc e = fail err)
  \/ (exists u, updateOK loc u /\ forall e, rfcFacts facts loc e = ret (applyUpdate u e)).
Proof.
  induction facts as [|field facts IH]; cbn [rfcFacts].
  - right. exists (mkUpdate None None None). split.
    + split; [|split]; cbn; intros; discriminate.
    + intros [n t ty s tm]. reflexivity.
  - destruct (Z.ltb_spec (Index field "=") 1); [left; eexists; reflexivity|].
    destruct (Index_bound field "=") as [Hb|Hb]; [lia|]. change (len "=") with 1 in Hb.
    rewrite sliceTo_val by lia. cbn [bind].
    rewrite sliceFrom_val by lia. cbn [bind].
    set (key := ToLower _). set (value := drop _ _).
    destruct (keyIs key "modify").
    { destruct (Time.ParseInLocation _ value loc) as [t [err|]] eqn:Ep;
        [left; eexists; reflexivity|].
      destruct IH as [[err IH]|(u & (Hty & Hsz & Htm) & IH)];
        [left; exists err; intros e; apply IH|].
      right. exists (mkUpdate (match uTime u with Some x => Some x | None => Some t end)
                              (uType u) (uSize u)).
      split.
      - split; [|split]; cbn [uTime uType uSize]; try assumption.
        intros t'. destruct (uTime u) as [x|] eqn:Eu.
        + intros [= <-]. apply Htm. reflexivity.
        + intros [= <-]. exact (ParseInLocation_loc _ _ _ _ Ep).
      - intros e. rewrite IH. unfold applyUpdate. cbn [uTime uType uSize].
        destruct (uTime u); reflexivity. }
    assert (Hset : forall ty, ty <> EntryTypeLink ->
              (exists err, forall e, rfcFacts facts loc (withType e ty) = fail err)
              \/ (exists u, updateOK loc u
                            /\ forall e, rfcFacts facts loc (withType e ty)
                                         = ret (applyUpdate u e))).
    { intros ty Hne.
      destruct IH as [[err IH]|(u & (Hty & Hsz & Htm) & IH)];
        [left; exists err; intros e; apply IH|].
      right. exists (mkUpdate (uTime u)
                              (match uType u with Some x => Some x | None => Some ty end)
                              (uSize u)).
      split.
      - split; [|split]; cbn [uTime uType uSize]; try assumption.
        destruct (uType u); [assumption|congruence].
      - intros e. rewrite IH. unfold applyUpdate. cbn [uTime uType uSize].
        destruct (uType u); reflexivity. }
    destruct (keyIs key "type").
    { destruct (_ || _); [apply Hset; discriminate|].
      destruct (String.eqb value "file"); [apply Hset; discriminate|exact IH]. }
    destruct (keyIs key "size"); [|exact IH].
    assert (Hs : forall e, setSize e value
                           = (withSize e (fst (Strconv.ParseUint value 0)),
                              snd (Strconv.ParseUint value 0)))
      by (intros e; apply setSize_eq).
    destruct (Strconv.ParseUint value 0) as [n [err|]] eqn:En; cbn [fst snd] in Hs.
    { left. exists err. intros e. rewrite Hs. reflexivity. }
    destruct IH as [[err IH]|(u & (Hty & Hsz & Htm) & IH)].
    { left. exists err. intros e. rewrite Hs. apply IH. }
    right. exists (mkUpdate (uTime u) (uType u)
                            (match uSize u with Some x => Some x | None => Some n end)).
    split.
    + split; [|split]; cbn [uTime uType uSize]; try assumption.
      intros n'. destruct (uSize u) as [x|] eqn:Eu.
      * intros [= <-]. apply Hsz. reflexivity.
      * intros [= <-]. exact (ParseUint_bound _ _ _ En).
    + intros e. rewrite Hs, IH. unfold applyUpdate. cbn [uTime uType uSize].
      destruct (uSize u); reflexivity.
Qed.

Lemma applyUpdate_twice (u : rfcUpdate) (e : Entry) :
  applyUpdate u (applyUpdate u e) = applyUpdate u e.
Proof.
  unfold applyUpdate. cbn [Name Target Type_ Size Time_].
  destruct (uType u), (uSize u), (uTime u); reflexivity.
Qed.

Lemma indexNat_HasPrefix (s sep : string) (n : nat) :
  indexNat s sep = Some n -> HasPrefix (drop n s) sep = true.
Proof.
  revert n. induction s as [|c s IH]; intros n; rewrite indexNat_eq.
  - destruct (HasPrefix "" sep) eqn:E; [intros [= <-]; exact E|discriminate].
  - destruct (HasPrefix (String c s) sep) eqn:E; [intros [= <-]; exact E|].
    destruct (indexNat s sep) as [m|]; cbn [option_map]; [|discriminate].
    intros [= <-]. cbn [drop]. apply IH. reflexivity.
Qed.

(** The recognizer on a record [e]: the name is checked or set, then the
    facts are applied. *)
Lemma parseNextRFC_inv (line : string) (loc : Time.Location) (e e' : Entry) :
  parseNextRFC3659ListLine line loc e = ret e' ->
  let name := drop (Z.to_nat (Index line " " + 1)) line in
  0 <= Index line ";" < Index line " "
  /\ (Name e = "" \/ Name e = name)
  /\ exists u, updateOK loc u
               /\ forall e2, Name e2 = "" \/ Name e2 = name ->
                    parseNextRFC3659ListLine line loc e2
                    = ret (applyUpdate u (withName e2 name)).
Proof.
  intros H name. unfold parseNextRFC3659ListLine in H |- *.
  destruct (Z.ltb_spec (Index line ";") 0); cbn [orb] in H |- *; [discriminate H|].
  destruct (Z.ltb_spec (Index line " ") (Index line ";")); [discriminate H|].
  destruct (Index_bound line " ") as [Hb|Hb]; [lia|]. change (len " ") with 1 in Hb.
  assert (Hpos : Index line " " <> Index line ";").
  { intros Hw. rewrite (Index_indexNat line " ") in Hw, Hb.
    rewrite (Index_indexNat line ";") in Hw.
    destruct (indexNat line " ") as [n|] eqn:E1; [|lia].
    destruct (indexNat line ";") as [m|] eqn:E2; [|lia].
    assert (n = m) by lia. subst m.
    apply indexNat_HasPrefix in E1, E2.
    destruct (drop n line) as [|c r]; [discriminate E1|].
    cbn [HasPrefix] in E1, E2. apply andb_true_iff in E1, E2.
    destruct E1 as [E1 _], E2 as [E2 _]. apply Ascii.eqb_eq in E1, E2. congruence. }
  rewrite sliceFrom_val in H |- * by lia. cbn [bind] in H |- *. fold name in H |- *.
  destruct (String.eqb_spec (Name e) "") as [E0|E0]; cbn [negb andb] in H.
  - rewrite sliceTo_val in H |- * by lia. cbn [bind] in H |- *.
    split; [lia|]. split; [left; exact E0|].
    destruct (rfcFacts_update (Split (take (Z.to_nat (Index line " " - 1)) line) ";") loc)
      as [[err Hf]|(u & Hu & Hf)]; [rewrite Hf in H; discriminate H|].
    exists u. split; [exact Hu|]. intros e2 He2.
    destruct (String.eqb_spec (Name e2) "") as [E2|E2]; cbn [negb andb].
    + apply Hf.
    + destruct He2 as [He2|He2]; [contradiction|].
      rewrite He2, String.eqb_refl. cbn [negb]. rewrite Hf.
      replace (withName e2 name) with e2; [reflexivity|].
      unfold withName. rewrite <- He2. destruct e2; reflexivity.
  - destruct (String.eqb_spec (Name e) name) as [E1|E1]; cbn [negb] in H; [|discriminate H].
    rewrite sliceTo_val in H |- * by lia. cbn [bind] in H |- *.
    split; [lia|]. split; [right; exact E1|].
    destruct (rfcFacts_update (Split (take (Z.to_nat (Index line " " - 1)) line) ";") loc)
      as [[err Hf]|(u & Hu & Hf)]; [rewrite Hf in H; discriminate H|].
    exists u. split; [exact Hu|]. intros e2 He2.
    destruct (String.eqb_spec (Name e2) "") as [E2|E2]; cbn [negb andb].
    + apply Hf.
    + destruct He2 as [He2|He2]; [contradiction|].
      rewrite He2, String.eqb_refl. cbn [negb]. rewrite Hf.
      replace (withName e2 name) with e2; [reflexivity|].
      unfold withName. rewrite <- He2. destruct e2; reflexivity.
Qed.

(** X7: a record of the fact-list recognizer is named by the text after the
    first blank of the line, whatever that text is; it is a file or a folder
    without target, its size fits 64 bits, and its time is the zero time or a
    time in the caller's location.  The line has a semicolon before its
    first blank. *)
Theorem parseRFC3659ListLine_result (line : string) (now : Time.Time) (loc : Time.Location)
    (e : Entry) :
  parseRFC3659ListLine line now loc = ret e ->
  0 <= Index line ";" < Index line " "
  /\ Name e = drop (Z.to_nat (Index line " " + 1)) line
  /\ Target e = ""
  /\ Type_ e <> EntryTypeLink
  /\ 0 <= Size e <= Strconv.maxUint64
  /\ (Time_ e = Time.zero \/ Time.loc (Time_ e) = loc).
Proof.
  unfold parseRFC3659ListLine. intros H.
  destruct (parseNextRFC_inv _ _ _ _ H) as (Hi & _ & u & (Hty & Hsz & Htm) & Hu).
  rewrite (Hu Entry0 (or_introl eq_refl)) in H. injection H as <-.
  unfold applyUpdate. cbn [Name Target Type_ Size Time_ withName Entry0].
  split; [exact Hi|]. split; [reflexivity|]. split; [reflexivity|].
  split; [destruct (uType u) as [ty|]; [congruence|discriminate]|].
  split.
  - destruct (uSize u) as [n|]; [apply Hsz; reflexivity|unfold Strconv.maxUint64; lia].
  - destruct (uTime u) as [t|]; [right; apply Htm; reflexivity|left; reflexivity].
Qed.

Lemma parseRFC3659ListLine_result_witness :
  let line := "type=dir;size=4096; a; b" in
  let e := mkEntry "a; b" "" EntryTypeFolder 4096 Time.zero in
  parseRFC3659ListLine line testNow Time.UTC = ret e
  /\ 0 <= Index line ";" < Index line " "
  /\ Name e = drop (Z.to_nat (Index line " " + 1)) line
  /\ Target e = ""
  /\ Type_ e <> EntryTypeLink
  /\ 0 <= Size e <= Strconv.maxUint64
  /\ (Time_ e = Time.zero \/ Time.loc (Time_ e) = Time.UTC).
Proof.
  intros line e.
  assert (H : parseRFC3659ListLine line testNow Time.UTC = ret e) by (vm_compute; reflexivity).
  split; [exact H|]. exact (parseRFC3659ListLine_result _ _ _ _ H).
Defined.

(** X8: what a line of facts does to the record it is merged into is an
    update of type, size and time that does not depend on the record: the
    name is set or must agree, the target is kept, and every record with
    that name or none gets the same update.  Merging the line a second time
    changes nothing. *)
Theorem parseNextRFC3659ListLine_merge (line : string) (loc : Time.Location) (e e' : Entry) :
  parseNextRFC3659ListLine line loc e = ret e' ->
  let name := drop (Z.to_nat (Index line " " + 1)) line in
  (Name e = "" \/ Name e = name)
  /\ Name e' = name
  /\ Target e' = Target e
  /\ parseNextRFC3659ListLine line loc e' = ret e'
  /\ exists u, updateOK loc u
               /\ e' = applyUpdate u (withName e name)
               /\ forall e2, Name e2 = "" \/ Name e2 = name ->
                    parseNextRFC3659ListLine line loc e2
                    = ret (applyUpdate u (withName e2 name)).
Proof.
  intros H name.
  destruct (parseNextRFC_inv _ _ _ _ H) as (_ & Hn & u & Hok & Hu). fold name in Hn, Hu.
  rewrite (Hu e Hn) in H. injection H as <-.
  split; [exact Hn|]. split; [reflexivity|]. split; [reflexivity|].
  split.
  - rewrite Hu by (right; reflexivity). f_equal.
    replace (withName (applyUpdate u (withName e name)) name)
      with (applyUpdate u (withName e name)) by reflexivity.
    apply applyUpdate_twice.
  - exists u. split; [exact Hok|]. split; [reflexivity|exact Hu].
Qed.

Lemma parseNextRFC3659ListLine_merge_witness :
  let line := "size=42;type=file; movies" in
  let e := mkEntry "movies" "" EntryTypeFolder 7 Time.zero in
  let e' := mkEntry "movies" "" EntryTypeFile 42 Time.zero in
  parseNextRFC3659ListLine line Time.UTC e = ret e'
  /\ Name e' = drop (Z.to_nat (Index line " " + 1)) line
  /\ parseNextRFC3659ListLine line Time.UTC e' = ret e'.
Proof.
  intros line e e'.
  assert (H : parseNextRFC3659ListLine line Time.UTC e = ret e') by (vm_compute; reflexivity).
  split; [exact H|].
  destruct (parseNextRFC3659ListLine_merge _ _ _ _ H) as (_ & Hn & _ & Hi & _).
  split; [exact Hn|exact Hi].
Defined.

(** *** The byte in front of the first blank *)

Lemma string_app_assoc (a b c : string) : (a ++ b) ++ c = a ++ (b ++ c).
Proof. induction a as [|x a IH]; cbn [append]; [reflexivity|]. rewrite IH. reflexivity. Qed.

Lemma string_app_length (a b : string) :
  String.length (a ++ b) = (String.length a + String.length b)%nat.
Proof. induction a as [|x a IH]; cbn [append String.length]; [reflexivity|]. rewrite IH. reflexivity. Qed.

Lemma drop_app (w r : string) : drop (String.length w) (w ++ r) = r.
Proof. induction w as [|x w IH]; [reflexivity|]. exact IH. Qed.

Lemma take_app (w r : string) : take (String.length w) (w ++ r) = w.
Proof.
  induction w as [|x w IH]; [destruct r; reflexivity|].
  cbn [String.length append take]. rewrite IH. reflexivity.
Qed.

Lemma Index_blank_app (w r : string) :
  Contains w " " = false -> Index (w ++ String " " r) " " = len w.
Proof.
  intros H. rewrite Index_indexNat.
  assert (E : indexNat (w ++ String " " r) " " = Some (String.length w)).
  { induction w as [|c w IH]; [destruct r; reflexivity|].
    rewrite Contains_blank_cons in H. apply orb_false_iff in H. destruct H as [Hc Hw].
    cbn [append]. rewrite indexNat_eq. cbn [HasPrefix].
    rewrite Ascii.eqb_sym, Hc. cbn [andb]. rewrite (IH Hw). reflexivity. }
  rewrite E. reflexivity.
Qed.

Lemma Contains_blank_app (w : string) (c : ascii) :
  Contains w " " = false -> c <> " "%char -> Contains (w ++ String c "") " " = false.
Proof.
  intros H Hc. induction w as [|x w IH].
  - cbn [append]. rewrite Contains_blank_cons. apply Ascii.eqb_neq in Hc. rewrite Hc.
    reflexivity.
  - rewrite Contains_blank_cons in H. apply orb_false_iff in H. destruct H as [Hx Hw].
    cbn [append]. rewrite Contains_blank_cons, Hx, (IH Hw). reflexivity.
Qed.

(** The first occurrence of a byte is not moved by text put after it. *)
Lemma Index_app_found (s t : string) (x : ascii) :
  0 <= Index s (String x "") -> Index (s ++ t) (String x "") = Index s (String x "").
Proof.
  rewrite !Index_indexNat.
  assert (E : forall n, indexNat s (String x "") = Some n ->
                        indexNat (s ++ t) (String x "") = Some n).
  { induction s as [|c s IH]; intros n.
    - cbn. discriminate.
    - rewrite (indexNat_eq (String c s)), (indexNat_eq (String c s ++ t)).
      cbn [append HasPrefix].
      replace (HasPrefix s "") with true by (destruct s; reflexivity).
      replace (HasPrefix (s ++ t) "") with true by (destruct (s ++ t); reflexivity).
      destruct (Ascii.eqb x c); cbn [andb]; [auto|].
      destruct (indexNat s (String x "")) as [m|]; cbn [option_map]; [|discriminate].
      rewrite (IH m eq_refl). auto. }
  destruct (indexNat s (String x "")) as [n|]; [|lia].
  rewrite (E n eq_refl). reflexivity.
Qed.

Lemma Contains_byte_cons (c x : ascii) (w : string) :
  Contains (String c w) (String x "") = Ascii.eqb c x || Contains w (String x "").
Proof.
  unfold Contains. rewrite !Index_indexNat, indexNat_eq. cbn [HasPrefix].
  rewrite (Ascii.eqb_sym x c). destruct (Ascii.eqb c x).
  - destruct w; reflexivity.
  - replace (HasPrefix w "") with true by (destruct w; reflexivity).
    cbn [andb orb]. destruct (indexNat w (String x "")); cbn [option_map]; zbool.
Qed.

Lemma indexNat_app_skip (w t : string) (x : ascii) :
  Contains w (String x "") = false ->
  indexNat (w ++ t) (String x "")
  = option_map (fun n => (String.length w + n)%nat) (indexNat t (String x "")).
Proof.
  induction w as [|c w IH]; intros H.
  - cbn [append String.length Nat.add]. destruct (indexNat t _); reflexivity.
  - rewrite Contains_byte_cons in H. apply orb_false_iff in H. destruct H as [Hc Hw].
    cbn [append]. rewrite indexNat_eq. cbn [HasPrefix].
    rewrite Ascii.eqb_sym, Hc. cbn [andb]. rewrite (IH Hw).
    destruct (indexNat t _); reflexivity.
Qed.

Lemma Index_byte_app (w r : string) (x : ascii) :
  Contains w (String x "") = false -> Index (w ++ String x r) (String x "") = len w.
Proof.
  intros H. rewrite Index_indexNat, (indexNat_app_skip w _ x H), indexNat_eq.
  cbn [HasPrefix]. rewrite Ascii.eqb_refl. destruct r; cbn; unfold len; lia.
Qed.

(** The recognizer on a line that has a semicolon among its facts or right
    after them. *)
Lemma parseRFC_facts (facts name : string) (c : ascii) now loc :
  Contains facts " " = false ->
  Contains facts ";" = true \/ c = ";"%char ->
  c <> " "%char ->
  parseRFC3659ListLine (facts ++ String c (String " " name)) now loc
  = rfcFacts (Split facts ";") loc (withName Entry0 name).
Proof.
  intros Hb Hs Hc.
  set (line := facts ++ String c (String " " name)).
  assert (El : line = (facts ++ String c "") ++ String " " name).
  { unfold line. rewrite string_app_assoc. reflexivity. }
  assert (Ew : Index line " " = len facts + 1).
  { rewrite El, Index_blank_app by (apply Contains_blank_app; assumption).
    unfold len. rewrite string_app_length. cbn [String.length]. lia. }
  pose proof (len_nonneg facts). pose proof (len_nonneg name).
  assert (Es : 0 <= Index line ";" <= len facts).
  { destruct (Contains facts ";") eqn:Ef.
    - unfold line. rewrite (Index_app_found facts _ ";"%char) by (apply Z.leb_le; exact Ef).
      destruct (Index_bound facts ";") as [Hx|Hx]; [apply Z.leb_le in Ef; lia|].
      change (len ";") with 1 in Hx. lia.
    - destruct Hs as [Hs|Hs]; [discriminate Hs|]. subst c.
      unfold line. rewrite (Index_byte_app facts _ ";"%char Ef). lia. }
  assert (Hlen : len line = len facts + 2 + len name).
  { unfold line, len. rewrite string_app_length. cbn [String.length]. lia. }
  unfold parseRFC3659ListLine, parseNextRFC3659ListLine. fold line. rewrite Ew.
  destruct (Z.ltb_spec (Index line ";") 0); [lia|].
  destruct (Z.ltb_spec (len facts + 1) (Index line ";")); [lia|]. cbn [orb].
  rewrite sliceFrom_val by lia. cbn [bind Entry0 Name String.eqb negb andb].
  rewrite sliceTo_val by lia. cbn [bind].
  replace (Z.to_nat (len facts + 1 + 1)) with (String.length (facts ++ String c " "))
    by (rewrite string_app_length; unfold len; cbn [String.length]; lia).
  replace (Z.to_nat (len facts + 1 - 1)) with (String.length facts) by (unfold len; lia).
  unfold line. rewrite take_app.
  change (String c (String " " name)) with (String c " " ++ name).
  rewrite <- string_app_assoc, drop_app. reflexivity.
Qed.

(** X9: the fact-list recognizer cuts the facts off one byte before the
    first blank without looking at that byte: with a semicolon there, or a
    digit, or a letter, the record is the same.  The name starts after the
    blank. *)
Theorem parseRFC3659ListLine_last_byte (facts name : string) (c : ascii)
    (now : Time.Time) (loc : Time.Location) :
  Contains facts " " = false ->
  Contains facts ";" = true \/ c = ";"%char ->
  c <> " "%char ->
  parseRFC3659ListLine (facts ++ String c (String " " name)) now loc
  = rfcFacts (Split facts ";") loc (mkEntry name "" EntryTypeFile 0 Time.zero).
Proof. apply parseRFC_facts. Qed.

Lemma parseRFC3659ListLine_last_byte_witness :
  Contains "type=dir;size=42" " " = false
  /\ parseRFC3659ListLine ("type=dir;size=42" ++ String "7" (String " " "name"))
                          testNow Time.UTC
     = rfcFacts (Split "type=dir;size=42" ";") Time.UTC
                (mkEntry "name" "" EntryTypeFile 0 Time.zero)
  /\ rfcFacts (Split "type=dir;size=42" ";") Time.UTC
              (mkEntry "name" "" EntryTypeFile 0 Time.zero)
     = ret (mkEntry "name" "" EntryTypeFolder 42 Time.zero).
Proof.
  split; [reflexivity|]. split; [|reflexivity].
  apply parseRFC3659ListLine_last_byte; [reflexivity|left; reflexivity|discriminate].
Defined.

(** ** Dates with a year *)

Lemma isDec_not_colon (c : ascii) : Strconv.isDec c = true -> Ascii.eqb c ":" = false.
Proof.
  intros H. destruct (Ascii.eqb_spec c ":") as [->|]; [discriminate H|reflexivity].
Qed.

Lemma itoa_year (y : Z) :
  1000 <= y <= 9999 -> Contains (Time.itoa y) ":" = false /\ len (Time.itoa y) = 4.
Proof.
  intros H. rewrite (itoa_fourDigits y H). unfold fourDigits. split; [|reflexivity].
  assert (H3 : 0 <= y / 1000 <= 9) by (Z.div_mod_to_equations; lia).
  assert (H2 : 0 <= y / 100 mod 10 <= 9) by (Z.div_mod_to_equations; lia).
  assert (H1 : 0 <= y / 10 mod 10 <= 9) by (Z.div_mod_to_equations; lia).
  assert (H0 : 0 <= y mod 10 <= 9) by (Z.div_mod_to_equations; lia).
  destruct (digitChar_spec _ H3) as (D3 & _), (digitChar_spec _ H2) as (D2 & _),
           (digitChar_spec _ H1) as (D1 & _), (digitChar_spec _ H0) as (D0 & _).
  rewrite !Contains_byte_cons, !isDec_not_colon by assumption. reflexivity.
Qed.

Lemma setTime_year_tokens (e : Entry) now loc (y m d : Z) (day : string) :
  1000 <= y <= 9999 -> 1 <= m <= 12 -> 1 <= d <= Time.daysIn m y ->
  day = Time.itoa d \/ day = pad2 d ->
  setTime e [monthToken m; day; Time.itoa y] now loc
  = Val (withTime e (Time.Date y m d 0 0 0 0 loc), None).
Proof.
  intros Hy Hm Hd Hday.
  destruct (itoa_year y Hy) as [Hc Hl].
  unfold setTime. cbn [elem nth_error bind]. rewrite Hc, Hl. cbn [Z.eqb Pos.eqb negb bind].
  pose proof (ParseInLocation_tokens y m d 0 0 day loc Hy Hm Hd
                ltac:(lia) ltac:(lia) Hday) as Hp.
  change (clockToken 0 0) with "00:00" in Hp.
  change (Time.itoa y ++ " " ++ "00:00") with (Time.itoa y ++ " 00:00") in Hp.
  rewrite Hp. reflexivity.
Qed.

(** X10: a date whose third token has no colon is a date with a year.  The
    token must have four bytes, or the date is refused with its own error and
    the record is left alone; a month, a day of that month and a four-digit
    year give midnight of that day in the caller's location, whatever the
    reference time is. *)
Theorem setTime_year :
  (forall e mon day tok now loc,
      Contains tok ":" = false -> len tok <> 4 ->
      setTime e [mon; day; tok] now loc = Val (e, Some errUnsupportedListDate))
  /\ (forall e now loc y m d day,
      1000 <= y <= 9999 -> 1 <= m <= 12 -> 1 <= d <= Time.daysIn m y ->
      day = Time.itoa d \/ day = pad2 d ->
      setTime e [monthToken m; day; Time.itoa y] now loc
      = Val (mkEntry (Name e) (Target e) (Type_ e) (Size e) (Time.Date y m d 0 0 0 0 loc),
             None)).
Proof.
  split.
  - intros e mon day tok now loc Hc Hl. unfold setTime. cbn [elem nth_error bind].
    rewrite Hc. destruct (Z.eqb_spec (len tok) 4); [contradiction|]. reflexivity.
  - intros e now loc y m d day. apply setTime_year_tokens.
Qed.

Lemma setTime_year_witness :
  (Contains "20091" ":" = false /\ len "20091" <> 4
   /\ setTime Entry0 ["Dec"; "02"; "20091"] testNow Time.UTC
      = Val (Entry0, Some errUnsupportedListDate))
  /\ (1 <= 29 <= Time.daysIn 2 2024
      /\ setTime Entry0 [monthToken 2; pad2 29; Time.itoa 2024] testNow Time.UTC
         = Val (mkEntry "" "" EntryTypeFile 0 (Time.Date 2024 2 29 0 0 0 0 Time.UTC), None)).
Proof.
  destruct setTime_year as [H1 H2]. split.
  - split; [reflexivity|]. split; [discriminate|]. apply H1; [reflexivity|discriminate].
  - split; [vm_compute; split; discriminate|].
    apply H2; try lia; [vm_compute; split; discriminate|right; reflexivity].
Defined.

(** ** Lines the DOS-DIR recognizer declines *)

Lemma parseLoop_fail (fuel : nat) (layout value : string) (f : Time.fields)
    (prefix suffix : string) (v : Time.std) :
  Time.nextStdChunk layout = (prefix, v, suffix) ->
  v <> Time.stdNone ->
  chunk prefix v value f = None ->
  Time.parseLoop (S fuel) layout value f = None.
Proof.
  intros Hn Hv Hc. cbn [Time.parseLoop]. rewrite Hn. unfold chunk in Hc.
  destruct (Time.skip _ value prefix) as [value0|]; [|reflexivity].
  rewrite Hc. destruct v; try reflexivity. congruence.
Qed.

(** Every time format of the recognizer starts with a number. *)
Lemma ParseInLocation_nondigit (format : string) (c : ascii) (r : string) (loc : Time.Location) :
  In format dirTimeFormats -> Strconv.isDec c = false ->
  Time.ParseInLocation format (String c r) loc = (Time.zero, Some TimeParseError).
Proof.
  intros Hin Hc. unfold dirTimeFormats in Hin.
  repeat (destruct Hin as [<-|Hin]); [..|destruct Hin];
    unfold Time.ParseInLocation; cbn [String.length];
    (erewrite parseLoop_fail; [reflexivity|vm_compute; reflexivity|discriminate|]);
    unfold chunk;
    cbn [Time.skip String.length Time.parseStd]; unfold Time.getnum, Time.isDigit;
    cbn [String.get]; rewrite Hc; cbn [negb orb]; rewrite ?orb_true_r; reflexivity.
Qed.

(** When every format that is tried fails, the loop ends with an error,
    provided it had one before or a format is short enough to be tried. *)
Lemma dirTimeLoop_fail (formats : list string) (line : string) (loc : Time.Location)
    (e : Entry) (err : option error) :
  (forall f, In f formats ->
             Time.ParseInLocation f (take (Z.to_nat (len f)) line) loc
             = (Time.zero, Some TimeParseError)) ->
  err <> None \/ (exists f, In f formats /\ len f < len line) ->
  exists e' err', dirTimeLoop formats line loc e err = Val (e', Some err', line).
Proof.
  revert e err. induction formats as [|format formats IH]; intros e err Hall Hsome;
    cbn [dirTimeLoop].
  - destruct Hsome as [Hne|(f & [] & _)]. destruct err as [x|]; [|congruence].
    exists e, x. reflexivity.
  - assert (Hall' : forall f, In f formats ->
                      Time.ParseInLocation f (take (Z.to_nat (len f)) line) loc
                      = (Time.zero, Some TimeParseError))
      by (intros f Hf; apply Hall; right; exact Hf).
    destruct (Z.ltb_spec (len format) (len line)) as [Hlt|Hge].
    + pose proof (len_nonneg format).
      rewrite sliceTo_val by lia. cbn [bind]. rewrite (Hall format (or_introl eq_refl)).
      apply IH; [exact Hall'|left; discriminate].
    + apply IH; [exact Hall'|].
      destruct Hsome as [Hne|(f & [<-|Hf] & Hlen)]; [left; exact Hne|lia|].
      right. exists f. split; assumption.
Qed.

Lemma parseDir_declines (c : ascii) (r : string) (now : Time.Time) (loc : Time.Location) :
  Strconv.isDec c = false ->
  17 < len (String c r) ->
  parseDirListLine (String c r) now loc = fail errUnsupportedListLine.
Proof.
  intros Hc Hlen. unfold parseDirListLine.
  destruct (dirTimeLoop_fail dirTimeFormats (String c r) loc Entry0 None) as (e' & err' & ->).
  - intros f Hf.
    assert (Hpos : (0 < Z.to_nat (len f))%nat).
    { unfold dirTimeFormats in Hf.
      repeat (destruct Hf as [<-|Hf]); [..|destruct Hf]; vm_compute; lia. }
    destruct (Z.to_nat (len f)) as [|n]; [lia|]. cbn [take].
    apply ParseInLocation_nondigit; assumption.
  - right. exists "01-02-06  03:04PM". split; [left; reflexivity|exact Hlen].
  - reflexivity.
Qed.

(** X11: the DOS-DIR recognizer declines every line of more than 17 bytes
    that does not start with a decimal digit. *)
Theorem parseDirListLine_declines (c : ascii) (r : string)
    (now : Time.Time) (loc : Time.Location) :
  Strconv.isDec c = false ->
  17 < len (String c r) ->
  parseDirListLine (String c r) now loc = fail errUnsupportedListLine.
Proof. apply parseDir_declines. Qed.

Lemma parseDirListLine_declines_witness :
  Strconv.isDec "d" = false
  /\ 17 < len "drwxr-xr-x 3 110 1002 3 Dec 02 2009 pub"
  /\ parseDirListLine "drwxr-xr-x 3 110 1002 3 Dec 02 2009 pub" testNow Time.UTC
     = fail errUnsupportedListLine.
Proof.
  split; [reflexivity|]. split; [reflexivity|].
  apply parseDirListLine_declines; reflexivity.
Defined.

(** ** The hostedftp recognizer *)

Lemma token_no_blank (s t r : string) : token s = (t, r) -> Contains t " " = false.
Proof.
  revert t r. induction s as [|c s IH]; intros t r; cbn [token].
  - intros [= <- _]. reflexivity.
  - destruct (Ascii.eqb c " ") eqn:Ec; [intros [= <- _]; reflexivity|].
    destruct (token s) as [t' r']. intros [= <- _].
    rewrite Contains_blank_cons, Ec. exact (IH _ _ eq_refl).
Qed.

(** The tokens the scanner returns are not empty and hold no blank. *)
Lemma NextFields_words (n : nat) (s s' : scanner) (fields : list string) :
  NextFields n s = (fields, s') ->
  Forall (fun f => f <> "" /\ Contains f " " = false) fields.
Proof.
  revert s s' fields. induction n as [|n IH]; intros s s' fields; cbn [NextFields].
  - intros [= <- _]. constructor.
  - destruct (Next s) as [f s1] eqn:En. destruct (String.eqb_spec f "") as [->|Hf].
    + intros [= <- _]. constructor.
    + destruct (NextFields n s1) as [fs s2] eqn:E. intros [= <- _].
      constructor; [|exact (IH _ _ _ E)].
      split; [exact Hf|]. exact (token_no_blank _ _ _ En).
Qed.

(** Fields read at once are the first of them followed by the others. *)
Lemma NextFields_split (n m : nat) (s rest : scanner) (fields : list string) :
  NextFields (n + m) s = (fields, rest) ->
  List.length fields = (n + m)%nat ->
  exists s1, NextFields n s = (firstn n fields, s1)
             /\ NextFields m s1 = (skipn n fields, rest).
Proof.
  revert s fields. induction n as [|n IH]; intros s fields H Hlen.
  - exists s. split; [reflexivity|exact H].
  - cbn [Nat.add NextFields] in H |- *.
    destruct (Next s) as [f s1]. destruct (String.eqb f "").
    + injection H as <- _. discriminate Hlen.
    + destruct (NextFields (n + m) s1) as [fs s2] eqn:E. injection H as <- <-.
      cbn [List.length] in Hlen.
      destruct (IH s1 fs E ltac:(lia)) as (s3 & H1 & H2).
      exists s3. rewrite H1. cbn [firstn skipn]. split; [reflexivity|exact H2].
Qed.

(** When the first blank of the text is not at its head, the first token
    is the text before that blank. *)
Lemma Next_Index (s : string) :
  0 < Index s " " ->
  Next s = (take (Z.to_nat (Index s " ")) s, drop (S (Z.to_nat (Index s " "))) s).
Proof.
  rewrite Index_indexNat. destruct (indexNat s " ") as [n|] eqn:E; [|lia].
  intros Hpos. rewrite Nat2Z.id.
  assert (Ht : forall s n, indexNat s " " = Some n -> token s = (take n s, drop (S n) s)).
  { clear. induction s as [|c s IH]; intros n; rewrite indexNat_eq; cbn [HasPrefix].
    - discriminate.
    - replace (HasPrefix s "") with true by (destruct s; reflexivity).
      rewrite andb_true_r, Ascii.eqb_sym. cbn [token].
      destruct (Ascii.eqb c " "); [intros [= <-]; reflexivity|].
      destruct (indexNat s " ") as [m|]; cbn [option_map]; [|discriminate].
      intros [= <-]. rewrite (IH m eq_refl). reflexivity. }
  unfold Next. destruct s as [|c s]; [discriminate E|].
  rewrite indexNat_eq in E. cbn [HasPrefix] in E.
  replace (HasPrefix s "") with true in E by (destruct s; reflexivity).
  rewrite andb_true_r, Ascii.eqb_sym in E. cbn [TrimLeft inCutset].
  destruct (Ascii.eqb c " ") eqn:Ec; [injection E as <-; lia|]. cbn [orb].
  apply Ht. rewrite indexNat_eq. cbn [HasPrefix].
  replace (HasPrefix s "") with true by (destruct s; reflexivity).
  rewrite andb_true_r, Ascii.eqb_sym, Ec. exact E.
Qed.

(** What the hostedftp recognizer hands to the Unix-ls recognizer has the
    fields of the line, with the link count 1 for 0. *)
Lemma hosted_fields (line : string) (f0 f2 f3 f4 f5 f6 f7 : string) (rest : scanner) :
  IndexByte line " " = 10 ->
  NextFields 8 (newScanner line) = ([f0; "0"; f2; f3; f4; f5; f6; f7], rest) ->
  exists s2 s1,
    NextFields 2 (newScanner line) = ([f0; "0"], s2)
    /\ lsShape (f0 ++ " 1 " ++ Remaining s2) = Val true
    /\ NextFields 6 (newScanner (f0 ++ " 1 " ++ Remaining s2))
       = ([f0; "1"; f2; f3; f4; f5], s1)
    /\ NextFields 2 s1 = ([f6; f7], rest).
Proof.
  intros Hidx H8. unfold IndexByte in Hidx.
  destruct (NextFields_split 2 6 _ _ _ H8 eq_refl) as (s2 & H2 & H6).
  cbn [firstn skipn] in H2, H6.
  destruct (NextFields_split 4 2 _ _ _ H6 eq_refl) as (s1 & H4 & Htwo).
  cbn [firstn skipn] in H4, Htwo.
  pose proof (NextFields_words _ _ _ _ H2) as Hw.
  inversion Hw as [|x l [Hne Hnb] _]; subst. clear Hw.
  assert (Hlen : len f0 = 10).
  { pose proof (Next_Index line ltac:(lia)) as Hn. rewrite Hidx in Hn.
    set (t := take (Z.to_nat 10) line) in Hn.
    assert (Ht : len t = 10).
    { destruct (Index_bound line " ") as [Hb|Hb]; [lia|]. change (len " ") with 1 in Hb.
      unfold t, len. rewrite length_take; unfold len in Hb; lia. }
    clearbody t. cbn [NextFields] in H2. unfold newScanner in H2. rewrite Hn in H2.
    destruct (String.eqb t ""); [discriminate H2|].
    destruct (Next _) as [g s3]. destruct (String.eqb g ""); [discriminate H2|].
    injection H2 as <- _ _. exact Ht. }
  exists s2, s1. split; [exact H2|]. unfold Remaining, newScanner.
  change (f0 ++ " 1 " ++ s2) with (f0 ++ String " " ("1" ++ String " " s2)).
  split; [|split; [|exact Htwo]].
  - unfold lsShape, IndexByte. rewrite (Index_blank_app f0 _ Hnb), Hlen. reflexivity.
  - change 6%nat with (2 + 4)%nat.
    apply (NextFields_app 2 4 _ s2 s1 [f0; "1"] [f2; f3; f4; f5]); [|reflexivity|exact H4].
    cbn [NextFields]. rewrite (Next_word f0 _ Hne Hnb).
    apply String.eqb_neq in Hne. rewrite Hne.
    rewrite (Next_word "1" s2) by (try discriminate; reflexivity). reflexivity.
Qed.

(** X12: on a line whose first field has ten bytes and whose link count is
    0 the hostedftp recognizer does what the generic branch of the Unix-ls
    recognizer does with the eight fields of the line: the first byte gives
    the type, the fifth field the size of a file, the last three fields the
    date, and the text after them the name. *)
Theorem parseHostedFTPLine_generic (line : string) (now : Time.Time) (loc : Time.Location)
    (f0 f2 f3 f4 f5 f6 f7 : string) (rest : scanner) (c : ascii) :
  IndexByte line " " = 10 ->
  NextFields 8 (newScanner line) = ([f0; "0"; f2; f3; f4; f5; f6; f7], rest) ->
  byteAt f0 0 = Val c ->
  parseHostedFTPLine line now loc
  = if Ascii.eqb c "-" then
      match setSize (withType (lsEntry rest) EntryTypeFile) f4 with
      | (_, Some err) => fail err
      | (e, None) => lsFinish now loc f5 f6 f7 e
      end
    else if Ascii.eqb c "d"
    then lsFinish now loc f5 f6 f7 (withType (lsEntry rest) EntryTypeFolder)
    else if Ascii.eqb c "l" then
      e <- splitLink (withType (lsEntry rest) EntryTypeLink) ;; lsFinish now loc f5 f6 f7 e
    else fail errUnknownListEntryType.
Proof.
  intros Hidx H8 Hc.
  destruct (hosted_fields _ _ _ _ _ _ _ _ _ Hidx H8) as (s2 & s1 & H2 & Hshape & H6 & Htwo).
  unfold parseHostedFTPLine. rewrite Hidx, H2.
  cbn [Z.eqb Pos.eqb negb List.length Nat.ltb Nat.leb elem nth_error bind String.eqb
       Ascii.eqb Bool.eqb].
  apply (parseLs_generic _ now loc f0 "1" f2 f3 f4 f5 s1 Hshape H6 f6 f7 rest c);
    [discriminate|intros [E _]; discriminate E|exact Htwo|exact Hc].
Qed.

Lemma parseHostedFTPLine_generic_witness :
  let line := "-r--------   0 user group     65222236 Feb 24 00:39 RegularFile" in
  IndexByte line " " = 10
  /\ parseHostedFTPLine line testNow Time.UTC
     = ret (mkEntry "RegularFile" "" EntryTypeFile 65222236
                    (Time.Date 2017 2 24 0 39 0 0 Time.UTC)).
Proof.
  intros line. split; [reflexivity|].
  rewrite (parseHostedFTPLine_generic line testNow Time.UTC
             "-r--------" "user" "group" "65222236" "Feb" "24" "00:39" "RegularFile" "-"%char);
    vm_compute; reflexivity.
Defined.

(** ** Where a result of the chain comes from *)

Lemma isUnsupported_spec (err : option error) :
  isUnsupported err = true <-> err = Some errUnsupportedListLine.
Proof.
  destruct err as [[]|]; cbn; split; congruence.
Qed.

Lemma tryParsers_inv (parsers : list parseFunc) (line : string) now loc
    (e : option Entry) (err : option error) :
  tryParsers parsers line now loc = Val (e, err) ->
  (err = Some errUnsupportedListLine /\ e = None
   /\ forall g, In g parsers -> declines g line now loc)
  \/ (err <> Some errUnsupportedListLine
      /\ exists pre f post,
           parsers = (pre ++ f :: post)%list
           /\ (forall g, In g pre -> declines g line now loc)
           /\ f line now loc = Val (e, err)).
Proof.
  induction parsers as [|f parsers IH]; cbn [tryParsers].
  - intros [= <- <-]. left. repeat split. intros g [].
  - destruct (f line now loc) as [[e1 err1]|] eqn:Ef; cbn [bind]; [|discriminate].
    destruct (isUnsupported err1) eqn:Eu; cbn [negb].
    + apply isUnsupported_spec in Eu. subst err1. intros H.
      assert (Hd : declines f line now loc) by (exists e1; exact Ef).
      destruct (IH H) as [(He & Hn & Hall)|(Hne & pre & g & post & Hp & Hpre & Hg)].
      * left. repeat split; try assumption. intros g [<-|Hg]; auto.
      * right. split; [exact Hne|]. exists (f :: pre), g, post.
        split; [rewrite Hp; reflexivity|]. split; [|exact Hg].
        intros h [<-|Hh]; auto.
    + intros [= <- <-]. right. split.
      * intros Hs. apply isUnsupported_spec in Hs. congruence.
      * exists [], f, parsers. split; [reflexivity|]. split; [intros g []|exact Ef].
Qed.

(** X13: what the chain returns is what one of its recognizers returns: a
    result other than the sentinel is the result of a recognizer before which
    every recognizer has declined, and the sentinel comes without a record
    and means that all five have declined. *)
Theorem parseListLine_inv (line : string) (now : Time.Time) (loc : Time.Location)
    (e : option Entry) (err : option error) :
  parseListLine line now loc = Val (e, err) ->
  (err = Some errUnsupportedListLine /\ e = None
   /\ forall g, In g listLineParsers -> declines g line now loc)
  \/ (err <> Some errUnsupportedListLine
      /\ exists pre f post,
           listLineParsers = (pre ++ f :: post)%list
           /\ (forall g, In g pre -> declines g line now loc)
           /\ f line now loc = Val (e, err)).
Proof. apply tryParsers_inv. Qed.

Lemma parseListLine_inv_witness :
  parseListLine lineBadSize testNow Time.UTC = Val (None, Some NumErrSyntax)
  /\ ((Some NumErrSyntax = Some errUnsupportedListLine /\ @None Entry = None
       /\ forall g, In g listLineParsers -> declines g lineBadSize testNow Time.UTC)
      \/ (Some NumErrSyntax <> Some errUnsupportedListLine
          /\ exists pre f post,
               listLineParsers = (pre ++ f :: post)%list
               /\ (forall g, In g pre -> declines g lineBadSize testNow Time.UTC)
               /\ f lineBadSize testNow Time.UTC = Val (None, Some NumErrSyntax))).
Proof.
  assert (H : parseListLine lineBadSize testNow Time.UTC = Val (None, Some NumErrSyntax))
    by (vm_compute; reflexivity).
  split; [exact H|]. exact (parseListLine_inv _ _ _ _ _ H).
Defined.

(** X14: whichever recognizer it comes from, a record of the chain has a
    size that fits 64 bits, a target only if it is a symbolic link, and then
    no size; its time is the zero time or a time in the caller's location. *)
Theorem parseListLine_result (line : string) (now : Time.Time) (loc : Time.Location)
    (e : Entry) :
  parseListLine line now loc = ret e ->
  0 <= Size e <= Strconv.maxUint64
  /\ (Type_ e <> EntryTypeLink -> Target e = "")
  /\ (Type_ e = EntryTypeLink -> Size e = 0)
  /\ (Time_ e = Time.zero \/ Time.loc (Time_ e) = loc).
Proof.
  intros H. apply tryParsers_inv in H.
  destruct H as [(H & _)|(_ & pre & f & post & Hp & _ & Hf)]; [discriminate H|].
  assert (Hin : In f listLineParsers) by (rewrite Hp; apply in_elt).
  unfold listLineParsers in Hin.
  destruct Hin as [<-|[<-|[<-|[<-|[<-|[]]]]]].
  - unfold parseRFC3659ListLine in Hf.
    destruct (parseNextRFC_inv _ _ _ _ Hf) as (_ & _ & u & (Hty & Hsz & Htm) & Hu).
    rewrite (Hu Entry0 (or_introl eq_refl)) in Hf. injection Hf as <-.
    unfold applyUpdate. cbn [Name Target Type_ Size Time_ withName Entry0].
    split; [destruct (uSize u) as [n|]; [apply Hsz; reflexivity|unfold Strconv.maxUint64; lia]|].
    split; [reflexivity|].
    split; [destruct (uType u) as [ty|]; [congruence|discriminate]|].
    destruct (uTime u) as [t|]; [right; apply Htm; reflexivity|left; reflexivity].
  - destruct (parseLs_shape _ _ _ _ Hf) as (Hl & Hs & Hz & Ht).
    split; [lia|]. split; [exact Ht|].
    split; [intros Hty; apply Hz; congruence|right; exact Hl].
  - destruct (parseDir_shape _ _ _ _ Hf) as (Ht & Hty & _ & Hs & _ & Hl).
    split; [lia|]. split; [intros _; exact Ht|]. split; [intros E; contradiction|].
    destruct Hl as [Hl|[_ Hl]]; [right; exact Hl|left; exact Hl].
  - unfold parseHostedFTPLine in Hf. destruct (negb _); [discriminate Hf|].
    destruct (NextFields 2 (newScanner line)) as [fields s].
    destruct (_ <? _)%nat; [discriminate Hf|].
    destruct (elem fields 1) as [f1|]; cbn [bind] in Hf; [|discriminate Hf].
    destruct (negb _); [discriminate Hf|].
    destruct (elem fields 0) as [f0|]; cbn [bind] in Hf; [|discriminate Hf].
    destruct (parseLs_shape _ _ _ _ Hf) as (Hl & Hs & Hz & Ht).
    split; [lia|]. split; [exact Ht|].
    split; [intros Hty; apply Hz; congruence|right; exact Hl].
  - apply parseIbm_inv in Hf. destruct Hf as [Hf|[Hf|[Hf|Hf]]]; try discriminate Hf.
    destruct Hf as (name & ty & size & y & m & d & hh & mi & ss & Hf & _ & Hty & Hs).
    injection Hf as ->. cbn [Name Target Type_ Size Time_ Time.Date Time.loc].
    split; [lia|]. split; [reflexivity|]. split; [intros E; contradiction|].
    right. reflexivity.
Qed.

Lemma parseListLine_result_witness :
  let e := mkEntry "bin" "usr/bin" EntryTypeLink 0 (Time.Date 2017 1 25 0 17 0 0 Time.UTC) in
  parseListLine lineLink testNow Time.UTC = ret e
  /\ 0 <= Size e <= Strconv.maxUint64
  /\ (Type_ e <> EntryTypeLink -> Target e = "")
  /\ (Type_ e = EntryTypeLink -> Size e = 0)
  /\ (Time_ e = Time.zero \/ Time.loc (Time_ e) = Time.UTC).
Proof.
  intros e. assert (H : parseListLine lineLink testNow Time.UTC = ret e)
    by (vm_compute; reflexivity).
  split; [exact H|]. exact (parseListLine_result _ _ _ _ H).
Defined.

(** X15: no recognizer panics, whatever the line: the bytes and slices they
    take ([line[10]], [fields[0][0]], [line[:iWhitespace-1]], the two-byte
    pieces of a date, [name[:len(name)-1]]) are always in range.  Each
    returns a record or an error, never both and never neither. *)
Theorem recognizers_never_panic (f : parseFunc) (line : string) (now : Time.Time)
    (loc : Time.Location) :
  In f listLineParsers -> wellFormed (f line now loc).
Proof.
  unfold listLineParsers. intros [<-|[<-|[<-|[<-|[<-|[]]]]]].
  - apply parseRFC_wellFormed.
  - apply parseLs_wellFormed.
  - apply parseDir_wellFormed.
  - apply parseHosted_wellFormed.
  - apply parseIbm_wellFormed.
Qed.

Lemma recognizers_never_panic_witness :
  In parseLsListLine listLineParsers
  /\ wellFormed (parseLsListLine "lrwxrwxrwx+" testNow Time.UTC).
Proof.
  assert (H : In parseLsListLine listLineParsers) by (right; left; reflexivity).
  split; [exact H|]. exact (recognizers_never_panic _ _ _ _ H).
Defined.

Lemma chain_unix (c : ascii) (r : string) (now : Time.Time) (loc : Time.Location) :
  Strconv.isDec c = false ->
  17 < len (String c r) ->
  Index (String c r) ";" < 0 \/ Index (String c r) " " < Index (String c r) ";" ->
  parseListLine (String c r) now loc
  = tryParsers [parseLsListLine; parseHostedFTPLine; parseIbmListLine] (String c r) now loc.
Proof.
  intros Hc Hlen Hrfc. set (line := String c r).
  unfold parseListLine, listLineParsers.
  cbn [tryParsers]. rewrite (rfc_declines line now loc Hrfc).
  unfold fail at 1. cbn [bind isUnsupported negb].
  destruct (parseLsListLine line now loc) as [[e err]|]; cbn [bind]; [|reflexivity].
  destruct (isUnsupported err); cbn [negb]; [|reflexivity].
  unfold line at 1. rewrite (parseDir_declines c r now loc Hc Hlen). reflexivity.
Qed.

(** X16: for a line of more than 17 bytes that starts with no decimal digit
    and has no semicolon before its first blank, the chain is the Unix-ls
    recognizer, then the hostedftp recognizer, then the vendor recognizer:
    the other two decline. *)
Theorem parseListLine_unix (c : ascii) (r : string) (now : Time.Time) (loc : Time.Location) :
  Strconv.isDec c = false ->
  17 < len (String c r) ->
  Index (String c r) ";" < 0 \/ Index (String c r) " " < Index (String c r) ";" ->
  parseListLine (String c r) now loc
  = tryParsers [parseLsListLine; parseHostedFTPLine; parseIbmListLine] (String c r) now loc.
Proof. apply chain_unix. Qed.

Lemma parseListLine_unix_witness :
  let line := "-r--------   0 user group     65222236 Feb 24 00:39 RegularFile" in
  17 < len line
  /\ parseListLine line testNow Time.UTC
     = tryParsers [parseLsListLine; parseHostedFTPLine; parseIbmListLine] line testNow Time.UTC.
Proof.
  intros line. split; [reflexivity|].
  apply parseListLine_unix; [reflexivity|reflexivity|left; vm_compute; reflexivity].
Defined.

(** ** Unix-style lines made of well-formed tokens *)

Lemma NextFields_join (ws : list (nat * string)) (rest : string) :
  Forall (fun p => snd p <> "" /\ Contains (snd p) " " = false) ws ->
  NextFields (List.length ws) (joinFields ws rest) = (map snd ws, rest).
Proof.
  induction 1 as [|[k w] ws [Hne Hnb] _ IH]; [reflexivity|].
  cbn [List.length NextFields joinFields map snd] in *.
  rewrite Next_blanks, (Next_word w _ Hne Hnb).
  apply String.eqb_neq in Hne. rewrite Hne, IH. reflexivity.
Qed.

Lemma get_app (w r : string) (n : nat) :
  (n < String.length w)%nat -> String.get n (w ++ r) = String.get n w.
Proof.
  revert n. induction w as [|c w IH]; intros n H; cbn [String.length] in H; [lia|].
  destruct n as [|n]; [reflexivity|]. cbn [append String.get]. apply IH. lia.
Qed.

Lemma byteAt_app (w r : string) (i : Z) (c : ascii) :
  byteAt w i = Val c -> byteAt (w ++ r) i = Val c.
Proof.
  unfold byteAt. destruct (Z.leb_spec 0 i); cbn [andb]; [|discriminate].
  destruct (Z.ltb_spec i (len w)); [|discriminate].
  unfold len in *. rewrite string_app_length.
  destruct (Z.ltb_spec i (Z.of_nat (String.length w + String.length r))); [|lia].
  rewrite get_app by lia. auto.
Qed.

Lemma lsShape_perms (f0 rest : string) :
  lsPerms f0 -> lsShape (f0 ++ String " " rest) = Val true.
Proof.
  intros [Hnb Hlen]. unfold lsShape, IndexByte. rewrite (Index_blank_app f0 rest Hnb).
  destruct Hlen as [-> |[-> Hplus]]; [reflexivity|].
  cbn [Z.eqb Pos.eqb]. rewrite (byteAt_app _ _ _ _ Hplus). reflexivity.
Qed.

(** The Unix-ls recognizer on a line of eight tokens and a name, when the
    link count is not 0: the scanner is out of the way. *)
Lemma parseLs_tokens (f0 f1 f2 f3 f4 f5 f6 f7 name : string) (k1 k2 k3 k4 k5 k6 k7 : nat)
    (c : ascii) now loc :
  lsPerms f0 ->
  Forall (fun f => f <> "" /\ Contains f " " = false) [f0; f1; f2; f3; f4; f5; f6; f7] ->
  f1 <> "0" -> f1 <> "folder" ->
  byteAt f0 0 = Val c ->
  parseLsListLine
    (joinFields [(O, f0); (k1, f1); (k2, f2); (k3, f3); (k4, f4); (k5, f5); (k6, f6); (k7, f7)]
                name) now loc
  = if Ascii.eqb c "-" then
      match setSize (withType (lsEntry name) EntryTypeFile) f4 with
      | (_, Some err) => fail err
      | (e, None) => lsFinish now loc f5 f6 f7 e
      end
    else if Ascii.eqb c "d"
    then lsFinish now loc f5 f6 f7 (withType (lsEntry name) EntryTypeFolder)
    else if Ascii.eqb c "l" then
      e <- splitLink (withType (lsEntry name) EntryTypeLink) ;; lsFinish now loc f5 f6 f7 e
    else fail errUnknownListEntryType.
Proof.
  intros Hp Hw H1 Hf Hc.
  set (ws := [(O, f0); (k1, f1); (k2, f2); (k3, f3); (k4, f4); (k5, f5); (k6, f6); (k7, f7)]).
  assert (H8 : NextFields 8 (newScanner (joinFields ws name))
               = ([f0; f1; f2; f3; f4; f5; f6; f7], name)).
  { apply (NextFields_join ws name). unfold ws.
    repeat match goal with
           | H : Forall _ (_ :: _) |- _ => inversion H; subst; clear H
           end.
    repeat constructor; cbn [snd]; tauto. }
  destruct (NextFields_split 6 2 _ _ _ H8 eq_refl) as (s1 & H6 & H2).
  cbn [firstn skipn] in H6, H2.
  apply (parseLs_generic _ now loc f0 f1 f2 f3 f4 f5 s1); try assumption.
  - unfold ws. cbn [joinFields blanks append]. apply lsShape_perms. exact Hp.
  - intros [E _]. contradiction.
Qed.

(** A line whose first field holds no semicolon is none of the fact-list
    recognizer. *)
Lemma rfc_declines_perms (f0 rest : string) :
  Contains f0 " " = false -> Contains f0 ";" = false ->
  Index (f0 ++ String " " rest) ";" < 0
  \/ Index (f0 ++ String " " rest) " " < Index (f0 ++ String " " rest) ";".
Proof.
  intros Hb Hs. rewrite (Index_blank_app f0 rest Hb).
  rewrite Index_indexNat, (indexNat_app_skip f0 _ ";"%char Hs), indexNat_eq.
  cbn [HasPrefix Ascii.eqb Bool.eqb andb].
  destruct (indexNat rest ";") as [n|]; cbn [option_map]; [right|left; lia].
  unfold len. lia.
Qed.

Lemma monthToken_word (m : Z) :
  1 <= m <= 12 -> monthToken m <> "" /\ Contains (monthToken m) " " = false.
Proof. intros H. enum m 1 12%nat; split; (discriminate || reflexivity). Qed.

Lemma pad2_word (n : Z) :
  0 <= n <= 99 -> pad2 n <> "" /\ Contains (pad2 n) " " = false.
Proof.
  intros H. rewrite (pad2_digits n H). split; [discriminate|].
  assert (H1 : 0 <= n / 10 <= 9) by (Z.div_mod_to_equations; lia).
  assert (H0 : 0 <= n mod 10 <= 9) by (Z.div_mod_to_equations; lia).
  destruct (digitChar_spec _ H1) as (_ & _ & B1 & _), (digitChar_spec _ H0) as (_ & _ & B0 & _).
  rewrite !Contains_blank_cons, B1, B0. reflexivity.
Qed.

Lemma dayToken_word (d : Z) (day : string) :
  1 <= d <= 31 -> day = Time.itoa d \/ day = pad2 d ->
  day <> "" /\ Contains day " " = false.
Proof.
  intros H [-> | ->]; [|apply pad2_word; lia].
  unfold Time.itoa. destruct (Z.ltb_spec d 0); [lia|]. cbn [Time.utoa].
  assert (Hd0 : 0 <= d mod 10 <= 9) by (Z.div_mod_to_equations; lia).
  destruct (digitChar_spec _ Hd0) as (_ & _ & B0 & _).
  destruct (Z.ltb_spec d 10).
  - split; [discriminate|]. rewrite Contains_blank_cons, B0. reflexivity.
  - destruct (Z.ltb_spec (d / 10) 10); [|Z.div_mod_to_equations; lia].
    assert (Hd1 : 0 <= d / 10 mod 10 <= 9) by (Z.div_mod_to_equations; lia).
    destruct (digitChar_spec _ Hd1) as (_ & _ & B1 & _).
    split; [discriminate|]. rewrite !Contains_blank_cons, B1, B0. reflexivity.
Qed.

Lemma yearToken_word (y : Z) :
  1000 <= y <= 9999 -> Time.itoa y <> "" /\ Contains (Time.itoa y) " " = false.
Proof.
  intros H. rewrite (itoa_fourDigits y H). unfold fourDigits. split; [discriminate|].
  assert (H3 : 0 <= y / 1000 <= 9) by (Z.div_mod_to_equations; lia).
  assert (H2 : 0 <= y / 100 mod 10 <= 9) by (Z.div_mod_to_equations; lia).
  assert (H1 : 0 <= y / 10 mod 10 <= 9) by (Z.div_mod_to_equations; lia).
  assert (H0 : 0 <= y mod 10 <= 9) by (Z.div_mod_to_equations; lia).
  destruct (digitChar_spec _ H3) as (_ & _ & B3 & _), (digitChar_spec _ H2) as (_ & _ & B2 & _),
           (digitChar_spec _ H1) as (_ & _ & B1 & _), (digitChar_spec _ H0) as (_ & _ & B0 & _).
  rewrite !Contains_blank_cons, B3, B2, B1, B0. reflexivity.
Qed.

Lemma clockToken_word (hh mi : Z) :
  0 <= hh < 24 -> 0 <= mi < 60 ->
  clockToken hh mi <> "" /\ Contains (clockToken hh mi) " " = false.
Proof.
  intros Hh Hm. unfold clockToken. rewrite (pad2_digits hh), (pad2_digits mi) by lia.
  cbn [append]. split; [discriminate|].
  assert (D : forall k, 0 <= k <= 99 ->
                        Ascii.eqb (Time.digitChar (k / 10)) " " = false
                        /\ Ascii.eqb (Time.digitChar (k mod 10)) " " = false).
  { intros k Hk. split; apply digitChar_spec; Z.div_mod_to_equations; lia. }
  destruct (D hh ltac:(lia)) as [A1 A0], (D mi ltac:(lia)) as [B1 B0].
  rewrite !Contains_blank_cons, A1, A0, B1, B0. reflexivity.
Qed.

Lemma daysIn_31 (m y d : Z) : 1 <= m <= 12 -> 1 <= d <= Time.daysIn m y -> 1 <= d <= 31.
Proof.
  intros Hm Hd. unfold Time.daysIn in Hd. destruct (_ && _); [lia|].
  destruct (month_cases m Hm) as [->|[->|[->|[->|[->|[->|[->|[->|[->|[->|[->| ->]]]]]]]]]]];
    calc_days; lia.
Qed.

(** X17: a regular [ls -l] line of a file with a year: ten bytes of mode that
    start with ['-'] (or eleven that end in ['+']), a link count other than
    0, owner, group, a size, month, day and a four-digit year, with any
    number of blanks between them.  The record is a file with that size,
    dated midnight of that day in the caller's location; its name is all the
    text after the blank that follows the year.  The chain returns it. *)
Theorem parseListLine_unix_file (perms links owner group sizeTok day name : string)
    (n y m d : Z) (k1 k2 k3 k4 k5 k6 k7 : nat) (now : Time.Time) (loc : Time.Location) :
  lsPerms perms -> byteAt perms 0 = Val "-"%char -> Contains perms ";" = false ->
  Forall (fun f => f <> "" /\ Contains f " " = false) [links; owner; group; sizeTok] ->
  links <> "0" -> links <> "folder" ->
  Strconv.ParseUint sizeTok 0 = (n, None) ->
  1000 <= y <= 9999 -> 1 <= m <= 12 -> 1 <= d <= Time.daysIn m y ->
  day = Time.itoa d \/ day = pad2 d ->
  let line := joinFields [(O, perms); (k1, links); (k2, owner); (k3, group); (k4, sizeTok);
                          (k5, monthToken m); (k6, day); (k7, Time.itoa y)] name in
  let e := mkEntry name "" EntryTypeFile n (Time.Date y m d 0 0 0 0 loc) in
  parseLsListLine line now loc = ret e /\ parseListLine line now loc = ret e.
Proof.
  intros Hp Hc Hsemi Hw Hl0 Hlf Hsize Hy Hm Hd Hday line e.
  assert (Hls : parseLsListLine line now loc = ret e).
  { unfold line. rewrite (parseLs_tokens _ _ _ _ _ _ _ _ _ _ _ _ _ _ _ _ "-"%char);
      try assumption.
    - cbn [Ascii.eqb Bool.eqb]. rewrite setSize_eq, Hsize. cbn [fst snd].
      unfold lsFinish, finishWithTime.
      rewrite (setTime_year_tokens _ now loc y m d day Hy Hm Hd Hday). reflexivity.
    - destruct Hp as [Hnb _].
      assert (Hne : perms <> "") by (intros ->; discriminate Hc).
      constructor; [split; assumption|].
      change [links; owner; group; sizeTok; monthToken m; day; Time.itoa y]
        with ([links; owner; group; sizeTok] ++ [monthToken m; day; Time.itoa y])%list.
      apply Forall_app. split; [exact Hw|].
      constructor; [apply monthToken_word; assumption|].
      constructor; [apply (dayToken_word d); [eapply daysIn_31; eassumption|assumption]|].
      constructor; [apply yearToken_word; assumption|constructor]. }
  split; [exact Hls|].
  apply chain_after_rfc; [|exact Hls|discriminate].
  unfold line. cbn [joinFields blanks append]. apply rfc_declines_perms; [apply Hp|exact Hsemi].
Qed.

Lemma parseListLine_unix_file_witness :
  lsPerms "-rw-r--r--+" /\ 1 <= 2 <= Time.daysIn 12 2009
  /\ joinFields [(O, "-rw-r--r--+"); (2%nat, "1"); (O, "ftp"); (O, "ftp"); (5%nat, "1234");
                 (O, monthToken 12); (O, pad2 2); (1%nat, Time.itoa 2009)] " foo bar "
     = "-rw-r--r--+   1 ftp ftp      1234 Dec 02  2009  foo bar "
  /\ parseListLine "-rw-r--r--+   1 ftp ftp      1234 Dec 02  2009  foo bar "
                    testNow Time.UTC
     = ret (mkEntry " foo bar " "" EntryTypeFile 1234 (Time.Date 2009 12 2 0 0 0 0 Time.UTC)).
Proof.
  assert (Hp : lsPerms "-rw-r--r--+").
  { split; [reflexivity|]. right. split; reflexivity. }
  assert (Hd : 1 <= 2 <= Time.daysIn 12 2009) by (vm_compute; split; discriminate).
  split; [exact Hp|]. split; [exact Hd|]. split; [reflexivity|].
  apply (parseListLine_unix_file "-rw-r--r--+" "1" "ftp" "ftp" "1234" (pad2 2) " foo bar "
           1234 2009 12 2 2 0 0 5 0 0 1 testNow Time.UTC);
    try assumption; try reflexivity; try discriminate; try lia.
  - repeat constructor; discriminate.
  - right. reflexivity.
Defined.

(** X18: a regular [ls -l] line of a directory with a time of day: the mode
    starts with ['d'], the date is a month, a day and [hh:mm].  The record
    is a folder of size 0 whose size field is not read (any token will do),
    dated in the year of the reference time, or in the year before when
    that would be six months or more after the reference time.  The chain
    returns it. *)
Theorem parseListLine_unix_folder (perms links owner group sizeTok day name : string)
    (m d hh mi : Z) (k1 k2 k3 k4 k5 k6 k7 : nat) (now : Time.Time) (loc : Time.Location) :
  lsPerms perms -> byteAt perms 0 = Val "d"%char -> Contains perms ";" = false ->
  Forall (fun f => f <> "" /\ Contains f " " = false) [links; owner; group; sizeTok] ->
  links <> "0" -> links <> "folder" ->
  let y := fst (fst (Time.DateOf now)) in
  1000 <= y <= 9999 -> 1 <= m <= 12 -> 1 <= d <= Time.daysIn m y ->
  0 <= hh < 24 -> 0 <= mi < 60 ->
  day = Time.itoa d \/ day = pad2 d ->
  let line := joinFields [(O, perms); (k1, links); (k2, owner); (k3, group); (k4, sizeTok);
                          (k5, monthToken m); (k6, day); (k7, clockToken hh mi)] name in
  let t := if Time.Before (Time.Date y m d hh mi 0 0 loc) (Time.AddDate now 0 6 0)
           then Time.Date y m d hh mi 0 0 loc
           else Time.Date (y - 1) m d hh mi 0 0 loc in
  let e := mkEntry name "" EntryTypeFolder 0 t in
  parseLsListLine line now loc = ret e /\ parseListLine line now loc = ret e.
Proof.
  intros Hp Hc Hsemi Hw Hl0 Hlf y Hy Hm Hd Hhh Hmi Hday line t e.
  assert (Hls : parseLsListLine line now loc = ret e).
  { unfold line. rewrite (parseLs_tokens _ _ _ _ _ _ _ _ _ _ _ _ _ _ _ _ "d"%char);
      try assumption.
    - cbn [Ascii.eqb Bool.eqb]. unfold lsFinish, finishWithTime.
      rewrite (setTime_tokens _ now loc m d hh mi day Hy Hm Hd Hhh Hmi Hday). reflexivity.
    - destruct Hp as [Hnb _].
      assert (Hne : perms <> "") by (intros ->; discriminate Hc).
      constructor; [split; assumption|].
      change [links; owner; group; sizeTok; monthToken m; day; clockToken hh mi]
        with ([links; owner; group; sizeTok] ++ [monthToken m; day; clockToken hh mi])%list.
      apply Forall_app. split; [exact Hw|].
      constructor; [apply monthToken_word; assumption|].
      constructor; [apply (dayToken_word d); [eapply daysIn_31; eassumption|assumption]|].
      constructor; [apply clockToken_word; assumption|constructor]. }
  split; [exact Hls|].
  apply chain_after_rfc; [|exact Hls|discriminate].
  unfold line. cbn [joinFields blanks append]. apply rfc_declines_perms; [apply Hp|exact Hsemi].
Qed.

Lemma parseListLine_unix_folder_witness :
  lsPerms "drwxr-xr-x"
  /\ 1000 <= fst (fst (Time.DateOf testNow)) <= 9999
  /\ 1 <= 24 <= Time.daysIn 12 (fst (fst (Time.DateOf testNow)))
  /\ joinFields [(O, "drwxr-xr-x"); (3%nat, "3"); (O, "110"); (5%nat, "1002"); (11%nat, "-");
                 (O, monthToken 12); (O, pad2 24); (O, clockToken 19 5)] "pub"
     = "drwxr-xr-x    3 110      1002            - Dec 24 19:05 pub"
  /\ parseListLine "drwxr-xr-x    3 110      1002            - Dec 24 19:05 pub"
                   testNow Time.UTC
     = ret (mkEntry "pub" "" EntryTypeFolder 0 (Time.Date 2016 12 24 19 5 0 0 Time.UTC)).
Proof.
  assert (Hp : lsPerms "drwxr-xr-x") by (split; [reflexivity|left; reflexivity]).
  assert (Hy : 1000 <= fst (fst (Time.DateOf testNow)) <= 9999)
    by (vm_compute; split; discriminate).
  assert (Hd : 1 <= 24 <= Time.daysIn 12 (fst (fst (Time.DateOf testNow))))
    by (vm_compute; split; discriminate).
  split; [exact Hp|]. split; [exact Hy|]. split; [exact Hd|]. split; [reflexivity|].
  apply (parseListLine_unix_folder "drwxr-xr-x" "3" "110" "1002" "-" (pad2 24) "pub"
           12 24 19 5 3 0 5 11 0 0 0 testNow Time.UTC);
    try assumption; try reflexivity; try discriminate; try lia.
  - repeat constructor; discriminate.
  - right. reflexivity.
Defined.

(** ** Listing times are not in the far future *)

Lemma daysSinceEpoch_next (y : Z) :
  Time.daysSinceEpoch (y + 1)
  = Time.daysSinceEpoch y + (if Time.isLeap y then 366 else 365).
Proof.
  unfold Time.daysSinceEpoch, Time.isLeap. cbv zeta.
  replace (y + 1 - 1) with y by lia.
  destruct (Z.eqb_spec (y mod 4) 0) as [E4|E4]; cbn [andb].
  - destruct (Z.eqb_spec (y mod 100) 0) as [E100|E100]; cbn [negb orb].
    + destruct (Z.eqb_spec (y mod 400) 0) as [E400|E400]; Z.div_mod_to_equations; lia.
    + Z.div_mod_to_equations; lia.
  - Z.div_mod_to_equations; lia.
Qed.

(** A day of the year before is before the first day of the year. *)
Lemma civilDays_last_year (y m d : Z) :
  1 <= m <= 12 -> 1 <= d <= Time.daysIn m y ->
  Time.civilDays (y - 1) m d < Time.daysSinceEpoch y.
Proof.
  intros Hm Hd. rewrite (civilDays_yearDay (y - 1) m d Hm).
  pose proof (daysSinceEpoch_next (y - 1)) as Hn.
  replace (y - 1 + 1) with y in Hn by lia. rewrite Hn. clear Hn.
  unfold yearDay, Time.daysIn in *.
  destruct (Time.isLeap (y - 1)); destruct (Time.isLeap y);
    destruct (month_cases m Hm) as [->|[->|[->|[->|[->|[->|[->|[->|[->|[->|[->| ->]]]]]]]]]]];
    calc_days; lia.
Qed.

(** Six months after a day of a year is at least 181 days into that year. *)
Lemma civilDays_six_months (y m d : Z) :
  1 <= m <= 12 -> 1 <= d ->
  Time.daysSinceEpoch y + 181 <= Time.civilDays y (m + 6) d.
Proof.
  intros Hm Hd. unfold Time.civilDays. cbv zeta.
  pose proof (daysSinceEpoch_next y) as Hn.
  destruct (Time.isLeap y) eqn:El;
    destruct (month_cases m Hm) as [->|[->|[->|[->|[->|[->|[->|[->|[->|[->|[->| ->]]]]]]]]]]];
    cbn [Z.add Z.sub Z.opp Z.pos_sub Pos.add Pos.succ Pos.pred_double Pos.add_carry
         Z.succ_double Z.pred_double Z.double];
    match goal with
    | |- context [Z.pos ?p / 12] =>
        let q := eval vm_compute in (Z.pos p / 12) in
        let r := eval vm_compute in (Z.pos p mod 12 + 1) in
        change (Z.pos p / 12) with q; change (Z.pos p mod 12 + 1) with r
    end;
    rewrite ?Z.add_0_r, ?Hn, ?El; calc_days;
    destruct (Time.isLeap (y + 1)); cbn [andb]; lia.
Qed.

(** X19: a date with a time of day is never resolved to a time six months
    or more after the reference time, for locations whose offsets from UTC
    are at most a day: when the date in the year of the reference time is
    that late, the date in the year before is not. *)
Theorem setTime_not_future (e : Entry) (loc : Time.Location)
    (y0 m0 d0 h0 mi0 s0 ns0 : Z) (loc0 : Time.Location) (m d hh mi : Z) (day : string) :
  let now := Time.Date y0 m0 d0 h0 mi0 s0 ns0 loc0 in
  1000 <= y0 <= 9999 -> 1 <= m0 <= 12 -> 1 <= d0 <= Time.daysIn m0 y0 ->
  0 <= h0 < 24 -> 0 <= mi0 < 60 -> 0 <= s0 < 60 ->
  Z.abs loc0 <= 86400 -> Z.abs loc <= 86400 ->
  1 <= m <= 12 -> 1 <= d <= Time.daysIn m y0 -> 0 <= hh < 24 -> 0 <= mi < 60 ->
  day = Time.itoa d \/ day = pad2 d ->
  exists t,
    setTime e [monthToken m; day; clockToken hh mi] now loc
    = Val (mkEntry (Name e) (Target e) (Type_ e) (Size e) t, None)
    /\ Time.Before t (Time.AddDate now 0 6 0) = true.
Proof.
  intros now Hy0 Hm0 Hd0 Hh0 Hmi0 Hs0 Hl0 Hl Hm Hd Hhh Hmi Hday.
  destruct (DateOf_Date y0 m0 d0 h0 mi0 s0 ns0 loc0 Hm0 Hd0 Hh0 Hmi0 Hs0) as [HD HC].
  fold now in HD, HC.
  assert (Hy : fst (fst (Time.DateOf now)) = y0) by (rewrite HD; reflexivity).
  pose proof (setTime_tokens e now loc m d hh mi day) as Hs. cbv zeta in Hs.
  rewrite Hy in Hs. specialize (Hs Hy0 Hm Hd Hhh Hmi Hday).
  eexists. split; [exact Hs|].
  destruct (Time.Before (Time.Date y0 m d hh mi 0 0 loc) (Time.AddDate now 0 6 0)) eqn:Eb;
    [exact Eb|].
  unfold Time.AddDate. rewrite HD, HC. unfold Time.Before, now, Time.Date.
  cbn [Time.sec Time.nsec Time.loc]. rewrite !Z.add_0_r.
  pose proof (civilDays_last_year y0 m d Hm Hd).
  pose proof (civilDays_six_months y0 m0 d0 Hm0 ltac:(lia)).
  apply orb_true_iff. left. apply Z.ltb_lt. lia.
Qed.

Lemma setTime_not_future_witness :
  1 <= 10 <= Time.daysIn 3 2017 /\ 1 <= 10 <= Time.daysIn 9 2017
  /\ exists t,
       setTime Entry0 [monthToken 9; pad2 10; clockToken 23 0]
               (Time.Date 2017 3 10 23 0 0 0 Time.UTC) Time.UTC
       = Val (mkEntry "" "" EntryTypeFile 0 t, None)
       /\ Time.Before t (Time.AddDate (Time.Date 2017 3 10 23 0 0 0 Time.UTC) 0 6 0) = true.
Proof.
  assert (H1 : 1 <= 10 <= Time.daysIn 3 2017) by (vm_compute; split; discriminate).
  assert (H2 : 1 <= 10 <= Time.daysIn 9 2017) by (vm_compute; split; discriminate).
  split; [exact H1|]. split; [exact H2|].
  apply (setTime_not_future Entry0 Time.UTC 2017 3 10 23 0 0 0 Time.UTC 9 10 23 0);
    try assumption; try lia; try (vm_compute; discriminate).
  right. reflexivity.
Defined.

(** ** Facts of the fact-list recognizer *)

Lemma append_empty_r (s : string) : s ++ "" = s.
Proof. induction s as [|c s IH]; cbn [append]; [reflexivity|]. rewrite IH. reflexivity. Qed.

Lemma getnum_digits (a b : Z) (rest : string) (fixed : bool) :
  0 <= a <= 9 -> 0 <= b <= 9 ->
  Time.getnum (String (Time.digitChar a) (String (Time.digitChar b) rest)) fixed
  = Some (10 * a + b, rest).
Proof.
  intros Ha Hb.
  destruct (digitChar_spec _ Ha) as (D1 & V1 & _), (digitChar_spec _ Hb) as (D0 & V0 & _).
  unfold Time.getnum, Time.isDigit, Time.digitAt. cbn [String.get].
  rewrite D1, D0, V1, V0. cbn [negb drop]. do 2 f_equal. lia.
Qed.

Lemma getnum_pad2 (n : Z) (rest : string) (fixed : bool) :
  0 <= n <= 99 -> Time.getnum (pad2 n ++ rest) fixed = Some (n, rest).
Proof.
  intros H. rewrite (pad2_digits n H). cbn [append].
  rewrite getnum_digits by (Z.div_mod_to_equations; lia).
  do 2 f_equal. Z.div_mod_to_equations; lia.
Qed.

Lemma parseStd_longYear (y : Z) (rest : string) (f : Time.fields) :
  1000 <= y <= 9999 ->
  Time.parseStd Time.stdLongYear (fourDigits y ++ rest) f = Some (setYear f y, rest).
Proof.
  intros H.
  assert (H3 : 0 <= y / 1000 <= 9) by (Z.div_mod_to_equations; lia).
  assert (H2 : 0 <= y / 100 mod 10 <= 9) by (Z.div_mod_to_equations; lia).
  assert (H1 : 0 <= y / 10 mod 10 <= 9) by (Z.div_mod_to_equations; lia).
  assert (H0 : 0 <= y mod 10 <= 9) by (Z.div_mod_to_equations; lia).
  destruct (digitChar_spec _ H3) as (D3 & V3 & _ & M3 & P3).
  destruct (digitChar_spec _ H2) as (D2 & V2 & _).
  destruct (digitChar_spec _ H1) as (D1 & V1 & _).
  destruct (digitChar_spec _ H0) as (D0 & V0 & _).
  unfold fourDigits. cbn [append Time.parseStd].
  replace (len _ <? 4) with false.
  2:{ symmetry. apply Z.ltb_ge. unfold len. cbn [String.length]. lia. }
  unfold Time.isDigit. cbn [String.get orb negb]. rewrite D3. cbn [negb].
  cbn [take drop]. unfold Time.atoi. rewrite M3, P3. cbn [Strconv.atoiDigits].
  rewrite D3, D2, D1, D0, V3, V2, V1, V0. unfold setYear. do 3 f_equal.
  Z.div_mod_to_equations; lia.
Qed.

Lemma ParseInLocation_stamp (y m d hh mi ss : Z) (l : Time.Location) :
  1000 <= y <= 9999 -> 1 <= m <= 12 -> 1 <= d <= Time.daysIn m y ->
  0 <= hh < 24 -> 0 <= mi < 60 -> 0 <= ss < 60 ->
  Time.ParseInLocation "20060102150405" (rfcStamp y m d hh mi ss) l
  = (Time.Date y m d hh mi ss 0 l, None).
Proof.
  intros Hy Hm Hd Hhh Hmi Hss.
  pose proof (daysIn_31 m y d Hm Hd) as Hd31.
  unfold Time.ParseInLocation, rfcStamp. cbn [String.length].
  erewrite parseLoop_step;
    [|vm_compute; reflexivity|unfold chunk; cbn [Time.skip String.length];
                              apply parseStd_longYear; assumption].
  erewrite parseLoop_step; [|vm_compute; reflexivity|].
  2:{ unfold chunk. cbn [Time.skip String.length Time.parseStd].
      rewrite getnum_pad2 by lia.
      destruct (Z.leb_spec m 0); [lia|]. destruct (Z.ltb_spec 12 m); [lia|]. reflexivity. }
  erewrite parseLoop_step; [|vm_compute; reflexivity|].
  2:{ unfold chunk. cbn [Time.skip String.length Time.parseStd].
      destruct (pad2 d ++ _) eqn:E; rewrite <- E; rewrite getnum_pad2 by lia; reflexivity. }
  erewrite parseLoop_step; [|vm_compute; reflexivity|].
  2:{ unfold chunk. cbn [Time.skip String.length Time.parseStd].
      rewrite getnum_pad2 by lia.
      destruct (Z.ltb_spec hh 0); [lia|]. destruct (Z.leb_spec 24 hh); [lia|]. reflexivity. }
  erewrite parseLoop_step; [|vm_compute; reflexivity|].
  2:{ unfold chunk. cbn [Time.skip String.length Time.parseStd].
      rewrite getnum_pad2 by lia.
      destruct (Z.ltb_spec mi 0); [lia|]. destruct (Z.leb_spec 60 mi); [lia|]. reflexivity. }
  erewrite parseLoop_step; [|vm_compute; reflexivity|].
  2:{ unfold chunk. cbn [Time.skip String.length Time.parseStd].
      replace (pad2 ss) with (pad2 ss ++ "") by apply append_empty_r.
      rewrite getnum_pad2 by lia.
      destruct (Z.ltb_spec ss 0); [lia|]. destruct (Z.leb_spec 60 ss); [lia|].
      cbn [orb len String.length Z.of_nat Z.leb Z.compare andb]. reflexivity. }
  cbn [Time.parseLoop Time.nextStdChunk Time.stdAt Time.skip String.length len Z.of_nat Z.eqb
       setYear Time.fields0
       Time.fyear Time.fmonth Time.fday Time.fhour Time.fmin Time.fsec Time.fnsec
       Time.pmSet Time.amSet andb].
  destruct (Z.ltb_spec m 0); [lia|]. destruct (Z.ltb_spec d 0); [lia|].
  destruct (Z.ltb_spec d 1); [lia|]. destruct (Z.ltb_spec (Time.daysIn m y) d); [lia|].
  reflexivity.
Qed.

(** *** Keys are read without regard to case *)

Lemma lowerByte_twice (c : ascii) : lowerByte (lowerByte c) = lowerByte c.
Proof. destruct c as [[] [] [] [] [] [] [] []]; reflexivity. Qed.

Lemma lowerByte_equals (c : ascii) : Ascii.eqb (lowerByte c) "=" = Ascii.eqb c "=".
Proof. destruct c as [[] [] [] [] [] [] [] []]; reflexivity. Qed.

Lemma lowerByte_ascii (c : ascii) : isASCII (lowerByte c) = isASCII c.
Proof. destruct c as [[] [] [] [] [] [] [] []]; reflexivity. Qed.

(** A lower-case form with ASCII bytes only is its own lower-case form; it is
    empty only for the empty string and holds an ['='] only where the string
    does. *)
Lemma ToLower_Some (n : nat) (k k' : string) :
  (String.length k <= n)%nat ->
  ToLower k = Some k' ->
  ToLower k' = Some k'
  /\ (k <> "" -> k' <> "")
  /\ (Contains k "=" = false -> Contains k' "=" = false).
Proof.
  revert k k'. induction n as [|n IH]; intros k k' Hlen H.
  { destruct k; [|cbn [String.length] in Hlen; lia].
    injection H as <-. repeat split; auto. }
  destruct k as [|c s1]; [injection H as <-; repeat split; auto|].
  cbn [String.length] in Hlen. cbn [ToLower] in H.
  destruct (isASCII c) eqn:Ea.
  { destruct (ToLower s1) as [t|] eqn:E1; [|discriminate H]. injection H as <-.
    destruct (IH s1 t ltac:(lia) E1) as (Hi & _ & He).
    split; [|split].
    - cbn [ToLower]. rewrite lowerByte_ascii, Ea, lowerByte_twice, Hi. reflexivity.
    - intros _. discriminate.
    - rewrite !Contains_byte_cons, lowerByte_equals. intros Hc.
      apply orb_false_iff in Hc. destruct Hc as [-> Hc]. exact (He Hc). }
  destruct s1 as [|c1 s2]; [discriminate H|]. cbn [String.length] in Hlen.
  destruct (Ascii.eqb c "196" && Ascii.eqb c1 "176").
  { destruct (ToLower s2) as [t|] eqn:E2; [|discriminate H]. injection H as <-.
    destruct (IH s2 t ltac:(lia) E2) as (Hi & _ & He).
    split; [|split].
    - cbn [ToLower]. change (isASCII "i") with true. cbv iota. rewrite Hi. reflexivity.
    - intros _. discriminate.
    - rewrite !Contains_byte_cons. intros Hc.
      apply orb_false_iff in Hc. destruct Hc as [_ Hc].
      apply orb_false_iff in Hc. destruct Hc as [_ Hc]. exact (He Hc). }
  destruct s2 as [|c2 s3]; [discriminate H|]. cbn [String.length] in Hlen.
  destruct (Ascii.eqb c "226" && Ascii.eqb c1 "132" && Ascii.eqb c2 "170"); [|discriminate H].
  destruct (ToLower s3) as [t|] eqn:E3; [|discriminate H]. injection H as <-.
  destruct (IH s3 t ltac:(lia) E3) as (Hi & _ & He).
  split; [|split].
  - cbn [ToLower]. change (isASCII "k") with true. cbv iota. rewrite Hi. reflexivity.
  - intros _. discriminate.
  - rewrite !Contains_byte_cons. intros Hc.
    apply orb_false_iff in Hc. destruct Hc as [_ Hc].
    apply orb_false_iff in Hc. destruct Hc as [_ Hc].
    apply orb_false_iff in Hc. destruct Hc as [_ Hc]. exact (He Hc).
Qed.

Lemma fact_key_value (k v : string) :
  k <> "" -> Contains k "=" = false ->
  let field := k ++ String "=" v in
  Index field "=" = len k
  /\ (Index field "=" <? 1) = false
  /\ sliceTo field (Index field "=") = Val k
  /\ sliceFrom field (Index field "=" + 1) = Val v.
Proof.
  intros Hne Hk field. unfold field.
  rewrite (Index_byte_app k v "="%char Hk).
  assert (Hl : 1 <= len k).
  { destruct k; [congruence|]. unfold len. cbn [String.length]. lia. }
  pose proof (len_nonneg v).
  assert (Hlen : len (k ++ String "=" v) = len k + 1 + len v).
  { unfold len. rewrite string_app_length. cbn [String.length]. lia. }
  split; [reflexivity|]. split; [apply Z.ltb_ge; lia|].
  rewrite sliceTo_val, sliceFrom_val by lia.
  replace (Z.to_nat (len k)) with (String.length k) by (unfold len; lia).
  replace (Z.to_nat (len k + 1)) with (String.length (k ++ "=")).
  2:{ rewrite string_app_length. unfold len. cbn [String.length]. lia. }
  rewrite take_app. change (String "=" v) with ("=" ++ v).
  rewrite <- string_app_assoc, drop_app. split; reflexivity.
Qed.

(** X20: a [modify] fact of fourteen digits, year, month, day, hour, minute
    and second of a date that exists, sets the time of the record to that
    instant in the caller's location and leaves its other fields as they
    are. *)
Theorem rfcFacts_modify (y m d hh mi ss : Z) (facts : list string) (loc : Time.Location)
    (e : Entry) :
  1000 <= y <= 9999 -> 1 <= m <= 12 -> 1 <= d <= Time.daysIn m y ->
  0 <= hh < 24 -> 0 <= mi < 60 -> 0 <= ss < 60 ->
  rfcFacts (("modify=" ++ rfcStamp y m d hh mi ss) :: facts) loc e
  = rfcFacts facts loc
      (mkEntry (Name e) (Target e) (Type_ e) (Size e) (Time.Date y m d hh mi ss 0 loc)).
Proof.
  intros Hy Hm Hd Hhh Hmi Hss.
  pose proof (ParseInLocation_stamp y m d hh mi ss loc Hy Hm Hd Hhh Hmi Hss) as Hp.
  set (st := rfcStamp y m d hh mi ss) in *. clearbody st.
  destruct (fact_key_value "modify" st ltac:(discriminate) eq_refl) as (_ & H1 & H2 & H3).
  cbn [rfcFacts]. change ("modify=" ++ st) with ("modify" ++ String "=" st).
  rewrite H1, H2, H3. cbn [bind].
  change (keyIs (ToLower "modify") "modify") with true. cbn iota.
  rewrite Hp. reflexivity.
Qed.

Lemma rfcFacts_modify_witness :
  1 <= 13 <= Time.daysIn 8 2015
  /\ "modify=" ++ rfcStamp 2015 8 13 17 52 50 = "modify=20150813175250"
  /\ rfcFacts ["modify=20150813175250"; "size=951"] Time.UTC Entry0
     = rfcFacts ["size=951"] Time.UTC
                (mkEntry "" "" EntryTypeFile 0 (Time.Date 2015 8 13 17 52 50 0 Time.UTC)).
Proof.
  assert (Hd : 1 <= 13 <= Time.daysIn 8 2015) by (vm_compute; split; discriminate).
  split; [exact Hd|]. split; [reflexivity|].
  apply (rfcFacts_modify 2015 8 13 17 52 50 ["size=951"] Time.UTC Entry0);
    try assumption; lia.
Defined.

(** X21: the key of a fact is read through [strings.ToLower], which folds
    the letters of Unicode, not only [A-Z]: a fact whose key has an ASCII
    lower-case form does what the fact with that form as its key does, and a
    fact whose key has no ASCII lower-case form is passed over, as no case of
    the switch matches it.  The value is taken as it is. *)
Theorem rfcFacts_key_case (k v : string) (facts : list string) (loc : Time.Location)
    (e : Entry) :
  k <> "" -> Contains k "=" = false ->
  rfcFacts ((k ++ "=" ++ v) :: facts) loc e
  = match ToLower k with
    | Some k' => rfcFacts ((k' ++ "=" ++ v) :: facts) loc e
    | None => rfcFacts facts loc e
    end.
Proof.
  intros Hne Hk.
  destruct (fact_key_value k v Hne Hk) as (_ & H1 & H2 & H3).
  change ("=" ++ v) with (String "=" v).
  destruct (ToLower k) as [k'|] eqn:E.
  - destruct (ToLower_Some (String.length k) k k' (le_n _) E) as (Hi & Hn & Hc).
    destruct (fact_key_value k' v (Hn Hne) (Hc Hk)) as (_ & H1' & H2' & H3').
    cbn [rfcFacts]. rewrite H1, H2, H3, H1', H2', H3'. cbn [bind]. rewrite E, Hi. reflexivity.
  - cbn [rfcFacts]. rewrite H1, H2, H3. cbn [bind]. rewrite E. reflexivity.
Qed.

(** Witness of [rfcFacts_key_case]: the key [SIZE] written with U+0130 for
    its second letter is the key [size]. *)
Lemma rfcFacts_key_case_witness :
  Contains ("S" ++ capitalIDot ++ "ZE") "=" = false
  /\ ToLower ("S" ++ capitalIDot ++ "ZE") = Some "size"
  /\ rfcFacts [(("S" ++ capitalIDot ++ "ZE") ++ "=" ++ "951")%string] Time.UTC Entry0
     = rfcFacts [("size" ++ "=" ++ "951")%string] Time.UTC Entry0.
Proof.
  split; [reflexivity|]. split; [reflexivity|].
  apply (rfcFacts_key_case ("S" ++ capitalIDot ++ "ZE") "951" [] Time.UTC Entry0);
    [discriminate|reflexivity].
Defined.

(** *** Lines of facts *)

Lemma Contains_false_Index (s sep : string) :
  Contains s sep = false -> (Index s sep <? 0) = true.
Proof. unfold Contains. intros H. apply Z.leb_gt in H. apply Z.ltb_lt. exact H. Qed.

Lemma splitFuel_concat (fuel : nat) (fs : list string) :
  fs <> [] -> Forall (fun f => Contains f ";" = false) fs ->
  (List.length fs <= fuel)%nat ->
  splitFuel fuel (String.concat ";" fs) ";" = fs.
Proof.
  revert fs. induction fuel as [|fuel IH]; intros fs Hne Hall Hlen.
  - destruct fs; [congruence|cbn [List.length] in Hlen; lia].
  - destruct fs as [|f fs]; [congruence|]. inversion Hall as [|? ? Hf Hfs]; subst.
    destruct fs as [|g fs].
    + cbn [String.concat splitFuel]. rewrite (Contains_false_Index _ _ Hf). reflexivity.
    + change (String.concat ";" (f :: g :: fs))
        with (f ++ String ";" (String.concat ";" (g :: fs))).
      cbn [splitFuel]. rewrite (Index_byte_app f _ ";"%char Hf).
      pose proof (len_nonneg f). destruct (Z.ltb_spec (len f) 0); [lia|].
      replace (Z.to_nat (len f)) with (String.length f) by (unfold len; lia).
      rewrite take_app. f_equal.
      replace (String.length f + String.length ";")%nat with (String.length (f ++ ";"))
        by (rewrite string_app_length; reflexivity).
      change (String ";" (String.concat ";" (g :: fs)))
        with (";" ++ String.concat ";" (g :: fs)).
      rewrite <- string_app_assoc, drop_app.
      apply IH; [discriminate|exact Hfs|cbn [List.length] in *; lia].
Qed.

Lemma length_concat (fs : list string) :
  (List.length fs <= S (String.length (String.concat ";" fs)))%nat.
Proof.
  induction fs as [|f fs IH]; [cbn; lia|].
  destruct fs as [|g fs]; [cbn [List.length]; lia|].
  change (String.concat ";" (f :: g :: fs))
    with (f ++ String ";" (String.concat ";" (g :: fs))).
  rewrite string_app_length. cbn [String.length List.length] in *. lia.
Qed.

Lemma Split_concat (fs : list string) :
  fs <> [] -> Forall (fun f => Contains f ";" = false) fs ->
  Split (String.concat ";" fs) ";" = fs.
Proof.
  intros Hne Hall. unfold Split. apply splitFuel_concat; try assumption.
  apply length_concat.
Qed.

Lemma Contains_blank_append (a b : string) :
  Contains a " " = false -> Contains b " " = false -> Contains (a ++ b) " " = false.
Proof.
  intros Ha Hb. induction a as [|c a IH]; [exact Hb|].
  rewrite Contains_blank_cons in Ha. apply orb_false_iff in Ha. destruct Ha as [Hc Ha].
  cbn [append]. rewrite Contains_blank_cons, Hc, (IH Ha). reflexivity.
Qed.

Lemma concat_no_blank (fs : list string) :
  Forall (fun f => Contains f " " = false) fs -> Contains (String.concat ";" fs) " " = false.
Proof.
  induction 1 as [|f fs Hf Hfs IH]; [reflexivity|].
  destruct fs as [|g fs]; [exact Hf|].
  change (String.concat ";" (f :: g :: fs))
    with (f ++ String ";" (String.concat ";" (g :: fs))).
  apply Contains_blank_append; [exact Hf|].
  rewrite Contains_blank_cons. exact IH.
Qed.

(** X22: on a line of facts, each followed by a semicolon, then a blank and
    the name, the fact-list recognizer applies the facts from left to right
    to a record with that name; facts hold no semicolon and no blank.  What
    comes out, unless it is the sentinel, is what the chain returns: no other
    recognizer sees the line. *)
Theorem parseListLine_rfc (fs : list string) (name : string)
    (now : Time.Time) (loc : Time.Location) :
  fs <> [] ->
  Forall (fun f => Contains f ";" = false /\ Contains f " " = false) fs ->
  let line := String.concat ";" fs ++ "; " ++ name in
  parseRFC3659ListLine line now loc
  = rfcFacts fs loc (mkEntry name "" EntryTypeFile 0 Time.zero)
  /\ forall e err, rfcFacts fs loc (mkEntry name "" EntryTypeFile 0 Time.zero) = Val (e, err) ->
                   err <> Some errUnsupportedListLine ->
                   parseListLine line now loc = Val (e, err).
Proof.
  intros Hne Hall line.
  assert (Hs : Forall (fun f => Contains f ";" = false) fs)
    by (eapply Forall_impl; [|exact Hall]; cbn; tauto).
  assert (Hb : Forall (fun f => Contains f " " = false) fs)
    by (eapply Forall_impl; [|exact Hall]; cbn; tauto).
  assert (Hr : parseRFC3659ListLine line now loc = rfcFacts fs loc (withName Entry0 name)).
  { unfold line. change ("; " ++ name) with (String ";" (String " " name)).
    rewrite parseRFC_facts; [|apply concat_no_blank; exact Hb|right; reflexivity|discriminate].
    rewrite (Split_concat fs Hne Hs). reflexivity. }
  split; [exact Hr|]. intros e err He Herr.
  unfold parseListLine, listLineParsers. apply tryParsers_first; [|exact Herr].
  rewrite Hr. exact He.
Qed.

Lemma parseListLine_rfc_witness :
  let fs := ["modify=20150813175250"; "perm=adfr"; "size=951"; "type=file";
             "unique=119FBB87UE"; "UNIX.group=0"; "UNIX.mode=0644"; "UNIX.owner=0"] in
  String.concat ";" fs ++ "; " ++ "welcome.msg"
  = "modify=20150813175250;perm=adfr;size=951;type=file;unique=119FBB87UE;UNIX.group=0;UNIX.mode=0644;UNIX.owner=0; welcome.msg"
  /\ parseListLine (String.concat ";" fs ++ "; " ++ "welcome.msg") testNow Time.UTC
     = ret (mkEntry "welcome.msg" "" EntryTypeFile 951
                    (Time.Date 2015 8 13 17 52 50 0 Time.UTC)).
Proof.
  intros fs. split; [reflexivity|].
  apply (parseListLine_rfc fs "welcome.msg" testNow Time.UTC).
  - discriminate.
  - repeat constructor.
  - vm_compute. reflexivity.
  - discriminate.
Defined.

(** ** DOS-style lines *)

Lemma atoi_digits (a b : Z) :
  0 <= a <= 9 -> 0 <= b <= 9 ->
  Time.atoi (String (Time.digitChar a) (String (Time.digitChar b) "")) = Some (10 * a + b).
Proof.
  intros Ha Hb.
  destruct (digitChar_spec _ Ha) as (Da & Va & _ & Ma & Pa).
  destruct (digitChar_spec _ Hb) as (Db & Vb & _).
  unfold Time.atoi. rewrite Ma, Pa. cbn [Strconv.atoiDigits].
  rewrite Da, Db, Va, Vb. f_equal. lia.
Qed.

Lemma parseLoop_dos (mo d yy h mi : Z) (pm : bool) :
  1 <= mo <= 12 -> 0 <= d <= 99 -> 0 <= yy <= 99 -> 0 <= h <= 12 -> 0 <= mi < 60 ->
  Time.parseLoop 18 "01-02-06  03:04PM" (dosDate mo d yy ++ "  " ++ dosClock h mi pm)
                 Time.fields0
  = Some (Time.mkFields (dosYear yy) mo d h mi 0 0 pm (negb pm)).
Proof.
  intros Hmo Hd Hyy Hh Hmi. unfold dosDate, dosClock.
  rewrite !string_app_assoc. cbn [append].
  erewrite parseLoop_step; [|vm_compute; reflexivity|].
  2:{ unfold chunk. cbn [Time.skip String.length Time.parseStd].
      rewrite getnum_pad2 by lia.
      destruct (Z.leb_spec mo 0); [lia|]. destruct (Z.ltb_spec 12 mo); [lia|]. reflexivity. }
  erewrite parseLoop_step; [|vm_compute; reflexivity|].
  2:{ unfold chunk. cbn [Time.skip String.length Ascii.eqb Bool.eqb Time.parseStd].
      destruct (pad2 d ++ _) eqn:E; rewrite <- E; rewrite getnum_pad2 by lia; reflexivity. }
  erewrite parseLoop_step; [|vm_compute; reflexivity|].
  2:{ unfold chunk. cbn [Time.skip String.length Ascii.eqb Bool.eqb Time.parseStd].
      rewrite (pad2_digits yy Hyy). cbn [append take drop].
      replace (len _ <? 2) with false
        by (symmetry; apply Z.ltb_ge; unfold len; cbn [String.length]; lia).
      rewrite atoi_digits by (Z.div_mod_to_equations; lia).
      replace (10 * (yy / 10) + yy mod 10) with yy by (Z.div_mod_to_equations; lia).
      reflexivity. }
  erewrite parseLoop_step; [|vm_compute; reflexivity|].
  2:{ unfold chunk. rewrite (pad2_digits h) by lia. cbn [append].
      assert (H1 : 0 <= h / 10 <= 9) by (Z.div_mod_to_equations; lia).
      destruct (digitChar_spec _ H1) as (_ & _ & B & _).
      cbn [Time.skip String.length Ascii.eqb Bool.eqb negb Time.cutspace TrimLeft inCutset].
      rewrite B. cbn [orb Time.skip Time.parseStd].
      rewrite getnum_digits by (Z.div_mod_to_equations; lia).
      replace (10 * (h / 10) + h mod 10) with h by (Z.div_mod_to_equations; lia).
      destruct (Z.ltb_spec h 0); [lia|]. destruct (Z.ltb_spec 12 h); [lia|]. reflexivity. }
  erewrite parseLoop_step; [|vm_compute; reflexivity|].
  2:{ unfold chunk. cbn [Time.skip String.length Ascii.eqb Bool.eqb Time.parseStd].
      rewrite getnum_pad2 by lia.
      destruct (Z.ltb_spec mi 0); [lia|]. destruct (Z.leb_spec 60 mi); [lia|]. reflexivity. }
  cbn [Time.fyear Time.fmonth Time.fday Time.fhour Time.fmin Time.fsec Time.fnsec
       Time.pmSet Time.amSet Time.fields0].
  fold (dosYear yy).
  destruct pm; reflexivity.
Qed.

Lemma ParseInLocation_dos (mo d yy h mi : Z) (pm : bool) (l : Time.Location) :
  1 <= mo <= 12 -> 0 <= yy <= 99 -> 1 <= d <= Time.daysIn mo (dosYear yy) ->
  0 <= h <= 12 -> 0 <= mi < 60 ->
  Time.ParseInLocation "01-02-06  03:04PM" (dosDate mo d yy ++ "  " ++ dosClock h mi pm) l
  = (Time.Date (dosYear yy) mo d (dosHour h pm) mi 0 0 l, None).
Proof.
  intros Hmo Hyy Hd Hh Hmi.
  pose proof (daysIn_31 mo _ d Hmo Hd) as Hd31.
  unfold Time.ParseInLocation.
  change (S (String.length "01-02-06  03:04PM")) with 18%nat.
  rewrite parseLoop_dos by lia.
  cbn [Time.fyear Time.fmonth Time.fday Time.fhour Time.fmin Time.fsec Time.fnsec
       Time.pmSet Time.amSet].
  destruct (Z.ltb_spec mo 0); [lia|]. destruct (Z.ltb_spec d 0); [lia|].
  destruct (Z.ltb_spec d 1); [lia|].
  destruct (Z.ltb_spec (Time.daysIn mo (dosYear yy)) d); [lia|].
  reflexivity.
Qed.

Lemma isDec_neq (c x : ascii) :
  Strconv.isDec c = true -> Strconv.isDec x = false -> Ascii.eqb c x = false.
Proof.
  intros Hc Hx. destruct (Ascii.eqb_spec c x) as [->|]; [congruence|reflexivity].
Qed.

(** The date of a DOS-style line is a word of eight bytes without a
    semicolon, and date and time of day together have 17 bytes. *)
Lemma dosDate_word (mo d yy : Z) :
  0 <= mo <= 99 -> 0 <= d <= 99 -> 0 <= yy <= 99 ->
  Contains (dosDate mo d yy) " " = false
  /\ Contains (dosDate mo d yy) ";" = false
  /\ len (dosDate mo d yy) = 8.
Proof.
  intros Hmo Hd Hyy. unfold dosDate. rewrite !pad2_digits by assumption. cbn [append].
  assert (D : forall k, 0 <= k <= 99 ->
                        Strconv.isDec (Time.digitChar (k / 10)) = true
                        /\ Strconv.isDec (Time.digitChar (k mod 10)) = true).
  { intros k Hk. split; apply digitChar_spec; Z.div_mod_to_equations; lia. }
  destruct (D mo Hmo) as [A1 A0], (D d Hd) as [B1 B0], (D yy Hyy) as [C1 C0].
  split; [|split; [|reflexivity]].
  - rewrite !Contains_blank_cons.
    rewrite (isDec_neq _ " "%char A1 eq_refl), (isDec_neq _ " "%char A0 eq_refl),
      (isDec_neq _ " "%char B1 eq_refl), (isDec_neq _ " "%char B0 eq_refl),
      (isDec_neq _ " "%char C1 eq_refl), (isDec_neq _ " "%char C0 eq_refl).
    reflexivity.
  - rewrite !Contains_byte_cons.
    rewrite (isDec_neq _ ";"%char A1 eq_refl), (isDec_neq _ ";"%char A0 eq_refl),
      (isDec_neq _ ";"%char B1 eq_refl), (isDec_neq _ ";"%char B0 eq_refl),
      (isDec_neq _ ";"%char C1 eq_refl), (isDec_neq _ ";"%char C0 eq_refl).
    reflexivity.
Qed.

Lemma dosStamp_length (mo d yy h mi : Z) (pm : bool) :
  0 <= mo <= 99 -> 0 <= d <= 99 -> 0 <= yy <= 99 -> 0 <= h <= 99 -> 0 <= mi <= 99 ->
  String.length (dosDate mo d yy ++ "  " ++ dosClock h mi pm) = 17%nat.
Proof.
  intros Hmo Hd Hyy Hh Hmi. unfold dosDate, dosClock. rewrite !pad2_digits by assumption.
  destruct pm; reflexivity.
Qed.

Lemma TrimLeft_blanks (k : nat) (s : string) : TrimLeft (blanks k ++ s) " " = TrimLeft s " ".
Proof. induction k as [|k IH]; [reflexivity|]. exact IH. Qed.

(** A number in base 10 starts with a decimal digit. *)
Lemma ParseUint_10_digit (s : string) (n : Z) :
  Strconv.ParseUint s 10 = (n, None) ->
  exists c r, s = String c r /\ Strconv.isDec c = true.
Proof.
  destruct s as [|c r]; [discriminate|]. intros H. exists c, r. split; [reflexivity|].
  unfold Strconv.ParseUint in H. cbn [Z.eqb Strconv.parseDigits andb] in H.
  rewrite andb_false_r in H.
  destruct (Strconv.isDec c); [reflexivity|].
  destruct ((97 <=? Strconv.lower c) && (Strconv.lower c <=? 122)) eqn:E;
    [|discriminate H].
  apply andb_true_iff in E. destruct E as [E _]. apply Z.leb_le in E.
  destruct (Z.leb_spec 10 (Strconv.lower c - 97 + 10)); [discriminate H|lia].
Qed.

(** The loop over the time formats on a DOS-style line with more text after
    the time of day. *)
Lemma dirTimeLoop_dos (mo d yy h mi : Z) (pm : bool) (rest : string) (loc : Time.Location) :
  1 <= mo <= 12 -> 0 <= yy <= 99 -> 1 <= d <= Time.daysIn mo (dosYear yy) ->
  0 <= h <= 12 -> 0 <= mi < 60 -> rest <> "" ->
  dirTimeLoop dirTimeFormats (dosDate mo d yy ++ "  " ++ dosClock h mi pm ++ rest) loc
              Entry0 None
  = Val (withTime Entry0 (Time.Date (dosYear yy) mo d (dosHour h pm) mi 0 0 loc), None, rest).
Proof.
  intros Hmo Hyy Hd Hh Hmi Hrest.
  pose proof (daysIn_31 mo _ d Hmo Hd) as Hd31.
  set (stamp := dosDate mo d yy ++ "  " ++ dosClock h mi pm).
  assert (Hl : String.length stamp = 17%nat) by (apply dosStamp_length; lia).
  assert (El : dosDate mo d yy ++ "  " ++ dosClock h mi pm ++ rest = stamp ++ rest).
  { unfold stamp. rewrite !string_app_assoc. reflexivity. }
  rewrite El. unfold dirTimeFormats. cbn [dirTimeLoop].
  change (len "01-02-06  03:04PM") with 17.
  assert (Hlen : 17 < len (stamp ++ rest)).
  { unfold len. rewrite string_app_length, Hl. destruct rest; [congruence|].
    cbn [String.length]. lia. }
  destruct (Z.ltb_spec 17 (len (stamp ++ rest))); [|lia].
  rewrite sliceTo_val by lia. cbn [bind]. change (Z.to_nat 17) with 17%nat.
  rewrite <- Hl at 1. rewrite take_app.
  unfold stamp at 1. rewrite (ParseInLocation_dos mo d yy h mi pm loc) by assumption.
  rewrite sliceFrom_val by lia. cbn [bind]. change (Z.to_nat 17) with 17%nat.
  rewrite <- Hl at 1. rewrite drop_app. reflexivity.
Qed.

(** X23: a DOS-style line, [mm-dd-yy  hh:mmAM] or [PM] and then [<DIR>] or a
    size in base 10, gives a folder or a file dated in the caller's location:
    years from 69 on are in the 1900s, the others in the 2000s; 12 AM is hour
    0 and the hours after 12 PM are 13 to 23.  The name is what follows the
    blanks after [<DIR>] or after the size.  The chain returns that record:
    the two recognizers before decline. *)
Theorem parseListLine_dos (mo d yy h mi : Z) (pm : bool)
    (now : Time.Time) (loc : Time.Location) :
  1 <= mo <= 12 -> 0 <= yy <= 99 -> 1 <= d <= Time.daysIn mo (dosYear yy) ->
  0 <= h <= 12 -> 0 <= mi < 60 ->
  let stamp := dosDate mo d yy ++ "  " ++ dosClock h mi pm in
  let t := Time.Date (dosYear yy) mo d (dosHour h pm) mi 0 0 loc in
  (forall k tail,
      let line := stamp ++ blanks k ++ "<DIR>" ++ tail in
      let e := mkEntry (TrimLeft tail " ") "" EntryTypeFolder 0 t in
      parseDirListLine line now loc = ret e /\ parseListLine line now loc = ret e)
  /\ (forall k sizeTok n tail,
      Contains sizeTok " " = false ->
      Strconv.ParseUint sizeTok 10 = (n, None) ->
      let line := stamp ++ blanks k ++ sizeTok ++ " " ++ tail in
      let e := mkEntry (TrimLeft tail " ") "" EntryTypeFile n t in
      parseDirListLine line now loc = ret e /\ parseListLine line now loc = ret e).
Proof.
  intros Hmo Hyy Hd Hh Hmi stamp t.
  pose proof (daysIn_31 mo _ d Hmo Hd) as Hd31.
  destruct (dosDate_word mo d yy ltac:(lia) ltac:(lia) Hyy) as (Hb & Hs & Hl8).
  assert (Hchain : forall rest e,
             parseDirListLine (stamp ++ rest) now loc = ret e ->
             parseListLine (stamp ++ rest) now loc = ret e).
  { intros rest e Hdir. unfold stamp in *.
    rewrite !string_app_assoc in *. change ("  " ++ ?x) with (String " " (String " " x)) in *.
    set (r := String " " (dosClock h mi pm ++ rest)) in *.
    unfold parseListLine, listLineParsers. cbn [tryParsers].
    rewrite (rfc_declines _ now loc (rfc_declines_perms _ r Hb Hs)).
    unfold fail at 1. cbn [bind isUnsupported negb].
    unfold parseLsListLine at 1, lsShape, IndexByte.
    rewrite (Index_blank_app _ r Hb), Hl8.
    cbn [Z.eqb Pos.eqb bind negb]. unfold fail at 1. cbn [bind isUnsupported negb].
    rewrite Hdir. reflexivity. }
  split.
  - intros k tail line e.
    assert (Hdir : parseDirListLine line now loc = ret e).
    { unfold parseDirListLine, line, stamp. rewrite !string_app_assoc.
      rewrite (dirTimeLoop_dos mo d yy h mi pm _ loc) by
        (try assumption; destruct k; discriminate).
      cbn [bind]. rewrite TrimLeft_blanks.
      cbn [append TrimLeft inCutset Ascii.eqb Bool.eqb orb HasPrefix andb].
      replace (HasPrefix tail "") with true by (destruct tail; reflexivity).
      unfold TrimPrefix. cbn [HasPrefix Ascii.eqb Bool.eqb andb].
      replace (HasPrefix tail "") with true by (destruct tail; reflexivity).
      reflexivity. }
    split; [exact Hdir|]. apply Hchain. exact Hdir.
  - intros k sizeTok n tail Hnb Hsize line e.
    destruct (ParseUint_10_digit _ _ Hsize) as (c & r & -> & Hc).
    assert (Hdir : parseDirListLine line now loc = ret e).
    { unfold parseDirListLine, line, stamp. rewrite !string_app_assoc.
      rewrite (dirTimeLoop_dos mo d yy h mi pm _ loc) by
        (try assumption; destruct k; discriminate).
      cbn [bind]. rewrite TrimLeft_blanks.
      change (" " ++ tail) with (String " " tail).
      replace (TrimLeft (String c r ++ String " " tail) " ")
        with (String c r ++ String " " tail).
      2:{ cbn [append TrimLeft inCutset]. rewrite (isDec_neq c " "%char Hc eq_refl).
          reflexivity. }
      replace (HasPrefix (String c r ++ String " " tail) "<DIR>") with false.
      2:{ cbn [append HasPrefix]. rewrite Ascii.eqb_sym, (isDec_neq c "<"%char Hc eq_refl).
          reflexivity. }
      rewrite (Index_blank_app _ tail Hnb).
      pose proof (len_nonneg (String c r)).
      destruct (Z.eqb_spec (len (String c r)) (-1)); [lia|].
      assert (Hlen : len (String c r ++ String " " tail) = len (String c r) + 1 + len tail).
      { unfold len. rewrite string_app_length. cbn [String.length]. lia. }
      pose proof (len_nonneg tail).
      rewrite sliceTo_val by lia. cbn [bind].
      replace (Z.to_nat (len (String c r))) with (String.length (String c r))
        by (unfold len; lia).
      rewrite take_app, Hsize.
      rewrite sliceFrom_val by lia. cbn [bind].
      replace (Z.to_nat (len (String c r))) with (String.length (String c r))
        by (unfold len; lia).
      rewrite drop_app. reflexivity. }
    split; [exact Hdir|]. apply Hchain. exact Hdir.
Qed.

Lemma parseListLine_dos_witness :
  1 <= 10 <= Time.daysIn 8 (dosYear 15)
  /\ dosDate 8 10 15 ++ "  " ++ dosClock 2 4 true ++ blanks 7 ++ "<DIR>" ++ "          Billing"
     = "08-10-15  02:04PM       <DIR>          Billing"
  /\ parseListLine "08-10-15  02:04PM       <DIR>          Billing" testNow Time.UTC
     = ret (mkEntry "Billing" "" EntryTypeFolder 0 (Time.Date 2015 8 10 14 4 0 0 Time.UTC))
  /\ parseListLine "08-07-15  07:50PM                  718 Post_PRR_20150901_1166_265118_13049.dat"
                   testNow Time.UTC
     = ret (mkEntry "Post_PRR_20150901_1166_265118_13049.dat" "" EntryTypeFile 718
                    (Time.Date 2015 8 7 19 50 0 0 Time.UTC)).
Proof.
  assert (H1 : 1 <= 10 <= Time.daysIn 8 (dosYear 15)) by (vm_compute; split; discriminate).
  assert (H2 : 1 <= 7 <= Time.daysIn 8 (dosYear 15)) by (vm_compute; split; discriminate).
  split; [exact H1|]. split; [reflexivity|]. split.
  - destruct (parseListLine_dos 8 10 15 2 4 true testNow Time.UTC
                ltac:(lia) ltac:(lia) H1 ltac:(lia) ltac:(lia)) as [Hf _].
    exact (proj2 (Hf 7%nat "          Billing"%string)).
  - destruct (parseListLine_dos 8 7 15 7 50 true testNow Time.UTC
                ltac:(lia) ltac:(lia) H2 ltac:(lia) ltac:(lia)) as [_ Hf].
    exact (proj2 (Hf 18%nat "718"%string 718 "Post_PRR_20150901_1166_265118_13049.dat"%string
                     eq_refl eq_refl)).
Defined.

(** ** Vendor lines in the chain *)

(** X24: a vendor line of six well-formed tokens whose owner does not start
    with a decimal digit, holds no semicolon and has neither 10 nor 11 bytes
    is declined by the four recognizers before the vendor recognizer, and the
    chain returns the vendor recognizer's record. *)
Theorem parseListLine_ibm (owner sizeTok typeTok path : string)
    (size dd mm yy hh mi ss : Z) (s1 s2 s3 s4 c : ascii) (k1 k2 k3 k4 : nat)
    (now : Time.Time) (loc : Time.Location) :
  byteAt owner 0 = Val c -> Strconv.isDec c = false ->
  Contains owner " " = false -> Contains owner ";" = false ->
  len owner <> 10 -> len owner <> 11 ->
  Contains sizeTok " " = false -> Strconv.ParseUint sizeTok 10 = (size, None) ->
  typeTok <> "" -> Contains typeTok " " = false ->
  TrimLeft path " " <> "" ->
  0 <= dd <= 99 -> 0 <= mm <= 99 -> 0 <= yy <= 99 ->
  0 <= hh <= 99 -> 0 <= mi <= 99 -> 0 <= ss <= 99 ->
  s1 <> " "%char -> s2 <> " "%char -> s3 <> " "%char -> s4 <> " "%char ->
  let name := TrimLeft path " " in
  let folder := String.eqb typeTok "*DIR" in
  parseListLine
    (owner ++ " " ++ blanks k1 ++ sizeTok ++ " " ++ blanks k2
           ++ ibmToken dd s1 mm s2 yy ++ " " ++ blanks k3
           ++ ibmToken hh s3 mi s4 ss ++ " " ++ blanks k4 ++ typeTok ++ " " ++ path) now loc
  = ret (mkEntry (if folder && HasSuffix name "/"
                  then take (String.length name - 1) name else name)
                 ""
                 (if folder then EntryTypeFolder else EntryTypeFile)
                 size
                 (Time.Date (2000 + yy) mm dd hh mi ss 0 loc)).
Proof.
  intros Hc Hdec Ho2 Hsemi Hl10 Hl11 Hs2 Hsize Ht1 Ht2 Hp Hdd Hmm Hyy Hhh Hmi Hss
         H1 H2 H3 H4 name folder.
  assert (Ho1 : owner <> "") by (intros ->; discriminate Hc).
  pose proof (parseIbm_fields owner sizeTok typeTok path size dd mm yy hh mi ss s1 s2 s3 s4
                k1 k2 k3 k4 now loc Ho1 Ho2 Hs2 Hsize Ht1 Ht2 Hp Hdd Hmm Hyy Hhh Hmi Hss
                H1 H2 H3 H4) as Hibm.
  cbv zeta in Hibm. fold name folder in Hibm.
  destruct (ibmToken_word dd mm yy s1 s2 Hdd Hmm Hyy H1 H2) as (_ & _ & Hd8).
  destruct (ibmToken_word hh mi ss s3 s4 Hhh Hmi Hss H3 H4) as (_ & _ & Ht8).
  set (tail := blanks k1 ++ sizeTok ++ " " ++ blanks k2
               ++ ibmToken dd s1 mm s2 yy ++ " " ++ blanks k3
               ++ ibmToken hh s3 mi s4 ss ++ " " ++ blanks k4 ++ typeTok ++ " " ++ path) in *.
  change (owner ++ " " ++ tail) with (owner ++ String " " tail) in *.
  set (line := owner ++ String " " tail) in *.
  assert (Hidx : Index line " " = len owner) by (apply Index_blank_app; exact Ho2).
  assert (Hlen : 17 < len line).
  { unfold line, tail, len in *.
    repeat (progress (rewrite ?string_app_length; cbn [String.length])). lia. }
  destruct owner as [|c0 r0]; [congruence|].
  assert (c0 = c) by (cbn in Hc; congruence). subst c0.
  change (parseListLine line now loc)
    with (parseListLine (String c (r0 ++ String " " tail)) now loc).
  rewrite (chain_unix c (r0 ++ String " " tail) now loc Hdec).
  - change (String c (r0 ++ String " " tail)) with line. cbn [tryParsers].
    assert (HLs : parseLsListLine line now loc = fail errUnsupportedListLine).
    { unfold parseLsListLine, lsShape, IndexByte. rewrite Hidx.
      destruct (Z.eqb_spec (len (String c r0)) 10); [contradiction|].
      destruct (Z.eqb_spec (len (String c r0)) 11); [contradiction|]. reflexivity. }
    assert (HH : parseHostedFTPLine line now loc = fail errUnsupportedListLine).
    { unfold parseHostedFTPLine, IndexByte. rewrite Hidx.
      destruct (Z.eqb_spec (len (String c r0)) 10); [contradiction|]. reflexivity. }
    rewrite HLs. unfold fail at 1. cbn [bind isUnsupported negb].
    rewrite HH. unfold fail at 1. cbn [bind isUnsupported negb].
    rewrite Hibm. reflexivity.
  - exact Hlen.
  - apply (rfc_declines_perms (String c r0) tail Ho2 Hsemi).
Qed.

Lemma parseListLine_ibm_witness :
  byteAt "QSYS" 0 = Val "Q"%char /\ len "QSYS" <> 10
  /\ Strconv.ParseUint "830" 10 = (830, None)
  /\ parseListLine "QSYS        830 13/05/25 13:26:11 *STMF      ON_HAND_310325_000007.CSV"
                   testNow Time.UTC
     = ret (mkEntry "ON_HAND_310325_000007.CSV" "" EntryTypeFile 830
                    (Time.Date (2000 + 25) 5 13 13 26 11 0 Time.UTC)).
Proof.
  split; [reflexivity|]. split; [discriminate|]. split; [reflexivity|].
  apply (parseListLine_ibm "QSYS" "830" "*STMF" "     ON_HAND_310325_000007.CSV"
           830 13 5 25 13 26 11 "/" "/" ":" ":" "Q" 7 0 0 0 testNow Time.UTC);
    try reflexivity; try discriminate; try lia.
Defined.

(** ** Lines of eight fields *)

Lemma ParseInLocation_error (layout value : string) (l : Time.Location) (t : Time.Time)
    (err : error) :
  Time.ParseInLocation layout value l = (t, Some err) -> err = TimeParseError.
Proof.
  unfold Time.ParseInLocation. destruct (Time.parseLoop _ _ _ _) as [f|]; [|congruence].
  destruct (_ || _); congruence.
Qed.

(** The errors of the date resolver. *)
Lemma setTime_error (e e' : Entry) (fields : list string) now loc (err : error) :
  setTime e fields now loc = Val (e', Some err) ->
  err = errUnsupportedListDate \/ err = TimeParseError.
Proof.
  unfold setTime. destruct (elem fields 2) as [f2|]; [|discriminate]. cbn [bind].
  destruct (Contains f2 ":").
  - destruct (Time.DateOf now) as [[y m] d].
    destruct (elem fields 1) as [f1|]; [|discriminate].
    destruct (elem fields 0) as [f0|]; [|discriminate]. cbn [bind].
    destruct (Time.ParseInLocation _ _ loc) as [t perr] eqn:E.
    intros [= _ ->]. right. exact (ParseInLocation_error _ _ _ _ _ E).
  - destruct (negb (len f2 =? 4)); [intros [= _ <-]; left; reflexivity|].
    destruct (elem fields 1) as [f1|]; [|discriminate].
    destruct (elem fields 0) as [f0|]; [|discriminate]. cbn [bind].
    destruct (Time.ParseInLocation _ _ loc) as [t perr] eqn:E.
    intros [= _ ->]. right. exact (ParseInLocation_error _ _ _ _ _ E).
Qed.

Lemma finishWithTime_not_sentinel (e : Entry) (date : list string) now loc
    (r : option Entry) (err : option error) :
  finishWithTime e date now loc = Val (r, err) -> err <> Some errUnsupportedListLine.
Proof.
  unfold finishWithTime.
  destruct (setTime e date now loc) as [[e' [serr|]]|] eqn:E; cbn [bind]; try discriminate.
  - intros [= _ <-]. destruct (setTime_error _ _ _ _ _ _ E) as [-> | ->]; discriminate.
  - intros [= _ <-]. discriminate.
Qed.

(** X25: a line of eight fields whose first field has the Unix shape and
    whose link count is not 0 is never declined by the Unix-ls recognizer: it
    gives a record or an error of its own.  So for such a line without a
    semicolon before its first blank the chain returns the result of the
    Unix-ls recognizer, and the DOS-DIR, hostedftp and vendor recognizers are
    not asked, whatever they would make of the line. *)
Theorem parseLsListLine_eight_fields (line : string) (now : Time.Time) (loc : Time.Location)
    (f0 f1 f2 f3 f4 f5 f6 f7 : string) (rest : scanner)
    (e : option Entry) (err : option error) :
  lsShape line = Val true ->
  NextFields 8 (newScanner line) = ([f0; f1; f2; f3; f4; f5; f6; f7], rest) ->
  f1 <> "0" ->
  parseLsListLine line now loc = Val (e, err) ->
  err <> Some errUnsupportedListLine
  /\ (Index line ";" < 0 \/ Index line " " < Index line ";" ->
      parseListLine line now loc = Val (e, err)).
Proof.
  intros Hshape H8 Hf1 Hls.
  assert (Herr : err <> Some errUnsupportedListLine).
  { destruct (NextFields_6_2 _ _ _ _ _ _ _ _ _ _ H8) as (s1 & H6 & H2).
    pose proof (NextFields_spec _ _ _ _ H6) as [_ Hne].
    assert (Hf0 : f0 <> "") by (inversion Hne; assumption).
    destruct (byteAt_0 f0 Hf0) as (c & r & _ & Hc).
    destruct (String.eqb_spec f1 "folder") as [E1|E1].
    - destruct (String.eqb_spec f2 "0") as [E2|E2].
      + rewrite (parseLs_branches line now loc f0 f1 f2 f3 f4 f5 s1 Hshape H6) in Hls.
        subst f1 f2. cbn [String.eqb Ascii.eqb Bool.eqb andb] in Hls.
        unfold lsFolderBranch in Hls.
        cbn [subslice firstn skipn List.length Nat.leb andb bind Nat.sub] in Hls.
        exact (finishWithTime_not_sentinel _ _ _ _ _ _ Hls).
      + rewrite (parseLs_generic line now loc f0 f1 f2 f3 f4 f5 s1 Hshape H6 f6 f7 rest c
                   Hf1 ltac:(tauto) H2 Hc) in Hls.
        destruct (Ascii.eqb c "-").
        { rewrite setSize_eq in Hls.
          destruct (Strconv.ParseUint f4 0) as [n [perr|]] eqn:En; cbn [fst snd] in Hls.
          - injection Hls as _ <-.
            destruct (ParseUint_error _ _ _ _ En) as [-> | ->]; discriminate.
          - exact (finishWithTime_not_sentinel _ _ _ _ _ _ Hls). }
        destruct (Ascii.eqb c "d"); [exact (finishWithTime_not_sentinel _ _ _ _ _ _ Hls)|].
        destruct (Ascii.eqb c "l"); [|injection Hls as _ <-; discriminate].
        destruct (splitLink _) as [e1|]; cbn [bind] in Hls; [|discriminate Hls].
        exact (finishWithTime_not_sentinel _ _ _ _ _ _ Hls).
    - rewrite (parseLs_generic line now loc f0 f1 f2 f3 f4 f5 s1 Hshape H6 f6 f7 rest c
                 Hf1 ltac:(tauto) H2 Hc) in Hls.
      destruct (Ascii.eqb c "-").
      { rewrite setSize_eq in Hls.
        destruct (Strconv.ParseUint f4 0) as [n [perr|]] eqn:En; cbn [fst snd] in Hls.
        - injection Hls as _ <-.
          destruct (ParseUint_error _ _ _ _ En) as [-> | ->]; discriminate.
        - exact (finishWithTime_not_sentinel _ _ _ _ _ _ Hls). }
      destruct (Ascii.eqb c "d"); [exact (finishWithTime_not_sentinel _ _ _ _ _ _ Hls)|].
      destruct (Ascii.eqb c "l"); [|injection Hls as _ <-; discriminate].
      destruct (splitLink _) as [e1|]; cbn [bind] in Hls; [|discriminate Hls].
      exact (finishWithTime_not_sentinel _ _ _ _ _ _ Hls). }
  split; [exact Herr|]. intros Hrfc. exact (chain_after_rfc _ _ _ _ _ Hrfc Hls Herr).
Qed.

Lemma parseLsListLine_eight_fields_witness :
  let line := "08-10-2015  02:04PM       <DIR>          New folder for my files" in
  lsShape line = Val true
  /\ parseDirListLine line testNow Time.UTC
     = ret (mkEntry "New folder for my files" "" EntryTypeFolder 0
                    (Time.Date 2015 8 10 14 4 0 0 Time.UTC))
  /\ parseLsListLine line testNow Time.UTC = Val (None, Some errUnknownListEntryType)
  /\ Some errUnknownListEntryType <> Some errUnsupportedListLine
  /\ parseListLine line testNow Time.UTC = Val (None, Some errUnknownListEntryType).
Proof.
  intros line.
  assert (Hs : lsShape line = Val true) by reflexivity.
  assert (H8 : NextFields 8 (newScanner line)
               = (["08-10-2015"; "02:04PM"; "<DIR>"; "New"; "folder"; "for"; "my"; "files"], ""))
    by reflexivity.
  assert (Hls : parseLsListLine line testNow Time.UTC = Val (None, Some errUnknownListEntryType))
    by (vm_compute; reflexivity).
  split; [exact Hs|]. split; [vm_compute; reflexivity|]. split; [exact Hls|].
  destruct (parseLsListLine_eight_fields line testNow Time.UTC _ _ _ _ _ _ _ _ _ _ _
              Hs H8 ltac:(discriminate) Hls) as [Herr Hchain].
  split; [exact Herr|]. apply Hchain. left. vm_compute. reflexivity.
Defined.

(** ** DOS-style lines with a four-digit year *)

Lemma chunk_zeroMonth (mo : Z) (rest : string) (f : Time.fields) :
  1 <= mo <= 12 ->
  chunk "" Time.stdZeroMonth (pad2 mo ++ rest) f = Some (setMonth f mo, rest).
Proof.
  intros H. unfold chunk. cbn [Time.skip String.length Time.parseStd].
  rewrite getnum_pad2 by lia.
  destruct (Z.leb_spec mo 0); [lia|]. destruct (Z.ltb_spec 12 mo); [lia|]. reflexivity.
Qed.

Lemma chunk_dash_zeroMonth (mo : Z) (rest : string) (f : Time.fields) :
  1 <= mo <= 12 ->
  chunk "-" Time.stdZeroMonth (String "-" (pad2 mo ++ rest)) f = Some (setMonth f mo, rest).
Proof.
  intros H. unfold chunk. cbn [Time.skip String.length Ascii.eqb Bool.eqb Time.parseStd].
  rewrite getnum_pad2 by lia.
  destruct (Z.leb_spec mo 0); [lia|]. destruct (Z.ltb_spec 12 mo); [lia|]. reflexivity.
Qed.

Lemma chunk_dash_zeroDay (d : Z) (rest : string) (f : Time.fields) :
  0 <= d <= 99 ->
  chunk "-" Time.stdZeroDay (String "-" (pad2 d ++ rest)) f = Some (setDay f d, rest).
Proof.
  intros H. unfold chunk. cbn [Time.skip String.length Ascii.eqb Bool.eqb Time.parseStd].
  destruct (pad2 d ++ _) eqn:E; rewrite <- E; rewrite getnum_pad2 by lia; reflexivity.
Qed.

Lemma chunk_longYear (y : Z) (rest : string) (f : Time.fields) :
  1000 <= y <= 9999 ->
  chunk "" Time.stdLongYear (fourDigits y ++ rest) f = Some (setYear f y, rest).
Proof.
  intros H. unfold chunk. cbn [Time.skip String.length]. apply parseStd_longYear. exact H.
Qed.

Lemma chunk_dash_longYear (y : Z) (rest : string) (f : Time.fields) :
  1000 <= y <= 9999 ->
  chunk "-" Time.stdLongYear (String "-" (fourDigits y ++ rest)) f = Some (setYear f y, rest).
Proof.
  intros H. unfold chunk. cbn [Time.skip String.length Ascii.eqb Bool.eqb].
  apply parseStd_longYear. exact H.
Qed.

Lemma skip_two_blanks (n : Z) (rest : string) :
  0 <= n <= 99 ->
  Time.skip 3 (String " " (String " " (pad2 n ++ rest))) "  " = Some (pad2 n ++ rest).
Proof.
  intros H. rewrite (pad2_digits n H). cbn [append].
  assert (H1 : 0 <= n / 10 <= 9) by (Z.div_mod_to_equations; lia).
  destruct (digitChar_spec _ H1) as (_ & _ & B & _).
  cbn [Time.skip Ascii.eqb Bool.eqb negb Time.cutspace TrimLeft inCutset].
  rewrite B. reflexivity.
Qed.

Lemma chunk_blanks_hour12 (h : Z) (rest : string) (f : Time.fields) :
  0 <= h <= 12 ->
  chunk "  " Time.stdZeroHour12 (String " " (String " " (pad2 h ++ rest))) f
  = Some (setHour f h, rest).
Proof.
  intros H. unfold chunk. cbn [String.length]. rewrite skip_two_blanks by lia.
  cbn [Time.parseStd]. rewrite getnum_pad2 by lia.
  destruct (Z.ltb_spec h 0); [lia|]. destruct (Z.ltb_spec 12 h); [lia|]. reflexivity.
Qed.

Lemma chunk_blanks_hour (hh : Z) (rest : string) (f : Time.fields) :
  0 <= hh < 24 ->
  chunk "  " Time.stdHour (String " " (String " " (pad2 hh ++ rest))) f
  = Some (setHour f hh, rest).
Proof.
  intros H. unfold chunk. cbn [String.length]. rewrite skip_two_blanks by lia.
  cbn [Time.parseStd]. rewrite getnum_pad2 by lia.
  destruct (Z.ltb_spec hh 0); [lia|]. destruct (Z.leb_spec 24 hh); [lia|]. reflexivity.
Qed.

Lemma chunk_colon_minute (mi : Z) (rest : string) (f : Time.fields) :
  0 <= mi < 60 ->
  chunk ":" Time.stdZeroMinute (String ":" (pad2 mi ++ rest)) f = Some (setMin f mi, rest).
Proof.
  intros H. unfold chunk. cbn [Time.skip String.length Ascii.eqb Bool.eqb Time.parseStd].
  rewrite getnum_pad2 by lia.
  destruct (Z.ltb_spec mi 0); [lia|]. destruct (Z.leb_spec 60 mi); [lia|]. reflexivity.
Qed.

(** The first format read up to its two-digit year. *)
Lemma parseLoop_short_year (fuel : nat) (mo d a b : Z) (rest : string) :
  1 <= mo <= 12 -> 0 <= d <= 99 -> 0 <= a <= 9 -> 0 <= b <= 9 ->
  exists f,
    Time.parseLoop (S (S (S fuel))) "01-02-06  03:04PM"
      (pad2 mo ++ "-" ++ pad2 d ++ "-"
         ++ String (Time.digitChar a) (String (Time.digitChar b) rest)) Time.fields0
    = Time.parseLoop fuel "  03:04PM" rest f.
Proof.
  intros Hmo Hd Ha Hb. cbn [append].
  erewrite parseLoop_step; [|vm_compute; reflexivity|apply chunk_zeroMonth; assumption].
  erewrite parseLoop_step; [|vm_compute; reflexivity|apply chunk_dash_zeroDay; assumption].
  eexists. eapply parseLoop_step; [vm_compute; reflexivity|].
  unfold chunk. cbn [Time.skip String.length Ascii.eqb Bool.eqb Time.parseStd take drop].
  replace (len _ <? 2) with false
    by (symmetry; apply Z.ltb_ge; unfold len; cbn [String.length]; lia).
  rewrite atoi_digits by assumption. reflexivity.
Qed.

(** The first format does not read a date with a four-digit year: after
    two digits of the year it wants blanks. *)
Lemma ParseInLocation_F1_long_year (mo d y : Z) (rest : string) (l : Time.Location) :
  1 <= mo <= 12 -> 0 <= d <= 99 -> 1000 <= y <= 9999 ->
  Time.ParseInLocation "01-02-06  03:04PM" (dosDate4 mo d y ++ rest) l
  = (Time.zero, Some TimeParseError).
Proof.
  intros Hmo Hd Hy. unfold Time.ParseInLocation, dosDate4, fourDigits.
  rewrite !string_app_assoc. cbn [String.length].
  assert (H3 : 0 <= y / 1000 <= 9) by (Z.div_mod_to_equations; lia).
  assert (H2 : 0 <= y / 100 mod 10 <= 9) by (Z.div_mod_to_equations; lia).
  assert (H1 : 0 <= y / 10 mod 10 <= 9) by (Z.div_mod_to_equations; lia).
  destruct (digitChar_spec _ H1) as (_ & _ & B & _).
  match goal with
  | |- context [Time.parseLoop _ _ (_ ++ "-" ++ _ ++ "-" ++ ?s ++ rest)] =>
      change (s ++ rest)
        with (String (Time.digitChar (y / 1000))
                (String (Time.digitChar (y / 100 mod 10))
                   (String (Time.digitChar (y / 10 mod 10))
                      (String (Time.digitChar (y mod 10)) rest))))
  end.
  destruct (parseLoop_short_year 15 mo d (y / 1000) (y / 100 mod 10)
              (String (Time.digitChar (y / 10 mod 10)) (String (Time.digitChar (y mod 10)) rest))
              Hmo Hd H3 H2) as [f ->].
  erewrite parseLoop_fail; [reflexivity|vm_compute; reflexivity|discriminate|].
  unfold chunk. cbn [Time.skip String.length]. rewrite B. reflexivity.
Qed.

(** The second format wants a year where the others have the month. *)
Lemma ParseInLocation_F2_month_first (mo : Z) (rest : string) (l : Time.Location) :
  0 <= mo <= 99 ->
  Time.ParseInLocation "2006-01-02  15:04" (pad2 mo ++ String "-" rest) l
  = (Time.zero, Some TimeParseError).
Proof.
  intros Hmo. unfold Time.ParseInLocation. cbn [String.length].
  erewrite parseLoop_fail; [reflexivity|vm_compute; reflexivity|discriminate|].
  unfold chunk. cbn [Time.skip String.length Time.parseStd].
  rewrite (pad2_digits mo Hmo). cbn [append].
  assert (H1 : 0 <= mo / 10 <= 9) by (Z.div_mod_to_equations; lia).
  assert (H0 : 0 <= mo mod 10 <= 9) by (Z.div_mod_to_equations; lia).
  destruct (digitChar_spec _ H1) as (D1 & _ & _ & M1 & P1).
  destruct (digitChar_spec _ H0) as (D0 & _).
  destruct (_ || _); [reflexivity|].
  destruct rest as [|c rest]; cbn [take]; unfold Time.atoi; rewrite M1, P1;
    cbn [Strconv.atoiDigits]; rewrite D1, D0; reflexivity.
Qed.

(** The first format does not read a date that starts with a four-digit
    year: its month is two digits and then a dash. *)
Lemma ParseInLocation_F1_iso (y : Z) (rest : string) (l : Time.Location) :
  1000 <= y <= 9999 ->
  Time.ParseInLocation "01-02-06  03:04PM" (fourDigits y ++ rest) l
  = (Time.zero, Some TimeParseError).
Proof.
  intros Hy. unfold Time.ParseInLocation, fourDigits. cbn [String.length append].
  assert (H3 : 0 <= y / 1000 <= 9) by (Z.div_mod_to_equations; lia).
  assert (H2 : 0 <= y / 100 mod 10 <= 9) by (Z.div_mod_to_equations; lia).
  assert (H1 : 0 <= y / 10 mod 10 <= 9) by (Z.div_mod_to_equations; lia).
  destruct (digitChar_spec _ H1) as (_ & _ & _ & M & _).
  set (m := 10 * (y / 1000) + y / 100 mod 10).
  destruct ((m <=? 0) || (12 <? m)) eqn:Em.
  - erewrite parseLoop_fail; [reflexivity|vm_compute; reflexivity|discriminate|].
    unfold chunk. cbn [Time.skip String.length Time.parseStd].
    rewrite getnum_digits by assumption. fold m. rewrite Em. reflexivity.
  - erewrite parseLoop_step; [|vm_compute; reflexivity|].
    2:{ unfold chunk. cbn [Time.skip String.length Time.parseStd].
        rewrite getnum_digits by assumption. fold m. rewrite Em. reflexivity. }
    erewrite parseLoop_fail; [reflexivity|vm_compute; reflexivity|discriminate|].
    unfold chunk. cbn [Time.skip String.length]. rewrite M. reflexivity.
Qed.

(** The third format does not read a time of day that is followed by a
    blank: it wants AM or PM there. *)
Lemma ParseInLocation_F3_24h (mo d y hh mi : Z) (w : string) (l : Time.Location) :
  1 <= mo <= 12 -> 0 <= d <= 99 -> 1000 <= y <= 9999 -> 0 <= hh < 24 -> 0 <= mi < 60 ->
  Time.ParseInLocation "01-02-2006  03:04PM"
    (dosDate4 mo d y ++ "  " ++ clockToken hh mi ++ String " " w) l
  = (Time.zero, Some TimeParseError).
Proof.
  intros Hmo Hd Hy Hhh Hmi. unfold Time.ParseInLocation, dosDate4, clockToken.
  rewrite !string_app_assoc. cbn [String.length append].
  erewrite parseLoop_step; [|vm_compute; reflexivity|apply chunk_zeroMonth; assumption].
  erewrite parseLoop_step; [|vm_compute; reflexivity|apply chunk_dash_zeroDay; assumption].
  erewrite parseLoop_step; [|vm_compute; reflexivity|apply chunk_dash_longYear; assumption].
  destruct (Z.leb_spec hh 12) as [H12|H12].
  - erewrite parseLoop_step; [|vm_compute; reflexivity|apply chunk_blanks_hour12; lia].
    erewrite parseLoop_step; [|vm_compute; reflexivity|apply chunk_colon_minute; assumption].
    erewrite parseLoop_fail; [reflexivity|vm_compute; reflexivity|discriminate|].
    unfold chunk. cbn [Time.skip String.length Time.parseStd].
    destruct (len (String " " w) <? 2); [reflexivity|].
    destruct w; reflexivity.
  - erewrite parseLoop_fail; [reflexivity|vm_compute; reflexivity|discriminate|].
    unfold chunk. cbn [String.length]. rewrite skip_two_blanks by lia.
    cbn [Time.parseStd]. rewrite getnum_pad2 by lia.
    destruct (Z.ltb_spec hh 0); [lia|]. destruct (Z.ltb_spec 12 hh); [|lia]. reflexivity.
Qed.

Lemma ParseInLocation_F3 (mo d y h mi : Z) (pm : bool) (l : Time.Location) :
  1 <= mo <= 12 -> 1000 <= y <= 9999 -> 1 <= d <= Time.daysIn mo y ->
  0 <= h <= 12 -> 0 <= mi < 60 ->
  Time.ParseInLocation "01-02-2006  03:04PM" (dosDate4 mo d y ++ "  " ++ dosClock h mi pm) l
  = (Time.Date y mo d (dosHour h pm) mi 0 0 l, None).
Proof.
  intros Hmo Hy Hd Hh Hmi.
  pose proof (daysIn_31 mo _ d Hmo Hd) as Hd31.
  unfold Time.ParseInLocation, dosDate4, dosClock.
  rewrite !string_app_assoc. cbn [String.length append].
  erewrite parseLoop_step; [|vm_compute; reflexivity|apply chunk_zeroMonth; assumption].
  erewrite parseLoop_step; [|vm_compute; reflexivity|apply chunk_dash_zeroDay; lia].
  erewrite parseLoop_step; [|vm_compute; reflexivity|apply chunk_dash_longYear; assumption].
  erewrite parseLoop_step; [|vm_compute; reflexivity|apply chunk_blanks_hour12; lia].
  erewrite parseLoop_step; [|vm_compute; reflexivity|apply chunk_colon_minute; assumption].
  unfold dosHour.
  destruct pm;
    (erewrite parseLoop_step; [|vm_compute; reflexivity|reflexivity]);
    cbn [Time.parseLoop Time.nextStdChunk Time.stdAt Time.skip String.length len Z.of_nat Z.eqb
         drop setMin setHour setYear setMonth setDay Time.fields0
         Time.fyear Time.fmonth Time.fday Time.fhour Time.fmin Time.fsec Time.fnsec
         Time.pmSet Time.amSet andb negb];
    destruct (Z.ltb_spec mo 0); try lia; destruct (Z.ltb_spec d 0); try lia;
    destruct (Z.ltb_spec d 1); try lia; destruct (Z.ltb_spec (Time.daysIn mo y) d); try lia;
    reflexivity.
Qed.

Lemma ParseInLocation_F4 (mo d y hh mi : Z) (l : Time.Location) :
  1 <= mo <= 12 -> 1000 <= y <= 9999 -> 1 <= d <= Time.daysIn mo y ->
  0 <= hh < 24 -> 0 <= mi < 60 ->
  Time.ParseInLocation "01-02-2006  15:04" (dosDate4 mo d y ++ "  " ++ clockToken hh mi) l
  = (Time.Date y mo d hh mi 0 0 l, None).
Proof.
  intros Hmo Hy Hd Hhh Hmi.
  pose proof (daysIn_31 mo _ d Hmo Hd) as Hd31.
  unfold Time.ParseInLocation, dosDate4, clockToken.
  replace (pad2 mi) with (pad2 mi ++ "") by apply append_empty_r.
  rewrite !string_app_assoc. cbn [String.length append].
  erewrite parseLoop_step; [|vm_compute; reflexivity|apply chunk_zeroMonth; assumption].
  erewrite parseLoop_step; [|vm_compute; reflexivity|apply chunk_dash_zeroDay; lia].
  erewrite parseLoop_step; [|vm_compute; reflexivity|apply chunk_dash_longYear; assumption].
  erewrite parseLoop_step; [|vm_compute; reflexivity|apply chunk_blanks_hour; lia].
  erewrite parseLoop_step; [|vm_compute; reflexivity|apply chunk_colon_minute; assumption].
  cbn [Time.parseLoop Time.nextStdChunk Time.stdAt Time.skip String.length len Z.of_nat Z.eqb
       setMin setHour setYear setMonth setDay Time.fields0
       Time.fyear Time.fmonth Time.fday Time.fhour Time.fmin Time.fsec Time.fnsec
       Time.pmSet Time.amSet andb].
  destruct (Z.ltb_spec mo 0); [lia|]. destruct (Z.ltb_spec d 0); [lia|].
  destruct (Z.ltb_spec d 1); [lia|]. destruct (Z.ltb_spec (Time.daysIn mo y) d); [lia|].
  reflexivity.
Qed.

Lemma ParseInLocation_F2 (y mo d hh mi : Z) (l : Time.Location) :
  1 <= mo <= 12 -> 1000 <= y <= 9999 -> 1 <= d <= Time.daysIn mo y ->
  0 <= hh < 24 -> 0 <= mi < 60 ->
  Time.ParseInLocation "2006-01-02  15:04" (isoDate y mo d ++ "  " ++ clockToken hh mi) l
  = (Time.Date y mo d hh mi 0 0 l, None).
Proof.
  intros Hmo Hy Hd Hhh Hmi.
  pose proof (daysIn_31 mo _ d Hmo Hd) as Hd31.
  unfold Time.ParseInLocation, isoDate, clockToken.
  replace (pad2 mi) with (pad2 mi ++ "") by apply append_empty_r.
  rewrite !string_app_assoc. cbn [String.length append].
  erewrite parseLoop_step; [|vm_compute; reflexivity|apply chunk_longYear; assumption].
  erewrite parseLoop_step; [|vm_compute; reflexivity|apply chunk_dash_zeroMonth; assumption].
  erewrite parseLoop_step; [|vm_compute; reflexivity|apply chunk_dash_zeroDay; lia].
  erewrite parseLoop_step; [|vm_compute; reflexivity|apply chunk_blanks_hour; lia].
  erewrite parseLoop_step; [|vm_compute; reflexivity|apply chunk_colon_minute; assumption].
  cbn [Time.parseLoop Time.nextStdChunk Time.stdAt Time.skip String.length len Z.of_nat Z.eqb
       setMin setHour setYear setMonth setDay Time.fields0
       Time.fyear Time.fmonth Time.fday Time.fhour Time.fmin Time.fsec Time.fnsec
       Time.pmSet Time.amSet andb].
  destruct (Z.ltb_spec mo 0); [lia|]. destruct (Z.ltb_spec d 0); [lia|].
  destruct (Z.ltb_spec d 1); [lia|]. destruct (Z.ltb_spec (Time.daysIn mo y) d); [lia|].
  reflexivity.
Qed.

Lemma take_app_more (w r : string) (n : nat) :
  take (String.length w + n) (w ++ r) = w ++ take n r.
Proof.
  induction w as [|c w IH]; [reflexivity|].
  cbn [String.length Nat.add append take]. rewrite IH. reflexivity.
Qed.

Lemma dosDate4_length (mo d y : Z) :
  0 <= mo <= 99 -> 0 <= d <= 99 -> String.length (dosDate4 mo d y) = 10%nat.
Proof.
  intros Hmo Hd. unfold dosDate4, fourDigits. rewrite !pad2_digits by assumption. reflexivity.
Qed.

Lemma isoDate_length (y mo d : Z) :
  0 <= mo <= 99 -> 0 <= d <= 99 -> String.length (isoDate y mo d) = 10%nat.
Proof.
  intros Hmo Hd. unfold isoDate, fourDigits. rewrite !pad2_digits by assumption. reflexivity.
Qed.

Lemma clockToken_length (hh mi : Z) :
  0 <= hh <= 99 -> 0 <= mi <= 99 -> String.length (clockToken hh mi) = 5%nat.
Proof.
  intros Hh Hm. unfold clockToken. rewrite !pad2_digits by assumption. reflexivity.
Qed.

Lemma dosClock_length (h mi : Z) (pm : bool) :
  0 <= h <= 99 -> 0 <= mi <= 99 -> String.length (dosClock h mi pm) = 7%nat.
Proof.
  intros Hh Hm. unfold dosClock. rewrite !pad2_digits by assumption. destruct pm; reflexivity.
Qed.

(** The loop over the time formats on a line with a four-digit year after
    month and day and a twelve-hour clock: the third format is the one. *)
Lemma dirTimeLoop_F3 (mo d y h mi : Z) (pm : bool) (rest : string) (loc : Time.Location) :
  1 <= mo <= 12 -> 1000 <= y <= 9999 -> 1 <= d <= Time.daysIn mo y ->
  0 <= h <= 12 -> 0 <= mi < 60 -> rest <> "" ->
  dirTimeLoop dirTimeFormats (dosDate4 mo d y ++ "  " ++ dosClock h mi pm ++ rest) loc
              Entry0 None
  = Val (withTime Entry0 (Time.Date y mo d (dosHour h pm) mi 0 0 loc), None, rest).
Proof.
  intros Hmo Hy Hd Hh Hmi Hrest.
  pose proof (daysIn_31 mo _ d Hmo Hd) as Hd31.
  pose proof (dosDate4_length mo d y ltac:(lia) ltac:(lia)) as L10.
  pose proof (dosClock_length h mi pm ltac:(lia) ltac:(lia)) as L7.
  set (date := dosDate4 mo d y) in *. set (clock := dosClock h mi pm) in *.
  set (line := date ++ "  " ++ clock ++ rest).
  assert (Hlen : 19 < len line).
  { unfold line, len. rewrite !string_app_length, L10, L7. destruct rest; [congruence|].
    cbn [String.length]. lia. }
  assert (E17 : take 17 line = date ++ take 7 ("  " ++ clock ++ rest)).
  { unfold line. rewrite <- take_app_more, L10. reflexivity. }
  assert (E19 : take 19 line = date ++ "  " ++ clock).
  { unfold line. rewrite <- (string_app_assoc "  " clock rest), <- string_app_assoc.
    replace 19%nat with (String.length (date ++ "  " ++ clock))
      by (rewrite !string_app_length, L10, L7; reflexivity).
    apply take_app. }
  assert (D19 : drop 19 line = rest).
  { unfold line. rewrite <- (string_app_assoc "  " clock rest), <- string_app_assoc.
    replace 19%nat with (String.length (date ++ "  " ++ clock))
      by (rewrite !string_app_length, L10, L7; reflexivity).
    apply drop_app. }
  assert (P1 : Time.ParseInLocation "01-02-06  03:04PM" (take 17 line) loc
               = (Time.zero, Some TimeParseError)).
  { rewrite E17. apply ParseInLocation_F1_long_year; lia. }
  assert (P2 : Time.ParseInLocation "2006-01-02  15:04" (take 17 line) loc
               = (Time.zero, Some TimeParseError)).
  { rewrite E17. unfold date, dosDate4. rewrite !string_app_assoc.
    apply ParseInLocation_F2_month_first. lia. }
  assert (P3 : Time.ParseInLocation "01-02-2006  03:04PM" (take 19 line) loc
               = (Time.Date y mo d (dosHour h pm) mi 0 0 loc, None)).
  { rewrite E19. apply ParseInLocation_F3; assumption. }
  fold line. unfold dirTimeFormats. cbn [dirTimeLoop].
  change (len "01-02-06  03:04PM") with 17. change (len "2006-01-02  15:04") with 17.
  change (len "01-02-2006  03:04PM") with 19.
  destruct (Z.ltb_spec 17 (len line)); [|lia].
  destruct (Z.ltb_spec 19 (len line)); [|lia].
  rewrite !sliceTo_val by lia. cbn [bind].
  change (Z.to_nat 17) with 17%nat. change (Z.to_nat 19) with 19%nat.
  rewrite P1, P2, P3. rewrite sliceFrom_val by lia. cbn [bind].
  change (Z.to_nat 19) with 19%nat. rewrite D19. reflexivity.
Qed.

(** The same with a 24-hour clock and a blank after it: the fourth format
    is the one; the third, when the line is long enough for it, fails. *)
Lemma dirTimeLoop_F4 (mo d y hh mi : Z) (rest : string) (loc : Time.Location) :
  1 <= mo <= 12 -> 1000 <= y <= 9999 -> 1 <= d <= Time.daysIn mo y ->
  0 <= hh < 24 -> 0 <= mi < 60 ->
  dirTimeLoop dirTimeFormats (dosDate4 mo d y ++ "  " ++ clockToken hh mi ++ String " " rest)
              loc Entry0 None
  = Val (withTime Entry0 (Time.Date y mo d hh mi 0 0 loc), None, String " " rest).
Proof.
  intros Hmo Hy Hd Hhh Hmi.
  pose proof (daysIn_31 mo _ d Hmo Hd) as Hd31.
  pose proof (dosDate4_length mo d y ltac:(lia) ltac:(lia)) as L10.
  pose proof (clockToken_length hh mi ltac:(lia) ltac:(lia)) as L5.
  pose proof (ParseInLocation_F3_24h mo d y hh mi (take 1 rest) loc Hmo ltac:(lia) Hy Hhh Hmi)
    as P3.
  pose proof (ParseInLocation_F4 mo d y hh mi loc Hmo Hy Hd Hhh Hmi) as P4.
  set (date := dosDate4 mo d y) in *. set (clock := clockToken hh mi) in *.
  set (line := date ++ "  " ++ clock ++ String " " rest).
  assert (Hlen : 17 < len line).
  { unfold line, len. rewrite !string_app_length, L10, L5. cbn [String.length]. lia. }
  assert (E17 : take 17 line = date ++ "  " ++ clock).
  { unfold line. rewrite <- (string_app_assoc "  " clock), <- string_app_assoc.
    replace 17%nat with (String.length (date ++ "  " ++ clock))
      by (rewrite !string_app_length, L10, L5; reflexivity).
    apply take_app. }
  assert (D17 : drop 17 line = String " " rest).
  { unfold line. rewrite <- (string_app_assoc "  " clock), <- string_app_assoc.
    replace 17%nat with (String.length (date ++ "  " ++ clock))
      by (rewrite !string_app_length, L10, L5; reflexivity).
    apply drop_app. }
  assert (E19 : take 19 line = date ++ "  " ++ clock ++ String " " (take 1 rest)).
  { unfold line. rewrite <- (string_app_assoc "  " clock), <- string_app_assoc.
    replace 19%nat with (String.length (date ++ "  " ++ clock) + 2)%nat
      by (rewrite !string_app_length, L10, L5; reflexivity).
    rewrite take_app_more, string_app_assoc, string_app_assoc. reflexivity. }
  assert (P1 : Time.ParseInLocation "01-02-06  03:04PM" (take 17 line) loc
               = (Time.zero, Some TimeParseError)).
  { rewrite E17. apply ParseInLocation_F1_long_year; lia. }
  assert (P2 : Time.ParseInLocation "2006-01-02  15:04" (take 17 line) loc
               = (Time.zero, Some TimeParseError)).
  { rewrite E17. unfold date, dosDate4. rewrite !string_app_assoc.
    apply ParseInLocation_F2_month_first. lia. }
  rewrite <- E19 in P3. rewrite <- E17 in P4.
  fold line. unfold dirTimeFormats. cbn [dirTimeLoop].
  change (len "01-02-06  03:04PM") with 17. change (len "2006-01-02  15:04") with 17.
  change (len "01-02-2006  03:04PM") with 19. change (len "01-02-2006  15:04") with 17.
  destruct (Z.ltb_spec 17 (len line)); [|lia].
  rewrite !sliceTo_val by lia. cbn [bind]. change (Z.to_nat 17) with 17%nat.
  rewrite P1, P2.
  destruct (Z.ltb_spec 19 (len line)).
  - rewrite sliceTo_val by lia. cbn [bind]. change (Z.to_nat 19) with 19%nat.
    rewrite P3, P4. rewrite sliceFrom_val by lia. cbn [bind].
    change (Z.to_nat 17) with 17%nat. rewrite D17. reflexivity.
  - rewrite P4. rewrite sliceFrom_val by lia. cbn [bind].
    change (Z.to_nat 17) with 17%nat. rewrite D17. reflexivity.
Qed.

(** The year first: the second format is the one. *)
Lemma dirTimeLoop_F2 (y mo d hh mi : Z) (rest : string) (loc : Time.Location) :
  1 <= mo <= 12 -> 1000 <= y <= 9999 -> 1 <= d <= Time.daysIn mo y ->
  0 <= hh < 24 -> 0 <= mi < 60 -> rest <> "" ->
  dirTimeLoop dirTimeFormats (isoDate y mo d ++ "  " ++ clockToken hh mi ++ rest)
              loc Entry0 None
  = Val (withTime Entry0 (Time.Date y mo d hh mi 0 0 loc), None, rest).
Proof.
  intros Hmo Hy Hd Hhh Hmi Hrest.
  pose proof (daysIn_31 mo _ d Hmo Hd) as Hd31.
  pose proof (isoDate_length y mo d ltac:(lia) ltac:(lia)) as L10.
  pose proof (clockToken_length hh mi ltac:(lia) ltac:(lia)) as L5.
  pose proof (ParseInLocation_F2 y mo d hh mi loc Hmo Hy Hd Hhh Hmi) as P2.
  pose proof (ParseInLocation_F1_iso y ("-" ++ pad2 mo ++ "-" ++ pad2 d ++ "  "
                                            ++ clockToken hh mi) loc Hy) as P1.
  replace (fourDigits y ++ "-" ++ pad2 mo ++ "-" ++ pad2 d ++ "  " ++ clockToken hh mi)
    with (isoDate y mo d ++ "  " ++ clockToken hh mi) in P1
    by (unfold isoDate; rewrite !string_app_assoc; reflexivity).
  set (date := isoDate y mo d) in *. set (clock := clockToken hh mi) in *.
  set (line := date ++ "  " ++ clock ++ rest).
  assert (Hlen : 17 < len line).
  { unfold line, len. rewrite !string_app_length, L10, L5. destruct rest; [congruence|].
    cbn [String.length]. lia. }
  assert (E17 : take 17 line = date ++ "  " ++ clock).
  { unfold line. rewrite <- (string_app_assoc "  " clock), <- string_app_assoc.
    replace 17%nat with (String.length (date ++ "  " ++ clock))
      by (rewrite !string_app_length, L10, L5; reflexivity).
    apply take_app. }
  assert (D17 : drop 17 line = rest).
  { unfold line. rewrite <- (string_app_assoc "  " clock), <- string_app_assoc.
    replace 17%nat with (String.length (date ++ "  " ++ clock))
      by (rewrite !string_app_length, L10, L5; reflexivity).
    apply drop_app. }
  rewrite <- E17 in P1, P2.
  fold line. unfold dirTimeFormats. cbn [dirTimeLoop].
  change (len "01-02-06  03:04PM") with 17. change (len "2006-01-02  15:04") with 17.
  destruct (Z.ltb_spec 17 (len line)); [|lia].
  rewrite !sliceTo_val by lia. cbn [bind]. change (Z.to_nat 17) with 17%nat.
  rewrite P1, P2. rewrite sliceFrom_val by lia. cbn [bind].
  change (Z.to_nat 17) with 17%nat. rewrite D17. reflexivity.
Qed.

(** After the time: blanks, then [<DIR>] and the name, or a size, a blank
    and the name. *)
Lemma parseDir_folder (line : string) now loc (t : Time.Time) (k : nat) (tail : string) :
  dirTimeLoop dirTimeFormats line loc Entry0 None
  = Val (withTime Entry0 t, None, blanks k ++ "<DIR>" ++ tail) ->
  parseDirListLine line now loc = ret (mkEntry (TrimLeft tail " ") "" EntryTypeFolder 0 t).
Proof.
  intros Hloop. unfold parseDirListLine. rewrite Hloop. cbn [bind].
  rewrite TrimLeft_blanks.
  cbn [append TrimLeft inCutset Ascii.eqb Bool.eqb orb HasPrefix andb].
  replace (HasPrefix tail "") with true by (destruct tail; reflexivity).
  unfold TrimPrefix. cbn [HasPrefix Ascii.eqb Bool.eqb andb].
  replace (HasPrefix tail "") with true by (destruct tail; reflexivity).
  reflexivity.
Qed.

Lemma parseDir_file (line : string) now loc (t : Time.Time) (k : nat)
    (sizeTok tail : string) (n : Z) :
  dirTimeLoop dirTimeFormats line loc Entry0 None
  = Val (withTime Entry0 t, None, blanks k ++ sizeTok ++ " " ++ tail) ->
  Contains sizeTok " " = false ->
  Strconv.ParseUint sizeTok 10 = (n, None) ->
  parseDirListLine line now loc = ret (mkEntry (TrimLeft tail " ") "" EntryTypeFile n t).
Proof.
  intros Hloop Hnb Hsize. destruct (ParseUint_10_digit _ _ Hsize) as (c & r & -> & Hc).
  unfold parseDirListLine. rewrite Hloop. cbn [bind]. rewrite TrimLeft_blanks.
  change (" " ++ tail) with (String " " tail).
  replace (TrimLeft (String c r ++ String " " tail) " ")
    with (String c r ++ String " " tail).
  2:{ cbn [append TrimLeft inCutset]. rewrite (isDec_neq c " "%char Hc eq_refl).
      reflexivity. }
  replace (HasPrefix (String c r ++ String " " tail) "<DIR>") with false.
  2:{ cbn [append HasPrefix]. rewrite Ascii.eqb_sym, (isDec_neq c "<"%char Hc eq_refl).
      reflexivity. }
  rewrite (Index_blank_app _ tail Hnb).
  pose proof (len_nonneg (String c r)).
  destruct (Z.eqb_spec (len (String c r)) (-1)); [lia|].
  assert (Hlen : len (String c r ++ String " " tail) = len (String c r) + 1 + len tail).
  { unfold len. rewrite string_app_length. cbn [String.length]. lia. }
  pose proof (len_nonneg tail).
  rewrite sliceTo_val by lia. cbn [bind].
  replace (Z.to_nat (len (String c r))) with (String.length (String c r))
    by (unfold len; lia).
  rewrite take_app, Hsize.
  rewrite sliceFrom_val by lia. cbn [bind].
  replace (Z.to_nat (len (String c r))) with (String.length (String c r))
    by (unfold len; lia).
  rewrite drop_app. reflexivity.
Qed.

(** X26: the DOS-DIR recognizer on the three other ways a date and a time
    are printed, month-day-year with a twelve-hour clock, month-day-year with
    a 24-hour clock and year-month-day with a 24-hour clock, with a four-digit
    year: after the time and a blank, [<DIR>] gives a folder of size 0 and a
    size in base 10 a file, named by the rest of the line without leading
    blanks and dated in the caller's location.  The formats are tried in the
    order of the list and those before the right one fail. *)
Theorem parseDirListLine_long_year (mo d y h hh mi : Z) (pm : bool)
    (now : Time.Time) (loc : Time.Location) (stamp : string) (t : Time.Time) :
  1 <= mo <= 12 -> 1000 <= y <= 9999 -> 1 <= d <= Time.daysIn mo y ->
  0 <= h <= 12 -> 0 <= hh < 24 -> 0 <= mi < 60 ->
  In (stamp, t)
     [(dosDate4 mo d y ++ "  " ++ dosClock h mi pm, Time.Date y mo d (dosHour h pm) mi 0 0 loc);
      (dosDate4 mo d y ++ "  " ++ clockToken hh mi, Time.Date y mo d hh mi 0 0 loc);
      (isoDate y mo d ++ "  " ++ clockToken hh mi, Time.Date y mo d hh mi 0 0 loc)] ->
  (forall k tail,
      parseDirListLine (stamp ++ " " ++ blanks k ++ "<DIR>" ++ tail) now loc
      = ret (mkEntry (TrimLeft tail " ") "" EntryTypeFolder 0 t))
  /\ (forall k sizeTok n tail,
      Contains sizeTok " " = false ->
      Strconv.ParseUint sizeTok 10 = (n, None) ->
      parseDirListLine (stamp ++ " " ++ blanks k ++ sizeTok ++ " " ++ tail) now loc
      = ret (mkEntry (TrimLeft tail " ") "" EntryTypeFile n t)).
Proof.
  intros Hmo Hy Hd Hh Hhh Hmi Hin.
  assert (Hloop : forall rest,
             dirTimeLoop dirTimeFormats (stamp ++ String " " rest) loc Entry0 None
             = Val (withTime Entry0 t, None, String " " rest)).
  { intros rest.
    destruct Hin as [E|[E|[E|[]]]]; apply pair_equal_spec in E; destruct E as [Es Et];
      subst stamp t; rewrite !string_app_assoc.
    - apply dirTimeLoop_F3; try assumption. discriminate.
    - apply dirTimeLoop_F4; assumption.
    - apply dirTimeLoop_F2; try assumption. discriminate. }
  split.
  - intros k tail. apply (parseDir_folder _ now loc t (S k) tail).
    change (" " ++ blanks k ++ "<DIR>" ++ tail) with (String " " (blanks k ++ "<DIR>" ++ tail)).
    rewrite Hloop. reflexivity.
  - intros k sizeTok n tail Hnb Hsize. apply (parseDir_file _ now loc t (S k) sizeTok tail n);
      try assumption.
    change (" " ++ blanks k ++ sizeTok ++ " " ++ tail)
      with (String " " (blanks k ++ sizeTok ++ " " ++ tail)).
    rewrite Hloop. reflexivity.
Qed.

Lemma parseDirListLine_long_year_witness :
  1 <= 10 <= Time.daysIn 8 2015
  /\ parseDirListLine "08-10-2015  02:04PM       <DIR>          Billing" testNow Time.UTC
     = ret (mkEntry "Billing" "" EntryTypeFolder 0 (Time.Date 2015 8 10 14 4 0 0 Time.UTC))
  /\ parseDirListLine "08-10-2015  14:04       <DIR>          Billing" testNow Time.UTC
     = ret (mkEntry "Billing" "" EntryTypeFolder 0 (Time.Date 2015 8 10 14 4 0 0 Time.UTC))
  /\ parseDirListLine "2015-08-10  14:04                718 report.dat" testNow Time.UTC
     = ret (mkEntry "report.dat" "" EntryTypeFile 718 (Time.Date 2015 8 10 14 4 0 0 Time.UTC)).
Proof.
  assert (Hd : 1 <= 10 <= Time.daysIn 8 2015) by (vm_compute; split; discriminate).
  split; [exact Hd|]. split; [|split].
  - refine (proj1 (parseDirListLine_long_year 8 10 2015 2 14 4 true testNow Time.UTC _ _
                     ltac:(lia) ltac:(lia) Hd ltac:(lia) ltac:(lia) ltac:(lia)
                     (or_introl eq_refl)) 6%nat "          Billing"%string).
  - refine (proj1 (parseDirListLine_long_year 8 10 2015 2 14 4 true testNow Time.UTC _ _
                     ltac:(lia) ltac:(lia) Hd ltac:(lia) ltac:(lia) ltac:(lia)
                     (or_intror (or_introl eq_refl))) 6%nat "          Billing"%string).
  - refine (proj2 (parseDirListLine_long_year 8 10 2015 2 14 4 true testNow Time.UTC _ _
                     ltac:(lia) ltac:(lia) Hd ltac:(lia) ltac:(lia) ltac:(lia)
                     (or_intror (or_intror (or_introl eq_refl))))
                  15%nat "718"%string 718 "report.dat"%string eq_refl eq_refl).
Defined.

(** ** Lines of fewer than eight fields *)

(** Once the scanner has run out of tokens, asking for more changes
    nothing. *)
Lemma NextFields_short (n m : nat) (s s' : scanner) (fields : list string) :
  NextFields n s = (fields, s') -> (List.length fields < n)%nat ->
  NextFields (n + m) s = (fields, s').
Proof.
  revert s fields. induction n as [|n IH]; intros s fields H Hlen; [lia|].
  cbn [Nat.add NextFields] in H |- *.
  destruct (Next s) as [f s1]. destruct (String.eqb f ""); [exact H|].
  destruct (NextFields n s1) as [fs s2] eqn:E. injection H as <- <-.
  cbn [List.length] in Hlen. rewrite (IH s1 fs E ltac:(lia)). reflexivity.
Qed.

(** X27: a line with fewer than eight fields whose second field is neither
    ["0"] nor ["folder"] is declined by the Unix-ls recognizer, whatever its
    first field looks like. *)
Theorem parseLsListLine_few_fields (line : string) (now : Time.Time) (loc : Time.Location) :
  (List.length (fst (NextFields 8 (newScanner line))) < 8)%nat ->
  nth 1 (fst (NextFields 8 (newScanner line))) "" <> "0" ->
  nth 1 (fst (NextFields 8 (newScanner line))) "" <> "folder" ->
  parseLsListLine line now loc = fail errUnsupportedListLine.
Proof.
  intros Hlen H0 Hf. unfold parseLsListLine.
  destruct (lsShape_returns line) as [[|] ->]; cbn [bind negb]; [|reflexivity].
  destruct (NextFields 6 (newScanner line)) as [six s1] eqn:H6.
  pose proof (NextFields_spec _ _ _ _ H6) as [Hl6 _].
  destruct (Nat.ltb_spec (List.length six) 6) as [Hs|Hs]; [reflexivity|].
  destruct six as [|f0 [|f1 [|f2 [|f3 [|f4 [|f5 [|f6 more]]]]]]];
    cbn [List.length] in Hs, Hl6; try lia.
  cbn [elem nth_error bind].
  destruct (NextFields 2 s1) as [two rest] eqn:H2.
  pose proof (NextFields_app 6 2 _ _ _ _ _ H6 eq_refl H2) as H8.
  change (6 + 2)%nat with 8%nat in H8. rewrite H8 in Hlen, H0, Hf.
  cbn [fst app nth] in H0, Hf. cbn [fst] in Hlen.
  apply String.eqb_neq in H0, Hf. rewrite H0, Hf. cbn [andb].
  unfold lsGenericBranch. rewrite H2.
  destruct (Nat.ltb_spec (List.length ([f0; f1; f2; f3; f4; f5] ++ two)) 8); [reflexivity|lia].
Qed.

Lemma parseLsListLine_few_fields_witness :
  let line := "08-10-2015  02:04PM       <DIR>          Billing" in
  lsShape line = Val true
  /\ fst (NextFields 8 (newScanner line)) = ["08-10-2015"; "02:04PM"; "<DIR>"; "Billing"]
  /\ parseLsListLine line testNow Time.UTC = fail errUnsupportedListLine.
Proof.
  intros line. split; [reflexivity|]. split; [reflexivity|].
  apply parseLsListLine_few_fields; [vm_compute; lia|discriminate|discriminate].
Defined.

(** ** Folders with link count 0 *)

(** X28: a line whose second field is ["folder"] and whose third is ["0"],
    after a first field of the Unix shape, is a folder of size 0 whatever its
    first byte is; the date is the fourth to sixth field and the name all the
    text after the blank that follows the sixth.  With a month, a day and
    [hh:mm] the year is that of the reference time, or the year before when
    that would be six months or more after it.  The chain returns the
    record. *)
Theorem parseListLine_folder_zero (perms day name : string) (m d hh mi : Z)
    (k1 k2 k3 k4 k5 : nat) (now : Time.Time) (loc : Time.Location) :
  lsPerms perms -> perms <> "" -> Contains perms ";" = false ->
  let y := fst (fst (Time.DateOf now)) in
  1000 <= y <= 9999 -> 1 <= m <= 12 -> 1 <= d <= Time.daysIn m y ->
  0 <= hh < 24 -> 0 <= mi < 60 ->
  day = Time.itoa d \/ day = pad2 d ->
  let line := joinFields [(O, perms); (k1, "folder"); (k2, "0"); (k3, monthToken m);
                          (k4, day); (k5, clockToken hh mi)] name in
  let t := if Time.Before (Time.Date y m d hh mi 0 0 loc) (Time.AddDate now 0 6 0)
           then Time.Date y m d hh mi 0 0 loc
           else Time.Date (y - 1) m d hh mi 0 0 loc in
  let e := mkEntry name "" EntryTypeFolder 0 t in
  parseLsListLine line now loc = ret e /\ parseListLine line now loc = ret e.
Proof.
  intros Hp Hne Hsemi y Hy Hm Hd Hhh Hmi Hday line t e.
  set (ws := [(O, perms); (k1, "folder"); (k2, "0"); (k3, monthToken m);
              (k4, day); (k5, clockToken hh mi)]).
  assert (H6 : NextFields 6 (newScanner (joinFields ws name))
               = ([perms; "folder"; "0"; monthToken m; day; clockToken hh mi], name)).
  { apply (NextFields_join ws name). unfold ws. destruct Hp as [Hnb _].
    constructor; [split; assumption|].
    constructor; [split; [discriminate|reflexivity]|].
    constructor; [split; [discriminate|reflexivity]|].
    constructor; [apply monthToken_word; assumption|].
    constructor; [apply (dayToken_word d); [eapply daysIn_31; eassumption|assumption]|].
    constructor; [apply clockToken_word; assumption|constructor]. }
  assert (Hshape : lsShape (joinFields ws name) = Val true).
  { unfold ws. cbn [joinFields blanks append]. apply lsShape_perms. exact Hp. }
  assert (Hls : parseLsListLine line now loc = ret e).
  { unfold line. fold ws.
    rewrite (parseLs_branches _ now loc _ _ _ _ _ _ _ Hshape H6).
    cbn [String.eqb Ascii.eqb Bool.eqb andb]. unfold lsFolderBranch.
    cbn [subslice firstn skipn List.length Nat.leb andb bind Nat.sub].
    unfold finishWithTime.
    rewrite (setTime_tokens _ now loc m d hh mi day Hy Hm Hd Hhh Hmi Hday). reflexivity. }
  split; [exact Hls|].
  apply chain_after_rfc; [|exact Hls|discriminate].
  unfold line. cbn [joinFields blanks append]. apply rfc_declines_perms; [apply Hp|exact Hsemi].
Qed.

Lemma parseListLine_folder_zero_witness :
  lsPerms "drwxr-xr-x"
  /\ 1 <= 15 <= Time.daysIn 8 (fst (fst (Time.DateOf testNow)))
  /\ joinFields [(O, "drwxr-xr-x"); (14%nat, "folder"); (7%nat, "0"); (O, monthToken 8);
                 (O, pad2 15); (O, clockToken 5 49)] "!!!-Tipp des Haus!"
     = "drwxr-xr-x               folder        0 Aug 15 05:49 !!!-Tipp des Haus!"
  /\ parseListLine "drwxr-xr-x               folder        0 Aug 15 05:49 !!!-Tipp des Haus!"
                   testNow Time.UTC
     = ret (mkEntry "!!!-Tipp des Haus!" "" EntryTypeFolder 0
                    (Time.Date 2017 8 15 5 49 0 0 Time.UTC)).
Proof.
  assert (Hp : lsPerms "drwxr-xr-x") by (split; [reflexivity|left; reflexivity]).
  assert (Hd : 1 <= 15 <= Time.daysIn 8 (fst (fst (Time.DateOf testNow))))
    by (vm_compute; split; discriminate).
  split; [exact Hp|]. split; [exact Hd|]. split; [reflexivity|].
  apply (parseListLine_folder_zero "drwxr-xr-x" (pad2 15) "!!!-Tipp des Haus!"
           8 15 5 49 14 7 0 0 0 testNow Time.UTC);
    try assumption; try reflexivity; try discriminate; try lia.
  right. reflexivity.
Defined.

(** ** Symbolic links *)

Lemma Index_arrow (n target : string) :
  Contains n " " = false -> Index (n ++ " -> " ++ target) " -> " = len n.
Proof.
  intros H. rewrite Index_indexNat.
  assert (E : indexNat (n ++ " -> " ++ target) " -> " = Some (String.length n)).
  { cbn [append]. induction n as [|c n IH].
    - cbn [append]. rewrite indexNat_eq. cbn [HasPrefix Ascii.eqb Bool.eqb andb].
      replace (HasPrefix target "") with true by (destruct target; reflexivity).
      reflexivity.
    - rewrite Contains_blank_cons in H. apply orb_false_iff in H. destruct H as [Hc Hn].
      cbn [append]. rewrite indexNat_eq. cbn [HasPrefix].
      rewrite Ascii.eqb_sym, Hc. cbn [andb]. rewrite (IH Hn). reflexivity. }
  rewrite E. reflexivity.
Qed.

(** X29: a regular [ls -l] line of a symbolic link whose name holds no
    blank: the mode starts with ['l'] and the text after the date is the
    name, [" -> "] and the target.  The record is a link with that name and
    that target and size 0; the size field is not read.  The chain returns
    it. *)
Theorem parseListLine_unix_link (perms links owner group sizeTok day n target : string)
    (m d hh mi : Z) (k1 k2 k3 k4 k5 k6 k7 : nat) (now : Time.Time) (loc : Time.Location) :
  lsPerms perms -> byteAt perms 0 = Val "l"%char -> Contains perms ";" = false ->
  Forall (fun f => f <> "" /\ Contains f " " = false) [links; owner; group; sizeTok] ->
  links <> "0" -> links <> "folder" ->
  n <> "" -> Contains n " " = false ->
  let y := fst (fst (Time.DateOf now)) in
  1000 <= y <= 9999 -> 1 <= m <= 12 -> 1 <= d <= Time.daysIn m y ->
  0 <= hh < 24 -> 0 <= mi < 60 ->
  day = Time.itoa d \/ day = pad2 d ->
  let line := joinFields [(O, perms); (k1, links); (k2, owner); (k3, group); (k4, sizeTok);
                          (k5, monthToken m); (k6, day); (k7, clockToken hh mi)]
                         (n ++ " -> " ++ target) in
  let t := if Time.Before (Time.Date y m d hh mi 0 0 loc) (Time.AddDate now 0 6 0)
           then Time.Date y m d hh mi 0 0 loc
           else Time.Date (y - 1) m d hh mi 0 0 loc in
  let e := mkEntry n target EntryTypeLink 0 t in
  parseLsListLine line now loc = ret e /\ parseListLine line now loc = ret e.
Proof.
  intros Hp Hc Hsemi Hw Hl0 Hlf Hn Hnb y Hy Hm Hd Hhh Hmi Hday line t e.
  assert (Hls : parseLsListLine line now loc = ret e).
  { unfold line. rewrite (parseLs_tokens _ _ _ _ _ _ _ _ _ _ _ _ _ _ _ _ "l"%char);
      try assumption.
    - cbn [Ascii.eqb Bool.eqb]. rewrite splitLink_spec. cbn [bind].
      unfold lsEntry, Remaining. cbn [withType Name Target Type_ Size Time_].
      rewrite (Index_arrow n target Hnb).
      assert (Hlen : 0 < len n).
      { destruct n; [congruence|]. unfold len. cbn [String.length]. lia. }
      destruct (Z.ltb_spec 0 (len n)); [|lia].
      replace (Z.to_nat (len n)) with (String.length n) by (unfold len; lia).
      replace (Z.to_nat (len n + 4)) with (String.length (n ++ " -> "))
        by (rewrite string_app_length; unfold len; cbn [String.length]; lia).
      rewrite take_app, <- string_app_assoc, drop_app.
      unfold lsFinish, finishWithTime.
      rewrite (setTime_tokens _ now loc m d hh mi day Hy Hm Hd Hhh Hmi Hday). reflexivity.
    - destruct Hp as [Hpb _].
      assert (Hne : perms <> "") by (intros ->; discriminate Hc).
      constructor; [split; assumption|].
      change [links; owner; group; sizeTok; monthToken m; day; clockToken hh mi]
        with ([links; owner; group; sizeTok] ++ [monthToken m; day; clockToken hh mi])%list.
      apply Forall_app. split; [exact Hw|].
      constructor; [apply monthToken_word; assumption|].
      constructor; [apply (dayToken_word d); [eapply daysIn_31; eassumption|assumption]|].
      constructor; [apply clockToken_word; assumption|constructor]. }
  split; [exact Hls|].
  apply chain_after_rfc; [|exact Hls|discriminate].
  unfold line. cbn [joinFields blanks append]. apply rfc_declines_perms; [apply Hp|exact Hsemi].
Qed.

Lemma parseListLine_unix_link_witness :
  lsPerms "lrwxrwxrwx"
  /\ 1 <= 25 <= Time.daysIn 1 (fst (fst (Time.DateOf testNow)))
  /\ joinFields [(O, "lrwxrwxrwx"); (2%nat, "1"); (O, "root"); (4%nat, "other");
                 (9%nat, "7"); (O, monthToken 1); (O, pad2 25); (O, clockToken 0 17)]
                ("bin" ++ " -> " ++ "usr/bin")
     = lineLink
  /\ parseListLine lineLink testNow Time.UTC
     = ret (mkEntry "bin" "usr/bin" EntryTypeLink 0 (Time.Date 2017 1 25 0 17 0 0 Time.UTC)).
Proof.
  assert (Hp : lsPerms "lrwxrwxrwx") by (split; [reflexivity|left; reflexivity]).
  assert (Hy : 1000 <= fst (fst (Time.DateOf testNow)) <= 9999)
    by (vm_compute; split; discriminate).
  assert (Hd : 1 <= 25 <= Time.daysIn 1 (fst (fst (Time.DateOf testNow))))
    by (vm_compute; split; discriminate).
  split; [exact Hp|]. split; [exact Hd|]. split; [reflexivity|].
  apply (parseListLine_unix_link "lrwxrwxrwx" "1" "root" "other" "7" (pad2 25) "bin" "usr/bin"
           1 25 0 17 2 0 4 9 0 0 0 testNow Time.UTC);
    try assumption; try reflexivity; try discriminate; try lia.
  - repeat constructor; discriminate.
  - right. reflexivity.
Defined.

(** ** Sizes across the recognizers *)

(** A [size] fact whose value does not parse ends the fact-list recognizer
    with the error of [strconv], once the facts before it are passed over. *)
Lemma rfc_size_error (line : string) now loc (facts : string) (pre post : list string)
    (field : string) (n : Z) (err : error) :
  0 <= Index line ";" <= Index line " " ->
  sliceTo line (Index line " " - 1) = Val facts ->
  Split facts ";" = (pre ++ field :: post)%list ->
  forallb (factOK loc) pre = true ->
  1 <= Index field "=" ->
  keyIs (ToLower (take (Z.to_nat (Index field "=")) field)) "size" = true ->
  Strconv.ParseUint (drop (Z.to_nat (Index field "=" + 1)) field) 0 = (n, Some err) ->
  parseRFC3659ListLine line now loc = fail err.
Proof.
  intros Hpre Hfacts Hsplit Hok Hi Hkey Hsize.
  unfold parseRFC3659ListLine, parseNextRFC3659ListLine.
  destruct (Z.ltb_spec (Index line ";") 0) as [|_]; [lia|].
  destruct (Z.ltb_spec (Index line " ") (Index line ";")) as [|_]; [lia|].
  cbn [orb].
  destruct (Index_bound line " ") as [Hb|Hb]; [lia|]. change (len " ") with 1 in Hb.
  rewrite sliceFrom_val by lia. cbn [bind Name Entry0 String.eqb negb andb].
  rewrite Hfacts. cbn [bind]. rewrite Hsplit.
  match goal with
  | |- rfcFacts _ loc ?e = _ =>
      destruct (rfcFacts_prefix loc pre (field :: post) e Hok) as [e' He']
  end.
  rewrite He'. cbn [rfcFacts].
  destruct (Z.ltb_spec (Index field "=") 1) as [|_]; [lia|].
  destruct (Index_bound field "=") as [Hf|Hf]; [lia|]. change (len "=") with 1 in Hf.
  rewrite sliceTo_val by lia. cbn [bind].
  rewrite sliceFrom_val by lia. cbn [bind].
  destruct (ToLower (take (Z.to_nat (Index field "=")) field)) as [k|]; [|discriminate Hkey].
  cbn [keyIs] in Hkey |- *. apply String.eqb_eq in Hkey. subst k.
  cbn [String.eqb Ascii.eqb Bool.eqb]. rewrite setSize_eq, Hsize. reflexivity.
Qed.

(** The vendor recognizer on a line of six tokens: the size is read first,
    in base 10, and its error is returned whatever the date and the time
    are. *)
Lemma parseIbm_size_error (owner sizeTok dateTok timeTok typeTok path : string)
    (k1 k2 k3 k4 : nat) (n : Z) (err : error) now loc :
  owner <> "" -> Contains owner " " = false ->
  sizeTok <> "" -> Contains sizeTok " " = false ->
  len dateTok = 8 -> Contains dateTok " " = false ->
  len timeTok = 8 -> Contains timeTok " " = false ->
  typeTok <> "" -> Contains typeTok " " = false ->
  TrimLeft path " " <> "" ->
  Strconv.ParseUint sizeTok 10 = (n, Some err) ->
  parseIbmListLine
    (owner ++ " " ++ blanks k1 ++ sizeTok ++ " " ++ blanks k2 ++ dateTok ++ " " ++ blanks k3
           ++ timeTok ++ " " ++ blanks k4 ++ typeTok ++ " " ++ path) now loc
  = fail err.
Proof.
  intros Ho1 Ho2 Hs1 Hs2 Hd3 Hd2 Hc3 Hc2 Ht1 Ht2 Hp Hsize.
  assert (Hd1 : dateTok <> "") by (intros ->; discriminate Hd3).
  assert (Hc1 : timeTok <> "") by (intros ->; discriminate Hc3).
  apply String.eqb_neq in Ho1, Hs1, Hd1, Hc1, Ht1, Hp.
  unfold parseIbmListLine, newScanner, Remaining. cbn [append].
  rewrite Next_word, Ho1 by (try apply String.eqb_neq; assumption).
  rewrite Next_blanks, Next_word, Hs1 by (try apply String.eqb_neq; assumption).
  rewrite Next_blanks, Next_word, Hd1, Hd3 by (try apply String.eqb_neq; assumption).
  rewrite Next_blanks, Next_word, Hc1, Hc3 by (try apply String.eqb_neq; assumption).
  rewrite Next_blanks, Next_word, Ht1 by (try apply String.eqb_neq; assumption).
  cbn [orb negb Z.eqb Pos.eqb]. rewrite Hp, Hsize. reflexivity.
Qed.

(** A line whose first word starts with no decimal digit, holds no semicolon
    and has neither 10 nor 11 bytes is declined by the four recognizers in
    front of the vendor recognizer, whose result, when it is not the
    sentinel, is that of the chain. *)
Lemma chain_ibm (owner tail : string) (c : ascii) now loc e err :
  byteAt owner 0 = Val c -> Strconv.isDec c = false ->
  Contains owner " " = false -> Contains owner ";" = false ->
  len owner <> 10 -> len owner <> 11 ->
  17 < len (owner ++ String " " tail) ->
  parseIbmListLine (owner ++ String " " tail) now loc = Val (e, err) ->
  err <> Some errUnsupportedListLine ->
  parseListLine (owner ++ String " " tail) now loc = Val (e, err).
Proof.
  intros Hc Hdec Ho2 Hsemi H10 H11 Hlen Hibm Herr.
  set (line := owner ++ String " " tail) in *.
  assert (Hidx : Index line " " = len owner) by (apply Index_blank_app; exact Ho2).
  destruct owner as [|c0 r0]; [discriminate Hc|].
  assert (c0 = c) by (cbn in Hc; congruence). subst c0.
  change (parseListLine line now loc)
    with (parseListLine (String c (r0 ++ String " " tail)) now loc).
  rewrite (chain_unix c (r0 ++ String " " tail) now loc Hdec).
  - change (String c (r0 ++ String " " tail)) with line. cbn [tryParsers].
    assert (HLs : parseLsListLine line now loc = fail errUnsupportedListLine).
    { unfold parseLsListLine, lsShape, IndexByte. rewrite Hidx.
      destruct (Z.eqb_spec (len (String c r0)) 10); [contradiction|].
      destruct (Z.eqb_spec (len (String c r0)) 11); [contradiction|]. reflexivity. }
    assert (HH : parseHostedFTPLine line now loc = fail errUnsupportedListLine).
    { unfold parseHostedFTPLine, IndexByte. rewrite Hidx.
      destruct (Z.eqb_spec (len (String c r0)) 10); [contradiction|]. reflexivity. }
    rewrite HLs. unfold fail at 1. cbn [bind isUnsupported negb].
    rewrite HH. unfold fail at 1. cbn [bind isUnsupported negb].
    rewrite Hibm. cbn [bind]. rewrite (isUnsupported_false _ Herr). reflexivity.
  - exact Hlen.
  - apply (rfc_declines_perms (String c r0) tail Ho2 Hsemi).
Qed.

(** The hostedftp recognizer on a line of eight tokens and a name whose link
    count is 0, when the first field starts with ['-']: the size is the fifth
    token, read as the Unix-ls recognizer reads it, and its error is
    returned. *)
Lemma parseHosted_size_error (f0 f2 f3 f4 f5 f6 f7 name : string)
    (k1 k2 k3 k4 k5 k6 k7 : nat) (n : Z) (err : error) now loc :
  len f0 = 10 -> byteAt f0 0 = Val "-"%char ->
  Forall (fun f => f <> "" /\ Contains f " " = false) [f0; f2; f3; f4; f5; f6; f7] ->
  Strconv.ParseUint f4 0 = (n, Some err) ->
  parseHostedFTPLine
    (joinFields [(O, f0); (k1, "0"); (k2, f2); (k3, f3); (k4, f4); (k5, f5); (k6, f6); (k7, f7)]
                name) now loc
  = fail err.
Proof.
  intros Hlen Hc Hw Hsize.
  set (ws := [(O, f0); (k1, "0"); (k2, f2); (k3, f3); (k4, f4); (k5, f5); (k6, f6); (k7, f7)]).
  assert (Hws : Forall (fun p : nat * string => snd p <> "" /\ Contains (snd p) " " = false) ws).
  { unfold ws. inversion Hw as [|? ? H0 Hw1]; subst. repeat constructor; cbn [snd];
      try discriminate; try (apply H0);
      repeat match goal with
             | H : Forall _ (_ :: _) |- _ => inversion H; subst; clear H
             end;
      match goal with
      | H : ?f <> "" /\ _ |- ?f <> "" => apply H
      | H : _ /\ Contains ?f " " = false |- Contains ?f " " = false => apply H
      end. }
  pose proof (NextFields_join ws name Hws) as H8.
  change (List.length ws) with 8%nat in H8. cbn [map snd ws] in H8.
  assert (Hnb : Contains f0 " " = false) by (inversion Hw as [|? ? [_ H0] _]; exact H0).
  assert (Hidx : IndexByte (joinFields ws name) " " = 10).
  { unfold ws, IndexByte. cbn [joinFields blanks append].
    change (" " ++ ?x) with (String " " x). rewrite (Index_blank_app f0 _ Hnb). exact Hlen. }
  destruct (hosted_fields _ _ _ _ _ _ _ _ _ Hidx H8) as (s2 & s1 & H2 & Hshape & H6 & Htwo).
  unfold parseHostedFTPLine. rewrite Hidx, H2.
  cbn [Z.eqb Pos.eqb negb List.length Nat.ltb Nat.leb elem nth_error bind String.eqb
       Ascii.eqb Bool.eqb].
  rewrite (parseLs_generic _ now loc f0 "1" f2 f3 f4 f5 s1 Hshape H6 f6 f7 name "-"%char);
    [|discriminate|intros [E _]; discriminate E|exact Htwo|exact Hc].
  cbn [Ascii.eqb Bool.eqb]. rewrite setSize_eq, Hsize. reflexivity.
Qed.

(** On such a line the fact-list recognizer declines when the first field
    holds no semicolon, the Unix-ls recognizer declines in its zero-link-count
    branch when the third token is no size, and the DOS-DIR recognizer
    declines: the chain returns the error of the hostedftp recognizer. *)
Lemma chain_hosted_size_error (f0 f2 f3 f4 f5 f6 f7 name : string)
    (k1 k2 k3 k4 k5 k6 k7 : nat) (n m : Z) (err err2 : error) now loc :
  len f0 = 10 -> byteAt f0 0 = Val "-"%char -> Contains f0 ";" = false ->
  Forall (fun f => f <> "" /\ Contains f " " = false) [f0; f2; f3; f4; f5; f6; f7] ->
  Strconv.ParseUint f2 0 = (m, Some err2) ->
  Strconv.ParseUint f4 0 = (n, Some err) ->
  parseListLine
    (joinFields [(O, f0); (k1, "0"); (k2, f2); (k3, f3); (k4, f4); (k5, f5); (k6, f6); (k7, f7)]
                name) now loc
  = fail err.
Proof.
  intros Hlen Hc Hsemi Hw Howner Hsize.
  pose proof (parseHosted_size_error f0 f2 f3 f4 f5 f6 f7 name k1 k2 k3 k4 k5 k6 k7 n err
                now loc Hlen Hc Hw Hsize) as Hhosted.
  set (ws := [(O, f0); (k1, "0"); (k2, f2); (k3, f3); (k4, f4); (k5, f5); (k6, f6); (k7, f7)])
    in *.
  assert (Hws : Forall (fun p : nat * string => snd p <> "" /\ Contains (snd p) " " = false) ws).
  { unfold ws. inversion Hw as [|? ? H0 Hw1]; subst. repeat constructor; cbn [snd];
      try discriminate; try (apply H0);
      repeat match goal with
             | H : Forall _ (_ :: _) |- _ => inversion H; subst; clear H
             end;
      match goal with
      | H : ?f <> "" /\ _ |- ?f <> "" => apply H
      | H : _ /\ Contains ?f " " = false |- Contains ?f " " = false => apply H
      end. }
  pose proof (NextFields_join ws name Hws) as H8.
  change (List.length ws) with 8%nat in H8. cbn [map snd ws] in H8.
  destruct (NextFields_6_2 _ _ _ _ _ _ _ _ _ _ H8) as [s1 [Hsix _]].
  assert (Hnb : Contains f0 " " = false) by (inversion Hw as [|? ? [_ H0] _]; exact H0).
  set (tail := joinFields [(k1, "0"); (k2, f2); (k3, f3); (k4, f4); (k5, f5); (k6, f6); (k7, f7)]
                          name).
  assert (El : joinFields ws name = f0 ++ String " " tail) by reflexivity.
  assert (Hshape : lsShape (joinFields ws name) = Val true).
  { rewrite El. apply lsShape_perms. split; [exact Hnb|left; exact Hlen]. }
  pose proof (lsZeroLink_size_error _ now loc f0 "0" f2 f3 f4 f5 s1 Hshape Hsix m err2
                eq_refl Howner) as HLs.
  pose proof (ParseUint_error _ _ _ _ Hsize) as Herr.
  assert (Hlong : 17 < len (joinFields ws name)).
  { rewrite El. unfold len in *. rewrite string_app_length. unfold tail.
    cbn [joinFields String.length].
    repeat (progress (rewrite ?string_app_length; cbn [String.length])). lia. }
  revert HLs Hhosted Hlong. rewrite El.
  destruct f0 as [|c0 r0]; [discriminate Hc|].
  assert (c0 = "-"%char) by (cbn in Hc; congruence). subst c0.
  intros HLs Hhosted Hlong.
  change (String "-" r0 ++ String " " tail) with (String "-" (r0 ++ String " " tail)) in *.
  rewrite (chain_unix "-"%char (r0 ++ String " " tail) now loc eq_refl Hlong).
  - cbn [tryParsers]. rewrite HLs. unfold fail at 1. cbn [bind isUnsupported negb].
    rewrite Hhosted. unfold fail at 1. cbn [bind].
    destruct Herr as [-> | ->]; reflexivity.
  - apply (rfc_declines_perms (String "-" r0) tail Hnb Hsemi).
Qed.

(** C3, amended.  A size token that does not parse as an unsigned integer
    yields the error of [strconv], a hard error: not the sentinel, and no
    record.  This holds for the size fact of the fact-list recognizer (a fact
    whose key is [size] in lower case, once the facts before it are passed
    over), for the generic file branch of the Unix-ls recognizer (first byte
    of the mode field ['-']), for the hostedftp recognizer, which hands the
    line to that branch, and for the vendor recognizer; and the chain returns
    that error as the final result once the recognizers in front have
    declined the line.  In the zero-link-count branch of the Unix-ls
    recognizer (second field ["0"]) and in the DOS-DIR recognizer such a size
    token yields the sentinel instead. *)
Theorem size_failure :
  (forall line now loc facts pre post field n err,
      0 <= Index line ";" <= Index line " " ->
      sliceTo line (Index line " " - 1) = Val facts ->
      Split facts ";" = (pre ++ field :: post)%list ->
      forallb (factOK loc) pre = true ->
      1 <= Index field "=" ->
      keyIs (ToLower (take (Z.to_nat (Index field "=")) field)) "size" = true ->
      Strconv.ParseUint (drop (Z.to_nat (Index field "=" + 1)) field) 0 = (n, Some err) ->
      parseRFC3659ListLine line now loc = fail err
      /\ (err = NumErrSyntax \/ err = NumErrRange)
      /\ parseListLine line now loc = fail err)
  /\ (forall line now loc f0 f1 f2 f3 f4 f5 f6 f7 rest n err,
      lsShape line = Val true ->
      NextFields 8 (newScanner line) = ([f0; f1; f2; f3; f4; f5; f6; f7], rest) ->
      f1 <> "0" ->
      ~ (f1 = "folder" /\ f2 = "0") ->
      byteAt f0 0 = Val "-"%char ->
      Strconv.ParseUint f4 0 = (n, Some err) ->
      parseLsListLine line now loc = fail err
      /\ (err = NumErrSyntax \/ err = NumErrRange)
      /\ (Index line ";" < 0 \/ Index line " " < Index line ";" ->
          parseListLine line now loc = fail err))
  /\ (forall f0 f2 f3 f4 f5 f6 f7 name k1 k2 k3 k4 k5 k6 k7 n err now loc,
      len f0 = 10 -> byteAt f0 0 = Val "-"%char ->
      Forall (fun f => f <> "" /\ Contains f " " = false) [f0; f2; f3; f4; f5; f6; f7] ->
      Strconv.ParseUint f4 0 = (n, Some err) ->
      let line := joinFields [(O, f0); (k1, "0"); (k2, f2); (k3, f3); (k4, f4);
                              (k5, f5); (k6, f6); (k7, f7)] name in
      parseHostedFTPLine line now loc = fail err
      /\ (err = NumErrSyntax \/ err = NumErrRange)
      /\ (Contains f0 ";" = false -> snd (Strconv.ParseUint f2 0) <> None ->
          parseListLine line now loc = fail err))
  /\ (forall owner sizeTok dateTok timeTok typeTok path k1 k2 k3 k4 n err now loc,
      owner <> "" -> Contains owner " " = false ->
      sizeTok <> "" -> Contains sizeTok " " = false ->
      len dateTok = 8 -> Contains dateTok " " = false ->
      len timeTok = 8 -> Contains timeTok " " = false ->
      typeTok <> "" -> Contains typeTok " " = false ->
      TrimLeft path " " <> "" ->
      Strconv.ParseUint sizeTok 10 = (n, Some err) ->
      let line := owner ++ " " ++ blanks k1 ++ sizeTok ++ " " ++ blanks k2
                        ++ dateTok ++ " " ++ blanks k3 ++ timeTok ++ " " ++ blanks k4
                        ++ typeTok ++ " " ++ path in
      parseIbmListLine line now loc = fail err
      /\ (err = NumErrSyntax \/ err = NumErrRange)
      /\ (forall c, byteAt owner 0 = Val c -> Strconv.isDec c = false ->
          Contains owner ";" = false -> len owner <> 10 -> len owner <> 11 ->
          parseListLine line now loc = fail err))
  /\ (forall line now loc f0 f2 f3 f4 f5 s1 n err,
      lsShape line = Val true ->
      NextFields 6 (newScanner line) = ([f0; "0"; f2; f3; f4; f5], s1) ->
      Strconv.ParseUint f2 0 = (n, Some err) ->
      parseLsListLine line now loc = fail errUnsupportedListLine)
  /\ (forall line now loc e rest tok n err,
      dirTimeLoop dirTimeFormats line loc Entry0 None = Val (e, None, rest) ->
      HasPrefix (TrimLeft rest " ") "<DIR>" = false ->
      Index (TrimLeft rest " ") " " <> -1 ->
      sliceTo (TrimLeft rest " ") (Index (TrimLeft rest " ") " ") = Val tok ->
      Strconv.ParseUint tok 10 = (n, Some err) ->
      parseDirListLine line now loc = fail errUnsupportedListLine).
Proof.
  split; [|split; [|split; [|split; [|split]]]].
  - intros line now loc facts pre post field n err Hpre Hfacts Hsplit Hok Hi Hkey Hsize.
    pose proof (rfc_size_error line now loc facts pre post field n err
                  Hpre Hfacts Hsplit Hok Hi Hkey Hsize) as Hrfc.
    pose proof (ParseUint_error _ _ _ _ Hsize) as Herr.
    split; [exact Hrfc|]. split; [exact Herr|].
    apply (tryParsers_first _ _ _ _ _ _ _ Hrfc).
    destruct Herr as [-> | ->]; discriminate.
  - intros line now loc f0 f1 f2 f3 f4 f5 f6 f7 rest n err
           Hshape Height Hlinks Hfolder Hc Hsize.
    destruct (NextFields_6_2 _ _ _ _ _ _ _ _ _ _ Height) as [s1 [Hsix Htwo]].
    pose proof (ParseUint_error _ _ _ _ Hsize) as Herr.
    assert (Hls : parseLsListLine line now loc = fail err).
    { rewrite (parseLs_generic line now loc f0 f1 f2 f3 f4 f5 s1 Hshape Hsix
                 f6 f7 rest "-"%char Hlinks Hfolder Htwo Hc).
      cbn [Ascii.eqb Bool.eqb]. rewrite setSize_eq, Hsize. reflexivity. }
    split; [exact Hls|]. split; [exact Herr|].
    intros Hrfc. apply (chain_after_rfc _ _ _ _ _ Hrfc Hls).
    destruct Herr as [-> | ->]; discriminate.
  - intros f0 f2 f3 f4 f5 f6 f7 name k1 k2 k3 k4 k5 k6 k7 n err now loc
           Hlen Hc Hw Hsize line.
    split; [exact (parseHosted_size_error f0 f2 f3 f4 f5 f6 f7 name k1 k2 k3 k4 k5 k6 k7
                     n err now loc Hlen Hc Hw Hsize)|].
    split; [exact (ParseUint_error _ _ _ _ Hsize)|].
    intros Hsemi Howner.
    destruct (Strconv.ParseUint f2 0) as [m [err2|]] eqn:E2; [|cbn in Howner; congruence].
    exact (chain_hosted_size_error f0 f2 f3 f4 f5 f6 f7 name k1 k2 k3 k4 k5 k6 k7
             n m err err2 now loc Hlen Hc Hsemi Hw E2 Hsize).
  - intros owner sizeTok dateTok timeTok typeTok path k1 k2 k3 k4 n err now loc
           Ho1 Ho2 Hs1 Hs2 Hd3 Hd2 Hc3 Hc2 Ht1 Ht2 Hp Hsize line.
    pose proof (parseIbm_size_error owner sizeTok dateTok timeTok typeTok path k1 k2 k3 k4
                  n err now loc Ho1 Ho2 Hs1 Hs2 Hd3 Hd2 Hc3 Hc2 Ht1 Ht2 Hp Hsize) as Hibm.
    pose proof (ParseUint_error _ _ _ _ Hsize) as Herr.
    split; [exact Hibm|]. split; [exact Herr|].
    intros c Hc Hdec Hsemi H10 H11.
    refine (chain_ibm owner _ c now loc None (Some err) Hc Hdec Ho2 Hsemi H10 H11 _ Hibm _).
    + unfold len in *. repeat (progress (rewrite ?string_app_length; cbn [String.length])).
      lia.
    + destruct Herr as [-> | ->]; discriminate.
  - intros line now loc f0 f2 f3 f4 f5 s1 n err Hshape Hsix Hsize.
    exact (lsZeroLink_size_error line now loc f0 "0" f2 f3 f4 f5 s1 Hshape Hsix
             n err eq_refl Hsize).
  - intros line now loc e rest tok n err. apply parseDir_size_error.
Qed.

(** Witness of [size_failure]: a line of facts with the size ["12x"], the
    generic file line with that size, a hostedftp line and a vendor line with
    sizes that do not parse, the zero-link line of the counterexample, and a
    DIR line with the size ["7x"]. *)
Lemma size_failure_witness :
  (parseRFC3659ListLine "type=file;size=12x;perm=r; name" testNow Time.UTC = fail NumErrSyntax
   /\ parseListLine "type=file;size=12x;perm=r; name" testNow Time.UTC = fail NumErrSyntax)
  /\ (parseLsListLine lineBadSize testNow Time.UTC = fail NumErrSyntax
      /\ parseListLine lineBadSize testNow Time.UTC = fail NumErrSyntax)
  /\ (parseHostedFTPLine "-r--------   0 user group     6522x Feb 24 00:39 RegularFile"
                         testNow Time.UTC = fail NumErrSyntax
      /\ parseListLine "-r--------   0 user group     6522x Feb 24 00:39 RegularFile"
                       testNow Time.UTC = fail NumErrSyntax)
  /\ (parseIbmListLine "QSYS        8x0 13/05/25 13:26:11 *STMF      A.CSV" testNow Time.UTC
      = fail NumErrSyntax
      /\ parseListLine "QSYS        8x0 13/05/25 13:26:11 *STMF      A.CSV" testNow Time.UTC
         = fail NumErrSyntax)
  /\ parseLsListLine "-rw-r--r-- 0 abc 5 Nov 16 2006" testNow Time.UTC
     = fail errUnsupportedListLine
  /\ parseDirListLine "08-07-15  07:50PM   7x name" testNow Time.UTC
     = fail errUnsupportedListLine.
Proof.
  destruct size_failure as [Hrfc [Hgen [Hhosted [Hibm [Hzero Hdir]]]]].
  split; [|split; [|split; [|split; [|split]]]].
  - destruct (Hrfc "type=file;size=12x;perm=r; name" testNow Time.UTC
                "type=file;size=12x;perm=r" ["type=file"] ["perm=r"] "size=12x"
                0 NumErrSyntax) as [H1 [_ H2]];
      try (vm_compute; reflexivity).
    + vm_compute. split; discriminate.
    + vm_compute. discriminate.
    + split; assumption.
  - destruct (Hgen lineBadSize testNow Time.UTC
                "-rw-r--r--" "1" "owner" "group" "12x" "Dec" "02" "2009" "name"
                0 NumErrSyntax) as [Hls [_ Hchain]];
      try (vm_compute; reflexivity); try discriminate.
    + intros [H _]. discriminate H.
    + split; [exact Hls|]. apply Hchain. left. vm_compute. reflexivity.
  - destruct (Hhosted "-r--------" "user" "group" "6522x" "Feb" "24" "00:39" "RegularFile"
                2%nat 0%nat 0%nat 4%nat 0%nat 0%nat 0%nat 0 NumErrSyntax testNow Time.UTC)
      as [H1 [_ H2]]; try reflexivity.
    + repeat constructor; discriminate.
    + split; [exact H1|]. apply H2; [reflexivity|discriminate].
  - destruct (Hibm "QSYS" "8x0" "13/05/25" "13:26:11" "*STMF" "     A.CSV"
                7%nat 0%nat 0%nat 0%nat 0 NumErrSyntax testNow Time.UTC)
      as [H1 [_ H2]]; try reflexivity; try discriminate.
    split; [exact H1|].
    apply (H2 "Q"%char); try reflexivity; discriminate.
  - apply (Hzero _ testNow Time.UTC "-rw-r--r--" "abc" "5" "Nov" "16" "2006" 0 NumErrSyntax);
      vm_compute; reflexivity.
  - apply (Hdir _ testNow Time.UTC
             (withTime Entry0 (Time.Date 2015 8 7 19 50 0 0 Time.UTC))
             "   7x name" "7x" 0 NumErrSyntax);
      try (vm_compute; reflexivity).
    vm_compute. discriminate.
Defined.




